(** * Appointment scheduler: the request-to-event pipeline

    A shallow embedding of the two scripts of the repository,
    [using_langgraph/project.py] (the LangGraph workflow) and
    [Using_lang_chain/project.py] (the single-pass script), together with
    the parts of the Python runtime they rely on: [str] methods, the
    backtracking regular expressions of [re], [datetime] with its
    proleptic Gregorian calendar, and [datetime.strptime].

    Conventions.
    - Text is [string], a sequence of 8-bit characters; the model covers
      ASCII text (no character above 127 is a digit, a letter or a space).
    - Integers are [Z]; [int(...)] refuses more than 4300 digits, as the
      interpreter does by default.
    - The interpreter is CPython 3.11 with its C implementation of
      [datetime]; the texts of the exceptions are those it raises.
    - The locale is the C/English one ([calendar.day_name],
      [calendar.month_name], "am"/"pm").
    - A raised Python exception is a value [Raise e] of type [result]. *)

From Stdlib Require Import ZArith List String Ascii Bool Lia DecimalString.
Import ListNotations.

Set Warnings "-register-all".

Local Open Scope string_scope.
Local Open Scope Z_scope.

(** ** Exceptions and results *)

(** An exception carries the text [str(e)]. The [HttpError] of the Google
    client carries its status code and the decoded body of the response as
    well; its text is the one the client library renders from the response
    and the request ("<HttpError 403 when requesting ... returned ...>").
    [RuntimeError] stands for any class the program does not tell apart. *)
Inductive exn : Type :=
| ValueError (msg : string)
| TypeError (msg : string)
| OverflowError (msg : string)
| AttributeError (msg : string)
| HttpError (status_code : Z) (content : string) (text : string)
| RuntimeError (msg : string).

(** [str(e)], as interpolated by the f-strings of the handlers. *)
Definition exn_str (e : exn) : string :=
  match e with
  | ValueError m | TypeError m | OverflowError m | AttributeError m
  | RuntimeError m => m
  | HttpError _ _ t => t
  end.

Definition is_ValueError (e : exn) : bool :=
  match e with ValueError _ => true | _ => false end.

Inductive result (A : Type) : Type :=
| Ok (a : A)
| Raise (e : exn).

Arguments Ok {A} a.
Arguments Raise {A} e.

Definition bind {A B : Type} (r : result A) (k : A -> result B) : result B :=
  match r with
  | Ok a => k a
  | Raise e => Raise e
  end.

Notation "'let*' x ':=' r 'in' k" := (bind r (fun x => k))
  (at level 10, x pattern, r at level 100, k at level 200).

(** ** Python [str] *)

Module PyStr.

Definition ord (c : ascii) : Z := Z.of_N (N_of_ascii c).

Definition in_range (lo hi c : ascii) : bool :=
  (ord lo <=? ord c) && (ord c <=? ord hi).

(** [str.isspace] on one ASCII character: TAB, LF, VT, FF, CR, the four
    separators FS, GS, RS, US, and the space. *)
Definition isspace (c : ascii) : bool :=
  ((9 <=? ord c) && (ord c <=? 13)) || ((28 <=? ord c) && (ord c <=? 32)).

Definition isdigit (c : ascii) : bool := in_range "0" "9" c.

Definition to_lower (c : ascii) : ascii :=
  if in_range "A" "Z" c then ascii_of_N (N_of_ascii c + 32) else c.

Fixpoint lower (s : string) : string :=
  match s with
  | EmptyString => EmptyString
  | String c s' => String (to_lower c) (lower s')
  end.

Fixpoint lstrip (s : string) : string :=
  match s with
  | EmptyString => EmptyString
  | String c s' => if isspace c then lstrip s' else s
  end.

Fixpoint rstrip (s : string) : string :=
  match s with
  | EmptyString => EmptyString
  | String c s' =>
      match rstrip s' with
      | EmptyString => if isspace c then EmptyString else String c EmptyString
      | r => String c r
      end
  end.

(** [s.strip()] *)
Definition strip (s : string) : string := rstrip (lstrip s).

(** [s.startswith(p)] *)
Fixpoint startswith (p s : string) : bool :=
  match p with
  | EmptyString => true
  | String a p' =>
      match s with
      | EmptyString => false
      | String c s' => Ascii.eqb a c && startswith p' s'
      end
  end.

(** [needle in hay] *)
Fixpoint contains (needle hay : string) : bool :=
  startswith needle hay ||
  match hay with
  | EmptyString => false
  | String _ hay' => contains needle hay'
  end.

(** [s.split(sep)] for a one-character separator. *)
Fixpoint split (sep : ascii) (s : string) : list string :=
  match s with
  | EmptyString => [EmptyString]
  | String c s' =>
      if Ascii.eqb c sep then EmptyString :: split sep s'
      else match split sep s' with
           | [] => [String c EmptyString]
           | p :: ps => String c p :: ps
           end
  end.

Fixpoint all_chars (p : ascii -> bool) (s : string) : bool :=
  match s with
  | EmptyString => true
  | String c s' => p c && all_chars p s'
  end.

Definition digit_val (c : ascii) : Z := ord c - 48.

Fixpoint int_acc (acc : Z) (s : string) : Z :=
  match s with
  | EmptyString => acc
  | String c s' => int_acc (10 * acc + digit_val c) s'
  end.

(** [str(n)] of an integer. *)
Definition str_int (n : Z) : string := NilZero.string_of_int (Z.to_int n).

Definition hex_digit (n : N) : ascii :=
  if (n <? 10)%N then ascii_of_N (48 + n) else ascii_of_N (87 + n).

(** One character of [repr(s)] between the quotes [q]: the quote and the
    backslash are escaped, TAB, LF and CR have their letter, and a
    character that is not printable is written as [\xNN] (a character
    above 127 is taken as the code point of that number). *)
Definition repr_char (q c : ascii) : string :=
  let n := N_of_ascii c in
  if Ascii.eqb c q || Ascii.eqb c "\" then String "\" (String c EmptyString)
  else if Ascii.eqb c "009" then "\t"
  else if Ascii.eqb c "010" then "\n"
  else if Ascii.eqb c "013" then "\r"
  else if ((n <? 32) || ((127 <=? n) && (n <=? 160)) || (n =? 173))%N then
    String "\" (String "x" (String (hex_digit (n / 16))
                              (String (hex_digit (n mod 16)) EmptyString)))
  else String c EmptyString.

Fixpoint has_char (c : ascii) (s : string) : bool :=
  match s with
  | EmptyString => false
  | String a s' => Ascii.eqb a c || has_char c s'
  end.

Fixpoint repr_body (q : ascii) (s : string) : string :=
  match s with
  | EmptyString => EmptyString
  | String c s' => repr_char q c ++ repr_body q s'
  end.

(** [repr(s)]: between single quotes, or between double quotes when the
    text holds a single quote and no double one. *)
Definition repr (s : string) : string :=
  let q := if has_char "'" s && negb (has_char "034" s) then "034"%char else "'"%char in
  String q (repr_body q s ++ String q EmptyString).

(** [sys.get_int_max_str_digits()] *)
Definition max_str_digits : Z := 4300.

Definition invalid_literal_msg (s : string) : string :=
  "invalid literal for int() with base 10: " ++ repr s.

Definition too_many_digits_msg (digits : Z) : string :=
  "Exceeds the limit (4300 digits) for integer string conversion: value has " ++
  str_int digits ++ " digits; use sys.set_int_max_str_digits() to increase the limit".

(** [int(s)] on the texts that reach it here: decimal digits, possibly
    surrounded by white space. A text of more than [max_str_digits] digits
    is refused. *)
Definition int (s : string) : result Z :=
  match strip s with
  | EmptyString => Raise (ValueError (invalid_literal_msg s))
  | t => if all_chars isdigit t then
           if max_str_digits <? Z.of_nat (String.length t) then
             Raise (ValueError (too_many_digits_msg (Z.of_nat (String.length t))))
           else Ok (int_acc 0 t)
         else Raise (ValueError (invalid_literal_msg s))
  end.

(** Truth value of an [Optional[str]]. *)
Definition truthy (o : option string) : bool :=
  match o with
  | None | Some EmptyString => false
  | Some _ => true
  end.

End PyStr.

(** ** Backtracking regular expressions ([re])

    The fragment of the pattern language the program and [_strptime] use.
    Quantifiers are greedy and apply to one-character classes only.
    [run] lists every way the pattern matches at the start of the text, in
    the order in which the backtracking matcher tries them; the match that
    [re.match] reports is the head of this list. *)

Module Re.

(** Character classes: [[lo-hi]], [\d], [\s], [.] (anything but a line
    feed, as DOTALL is off), and the class nothing belongs to. *)
Inductive cset : Type :=
| CRange (lo hi : ascii)
| CDigit
| CSpace
| CDot
| CNone.

Definition dot (c : ascii) : bool := negb (Ascii.eqb c "010").

Definition mem (cs : cset) (c : ascii) : bool :=
  match cs with
  | CRange lo hi => PyStr.in_range lo hi c
  | CDigit => PyStr.isdigit c
  | CSpace => PyStr.isspace c
  | CDot => dot c
  | CNone => false
  end.

Inductive regex : Type :=
| Lit (s : string)
| Cls (cs : cset)
| Star (cs : cset)
| Plus (cs : cset)
| Seq (r1 r2 : regex)
| Alt (r1 r2 : regex)
| Group (name : string) (r : regex).

Definition groups : Type := list (string * string).

Record hit : Type := Hit { matched : string; caps : groups; rest : string }.

Definition chr_eqb (ignorecase : bool) (a c : ascii) : bool :=
  if ignorecase then Ascii.eqb (PyStr.to_lower a) (PyStr.to_lower c)
  else Ascii.eqb a c.

Fixpoint lit_match (ic : bool) (l s : string) : option (string * string) :=
  match l with
  | EmptyString => Some (EmptyString, s)
  | String a l' =>
      match s with
      | EmptyString => None
      | String c s' =>
          if chr_eqb ic a c then
            match lit_match ic l' s' with
            | Some (m, r) => Some (String c m, r)
            | None => None
            end
          else None
      end
  end.

(** Greedy [p*]: every prefix of the longest run of [p], longest first. *)
Fixpoint star_hits (p : ascii -> bool) (s : string) : list (string * string) :=
  match s with
  | EmptyString => [(EmptyString, EmptyString)]
  | String c s' =>
      if p c then
        (map (fun mr => (String c (fst mr), snd mr)) (star_hits p s') ++ [(EmptyString, s)])%list
      else [(EmptyString, s)]
  end.

Definition plus_hits (p : ascii -> bool) (s : string) : list (string * string) :=
  match s with
  | EmptyString => []
  | String c s' =>
      if p c then map (fun mr => (String c (fst mr), snd mr)) (star_hits p s')
      else []
  end.

Definition plain (mr : string * string) : hit := Hit (fst mr) [] (snd mr).

Fixpoint run (ic : bool) (r : regex) (s : string) : list hit :=
  match r with
  | Lit l =>
      match lit_match ic l s with
      | Some mr => [plain mr]
      | None => []
      end
  | Cls cs =>
      match s with
      | EmptyString => []
      | String c s' => if mem cs c then [Hit (String c EmptyString) [] s'] else []
      end
  | Star cs => map plain (star_hits (mem cs) s)
  | Plus cs => map plain (plus_hits (mem cs) s)
  | Seq r1 r2 =>
      flat_map
        (fun h1 =>
           map (fun h2 => Hit (matched h1 ++ matched h2) (caps h1 ++ caps h2)%list (rest h2))
               (run ic r2 (rest h1)))
        (run ic r1 s)
  | Alt r1 r2 => (run ic r1 s ++ run ic r2 s)%list
  | Group name r' =>
      map (fun h => Hit (matched h) ((name, matched h) :: caps h) (rest h)) (run ic r' s)
  end.

(** The hits of [r1 r2] that continue the hit [h1] of [r1]. *)
Definition seq_hits (ic : bool) (r2 : regex) (h1 : hit) : list hit :=
  map (fun h2 => Hit (matched h1 ++ matched h2) (caps h1 ++ caps h2)%list (rest h2))
      (run ic r2 (rest h1)).

(** A hit, one character further to the left. *)
Definition hit_cons (c : ascii) (h : hit) : hit :=
  Hit (String c (matched h)) (caps h) (rest h).

(** [re.match]: the first way to match at the start. *)
Definition match_ (ic : bool) (r : regex) (s : string) : option hit :=
  hd_error (run ic r s).

(** [re.search]: the first way to match at the leftmost position that has
    one. *)
Fixpoint search (ic : bool) (r : regex) (s : string) : option hit :=
  match match_ ic r s with
  | Some h => Some h
  | None =>
      match s with
      | EmptyString => None
      | String _ s' => search ic r s'
      end
  end.

(** [m.group(name)] *)
Fixpoint group (name : string) (g : groups) : option string :=
  match g with
  | [] => None
  | (n, v) :: g' => if String.eqb n name then Some v else group name g'
  end.

(** The names of the groups of a pattern, in order ([groupindex]). *)
Fixpoint keys (r : regex) : list string :=
  match r with
  | Group name r' => name :: keys r'
  | Seq r1 r2 => keys r1 ++ keys r2
  | Alt r1 _ => keys r1
  | _ => []
  end.

Fixpoint names_eqb (a b : list string) : bool :=
  match a, b with
  | [], [] => true
  | x :: a', y :: b' => String.eqb x y && names_eqb a' b'
  | _, _ => false
  end.

(** Both sides of every alternation hold the same groups. *)
Fixpoint uniform (r : regex) : bool :=
  match r with
  | Group _ r' => uniform r'
  | Seq r1 r2 => uniform r1 && uniform r2
  | Alt r1 r2 => uniform r1 && uniform r2 && names_eqb (keys r1) (keys r2)
  | _ => true
  end.

(** [r1 r2 ... rn] *)
Fixpoint seqs (rs : list regex) : regex :=
  match rs with
  | [] => Lit EmptyString
  | [r] => r
  | r :: rs' => Seq r (seqs rs')
  end.

(** [r1|r2|...|rn]; the empty alternation matches nothing. *)
Fixpoint alts (rs : list regex) : regex :=
  match rs with
  | [] => Cls CNone
  | [r] => r
  | r :: rs' => Alt r (alts rs')
  end.

Definition chr (c : ascii) : regex := Lit (String c EmptyString).
Definition range (lo hi : ascii) : regex := Cls (CRange lo hi).
Definition digit : regex := Cls CDigit.

End Re.

(** ** [datetime]: the proleptic Gregorian calendar

    A [datetime] carries the seven fields of the Python object; ordering is
    the field-wise (lexicographic) one the interpreter uses for two values
    that share their [tzinfo]; arithmetic goes through the day ordinal
    ([toordinal] / [fromordinal]) as in the standard library. A [timedelta]
    is its total number of microseconds. *)

Module Datetime.

Definition MINYEAR : Z := 1.
Definition MAXYEAR : Z := 9999.
Definition MAXORDINAL : Z := 3652059.

Definition is_leap (year : Z) : bool :=
  (year mod 4 =? 0) && (negb (year mod 100 =? 0) || (year mod 400 =? 0)).

Definition DAYS_IN_MONTH (month : Z) : Z :=
  match month with
  | 1 => 31 | 2 => 28 | 3 => 31 | 4 => 30 | 5 => 31 | 6 => 30
  | 7 => 31 | 8 => 31 | 9 => 30 | 10 => 31 | 11 => 30 | 12 => 31
  | _ => -1
  end.

Definition DAYS_BEFORE_MONTH (month : Z) : Z :=
  match month with
  | 1 => 0 | 2 => 31 | 3 => 59 | 4 => 90 | 5 => 120 | 6 => 151
  | 7 => 181 | 8 => 212 | 9 => 243 | 10 => 273 | 11 => 304 | 12 => 334
  | _ => -1
  end.

Definition days_before_year (year : Z) : Z :=
  let y := year - 1 in
  y * 365 + y / 4 - y / 100 + y / 400.

Definition days_in_month (year month : Z) : Z :=
  if (month =? 2) && is_leap year then 29 else DAYS_IN_MONTH month.

Definition days_before_month (year month : Z) : Z :=
  DAYS_BEFORE_MONTH month + (if (2 <? month) && is_leap year then 1 else 0).

Definition ymd2ord (year month day : Z) : Z :=
  days_before_year year + days_before_month year month + day.

Definition DI400Y : Z := 146097.
Definition DI100Y : Z := 36524.
Definition DI4Y : Z := 1461.

(** [_ord2ymd]: year, month and day of a day ordinal. *)
Definition ord2ymd (ordinal : Z) : Z * Z * Z :=
  let n := ordinal - 1 in
  let n400 := n / DI400Y in
  let n := n mod DI400Y in
  let year := n400 * 400 + 1 in
  let n100 := n / DI100Y in
  let n := n mod DI100Y in
  let n4 := n / DI4Y in
  let n := n mod DI4Y in
  let n1 := n / 365 in
  let n := n mod 365 in
  let year := year + n100 * 100 + n4 * 4 + n1 in
  if (n1 =? 4) || (n100 =? 4) then (year - 1, 12, 31)
  else
    let leapyear := (n1 =? 3) && (negb (n4 =? 24) || (n100 =? 3)) in
    let month := Z.shiftr (n + 50) 5 in
    let preceding := DAYS_BEFORE_MONTH month + (if (2 <? month) && leapyear then 1 else 0) in
    let '(month, preceding) :=
      if n <? preceding then
        (month - 1,
         preceding - (DAYS_IN_MONTH (month - 1) + (if (month - 1 =? 2) && leapyear then 1 else 0)))
      else (month, preceding) in
    (year, month, n - preceding + 1).

(** The tail of [_ord2ymd]: month and day of the [n]-th day (from 0) of a
    year, leap or not. *)
Definition month_day (leapyear : bool) (n : Z) : Z * Z :=
  let month := Z.shiftr (n + 50) 5 in
  let preceding := DAYS_BEFORE_MONTH month + (if (2 <? month) && leapyear then 1 else 0) in
  let '(month, preceding) :=
    if n <? preceding then
      (month - 1,
       preceding - (DAYS_IN_MONTH (month - 1) + (if (month - 1 =? 2) && leapyear then 1 else 0)))
    else (month, preceding) in
  (month, n - preceding + 1).

Record datetime : Type := mkdt {
  year : Z; month : Z; day : Z;
  hour : Z; minute : Z; second : Z; microsecond : Z
}.

(** A [date], as returned by [datetime.date()]. *)
Definition date : Type := (Z * Z * Z)%type.

Definition date_of (d : datetime) : date := (year d, month d, day d).

Definition check_date_fields (y m d : Z) : result unit :=
  if negb ((MINYEAR <=? y) && (y <=? MAXYEAR)) then
    Raise (ValueError ("year " ++ PyStr.str_int y ++ " is out of range"))
  else if negb ((1 <=? m) && (m <=? 12)) then
    Raise (ValueError "month must be in 1..12")
  else if negb ((1 <=? d) && (d <=? days_in_month y m)) then
    Raise (ValueError "day is out of range for month")
  else Ok tt.

Definition check_time_fields (hh mm ss us : Z) : result unit :=
  if negb ((0 <=? hh) && (hh <=? 23)) then
    Raise (ValueError "hour must be in 0..23")
  else if negb ((0 <=? mm) && (mm <=? 59)) then
    Raise (ValueError "minute must be in 0..59")
  else if negb ((0 <=? ss) && (ss <=? 59)) then
    Raise (ValueError "second must be in 0..59")
  else if negb ((0 <=? us) && (us <=? 999999)) then
    Raise (ValueError "microsecond must be in 0..999999")
  else Ok tt.

(** [datetime(y, m, d, hh, mm, ss, us)] *)
Definition new (y m d hh mm ss us : Z) : result datetime :=
  let* _ := check_date_fields y m d in
  let* _ := check_time_fields hh mm ss us in
  Ok (mkdt y m d hh mm ss us).

(** [date(y, m, d)] *)
Definition new_date (y m d : Z) : result date :=
  let* _ := check_date_fields y m d in
  Ok (y, m, d).

(** [dt.replace(year=y, month=m, day=d)] *)
Definition replace_ymd (dt : datetime) (y m d : Z) : result datetime :=
  new y m d (hour dt) (minute dt) (second dt) (microsecond dt).

(** [dt.replace(year=y)] *)
Definition replace_year (dt : datetime) (y : Z) : result datetime :=
  replace_ymd dt y (month dt) (day dt).

(** The datetimes the constructor accepts. *)
Definition wf (dt : datetime) : Prop :=
  new (year dt) (month dt) (day dt) (hour dt) (minute dt) (second dt)
      (microsecond dt) = Ok dt.

(** Tuple comparison [a < b]. *)
Definition date_ltb (a b : date) : bool :=
  let '(ya, ma, da) := a in
  let '(yb, mb, db) := b in
  (ya <? yb) || ((ya =? yb) && ((ma <? mb) || ((ma =? mb) && (da <? db)))).

Definition date_eqb (a b : date) : bool :=
  let '(ya, ma, da) := a in
  let '(yb, mb, db) := b in
  (ya =? yb) && (ma =? mb) && (da =? db).

Definition time_us (dt : datetime) : Z :=
  ((hour dt * 60 + minute dt) * 60 + second dt) * 1000000 + microsecond dt.

(** [a < b] on two datetimes with the same [tzinfo]. *)
Definition ltb (a b : datetime) : bool :=
  date_ltb (date_of a) (date_of b) ||
  (date_eqb (date_of a) (date_of b) && (time_us a <? time_us b)).

Definition toordinal (dt : datetime) : Z := ymd2ord (year dt) (month dt) (day dt).

(** [date.weekday()], Monday is 0. *)
Definition weekday (y m d : Z) : Z := (ymd2ord y m d + 6) mod 7.

(** *** [timedelta] *)

Definition timedelta : Type := Z.

Definition US_PER_DAY : Z := 86400000000.
Definition MAX_DELTA_DAYS : Z := 999999999.
Definition INT_MAX : Z := 2147483647.

(** The constructor, once the arguments are summed up in microseconds: the
    number of days has to fit a C [int], and then the range of a
    [timedelta]. *)
Definition check_delta (us : Z) : result timedelta :=
  let days := us / US_PER_DAY in
  if (- MAX_DELTA_DAYS <=? days) && (days <=? MAX_DELTA_DAYS)
  then Ok us
  else if (- INT_MAX - 1 <=? days) && (days <=? INT_MAX) then
    Raise (OverflowError ("days=" ++ PyStr.str_int days ++
                          "; must have magnitude <= 999999999"))
  else Raise (OverflowError "Python int too large to convert to C int").

(** [timedelta(minutes=n)] *)
Definition minutes (n : Z) : result timedelta := check_delta (n * 60000000).

(** [timedelta(seconds=n)] *)
Definition seconds (n : Z) : result timedelta := check_delta (n * 1000000).

(** Microseconds since the start of day 0 of the ordinal count. *)
Definition to_us (dt : datetime) : Z := toordinal dt * US_PER_DAY + time_us dt.

(** [dt + delta] *)
Definition add (dt : datetime) (delta : timedelta) : result datetime :=
  let total := to_us dt + delta in
  let days := total / US_PER_DAY in
  let r := total mod US_PER_DAY in
  let secs := r / 1000000 in
  let us := r mod 1000000 in
  let hh := secs / 3600 in
  let mm := (secs mod 3600) / 60 in
  let ss := (secs mod 3600) mod 60 in
  if (0 <? days) && (days <=? MAXORDINAL) then
    let '(y, m, d) := ord2ymd days in
    Ok (mkdt y m d hh mm ss us)
  else Raise (OverflowError "date value out of range").

(** [a - b] for two datetimes with the same [tzinfo]. *)
Definition sub (a b : datetime) : timedelta := to_us a - to_us b.

(** *** Aware datetimes with a fixed-offset [timezone] *)

Record aware : Type := mkaware {
  naive : datetime;
  utcoffset : Z   (* seconds east of UTC *)
}.

(** [dt.astimezone(tz)] for a fixed-offset [tz]: to UTC, then
    [tz.fromutc]. *)
Definition astimezone (a : aware) (tz_offset : Z) : result aware :=
  let* off := seconds (utcoffset a) in
  let* utc := add (naive a) (- off) in
  let* tzoff := seconds tz_offset in
  let* loc := add utc tzoff in
  Ok (mkaware loc tz_offset).

(** The instant an aware datetime denotes, in microseconds. *)
Definition instant (a : aware) : Z := to_us (naive a) - utcoffset a * 1000000.

End Datetime.

(** ** Formatting: [%d]-style padding, [isoformat], [strftime] *)

Module Fmt.

Import Datetime.

Definition digit_chr (d : Z) : ascii := ascii_of_N (Z.to_N (48 + d)).

Fixpoint dec_aux (fuel : nat) (n : Z) (acc : string) : string :=
  match fuel with
  | O => acc
  | S fuel' =>
      let acc' := String (digit_chr (n mod 10)) acc in
      if n <? 10 then acc' else dec_aux fuel' (n / 10) acc'
  end.

(** [str(n)] for [0 <= n]. *)
Definition dec (n : Z) : string :=
  dec_aux (S (Z.to_nat (Z.log2 n))) n EmptyString.

Fixpoint zeros (k : nat) : string :=
  match k with
  | O => EmptyString
  | S k' => String "0" (zeros k')
  end.

(** ["%0wd" % n] for [0 <= n]. *)
Definition pad (w : nat) (n : Z) : string :=
  let s := dec n in
  zeros (w - String.length s) ++ s.

Definition format_time (dt : datetime) : string :=
  pad 2 (hour dt) ++ ":" ++ pad 2 (minute dt) ++ ":" ++ pad 2 (second dt) ++
  (if microsecond dt =? 0 then "" else "." ++ pad 6 (microsecond dt)).

(** [_format_offset] of a whole number of seconds. *)
Definition format_offset (off : Z) : string :=
  let sign := if off <? 0 then "-" else "+" in
  let a := Z.abs off in
  sign ++ pad 2 (a / 3600) ++ ":" ++ pad 2 ((a mod 3600) / 60) ++
  (if a mod 60 =? 0 then "" else ":" ++ pad 2 (a mod 60)).

(** [dt.isoformat()] of an aware datetime. *)
Definition isoformat (a : aware) : string :=
  let dt := naive a in
  pad 4 (year dt) ++ "-" ++ pad 2 (month dt) ++ "-" ++ pad 2 (day dt) ++ "T" ++
  format_time dt ++ format_offset (utcoffset a).

Definition day_name : list string :=
  ["Monday"; "Tuesday"; "Wednesday"; "Thursday"; "Friday"; "Saturday"; "Sunday"].

Definition month_name : list string :=
  [""; "January"; "February"; "March"; "April"; "May"; "June"; "July";
   "August"; "September"; "October"; "November"; "December"].

Definition nth_name (names : list string) (i : Z) : string :=
  nth (Z.to_nat i) names EmptyString.

Definition hour12 (h : Z) : Z := if h mod 12 =? 0 then 12 else h mod 12.

Definition strftime_directive (dt : datetime) (d : ascii) : string :=
  match d with
  | "A"%char => nth_name day_name (weekday (year dt) (month dt) (day dt))
  | "B"%char => nth_name month_name (month dt)
  | "d"%char => pad 2 (day dt)
  | "Y"%char => dec (year dt)
  | "I"%char => pad 2 (hour12 (hour dt))
  | "M"%char => pad 2 (minute dt)
  | "p"%char => if hour dt <? 12 then "AM" else "PM"
  | c => String "%" (String c EmptyString)
  end.

(** [dt.strftime(fmt)] for the directives the program formats with. *)
Fixpoint strftime (dt : datetime) (fmt : string) : string :=
  match fmt with
  | EmptyString => EmptyString
  | String "%" (String d fmt') => strftime_directive dt d ++ strftime dt fmt'
  | String c fmt' => String c (strftime dt fmt')
  end.

End Fmt.

(** ** [datetime.strptime]

    [_strptime] compiles the format into a regular expression with one
    named group per directive, matches it case-insensitively at the start
    of the text, insists that the whole text was consumed, and converts the
    groups to numbers. *)

Module Strptime.

Import Datetime.

Definition f_weekday : list string :=
  ["monday"; "tuesday"; "wednesday"; "thursday"; "friday"; "saturday"; "sunday"].

Definition f_month : list string :=
  [""; "january"; "february"; "march"; "april"; "may"; "june"; "july";
   "august"; "september"; "october"; "november"; "december"].

Definition am_pm : list string := ["am"; "pm"].

Fixpoint insert_by_len (x : string) (l : list string) : list string :=
  match l with
  | [] => [x]
  | y :: l' =>
      if Nat.ltb (String.length y) (String.length x) then x :: l
      else y :: insert_by_len x l'
  end.

(** [sorted(names, key=len, reverse=True)]: longest first, stable. *)
Definition sorted_by_len (names : list string) : list string :=
  fold_left (fun acc x => insert_by_len x acc) names [].

(** [__seqToRE]: an alternation of the names, as one named group. *)
Definition seqToRE (names : list string) (directive : string) : Re.regex :=
  Re.Group directive (Re.alts (map Re.Lit (sorted_by_len names))).

(** The entries of [TimeRE] for the directives in use. *)
Definition directive (d : ascii) : option Re.regex :=
  match d with
  | "d"%char =>
      Some (Re.Group "d" (Re.alts
        [Re.Seq (Re.chr "3") (Re.range "0" "1");
         Re.Seq (Re.range "1" "2") Re.digit;
         Re.Seq (Re.chr "0") (Re.range "1" "9");
         Re.range "1" "9";
         Re.Seq (Re.chr " ") (Re.range "1" "9")]))
  | "I"%char =>
      Some (Re.Group "I" (Re.alts
        [Re.Seq (Re.chr "1") (Re.range "0" "2");
         Re.Seq (Re.chr "0") (Re.range "1" "9");
         Re.range "1" "9"]))
  | "m"%char =>
      Some (Re.Group "m" (Re.alts
        [Re.Seq (Re.chr "1") (Re.range "0" "2");
         Re.Seq (Re.chr "0") (Re.range "1" "9");
         Re.range "1" "9"]))
  | "M"%char =>
      Some (Re.Group "M" (Re.alts
        [Re.Seq (Re.range "0" "5") Re.digit; Re.digit]))
  | "Y"%char =>
      Some (Re.Group "Y" (Re.seqs [Re.digit; Re.digit; Re.digit; Re.digit]))
  | "A"%char => Some (seqToRE f_weekday "A")
  | "B"%char => Some (seqToRE (tl f_month) "B")
  | "p"%char => Some (seqToRE am_pm "p")
  | _ => None
  end.

(** [TimeRE.pattern]: a run of white space in the format becomes [\s+], a
    directive its group, any other character itself. [None] stands for the
    [KeyError] of an unknown directive. *)
Fixpoint pattern_aux (in_ws : bool) (fmt : string) : option (list Re.regex) :=
  match fmt with
  | EmptyString => Some []
  | String "%" (String d fmt') =>
      match directive d, pattern_aux false fmt' with
      | Some r, Some rs => Some (r :: rs)
      | _, _ => None
      end
  | String c fmt' =>
      if PyStr.isspace c then
        match pattern_aux true fmt' with
        | Some rs => Some (if in_ws then rs else Re.Plus Re.CSpace :: rs)
        | None => None
        end
      else
        match pattern_aux false fmt' with
        | Some rs => Some (Re.chr c :: rs)
        | None => None
        end
  end.

Definition pattern (fmt : string) : option Re.regex :=
  option_map Re.seqs (pattern_aux false fmt).

(** [names.index(x)] *)
Fixpoint index_of (x : string) (names : list string) : result Z :=
  match names with
  | [] => Raise (ValueError (PyStr.repr x ++ " is not in list"))
  | n :: names' =>
      if String.eqb n x then Ok 0
      else let* i := index_of x names' in Ok (i + 1)
  end.

(** The local variables of [_strptime] that the directives in use set. *)
Record fields : Type := mkfields {
  f_year : option Z; f_month_ : Z; f_day : Z;
  f_hour : Z; f_minute : Z; f_weekday_ : option Z
}.

Definition init_fields : fields := mkfields None 1 1 0 0 None.

(** The fields that reach the [datetime]: all but the weekday. *)
Definition date_time_fields (f : fields) : option Z * Z * Z * Z * Z :=
  (f_year f, f_month_ f, f_day f, f_hour f, f_minute f).

(** One round of the loop over [found_dict.keys()]. *)
Definition convert_key (found : Re.groups) (f : fields) (key : string) : result fields :=
  let v := match Re.group key found with Some v => v | None => EmptyString end in
  if String.eqb key "Y" then
    let* y := PyStr.int v in
    Ok (mkfields (Some y) (f_month_ f) (f_day f) (f_hour f) (f_minute f) (f_weekday_ f))
  else if String.eqb key "m" then
    let* m := PyStr.int v in
    Ok (mkfields (f_year f) m (f_day f) (f_hour f) (f_minute f) (f_weekday_ f))
  else if String.eqb key "B" then
    let* m := index_of (PyStr.lower v) f_month in
    Ok (mkfields (f_year f) m (f_day f) (f_hour f) (f_minute f) (f_weekday_ f))
  else if String.eqb key "d" then
    let* d := PyStr.int v in
    Ok (mkfields (f_year f) (f_month_ f) d (f_hour f) (f_minute f) (f_weekday_ f))
  else if String.eqb key "I" then
    let* h := PyStr.int v in
    let ampm :=
      PyStr.lower (match Re.group "p" found with Some p => p | None => EmptyString end) in
    let h' :=
      if String.eqb ampm EmptyString || String.eqb ampm (nth 0 am_pm EmptyString) then
        if h =? 12 then 0 else h
      else if String.eqb ampm (nth 1 am_pm EmptyString) then
        if negb (h =? 12) then h + 12 else h
      else h in
    Ok (mkfields (f_year f) (f_month_ f) (f_day f) h' (f_minute f) (f_weekday_ f))
  else if String.eqb key "M" then
    let* mi := PyStr.int v in
    Ok (mkfields (f_year f) (f_month_ f) (f_day f) (f_hour f) mi (f_weekday_ f))
  else if String.eqb key "A" then
    let* w := index_of (PyStr.lower v) f_weekday in
    Ok (mkfields (f_year f) (f_month_ f) (f_day f) (f_hour f) (f_minute f) (Some w))
  else Ok f.

Fixpoint convert_keys (found : Re.groups) (keys : list string) (f : fields) : result fields :=
  match keys with
  | [] => Ok f
  | k :: keys' =>
      let* f' := convert_key found f k in
      convert_keys found keys' f'
  end.

(** The time tuple [_strptime] returns (the entries used downstream). *)
Record struct_time : Type := mktm {
  tm_year : Z; tm_mon : Z; tm_mday : Z;
  tm_hour : Z; tm_min : Z; tm_sec : Z;
  tm_wday : Z; tm_yday : Z
}.

Definition _strptime (data_string format : string) : result struct_time :=
  match pattern format with
  | None => Raise (ValueError "bad directive in format")
  | Some format_regex =>
      match Re.match_ true format_regex data_string with
      | None => Raise (ValueError ("time data " ++ PyStr.repr data_string ++
                                   " does not match format " ++ PyStr.repr format))
      | Some found =>
          if negb (String.eqb (Re.rest found) EmptyString) then
            Raise (ValueError ("unconverted data remains: " ++ Re.rest found))
          else
            let found_dict := Re.caps found in
            let* f := convert_keys found_dict (map fst found_dict) init_fields in
            let leap_year_fix :=
              match f_year f with
              | None => (f_month_ f =? 2) && (f_day f =? 29)
              | Some _ => false
              end in
            let y :=
              match f_year f with
              | Some y => y
              | None => if leap_year_fix then 1904 else 1900
              end in
            (* julian = date(year, month, day).toordinal()
                        - date(year, 1, 1).toordinal() + 1 *)
            let* _ := new_date y (f_month_ f) (f_day f) in
            let* _ := new_date y 1 1 in
            let julian := ymd2ord y (f_month_ f) (f_day f) - ymd2ord y 1 1 + 1 in
            let wday :=
              match f_weekday_ f with
              | Some w => w
              | None => weekday y (f_month_ f) (f_day f)
              end in
            let y' := if leap_year_fix then 1900 else y in
            Ok (mktm y' (f_month_ f) (f_day f) (f_hour f) (f_minute f) 0 wday julian)
      end
  end.

(** [datetime.strptime(data_string, format)] *)
Definition strptime (data_string format : string) : result datetime :=
  let* tm := _strptime data_string format in
  new (tm_year tm) (tm_mon tm) (tm_mday tm) (tm_hour tm) (tm_min tm) (tm_sec tm) 0.

End Strptime.

(** ** The outside world

    The language model, the clock, the credential store and the calendar
    service are collaborators of the pipeline. Their answers are fields of
    a [World]; every call made to them, and every Streamlit call, is
    recorded as an [effect] in call order. A block of Streamlit calls that
    only lays out the page is one [StRender], without its text. *)

Inductive pyval : Type :=
| PNone
| PBool (b : bool)
| PInt (n : Z)
| PStr (s : string)
| PList (l : list pyval)
| PDict (d : list (string * pyval)).

(** [type(v).__name__] *)
Definition type_name (v : pyval) : string :=
  match v with
  | PNone => "NoneType"
  | PBool _ => "bool"
  | PInt _ => "int"
  | PStr _ => "str"
  | PList _ => "list"
  | PDict _ => "dict"
  end.

(** A dict is the list of its items, in insertion order. *)
Fixpoint dict_get (key : string) (d : list (string * pyval)) : option pyval :=
  match d with
  | [] => None
  | (k, v) :: d' => if String.eqb k key then Some v else dict_get key d'
  end.

(** [v.get(key, default)] *)
Definition py_get (v : pyval) (key : string) (default : pyval) : result pyval :=
  match v with
  | PDict d =>
      Ok (match dict_get key d with Some x => x | None => default end)
  | _ => Raise (AttributeError ("'" ++ type_name v ++ "' object has no attribute 'get'"))
  end.

(** [v[:10]]: a text or a list gives its first items; a dict looks its
    argument up as a key, and a slice cannot be one. *)
Definition py_slice (v : pyval) : result unit :=
  match v with
  | PStr _ | PList _ => Ok tt
  | PDict _ => Raise (TypeError "unhashable type: 'slice'")
  | _ => Raise (TypeError ("'" ++ type_name v ++ "' object is not subscriptable"))
  end.

Record Credentials : Type := mkcreds {
  valid : bool;
  expired : bool;
  refresh_token : option string;
  to_json : string
}.

Inductive Service : Type :=
| CalendarV3 (creds : Credentials).

Inductive effect : Type :=
| LlmInvoke (prompt : string)
| StError (msg : string)
| StWarning (msg : string)
| StRender
| TokenLoad
| TokenRemove
| CredsRefresh
| FlowRunLocalServer
| TokenWrite (json : string)
| ServiceBuild
| EventsInsert (calendarId : string) (body : pyval).

Record World : Type := mkworld {
  (* datetime.now() as read by parse_flexible_date *)
  clock_now : Datetime.datetime;
  (* utcoffset, in seconds, of datetime.now().astimezone().tzinfo *)
  clock_local_tz : Z;
  (* datetime.now().astimezone(local_tz), as read by parse_datetime *)
  clock_now_local : Datetime.datetime;
  (* the time stamp interpolated into the prompt *)
  clock_stamp : string;
  (* llm.invoke(prompt).content *)
  llm_invoke : string -> result string;
  (* os.path.exists(TOKEN_FILE) *)
  token_exists : bool;
  (* Credentials.from_authorized_user_file(TOKEN_FILE, SCOPES) *)
  token_load : result Credentials;
  (* os.remove(TOKEN_FILE) *)
  token_remove : result unit;
  (* with open(TOKEN_FILE, "w") as token: token.write(json) *)
  token_write : string -> result unit;
  (* creds.refresh(Request()) *)
  creds_refresh : Credentials -> result Credentials;
  (* InstalledAppFlow.from_client_secrets_file(CREDENTIALS_FILE, SCOPES) *)
  flow_from_secrets : result unit;
  (* flow.run_local_server(port=0) *)
  flow_run_local_server : result Credentials;
  (* build("calendar", "v3", credentials=creds) *)
  service_build : Credentials -> result Service;
  (* service.events().insert(calendarId=..., body=...).execute() *)
  events_insert : Service -> pyval -> result pyval
}.

Definition nl : string := String "010" EmptyString.
Definition dq : string := String "034" EmptyString.

(** [f"{x}"] of an [Optional[str]]. *)
Definition fstr (o : option string) : string :=
  match o with
  | Some s => s
  | None => "None"
  end.

Definition opt_pystr (o : option string) : pyval :=
  match o with
  | Some s => PStr s
  | None => PNone
  end.

(** The reminder policy both scripts put into the event. *)
Definition reminders : pyval :=
  PDict [("useDefault", PBool false);
         ("overrides",
          PList [PDict [("method", PStr "email"); ("minutes", PInt (24 * 60))];
                 PDict [("method", PStr "popup"); ("minutes", PInt 10)]])].

(** ** The LangGraph workflow ([using_langgraph/project.py]) *)

Module LangGraph.

Import Datetime.

Record SchedulerState : Type := mkstate {
  sentence : string;
  output : option string;
  task_title : option string;
  scheduled_date_str : option string;
  scheduled_time_str : option string;
  duration_minutes : option Z;
  start_dt : option aware;
  end_dt : option aware;
  service : option Service;
  event : option pyval;
  created_event : option pyval;
  error : option string;
  parsed_priority : option string
}.

Definition set_error (st : SchedulerState) (e : option string) : SchedulerState :=
  mkstate (sentence st) (output st) (task_title st) (scheduled_date_str st)
    (scheduled_time_str st) (duration_minutes st) (start_dt st) (end_dt st)
    (service st) (event st) (created_event st) e (parsed_priority st).

Definition set_output (st : SchedulerState) (o : option string) : SchedulerState :=
  mkstate (sentence st) o (task_title st) (scheduled_date_str st)
    (scheduled_time_str st) (duration_minutes st) (start_dt st) (end_dt st)
    (service st) (event st) (created_event st) (error st) (parsed_priority st).

Definition set_extracted (st : SchedulerState) (title date_s time_s : string)
    (dur : Z) (prio : string) : SchedulerState :=
  mkstate (sentence st) (output st) (Some title) (Some date_s) (Some time_s)
    (Some dur) (start_dt st) (end_dt st) (service st) (event st)
    (created_event st) (error st) (Some prio).

Definition set_slot (st : SchedulerState) (s e : aware) : SchedulerState :=
  mkstate (sentence st) (output st) (task_title st) (scheduled_date_str st)
    (scheduled_time_str st) (duration_minutes st) (Some s) (Some e)
    (service st) (event st) (created_event st) (error st) (parsed_priority st).

Definition set_service (st : SchedulerState) (s : Service) : SchedulerState :=
  mkstate (sentence st) (output st) (task_title st) (scheduled_date_str st)
    (scheduled_time_str st) (duration_minutes st) (start_dt st) (end_dt st)
    (Some s) (event st) (created_event st) (error st) (parsed_priority st).

Definition set_event (st : SchedulerState) (ev : pyval) : SchedulerState :=
  mkstate (sentence st) (output st) (task_title st) (scheduled_date_str st)
    (scheduled_time_str st) (duration_minutes st) (start_dt st) (end_dt st)
    (service st) (Some ev) (created_event st) (error st) (parsed_priority st).

Definition set_created_event (st : SchedulerState) (ev : pyval) : SchedulerState :=
  mkstate (sentence st) (output st) (task_title st) (scheduled_date_str st)
    (scheduled_time_str st) (duration_minutes st) (start_dt st) (end_dt st)
    (service st) (event st) (Some ev) (error st) (parsed_priority st).

(** [state.get("error")] as a condition. *)
Definition has_error (st : SchedulerState) : bool := PyStr.truthy (error st).

(** *** parse_flexible_date *)

Definition formats : list string :=
  ["%A, %d %B %Y";
   "%A, %d %B";
   "%d %B %Y";
   "%B %d, %Y";
   "%m/%d/%Y";
   "%Y-%m-%d";
   "%d-%m-%Y"].

(** The body of the [try] for one format. *)
Definition try_format (now : datetime) (date_string fmt : string) : result datetime :=
  let* date_obj := Strptime.strptime date_string fmt in
  if negb (PyStr.contains "%Y" fmt) then
    let* date_obj := replace_year date_obj (year now) in
    if date_ltb (date_of date_obj) (date_of now) then
      replace_year date_obj (year now + 1)
    else Ok date_obj
  else Ok date_obj.

(** The [for] loop: a [ValueError] moves on to the next format, any other
    exception leaves the function. *)
Fixpoint try_formats (now : datetime) (date_string : string) (fmts : list string)
    : result (option datetime) :=
  match fmts with
  | [] => Ok None
  | fmt :: fmts' =>
      match try_format now date_string fmt with
      | Ok date_obj => Ok (Some date_obj)
      | Raise (ValueError _) => try_formats now date_string fmts'
      | Raise e => Raise e
      end
  end.

Definition parse_flexible_date (now : datetime) (date_string : option string)
    : result (option datetime) :=
  match date_string with
  | None => Raise (TypeError "strptime() argument 1 must be str, not None")
  | Some s => try_formats now s formats
  end.

(** *** process_ai_request *)

Definition build_prompt (sentence stamp : string) : string :=
  String.concat nl
    [""; "You are an expert scheduling assistant. Extract the following details and suggest a time slot.";
     "";
     "User's Request: " ++ dq ++ sentence ++ dq;
     "";
     "Current Date and Time: " ++ stamp ++ " (Important: use this for context, especially for 'today' or 'tomorrow')";
     "";
     "Instructions:";
     "1. Extract 'Task', 'Deadline', 'Duration', and 'Priority'.";
     "2. 'Task': A concise description of the event.";
     "3. 'Deadline': The exact date and time, or a relative phrase like " ++ dq ++ "end of next week" ++ dq ++ ". If a specific time is not given but a date is, assume end of day. If only a relative term like " ++ dq ++ "tomorrow" ++ dq ++ " is given, infer the date.";
     "4. 'Duration': In minutes. If not specified, default to 60 minutes.";
     "5. 'Priority': " ++ dq ++ "High" ++ dq ++ ", " ++ dq ++ "Normal" ++ dq ++ ", or " ++ dq ++ "Low" ++ dq ++ ". Default to " ++ dq ++ "Normal" ++ dq ++ ".";
     "6. Suggest the best **future** time slot for the meeting, ensuring it's before the deadline and accommodates the duration. If priority is " ++ dq ++ "High" ++ dq ++ ", suggest the earliest reasonable time.";
     "7. Provide a brief 'Reason' for the chosen slot.";
     "8. **Always include the year** in the 'Scheduled Slot - Date' (e.g., Friday, 28 May 2025).";
     "";
     "Respond in the following EXACT format:";
     "";
     "Task: [task]";
     "Deadline: [date and time, e.g., Friday, 28 May 2025 at 5:00 PM]";
     "Duration: [duration in minutes]";
     "Priority: [priority]";
     "";
     "Scheduled Slot:";
     " - Date: <Day, DD Month Walpole> (e.g., Friday, 28 May 2025)";
     " - Time: <HH:MM AM/PM - HH:MM AM/PM> (e.g., 3:00 PM - 3:30 PM)";
     " - Reason: [reason]";
     ""].

Definition process_ai_request (w : World) (state : SchedulerState)
    : SchedulerState * list effect :=
  let prompt := build_prompt (sentence state) (clock_stamp w) in
  match llm_invoke w prompt with
  | Ok content =>
      (set_output state (Some (PyStr.strip content)), [LlmInvoke prompt; StRender])
  | Raise e =>
      let msg := "Error getting AI response: " ++ exn_str e in
      (set_output (set_error state (Some msg)) None, [LlmInvoke prompt; StError msg])
  end.

(** *** parse_ai_response *)

(** [r"<label>\s*(.+)"] *)
Definition label_re (label : string) : Re.regex :=
  Re.seqs [Re.Lit label; Re.Star Re.CSpace; Re.Group "1" (Re.Plus Re.CDot)].

(** [r"Duration:\s*(\d+)"] *)
Definition duration_re : Re.regex :=
  Re.seqs [Re.Lit "Duration:"; Re.Star Re.CSpace; Re.Group "1" (Re.Plus Re.CDigit)].

(** [re.search(pattern, output)], then [.group(1)] of a match. *)
Definition search_group1 (r : Re.regex) (output : string) : option string :=
  match Re.search false r output with
  | Some m => Re.group "1" (Re.caps m)
  | None => None
  end.

(** [int(m.group(1)) if m else 60] *)
Definition duration_of (output : string) : result Z :=
  match search_group1 duration_re output with
  | Some g => PyStr.int g
  | None => Ok 60
  end.

(** [m.group(1).strip() if m else "Normal"] *)
Definition priority_of (output : string) : string :=
  match search_group1 (label_re "Priority:") output with
  | Some g => PyStr.strip g
  | None => "Normal"
  end.

Definition no_output_msg : string :=
  "No AI output to parse. Previous step might have failed.".

Definition missing_details_msg : string :=
  "Essential scheduling details (Task, Scheduled Date, or Scheduled Time) missing from AI output.".

(** The five values that the body of the [try] extracts, or the exception
    that ends it. *)
Definition extract_fields (output : option string)
    : result (string * string * string * Z * string) :=
  match output with
  | None | Some EmptyString => Raise (ValueError no_output_msg)
  | Some out =>
      match search_group1 (label_re "Task:") out,
            search_group1 (label_re "Date:") out,
            search_group1 (label_re "Time:") out with
      | Some task, Some date_s, Some time_s =>
          let* dur := duration_of out in
          Ok (PyStr.strip task, PyStr.strip date_s, PyStr.strip time_s, dur,
              priority_of out)
      | _, _, _ => Raise (ValueError missing_details_msg)
      end
  end.

Definition parse_error_msg (e : exn) : string :=
  "Error parsing AI response: " ++ exn_str e ++ ". Ensure AI output matches expected format.".

(** The state after lines 151 to 153. *)
Definition set_texts (st : SchedulerState) (title date_s time_s : string)
    : SchedulerState :=
  mkstate (sentence st) (output st) (Some title) (Some date_s) (Some time_s)
    (duration_minutes st) (start_dt st) (end_dt st) (service st) (event st)
    (created_event st) (error st) (parsed_priority st).

(** The [except] clause. *)
Definition parse_failure (state : SchedulerState) (e : exn)
    : SchedulerState * list effect :=
  let msg := parse_error_msg e in
  (set_error state (Some msg), [StError msg]).

(** The three texts are stored one by one, then the duration is converted
    and stored with the priority: when [int] raises, on line 154, the state
    holds the three texts already. *)
Definition parse_ai_response (state : SchedulerState) : SchedulerState * list effect :=
  if has_error state then (state, [])
  else
    match output state with
    | None | Some EmptyString => parse_failure state (ValueError no_output_msg)
    | Some out =>
        match search_group1 (label_re "Task:") out,
              search_group1 (label_re "Date:") out,
              search_group1 (label_re "Time:") out with
        | Some task, Some date_s, Some time_s =>
            let state1 :=
              set_texts state (PyStr.strip task) (PyStr.strip date_s)
                        (PyStr.strip time_s) in
            match duration_of out with
            | Raise e => parse_failure state1 e
            | Ok dur =>
                (set_extracted state (PyStr.strip task) (PyStr.strip date_s)
                   (PyStr.strip time_s) dur (priority_of out),
                 [StRender])
            end
        | _, _, _ => parse_failure state (ValueError missing_details_msg)
        end
    end.

(** *** parse_datetime *)

Definition unparseable_date_msg (scheduled_date_str : string) : string :=
  "Could not parse scheduled date: '" ++ scheduled_date_str ++
  "'. Please check AI output format.".

Definition time_format_msg (scheduled_time_str : string) : string :=
  "Scheduled time format is incorrect: '" ++ scheduled_time_str ++
  "'. Expected 'HH:MM AM/PM - HH:MM AM/PM'.".

Definition past_date_msg (start_dt_local : datetime) : string :=
  "The AI suggested a date in the past: '" ++
  Fmt.strftime start_dt_local "%A, %d %B %Y %I:%M %p" ++
  "'. Please refine your request to schedule a future appointment.".

Definition past_time_warning (start_dt_local : datetime) : string :=
  "⚠️ The suggested start time (" ++ Fmt.strftime start_dt_local "%I:%M %p" ++
  ") was in the past for today. Adjusting to current time + 5 minutes.".

(** [a, b = parts] *)
Definition unpack2 (parts : list string) : result (string * string) :=
  match parts with
  | [a; b] => Ok (a, b)
  | _ :: _ :: _ :: _ => Raise (ValueError "too many values to unpack (expected 2)")
  | [_] => Raise (ValueError "not enough values to unpack (expected 2, got 1)")
  | [] => Raise (ValueError "not enough values to unpack (expected 2, got 0)")
  end.

(** [start_time_part, end_time_part =
     [t.strip() for t in scheduled_time_str.split("-")]] *)
Definition split_time_range (scheduled_time_str : string) : result (string * string) :=
  unpack2 (map PyStr.strip (PyStr.split "-" scheduled_time_str)).

(** [datetime.strptime(part, "%I:%M %p").replace(year=..., month=..., day=...)] *)
Definition time_on (date_obj : datetime) (part : string) : result datetime :=
  let* t := Strptime.strptime part "%I:%M %p" in
  replace_ymd t (year date_obj) (month date_obj) (day date_obj).

(** [timedelta(minutes=duration_minutes)] *)
Definition duration_delta (duration_minutes : option Z) : result timedelta :=
  match duration_minutes with
  | Some n => minutes n
  | None => Raise (TypeError "unsupported type for timedelta minutes component: NoneType")
  end.

(** The past-time branch of parse_datetime on the local start and end. *)
Definition adjust_past (now_local : datetime) (duration_minutes : option Z)
    (start_dt_local end_dt_local : datetime)
    : list effect * result (datetime * datetime) :=
  if ltb start_dt_local now_local then
    if date_eqb (date_of start_dt_local) (date_of now_local) then
      ([StWarning (past_time_warning start_dt_local)],
       let* five := minutes 5 in
       let* start' := add now_local five in
       let* d := duration_delta duration_minutes in
       let* end' := add start' d in
       Ok (start', end'))
    else ([], Raise (ValueError (past_date_msg start_dt_local)))
  else ([], Ok (start_dt_local, end_dt_local)).

(** Lines 181 to 198: the naive start and end the reply names. *)
Definition parse_slot (w : World) (state : SchedulerState)
    : result (datetime * datetime) :=
  let* parsed := parse_flexible_date (clock_now w) (scheduled_date_str state) in
  match parsed with
  | None => Raise (ValueError (unparseable_date_msg (fstr (scheduled_date_str state))))
  | Some date_obj =>
      match scheduled_time_str state with
      | None => Raise (TypeError "argument of type 'NoneType' is not iterable")
      | Some time_s =>
          if negb (PyStr.contains " - " time_s) then
            Raise (ValueError (time_format_msg time_s))
          else
            let* parts := split_time_range time_s in
            let* start_dt_naive := time_on date_obj (fst parts) in
            let* end_dt_naive := time_on date_obj (snd parts) in
            Ok (start_dt_naive, end_dt_naive)
      end
  end.

(** Lines 218 and 219: attach the local zone, convert to UTC. *)
Definition to_utc (local_tz : Z) (se : datetime * datetime) : result (aware * aware) :=
  let* start_dt_utc := astimezone (mkaware (fst se) local_tz) 0 in
  let* end_dt_utc := astimezone (mkaware (snd se) local_tz) 0 in
  Ok (start_dt_utc, end_dt_utc).

(** The body of the [try], up to the two UTC instants. *)
Definition resolve_slot (w : World) (state : SchedulerState)
    : list effect * result (aware * aware) :=
  match parse_slot w state with
  | Raise e => ([], Raise e)
  | Ok (start_dt_naive, end_dt_naive) =>
      let (effs, r) :=
        adjust_past (clock_now_local w) (duration_minutes state)
                    start_dt_naive end_dt_naive in
      (effs, let* se := r in to_utc (clock_local_tz w) se)
  end.

Definition datetime_error_msg (e : exn) : string :=
  match e with
  | ValueError ve => "Date/Time parsing error: " ++ ve
  | _ => "An unexpected error occurred during date/time parsing: " ++ exn_str e
  end.

Definition parse_datetime (w : World) (state : SchedulerState)
    : SchedulerState * list effect :=
  if has_error state then (state, [])
  else
    match resolve_slot w state with
    | (effs, Ok (start_dt_utc, end_dt_utc)) =>
        (set_slot state start_dt_utc end_dt_utc, effs ++ [StRender])%list
    | (effs, Raise e) =>
        let msg := datetime_error_msg e in
        (set_error state (Some msg), effs ++ [StError msg])%list
    end.

(** *** authenticate_google *)

(** Lines 245 to 252: the stored token, if one can be loaded. A token that
    cannot be loaded is removed, and a removal that fails ends the [try]. *)
Definition load_token (w : World) : list effect * result (option Credentials) :=
  if token_exists w then
    match token_load w with
    | Ok c => ([TokenLoad], Ok (Some c))
    | Raise e =>
        let warned :=
          [TokenLoad;
           StWarning ("Failed to load existing token, re-authenticating: " ++ exn_str e)] in
        if token_exists w then
          match token_remove w with
          | Ok _ => ((warned ++ [TokenRemove])%list, Ok None)
          | Raise e' => ((warned ++ [TokenRemove])%list, Raise e')
          end
        else (warned, Ok None)
    end
  else ([], Ok None).

(** Lines 255 to 265: new credentials, by a refresh or by a login. *)
Definition renew (w : World) (creds : option Credentials)
    : list effect * result Credentials :=
  let can_refresh :=
    match creds with
    | Some c => expired c && PyStr.truthy (refresh_token c)
    | None => false
    end in
  match creds, can_refresh with
  | Some c, true =>
      match creds_refresh w c with
      | Ok c' => ([CredsRefresh; StRender], Ok c')
      | Raise e => ([CredsRefresh], Raise e)
      end
  | _, _ =>
      match flow_from_secrets w with
      | Raise e => ([StRender], Raise e)
      | Ok _ =>
          match flow_run_local_server w with
          | Ok c' => ([StRender; FlowRunLocalServer; StRender], Ok c')
          | Raise auth_e =>
              ([StRender; FlowRunLocalServer],
               Raise (ValueError ("Failed to complete browser authentication. Error: "
                                  ++ exn_str auth_e)))
          end
      end
  end.

(** The body of the [try]: the credentials to build the service with. New
    credentials are written to the token file, and a write that fails ends
    the [try]. *)
Definition obtain_credentials (w : World) : list effect * result Credentials :=
  match load_token w with
  | (effs0, Raise e) => (effs0, Raise e)
  | (effs0, Ok creds) =>
      let needs_login :=
        match creds with
        | None => true
        | Some c => negb (valid c)
        end in
      if needs_login then
        match renew w creds with
        | (effs1, Raise e) => ((effs0 ++ effs1)%list, Raise e)
        | (effs1, Ok c') =>
            ((effs0 ++ effs1 ++ [TokenWrite (to_json c')])%list,
             let* _ := token_write w (to_json c') in Ok c')
        end
      else
        match creds with
        | Some c => (effs0, Ok c)
        | None => (effs0, Raise (RuntimeError "unreachable"))
        end
  end.

Definition auth_error_msg (e : exn) : string :=
  match e with
  | HttpError status content _ =>
      "Google Calendar API authentication error: " ++ Fmt.dec status ++ " - " ++ content
  | _ => "Authentication error: " ++ exn_str e
  end.

Definition authenticate_google (w : World) (state : SchedulerState)
    : SchedulerState * list effect :=
  if has_error state then (state, [])
  else
    let (effs, r) := obtain_credentials w in
    match (let* creds := r in service_build w creds) with
    | Ok svc =>
        (set_service state svc, effs ++ [ServiceBuild])%list
    | Raise e =>
        let msg := auth_error_msg e in
        (set_error state (Some msg),
         effs ++ (match r with Ok _ => [ServiceBuild] | Raise _ => [] end)
              ++ [StError msg])%list
    end.

(** *** create_event *)

Definition display_timezone : string := "Asia/Kolkata".

Definition description (sentence : string) (output : option string) : string :=
  "Scheduled via AI Scheduler." ++ nl ++ nl ++
  "Original Request: " ++ dq ++ sentence ++ dq ++ nl ++ nl ++
  "AI Analysis:" ++ nl ++ fstr output.

(** The dictionary literal of create_event. *)
Definition event_of (task_title : option string) (start_dt end_dt : aware)
    (sentence : string) (output : option string) : pyval :=
  PDict
    [("summary", opt_pystr task_title);
     ("start", PDict [("dateTime", PStr (Fmt.isoformat start_dt));
                      ("timeZone", PStr display_timezone)]);
     ("end", PDict [("dateTime", PStr (Fmt.isoformat end_dt));
                    ("timeZone", PStr display_timezone)]);
     ("description", PStr (description sentence output));
     ("reminders", reminders)].

Definition build_event (state : SchedulerState) : result pyval :=
  match start_dt state, end_dt state with
  | Some s, Some e =>
      Ok (event_of (task_title state) s e (sentence state) (output state))
  | _, _ => Raise (AttributeError "'NoneType' object has no attribute 'isoformat'")
  end.

Definition create_event (state : SchedulerState) : SchedulerState * list effect :=
  if has_error state then (state, [])
  else
    match build_event state with
    | Ok ev => (set_event state ev, [])
    | Raise e =>
        let msg := "Error preparing event details: " ++ exn_str e in
        (set_error state (Some msg), [StError msg])
    end.

(** *** schedule_event *)

(** The body of the [try], up to the answer of the calendar service. *)
Definition submit_event (w : World) (state : SchedulerState)
    : list effect * result pyval :=
  match start_dt state, end_dt state with
  | Some s, Some e =>
      match (let* _ := astimezone s (clock_local_tz w) in
             astimezone e (clock_local_tz w)) with
      | Raise ex => ([], Raise ex)
      | Ok _ =>
          match service state with
          | None =>
              ([], Raise (AttributeError "'NoneType' object has no attribute 'events'"))
          | Some svc =>
              let body := match event state with Some ev => ev | None => PNone end in
              ([EventsInsert "primary" body], events_insert w svc body)
          end
      end
  | _, _ =>
      ([], Raise (AttributeError "'NoneType' object has no attribute 'astimezone'"))
  end.

Definition schedule_error_msg (e : exn) : string :=
  match e with
  | HttpError status content _ =>
      "Google Calendar API scheduling error: " ++ Fmt.dec status ++ " - " ++ content
  | _ => "Failed to create event: " ++ exn_str e
  end.

(** Lines 341 to 399: what the page shows of the answer of the calendar,
    its link and the first ten characters of its id. The answer has to be
    a dict, and its id a text (or a list). *)
Definition show_created (created_event : pyval) : result unit :=
  let* calendar_link := py_get created_event "htmlLink" PNone in
  let* id := py_get created_event "id" (PStr "N/A") in
  py_slice id.

Definition schedule_event (w : World) (state : SchedulerState)
    : SchedulerState * list effect :=
  if has_error state then (state, [])
  else
    match submit_event w state with
    | (effs, Ok created) =>
        let state' := set_created_event state created in
        match show_created created with
        | Ok _ => (state', effs ++ [StRender])%list
        | Raise e =>
            let msg := schedule_error_msg e in
            (set_error state' (Some msg), effs ++ [StRender; StError msg])%list
        end
    | (effs, Raise e) =>
        let msg := schedule_error_msg e in
        (set_error state (Some msg), effs ++ [StError msg])%list
    end.

(** *** handle_error, should_continue *)

Definition handle_error (state : SchedulerState) : SchedulerState * list effect :=
  if has_error state then
    (state,
     [StError ("❌ **Error during scheduling process:** " ++ fstr (error state)); StRender])
  else (state, []).

Definition should_continue (state : SchedulerState) : string :=
  if has_error state then "error" else "continue".

(** *** create_workflow *)

Inductive node : Type :=
| process_ai
| parse_response
| parse_datetime_node
| authenticate
| create_event_node
| schedule
| error_handler.

(** The target of an edge: a node, or [END]. *)
Inductive target : Type :=
| To (n : node)
| END.

Inductive edge : Type :=
| Conditional (path : SchedulerState -> string) (path_map : list (string * target))
| Direct (t : target).

(** [workflow.add_node] *)
Definition node_action (w : World) (n : node) (state : SchedulerState)
    : SchedulerState * list effect :=
  match n with
  | process_ai => process_ai_request w state
  | parse_response => parse_ai_response state
  | parse_datetime_node => parse_datetime w state
  | authenticate => authenticate_google w state
  | create_event_node => create_event state
  | schedule => schedule_event w state
  | error_handler => handle_error state
  end.

(** [workflow.add_conditional_edges], [workflow.add_edge] *)
Definition edge_of (n : node) : edge :=
  match n with
  | process_ai =>
      Conditional should_continue
        [("continue", To parse_response); ("error", To error_handler)]
  | parse_response =>
      Conditional should_continue
        [("continue", To parse_datetime_node); ("error", To error_handler)]
  | parse_datetime_node =>
      Conditional should_continue
        [("continue", To authenticate); ("error", To error_handler)]
  | authenticate =>
      Conditional should_continue
        [("continue", To create_event_node); ("error", To error_handler)]
  | create_event_node =>
      Conditional should_continue
        [("continue", To schedule); ("error", To error_handler)]
  | schedule => Direct END
  | error_handler => Direct END
  end.

Fixpoint lookup_target (key : string) (m : list (string * target)) : target :=
  match m with
  | [] => END
  | (k, t) :: m' => if String.eqb k key then t else lookup_target key m'
  end.

(** Where the graph goes after node [n] has returned [state]. *)
Definition next (n : node) (state : SchedulerState) : target :=
  match edge_of n with
  | Conditional path path_map => lookup_target (path state) path_map
  | Direct t => t
  end.

Record run : Type := mkrun {
  final_state : SchedulerState;
  effects : list effect;
  visited : list node
}.

(** The compiled workflow, started at node [n]: run the node, follow its
    edge, stop at [END]. [None] when the step budget is used up. *)
Fixpoint run_from (fuel : nat) (w : World) (n : node) (state : SchedulerState)
    : option run :=
  match fuel with
  | O => None
  | S fuel' =>
      let (state', effs) := node_action w n state in
      match next n state' with
      | END => Some (mkrun state' effs [n])
      | To n' =>
          match run_from fuel' w n' state' with
          | Some r =>
              Some (mkrun (final_state r) (effs ++ effects r)%list (n :: visited r))
          | None => None
          end
      end
  end.

Definition initial_state (sentence : string) : SchedulerState :=
  mkstate sentence None None None None (Some 60) None None None None None None None.

(** [workflow_app.invoke(initial_state)]; no path of the graph is longer
    than its seven nodes. *)
Definition invoke (w : World) (state : SchedulerState) : option run :=
  run_from 7 w process_ai state.

End LangGraph.

(** ** The single-pass script ([Using_lang_chain/project.py])

    The three successive [datetime.now()] reads in the year inference are
    taken to return the one reading [clock_now]. *)

Module LangChain.

Import Datetime.

Definition build_prompt (sentence stamp : string) : string :=
  String.concat nl
    [""; "You are an expert scheduling assistant. Extract the following details and suggest a time slot.";
     "";
     "User's Request: " ++ dq ++ sentence ++ dq;
     "";
     "Current Date and Time: " ++ stamp;
     "";
     "Instructions:";
     "1. Extract 'Task', 'Deadline', 'Duration', and 'Priority'.";
     "2. 'Task': A concise description of the event.";
     "3. 'Deadline': The exact date and time, or a relative phrase like " ++ dq ++ "end of next week" ++ dq ++ ".";
     "4. 'Duration': In minutes. If not specified, default to 60 minutes.";
     "5. 'Priority': " ++ dq ++ "High" ++ dq ++ ", " ++ dq ++ "Normal" ++ dq ++ ", or " ++ dq ++ "Low" ++ dq ++ ". Default to " ++ dq ++ "Normal" ++ dq ++ ".";
     "6. Suggest a time slot that’s before the deadline.";
     "7. Provide a 'Reason' for the slot.";
     "";
     "Respond in this EXACT format:";
     "";
     "Task: [task]";
     "Deadline: [date and time]";
     "Duration: [duration in minutes]";
     "Priority: [priority]";
     "";
     "Scheduled Slot:";
     " - Date: <Day, DD Month YYYY>";
     " - Time: <HH:MM AM/PM - HH:MM AM/PM>";
     " - Reason: [reason]";
     ""].

(** [re.search(pattern, output).group(1).strip()] *)
Definition field (label : string) (output : string) : result string :=
  match LangGraph.search_group1 (LangGraph.label_re label) output with
  | Some g => Ok (PyStr.strip g)
  | None => Raise (AttributeError "'NoneType' object has no attribute 'group'")
  end.

(** The inner [try]/[except ValueError] around the two date formats. *)
Definition parse_date (now : datetime) (scheduled_date_str : string) : result datetime :=
  match Strptime.strptime scheduled_date_str "%A, %d %B %Y" with
  | Ok date_obj => Ok date_obj
  | Raise (ValueError _) =>
      let* date_obj := Strptime.strptime scheduled_date_str "%A, %d %B" in
      let* date_obj := replace_year date_obj (year now) in
      if ltb date_obj now then replace_year date_obj (year now + 1)
      else Ok date_obj
  | Raise e => Raise e
  end.

(** The past-time branch: every start before now is moved. *)
Definition adjust_past (now_local : datetime) (duration_minutes : Z)
    (start_dt_local end_dt_local : datetime)
    : list effect * result (datetime * datetime) :=
  if ltb start_dt_local now_local then
    ([StWarning "The suggested time is in the past. Adjusting to now."],
     let* five := minutes 5 in
     let* start' := add now_local five in
     let* d := minutes duration_minutes in
     let* end' := add start' d in
     Ok (start', end'))
  else ([], Ok (start_dt_local, end_dt_local)).

(** Lines 81 to 98: the title, the duration and the naive start and end. *)
Definition parse_slot (w : World) (output : string)
    : result (string * Z * datetime * datetime) :=
  let* task_title := field "Task:" output in
  let* scheduled_date_str := field "Date:" output in
  let* scheduled_time_str := field "Time:" output in
  let* duration_minutes := LangGraph.duration_of output in
  let* date_obj := parse_date (clock_now w) scheduled_date_str in
  let* parts := LangGraph.split_time_range scheduled_time_str in
  let* start_dt := LangGraph.time_on date_obj (fst parts) in
  let* end_dt := LangGraph.time_on date_obj (snd parts) in
  Ok (task_title, duration_minutes, start_dt, end_dt).

(** Lines 81 to 112: from the model's reply to the title and the two UTC
    instants. *)
Definition resolve (w : World) (output : string)
    : list effect * result (string * aware * aware) :=
  match parse_slot w output with
  | Raise e => ([], Raise e)
  | Ok (task_title, duration_minutes, start_dt, end_dt) =>
      let (effs, r) := adjust_past (clock_now_local w) duration_minutes start_dt end_dt in
      (effs,
       let* se := r in
       let* utc := LangGraph.to_utc (clock_local_tz w) se in
       Ok (task_title, fst utc, snd utc))
  end.

Definition description (sentence output : string) : string :=
  "Scheduled via AI Scheduler." ++ nl ++ nl ++
  "Request: " ++ dq ++ sentence ++ dq ++ nl ++
  "Output:" ++ nl ++ output.

(** The dictionary literal of lines 138 to 150. *)
Definition event_of (task_title : string) (start_dt end_dt : aware)
    (sentence output : string) : pyval :=
  PDict
    [("summary", PStr task_title);
     ("start", PDict [("dateTime", PStr (Fmt.isoformat start_dt));
                      ("timeZone", PStr "Asia/Kolkata")]);
     ("end", PDict [("dateTime", PStr (Fmt.isoformat end_dt));
                    ("timeZone", PStr "Asia/Kolkata")]);
     ("description", PStr (description sentence output));
     ("reminders", reminders)].

(** Lines 119 to 124: the stored token, if one can be loaded; one that
    cannot is removed. *)
Definition load_token (w : World) : list effect * result (option Credentials) :=
  if token_exists w then
    match token_load w with
    | Ok c => ([TokenLoad], Ok (Some c))
    | Raise _ =>
        ([TokenLoad; TokenRemove],
         let* _ := token_remove w in Ok None)
    end
  else ([], Ok None).

(** Lines 119 to 136: no handler here, a failure ends the script. *)
Definition obtain_service (w : World) : list effect * result Service :=
  match load_token w with
  | (effs0, Raise e) => (effs0, Raise e)
  | (effs0, Ok creds) =>
      let needs_login :=
        match creds with
        | None => true
        | Some c => negb (valid c)
        end in
      let '(effs1, r) :=
        if needs_login then
          let can_refresh :=
            match creds with
            | Some c => expired c && PyStr.truthy (refresh_token c)
            | None => false
            end in
          let '(effs, fresh) :=
            match creds, can_refresh with
            | Some c, true => ([CredsRefresh], creds_refresh w c)
            | _, _ =>
                match flow_from_secrets w with
                | Raise e => ([StRender], Raise e)
                | Ok _ => ([StRender; FlowRunLocalServer], flow_run_local_server w)
                end
            end in
          match fresh with
          | Ok c' =>
              ((effs ++ [TokenWrite (to_json c')])%list,
               let* _ := token_write w (to_json c') in Ok c')
          | Raise e => (effs, Raise e)
          end
        else
          match creds with
          | Some c => ([], Ok c)
          | None => ([], Raise (RuntimeError "unreachable"))
          end in
      match r with
      | Ok c => ((effs0 ++ effs1 ++ [ServiceBuild])%list, service_build w c)
      | Raise e => ((effs0 ++ effs1)%list, Raise e)
      end
  end.

Inductive outcome : Type :=
| Stopped                      (* st.stop() *)
| Crashed (e : exn)            (* an exception no handler caught *)
| Done (created_event : option pyval).

(** The body of [if st.button("Schedule"):]. *)
Definition main (w : World) (sentence : string) : list effect * outcome :=
  if String.eqb (PyStr.strip sentence) EmptyString then
    ([StWarning "Please enter the appointment details."], Stopped)
  else
    let prompt := build_prompt sentence (clock_stamp w) in
    match llm_invoke w prompt with
    | Raise e =>
        ([StRender; LlmInvoke prompt; StError ("Error parsing AI response: " ++ exn_str e)],
         Stopped)
    | Ok content =>
        let output := PyStr.strip content in
        match resolve w output with
        | (effs, Raise e) =>
            (([StRender; LlmInvoke prompt; StRender] ++ effs ++
              [StError ("Error parsing AI response: " ++ exn_str e)])%list, Stopped)
        | (effs, Ok (task_title, start_dt, end_dt)) =>
            let pre := ([StRender; LlmInvoke prompt; StRender] ++ effs)%list in
            match obtain_service w with
            | (effs', Raise e) => ((pre ++ effs')%list, Crashed e)
            | (effs', Ok svc) =>
                let event := event_of task_title start_dt end_dt sentence output in
                match events_insert w svc event with
                | Ok created =>
                    (* lines 154 and 155, inside the [try] *)
                    match py_get created "htmlLink" PNone with
                    | Ok _ =>
                        ((pre ++ effs' ++ [EventsInsert "primary" event; StRender])%list,
                         Done (Some created))
                    | Raise e =>
                        ((pre ++ effs' ++
                          [EventsInsert "primary" event; StRender;
                           StError ("Failed to create event: " ++ exn_str e)])%list,
                         Done (Some created))
                    end
                | Raise e =>
                    ((pre ++ effs' ++ [EventsInsert "primary" event;
                                        StError ("Failed to create event: " ++ exn_str e)])%list,
                     Done None)
                end
            end
        end
    end.

End LangChain.

(** ** Reference readings of the reply

    Direct, regex-free readings of what the response parser is said to
    extract; the theorems below compare them with the searches of the
    program. *)

Module Reading.

Fixpoint skip (n : nat) (s : string) : string :=
  match n, s with
  | O, _ => s
  | S n', String _ s' => skip n' s'
  | S _, EmptyString => EmptyString
  end.

(** The longest prefix whose characters all satisfy [p]. *)
Fixpoint take_while (p : ascii -> bool) (s : string) : string :=
  match s with
  | EmptyString => EmptyString
  | String c s' => if p c then String c (take_while p s') else EmptyString
  end.

(** What remains of the current line. *)
Definition line_of (s : string) : string := take_while Re.dot s.

(** The text that follows a label: white space (line breaks included) is
    skipped as far as some character of a line remains after it, and the
    rest of that line is the text. [None] when nothing but line breaks
    follows. *)
Fixpoint text_after (s : string) : option string :=
  match s with
  | EmptyString => None
  | String c s' =>
      if PyStr.isspace c then
        match text_after s' with
        | Some v => Some v
        | None => if Re.dot c then Some (line_of s) else None
        end
      else Some (line_of s)
  end.

(** The text after the first occurrence of [label] that has one. *)
Fixpoint labelled (label : string) (reply : string) : option string :=
  match (if PyStr.startswith label reply
         then text_after (skip (String.length label) reply) else None) with
  | Some v => Some v
  | None =>
      match reply with
      | EmptyString => None
      | String _ reply' => labelled label reply'
      end
  end.

(** The digits after a label, white space skipped; [None] when no digit
    follows. *)
Definition digits_after (s : string) : option string :=
  match take_while PyStr.isdigit (PyStr.lstrip s) with
  | EmptyString => None
  | ds => Some ds
  end.

(** The digits of the first "Duration:" label that has some. *)
Fixpoint duration_digits (reply : string) : option string :=
  match (if PyStr.startswith "Duration:" reply
         then digits_after (skip 9 reply) else None) with
  | Some ds => Some ds
  | None =>
      match reply with
      | EmptyString => None
      | String _ reply' => duration_digits reply'
      end
  end.

(** The first integer that follows a "Duration:" label, 60 when there is
    none. *)
Definition duration (reply : string) : Z :=
  match duration_digits reply with
  | Some ds => PyStr.int_acc 0 ds
  | None => 60
  end.

(** [label] does not start anywhere inside [pre] when [pre ++ rest] is
    read from the left. *)
Fixpoint absent_before (label pre rest : string) : bool :=
  match pre with
  | EmptyString => true
  | String _ pre' =>
      negb (PyStr.startswith label (pre ++ rest)) && absent_before label pre' rest
  end.

(** The number of hyphens in a text. *)
Fixpoint hyphens (s : string) : nat :=
  match s with
  | EmptyString => O
  | String c s' => (if Ascii.eqb c "-" then 1 else 0) + hyphens s'
  end.

(** [d] moved to the year [y]. *)
Definition with_year (d : Datetime.datetime) (y : Z) : Datetime.datetime :=
  Datetime.mkdt y (Datetime.month d) (Datetime.day d) (Datetime.hour d)
    (Datetime.minute d) (Datetime.second d) (Datetime.microsecond d).

(** The year of a date given without one: the current year, or the next
    one when that day of the current year is before today. *)
Definition inferred_year (now d : Datetime.datetime) : Z :=
  if Datetime.date_ltb (Datetime.year now, Datetime.month d, Datetime.day d)
                       (Datetime.date_of now)
  then Datetime.year now + 1 else Datetime.year now.

(** The same, when "before" compares the midnight of that day with the
    current instant. *)
Definition inferred_year_by_instant (now d : Datetime.datetime) : Z :=
  if Datetime.ltb (with_year d (Datetime.year now)) now
  then Datetime.year now + 1 else Datetime.year now.

(** [month_day] inverts the day-of-year count and yields a day of the
    month it names. *)
Definition month_day_ok (leapyear : bool) (n : Z) : bool :=
  let '(m, d) := Datetime.month_day leapyear n in
  (Datetime.DAYS_BEFORE_MONTH m + (if (2 <? m) && leapyear then 1 else 0) + d =? n + 1)
  && (1 <=? m) && (m <=? 12) && (1 <=? d)
  && (d <=? (if (m =? 2) && leapyear then 29 else Datetime.DAYS_IN_MONTH m)).

(** [f] holds on the [n] integers from [lo] on. *)
Fixpoint all_from (f : Z -> bool) (lo : Z) (n : nat) : bool :=
  match n with
  | O => true
  | S n' => f lo && all_from f (lo + 1) n'
  end.

(** A microsecond count whose day ordinal a [datetime] can hold. *)
Definition representable (t : Z) : Prop :=
  Datetime.US_PER_DAY <= t < (Datetime.MAXORDINAL + 1) * Datetime.US_PER_DAY.

(** *** ISO 8601

    A reader of the extended format [YYYY-MM-DDThh:mm:ss[.ffffff]+hh:mm]
    (or [-hh:mm]) of a date and time with its offset from UTC, written
    from the format and not from [isoformat]: the instant that a text
    names, when it names one. *)

Definition obind {A B : Type} (o : option A) (k : A -> option B) : option B :=
  match o with
  | Some a => k a
  | None => None
  end.

Notation "'let?' x ':=' o 'in' k" := (obind o (fun x => k))
  (at level 10, x pattern, o at level 100, k at level 200).

(** The number written by the next [n] characters, which must be decimal
    digits, and the text after them. *)
Fixpoint read_digits (n : nat) (acc : Z) (s : string) : option (Z * string) :=
  match n with
  | O => Some (acc, s)
  | S n' =>
      match s with
      | String c s' =>
          if PyStr.isdigit c then read_digits n' (10 * acc + PyStr.digit_val c) s'
          else None
      | EmptyString => None
      end
  end.

(** The text after the character [c], which must come next. *)
Definition expect (c : ascii) (s : string) : option string :=
  match s with
  | String a s' => if Ascii.eqb a c then Some s' else None
  | EmptyString => None
  end.

(** The fraction of a second, in microseconds, when one is written. *)
Definition read_fraction (s : string) : option (Z * string) :=
  match s with
  | String "." s' => read_digits 6 0 s'
  | _ => Some (0, s)
  end.

Definition read_sign (s : string) : option (Z * string) :=
  match s with
  | String "+" s' => Some (1, s')
  | String "-" s' => Some (-1, s')
  | _ => None
  end.

Definition iso8601 (s : string) : option Datetime.aware :=
  let? (y, s) := read_digits 4 0 s in
  let? s := expect "-" s in
  let? (m, s) := read_digits 2 0 s in
  let? s := expect "-" s in
  let? (d, s) := read_digits 2 0 s in
  let? s := expect "T" s in
  let? (hh, s) := read_digits 2 0 s in
  let? s := expect ":" s in
  let? (mm, s) := read_digits 2 0 s in
  let? s := expect ":" s in
  let? (ss, s) := read_digits 2 0 s in
  let? (us, s) := read_fraction s in
  let? (sign, s) := read_sign s in
  let? (oh, s) := read_digits 2 0 s in
  let? s := expect ":" s in
  let? (om, s) := read_digits 2 0 s in
  match s, Datetime.new y m d hh mm ss us with
  | EmptyString, Ok dt =>
      if (oh <=? 23) && (om <=? 59)
      then Some (Datetime.mkaware dt (sign * (oh * 3600 + om * 60)))
      else None
  | _, _ => None
  end.

End Reading.

(** ** A concrete world, for running the model *)

Module Demo.

Import Datetime.

Definition creds : Credentials := mkcreds true false None "{}".

(** Tuesday 3 November 2026, 10:00 local time, five and a half hours east
    of UTC; the model answers [reply]; a valid token is on disk and the
    calendar accepts the event. *)
Definition world (reply : string) : World :=
  mkworld (mkdt 2026 11 3 10 0 0 500) 19800 (mkdt 2026 11 3 10 0 1 0)
    "Tuesday, 03 November 2026 10:00 AM IST+0530"
    (fun _ => Ok reply) true (Ok creds) (Ok tt) (fun _ => Ok tt)
    (fun c => Ok c) (Ok tt) (Ok creds)
    (fun c => Ok (CalendarV3 c))
    (fun _ _ => Ok (PDict [("id", PStr "evt1"); ("htmlLink", PStr "https://calendar.example/evt1")])).

Definition lines (ls : list string) : string := String.concat nl ls.

Definition reply_tomorrow : string :=
  lines ["Task: Meeting with John";
         "Deadline: Wednesday, 04 November 2026 at 5:00 PM";
         "Duration: 30";
         "Priority: High";
         "";
         "Scheduled Slot:";
         " - Date: Wednesday, 04 November 2026";
         " - Time: 3:00 PM - 3:30 PM";
         " - Reason: first free slot"].

Definition reply_earlier_today : string :=
  lines ["Task: Standup";
         "Duration: 45";
         " - Date: Tuesday, 03 November 2026";
         " - Time: 9:00 AM - 9:30 AM"].

Definition reply_yesterday : string :=
  lines ["Task: Standup";
         "Duration: 45";
         " - Date: Monday, 02 November 2026";
         " - Time: 9:00 AM - 9:30 AM"].

(** The same world, but the calendar service rejects the insert. *)
Definition world_rejecting (reply : string) : World :=
  let w := world reply in
  mkworld (clock_now w) (clock_local_tz w) (clock_now_local w) (clock_stamp w)
    (llm_invoke w) (token_exists w) (token_load w) (token_remove w) (token_write w)
    (creds_refresh w)
    (flow_from_secrets w) (flow_run_local_server w) (service_build w)
    (fun _ _ =>
       Raise (HttpError 403 "Forbidden"
                ("<HttpError 403 when requesting " ++
                 "https://www.googleapis.com/calendar/v3/calendars/primary/events?alt=json" ++
                 " returned " ++ dq ++ "Forbidden" ++ dq ++ ">"))).

Definition reply_reversed : string :=
  lines ["Task: Review";
         "Duration: 30";
         " - Date: Wednesday, 04 November 2026";
         " - Time: 3:00 PM - 2:00 PM"].

(** The Task label closes the reply, with nothing after it. *)
Definition reply_task_last : string :=
  lines ["Date: Friday, 28 May 2027"; "Time: 3:00 PM - 3:30 PM"; "Task:"].

(** The Task and Priority labels are left blank. *)
Definition reply_blank_labels : string :=
  lines ["Task:"; "Priority:"; ""; "Scheduled Slot:";
         " - Date: Friday, 28 May 2027"; " - Time: 3:00 PM - 3:30 PM"].

(** The Priority label closes the reply. *)
Definition reply_priority_last : string :=
  lines ["Task: Review"; "Date: Friday, 28 May 2027"; "Time: 3:00 PM - 3:30 PM";
         "Duration: about 45"; "Priority:"].

(** A state that holds [reply] as the model's output and nothing else. *)
Definition state_with_output (reply : string) : LangGraph.SchedulerState :=
  LangGraph.set_output (LangGraph.initial_state "Meet John") (Some reply).

Definition reply_no_hyphen : string :=
  lines ["Task: Call"; "Date: Wednesday, 04 November 2026"; "Time: 3 PM"].

(** The state of the workflow after process_ai and parse_response. *)
Definition extracted_state (reply : string) : LangGraph.SchedulerState :=
  fst (LangGraph.parse_ai_response
         (fst (LangGraph.process_ai_request (world reply)
                 (LangGraph.initial_state "Meet John")))).

Definition slot_start : aware := mkaware (mkdt 2026 11 4 9 30 0 0) 0.
Definition slot_end : aware := mkaware (mkdt 2026 11 4 10 0 0 0) 0.

(** The state of the run on [reply_tomorrow] when it reaches create_event. *)
Definition resolved_state : LangGraph.SchedulerState :=
  LangGraph.mkstate "Meet John" (Some reply_tomorrow) (Some "Meeting with John")
    (Some "Wednesday, 04 November 2026") (Some "3:00 PM - 3:30 PM") (Some 30)
    (Some slot_start) (Some slot_end) (Some (CalendarV3 creds)) None None None
    (Some "High").

Definition failed_state : LangGraph.SchedulerState :=
  LangGraph.set_error (LangGraph.initial_state "Meet John") (Some "Error getting AI response: timeout").

End Demo.

(** ** The calls of a run *)

Module Trace.

Definition is_llm (e : effect) : bool :=
  match e with LlmInvoke _ => true | _ => false end.

Definition is_insert (e : effect) : bool :=
  match e with EventsInsert _ _ => true | _ => false end.

(** A call that touches the stored token, the login flow or the service
    factory. *)
Definition is_auth (e : effect) : bool :=
  match e with
  | TokenLoad | TokenRemove | CredsRefresh | FlowRunLocalServer
  | TokenWrite _ | ServiceBuild => true
  | _ => false
  end.

(** A Streamlit call. *)
Definition is_ui (e : effect) : bool :=
  match e with StError _ | StWarning _ | StRender => true | _ => false end.

Definition count (p : effect -> bool) (effs : list effect) : nat :=
  List.length (filter p effs).

(** The calls a stage may make besides the Streamlit ones. *)
Definition own_call (n : LangGraph.node) (e : effect) : bool :=
  match n with
  | LangGraph.process_ai => is_llm e
  | LangGraph.authenticate => is_auth e
  | LangGraph.schedule => is_insert e
  | _ => false
  end.

(** The six stages, in the order of the "continue" edges. *)
Definition stages : list LangGraph.node :=
  [LangGraph.process_ai; LangGraph.parse_response; LangGraph.parse_datetime_node;
   LangGraph.authenticate; LangGraph.create_event_node; LangGraph.schedule].

(** The state that the nodes [ns] return, each one run on the state that
    the one before it returned. *)
Fixpoint state_through (w : World) (ns : list LangGraph.node)
    (st : LangGraph.SchedulerState) : LangGraph.SchedulerState :=
  match ns with
  | [] => st
  | n :: ns' => state_through w ns' (fst (LangGraph.node_action w n st))
  end.

(** The state after the first [k] stages. *)
Definition state_after (w : World) (k : nat) (st : LangGraph.SchedulerState)
    : LangGraph.SchedulerState :=
  state_through w (firstn k stages) st.

End Trace.

(** ** Times of day

    The 1440 times that the format "%I:%M %p" can write, for checking
    exhaustively that [strptime] reads them back. *)

Module Clock.

Import Datetime.

(** The time [n] minutes after midnight, on the day that [strptime]
    assumes when the format names none. *)
Definition at_minute (n : Z) : datetime := mkdt 1900 1 1 (n / 60) (n mod 60) 0 0.

Definition eqb (a b : datetime) : bool :=
  (year a =? year b) && (month a =? month b) && (day a =? day b) &&
  (hour a =? hour b) && (minute a =? minute b) && (second a =? second b) &&
  (microsecond a =? microsecond b).

Definition reads_back (n : Z) : bool :=
  match Strptime.strptime (Fmt.strftime (at_minute n) "%I:%M %p") "%I:%M %p" with
  | Ok t => eqb t (at_minute n)
  | Raise _ => false
  end.

End Clock.

(** ** The page of the workflow script (lines 558 to 593) *)

Module Page.

Import LangGraph.

(** Truth value of a Python value. *)
Definition truthy (v : pyval) : bool :=
  match v with
  | PNone => false
  | PBool b => b
  | PInt n => negb (n =? 0)
  | PStr s => negb (String.eqb s EmptyString)
  | PList l => match l with [] => false | _ :: _ => true end
  | PDict d => match d with [] => false | _ :: _ => true end
  end.

Definition blank_msg : string :=
  "⚠️ Please enter the appointment details before scheduling.".

Definition no_status_msg : string :=
  "Scheduling process completed, but final status not explicitly displayed. Check sections above for details.".

Inductive outcome : Type :=
| Stopped                                   (* st.stop() *)
| Finished (final_state : SchedulerState).

(** What follows [workflow_app.invoke]: the closing warning, or nothing. *)
Definition closing (final_state : SchedulerState) : list effect :=
  if has_error final_state then []
  else if match created_event final_state with
          | Some v => truthy v
          | None => false
          end then []
  else [StWarning no_status_msg].

(** The body of [if schedule_button:]; [None] when the workflow used up
    its step budget. *)
Definition main (w : World) (sentence : string) : option (list effect * outcome) :=
  if String.eqb (PyStr.strip sentence) EmptyString then
    Some ([StWarning blank_msg], Stopped)
  else
    match invoke w (initial_state sentence) with
    | None => None
    | Some r =>
        Some (([StRender] ++ effects r ++ closing (final_state r))%list,
              Finished (final_state r))
    end.

End Page.

(** ** The shape of a text

    What can be told of a match from the pattern alone, and the features
    of a text that tell the seven date formats apart. *)

Module Shape.

(** An ASCII letter. *)
Definition is_alpha (c : ascii) : bool := PyStr.in_range "a" "z" (PyStr.to_lower c).

(** [c] occurs in the literal [l], the letter case aside when [ic]. *)
Fixpoint lit_has (ic : bool) (l : string) (c : ascii) : bool :=
  match l with
  | EmptyString => false
  | String a l' => Re.chr_eqb ic a c || lit_has ic l' c
  end.

(** The characters that a match of [r] can hold. *)
Fixpoint may_hold (ic : bool) (r : Re.regex) (c : ascii) : bool :=
  match r with
  | Re.Lit l => lit_has ic l c
  | Re.Cls cs | Re.Star cs | Re.Plus cs => Re.mem cs c
  | Re.Seq r1 r2 | Re.Alt r1 r2 => may_hold ic r1 c || may_hold ic r2 c
  | Re.Group _ r' => may_hold ic r' c
  end.

(** The least length of a match of [r]. *)
Fixpoint min_len (r : Re.regex) : nat :=
  match r with
  | Re.Lit l => String.length l
  | Re.Cls _ | Re.Plus _ => 1
  | Re.Star _ => 0
  | Re.Seq r1 r2 => min_len r1 + min_len r2
  | Re.Alt r1 r2 => Nat.min (min_len r1) (min_len r2)
  | Re.Group _ r' => min_len r'
  end.

(** The greatest length of a match of [r]; [None] when there is none. *)
Fixpoint max_len (r : Re.regex) : option nat :=
  match r with
  | Re.Lit l => Some (String.length l)
  | Re.Cls _ => Some 1%nat
  | Re.Star _ | Re.Plus _ => None
  | Re.Seq r1 r2 =>
      match max_len r1, max_len r2 with
      | Some a, Some b => Some (a + b)%nat
      | _, _ => None
      end
  | Re.Alt r1 r2 =>
      match max_len r1, max_len r2 with
      | Some a, Some b => Some (Nat.max a b)
      | _, _ => None
      end
  | Re.Group _ r' => max_len r'
  end.

Definition starts_alpha (s : string) : bool :=
  match s with
  | String c _ => is_alpha c
  | EmptyString => false
  end.

(** The first character that is not a letter. *)
Fixpoint first_other (s : string) : option ascii :=
  match s with
  | EmptyString => None
  | String c s' => if is_alpha c then first_other s' else Some c
  end.

Fixpoint last_char (s : string) : option ascii :=
  match s with
  | EmptyString => None
  | String c EmptyString => Some c
  | String _ s' => last_char s'
  end.

(** Some character of [s] satisfies [p]. *)
Fixpoint has (p : ascii -> bool) (s : string) : bool :=
  match s with
  | EmptyString => false
  | String c s' => p c || has p s'
  end.

(** The number of characters before the first [c]; the length when there
    is no [c]. *)
Fixpoint before (c : ascii) (s : string) : nat :=
  match s with
  | EmptyString => O
  | String a s' => if Ascii.eqb a c then O else S (before c s')
  end.

(** The one date format that a text of this shape can match. *)
Definition format_of (s : string) : string :=
  if starts_alpha s then
    match first_other s with
    | Some ","%char =>
        match last_char s with
        | Some c => if PyStr.isdigit c then "%A, %d %B %Y" else "%A, %d %B"
        | None => "%A, %d %B"
        end
    | _ => "%B %d, %Y"
    end
  else if has is_alpha s then "%d %B %Y"
  else if has (Ascii.eqb "/") s then "%m/%d/%Y"
  else if Nat.eqb (before "-" s) 4 then "%Y-%m-%d"
  else "%d-%m-%Y".

End Shape.

(** ** More concrete worlds and replies *)

Module Cases.

(** The times of the range are given without minutes. *)
Definition reply_no_minutes : string :=
  Demo.lines ["Task: Call"; "Date: Wednesday, 04 November 2026"; "Time: 3 PM - 4 PM"].

(** A start of today that is past, with a duration of more than eleven
    thousand years. *)
Definition reply_long_today : string :=
  Demo.lines ["Task: Standup";
              "Duration: 6000000000";
              " - Date: Tuesday, 03 November 2026";
              " - Time: 9:00 AM - 9:30 AM"].

(** The same, with durations of a thousand million days and of a million
    times that. *)
Definition reply_days_today : string :=
  Demo.lines ["Task: Standup";
              "Duration: 1440000000000";
              " - Date: Tuesday, 03 November 2026";
              " - Time: 9:00 AM - 9:30 AM"].

Definition reply_huge_today : string :=
  Demo.lines ["Task: Standup";
              "Duration: 1440000000000000";
              " - Date: Tuesday, 03 November 2026";
              " - Time: 9:00 AM - 9:30 AM"].

(** Three times and two hyphens. *)
Definition reply_two_hyphens : string :=
  Demo.lines ["Task: Call"; "Date: Wednesday, 04 November 2026";
              "Time: 3:00 PM - 4:00 PM - 5:00 PM"].

(** [n] times the digit 1. *)
Fixpoint ones (n : nat) : string :=
  match n with
  | O => EmptyString
  | S n' => String "1" (ones n')
  end.

(** A duration of 4301 digits. *)
Definition reply_long_duration : string :=
  Demo.lines ["Task: Call"; "Date: Wednesday, 04 November 2026";
              "Time: 3:00 PM - 4:00 PM"; "Duration: " ++ ones 4301].

(** The first time of the range is written with a single quote. *)
Definition reply_oclock : string :=
  Demo.lines ["Task: Call"; "Date: Wednesday, 04 November 2026";
              "Time: 3 o'clock - 4 PM"].

Definition stale : Credentials := mkcreds false true (Some "1//refresh") "{stale}".

Definition fresh : Credentials := mkcreds true false (Some "1//refresh") "{fresh}".

(** The world of [Demo.world], with an expired token on disk; [refresh] is
    the answer to the refresh request. *)
Definition world_expired (reply : string) (refresh : result Credentials) : World :=
  let w := Demo.world reply in
  mkworld (clock_now w) (clock_local_tz w) (clock_now_local w) (clock_stamp w)
    (llm_invoke w) true (Ok stale) (token_remove w) (token_write w) (fun _ => refresh)
    (flow_from_secrets w) (flow_run_local_server w) (service_build w)
    (events_insert w).

(** The world of [world_expired] with a refresh that succeeds, but the
    token file cannot be written. *)
Definition world_read_only (reply : string) : World :=
  let w := world_expired reply (Ok fresh) in
  mkworld (clock_now w) (clock_local_tz w) (clock_now_local w) (clock_stamp w)
    (llm_invoke w) (token_exists w) (token_load w) (token_remove w)
    (fun _ => Raise (RuntimeError "[Errno 13] Permission denied: 'token.json'"))
    (creds_refresh w) (flow_from_secrets w) (flow_run_local_server w) (service_build w)
    (events_insert w).

(** The world of [Demo.world], but the model call fails. *)
Definition world_offline : World :=
  let w := Demo.world "" in
  mkworld (clock_now w) (clock_local_tz w) (clock_now_local w) (clock_stamp w)
    (fun _ => Raise (RuntimeError "503 Service Unavailable"))
    (token_exists w) (token_load w) (token_remove w) (token_write w) (creds_refresh w)
    (flow_from_secrets w) (flow_run_local_server w) (service_build w)
    (events_insert w).

End Cases.

(** ** The shifted slot

    The computation that both scripts make for a start that is past: now + 5
    minutes, that plus the duration, both converted to UTC (lines 207 to 222
    of the workflow script, 99 to 106 of the single-pass one). *)

Definition shifted_slot (now : Datetime.datetime) (tz n : Z)
    : result (Datetime.aware * Datetime.aware) :=
  let* se :=
    (let* five := Datetime.minutes 5 in
     let* start' := Datetime.add now five in
     let* d := Datetime.minutes n in
     let* end' := Datetime.add start' d in
     Ok (start', end')) in
  LangGraph.to_utc tz se.

(** * Properties of the pipeline *)

Import Datetime LangGraph Reading.

(** ** Short-circuit on error (C2) *)

Lemma stage_noop_on_error (w : World) (st : SchedulerState) (n : node) :
  has_error st = true -> n <> process_ai -> n <> error_handler ->
  node_action w n st = (st, []).
Proof.
  intros He Hp Hh.
  destruct n; simpl; try congruence;
    unfold parse_ai_response, parse_datetime, authenticate_google,
           create_event, schedule_event; rewrite He; reflexivity.
Qed.

Lemma next_on_error (st : SchedulerState) (n : node) :
  has_error st = true -> n <> schedule -> n <> error_handler ->
  next n st = To error_handler.
Proof.
  intros He Hs Hh.
  destruct n; try congruence;
    unfold next, edge_of, should_continue; rewrite He; reflexivity.
Qed.

Lemma handler_run (w : World) (st : SchedulerState) (fuel : nat) :
  run_from (S fuel) w error_handler st
  = Some (mkrun st (snd (handle_error st)) [error_handler]).
Proof.
  simpl. unfold handle_error. destruct (has_error st); reflexivity.
Qed.

(** C2, as the graph has it. In a state that carries a non-empty error,
    parse_response, parse_datetime, authenticate, create_event and schedule
    return the state as it is and do nothing else, so the title, the start
    and the end stay and the calendar insert is not called; the edge out of
    process_ai, parse_response, parse_datetime, authenticate and
    create_event then leads to the error handler, after which the run ends
    with the state still unchanged. The edge out of schedule leads to END,
    not to the error handler. *)
Theorem error_short_circuits (w : World) (st : SchedulerState) :
  has_error st = true ->
  (forall n, In n [parse_response; parse_datetime_node; authenticate;
                   create_event_node; schedule] ->
             node_action w n st = (st, [])) /\
  should_continue st = "error" /\
  (forall n, In n [process_ai; parse_response; parse_datetime_node;
                   authenticate; create_event_node] ->
             next n st = To error_handler) /\
  next schedule st = END /\
  (forall n, In n [parse_response; parse_datetime_node; authenticate;
                   create_event_node] ->
     exists effs,
       run_from 7 w n st = Some (mkrun st effs [n; error_handler]) /\
       forall c b, ~ In (EventsInsert c b) effs).
Proof.
  intros He. repeat split.
  - intros n Hn. apply stage_noop_on_error; trivial;
      simpl in Hn; intuition (subst; discriminate).
  - unfold should_continue. rewrite He. reflexivity.
  - intros n Hn. apply next_on_error; trivial;
      simpl in Hn; intuition (subst; discriminate).
  - intros n Hn.
    assert (Ha : node_action w n st = (st, [])).
    { apply stage_noop_on_error; trivial; simpl in Hn; intuition (subst; discriminate). }
    assert (Hx : next n st = To error_handler).
    { apply next_on_error; trivial; simpl in Hn; intuition (subst; discriminate). }
    exists (snd (handle_error st)). split.
    + change (run_from 7 w n st) with
        (let (state', effs) := node_action w n st in
         match next n state' with
         | END => Some (mkrun state' effs [n])
         | To n' =>
             match run_from 6 w n' state' with
             | Some r => Some (mkrun (final_state r) (effs ++ effects r)%list
                                     (n :: visited r))
             | None => None
             end
         end).
      rewrite Ha, Hx, handler_run. reflexivity.
    + unfold handle_error. rewrite He. simpl. intros c b [H | [H | []]]; discriminate.
Qed.

Lemma error_short_circuits_witness :
  (forall n, In n [parse_response; parse_datetime_node; authenticate;
                   create_event_node; schedule] ->
             node_action (Demo.world "") n Demo.failed_state = (Demo.failed_state, [])) /\
  should_continue Demo.failed_state = "error" /\
  (forall n, In n [process_ai; parse_response; parse_datetime_node;
                   authenticate; create_event_node] ->
             next n Demo.failed_state = To error_handler) /\
  next schedule Demo.failed_state = END /\
  (forall n, In n [parse_response; parse_datetime_node; authenticate;
                   create_event_node] ->
     exists effs,
       run_from 7 (Demo.world "") n Demo.failed_state
       = Some (mkrun Demo.failed_state effs [n; error_handler]) /\
       forall c b, ~ In (EventsInsert c b) effs).
Proof.
  apply (error_short_circuits (Demo.world "") Demo.failed_state).
  reflexivity.
Defined.

(** Against C2 as stated: with an error set, the transition out of
    schedule is END; and when the calendar rejects the insert, the run ends
    at schedule with the error set and never enters the error handler. *)
Lemma schedule_error_skips_handler :
  has_error Demo.failed_state = true /\
  next schedule Demo.failed_state <> To error_handler /\
  exists r,
    invoke (Demo.world_rejecting Demo.reply_tomorrow) (initial_state "Meet John") = Some r /\
    has_error (final_state r) = true /\
    visited r = [process_ai; parse_response; parse_datetime_node; authenticate;
                 create_event_node; schedule] /\
    ~ In error_handler (visited r).
Proof.
  split; [reflexivity |]. split; [discriminate |].
  eexists. split; [vm_compute; reflexivity |].
  split; [reflexivity |]. split; [reflexivity |].
  simpl. intuition discriminate.
Qed.

(** ** The event payload (C9) *)

(** ** Exceptions of the date and time constructors *)

Ltac case_bind H :=
  match type of H with
  | bind ?r _ = _ => let E := fresh "E" in destruct r eqn:E; simpl in H
  end.

Lemma int_raises (s : string) (e : exn) :
  PyStr.int s = Raise e -> is_ValueError e = true.
Proof.
  unfold PyStr.int. destruct (PyStr.strip s).
  - intros H; inversion H; reflexivity.
  - destruct (PyStr.all_chars PyStr.isdigit _); [destruct (_ <? _) |];
      intros H; inversion H; reflexivity.
Qed.

Lemma index_of_raises (x : string) (names : list string) (e : exn) :
  Strptime.index_of x names = Raise e -> is_ValueError e = true.
Proof.
  induction names as [| n names IH]; simpl.
  - intros H; inversion H; reflexivity.
  - destruct (String.eqb n x); [discriminate |].
    destruct (Strptime.index_of x names); simpl; [discriminate |].
    intros H; inversion H; subst. apply IH. reflexivity.
Qed.

Lemma check_date_fields_raises (y m d : Z) (e : exn) :
  check_date_fields y m d = Raise e -> is_ValueError e = true.
Proof.
  unfold check_date_fields.
  repeat match goal with |- context [if ?c then _ else _] => destruct c end;
    intros H; inversion H; reflexivity.
Qed.

Lemma check_time_fields_raises (hh mm ss us : Z) (e : exn) :
  check_time_fields hh mm ss us = Raise e -> is_ValueError e = true.
Proof.
  unfold check_time_fields.
  repeat match goal with |- context [if ?c then _ else _] => destruct c end;
    intros H; inversion H; reflexivity.
Qed.

Lemma new_raises (y m d hh mm ss us : Z) (e : exn) :
  new y m d hh mm ss us = Raise e -> is_ValueError e = true.
Proof.
  unfold new. intros H.
  case_bind H; [| inversion H; subst; eauto using check_date_fields_raises].
  case_bind H; [discriminate | inversion H; subst; eauto using check_time_fields_raises].
Qed.

Lemma new_date_raises (y m d : Z) (e : exn) :
  new_date y m d = Raise e -> is_ValueError e = true.
Proof.
  unfold new_date. intros H.
  case_bind H; [discriminate | inversion H; subst; eauto using check_date_fields_raises].
Qed.

Lemma convert_key_raises (found : Re.groups) (f : Strptime.fields) (key : string) (e : exn) :
  Strptime.convert_key found f key = Raise e -> is_ValueError e = true.
Proof.
  unfold Strptime.convert_key. intros H.
  repeat match type of H with
         | (if ?c then _ else _) = _ => destruct c
         end;
    try discriminate;
    case_bind H; try discriminate; inversion H; subst;
    eauto using int_raises, index_of_raises.
Qed.

Lemma convert_keys_raises (found : Re.groups) (keys : list string)
    (f : Strptime.fields) (e : exn) :
  Strptime.convert_keys found keys f = Raise e -> is_ValueError e = true.
Proof.
  revert f. induction keys as [| k keys IH]; simpl; intros f H.
  - discriminate.
  - case_bind H; [eauto |]. inversion H; subst. eauto using convert_key_raises.
Qed.

Lemma _strptime_raises (s fmt : string) (e : exn) :
  Strptime._strptime s fmt = Raise e -> is_ValueError e = true.
Proof.
  unfold Strptime._strptime. intros H.
  destruct (Strptime.pattern fmt); [| inversion H; reflexivity].
  destruct (Re.match_ true r s); [| inversion H; reflexivity].
  destruct (negb _); [inversion H; reflexivity |].
  case_bind H; [| inversion H; subst; eauto using convert_keys_raises].
  case_bind H; [| inversion H; subst; eauto using new_date_raises].
  case_bind H; [discriminate | inversion H; subst; eauto using new_date_raises].
Qed.

(** [strptime] fails with a [ValueError] only. *)
Lemma strptime_raises (s fmt : string) (e : exn) :
  Strptime.strptime s fmt = Raise e -> is_ValueError e = true.
Proof.
  unfold Strptime.strptime. intros H.
  case_bind H; [eauto using new_raises |].
  inversion H; subst. eauto using _strptime_raises.
Qed.

Lemma is_ValueError_inv (e : exn) :
  is_ValueError e = true -> exists msg, e = ValueError msg.
Proof. destruct e; try discriminate. eauto. Qed.

(** ** Well-formed datetimes *)

Lemma new_ok_inv (y m d hh mm ss us : Z) (dt : datetime) :
  new y m d hh mm ss us = Ok dt ->
  dt = mkdt y m d hh mm ss us /\
  check_date_fields y m d = Ok tt /\ check_time_fields hh mm ss us = Ok tt.
Proof.
  unfold new. intros H.
  case_bind H; [| discriminate]. destruct a.
  case_bind H; [| discriminate]. destruct a.
  inversion H. auto.
Qed.

Lemma new_wf (y m d hh mm ss us : Z) (dt : datetime) :
  new y m d hh mm ss us = Ok dt -> wf dt.
Proof.
  intros H. destruct (new_ok_inv _ _ _ _ _ _ _ _ H) as [-> _].
  unfold wf. simpl. exact H.
Qed.

Lemma check_date_fields_ok (y m d : Z) :
  check_date_fields y m d = Ok tt <->
  MINYEAR <= y <= MAXYEAR /\ 1 <= m <= 12 /\ 1 <= d <= days_in_month y m.
Proof.
  unfold check_date_fields.
  destruct (MINYEAR <=? y) eqn:E1, (y <=? MAXYEAR) eqn:E2; simpl;
  destruct (1 <=? m) eqn:E3, (m <=? 12) eqn:E4; simpl;
  destruct (1 <=? d) eqn:E5, (d <=? days_in_month y m) eqn:E6; simpl;
  split; intros H; try discriminate; try reflexivity; lia.
Qed.

Lemma check_time_fields_ok (hh mm ss us : Z) :
  check_time_fields hh mm ss us = Ok tt <->
  0 <= hh <= 23 /\ 0 <= mm <= 59 /\ 0 <= ss <= 59 /\ 0 <= us <= 999999.
Proof.
  unfold check_time_fields.
  destruct (0 <=? hh) eqn:E1, (hh <=? 23) eqn:E2; simpl;
  destruct (0 <=? mm) eqn:E3, (mm <=? 59) eqn:E4; simpl;
  destruct (0 <=? ss) eqn:E5, (ss <=? 59) eqn:E6; simpl;
  destruct (0 <=? us) eqn:E7, (us <=? 999999) eqn:E8; simpl;
  split; intros H; try discriminate; try reflexivity; lia.
Qed.

Lemma wf_iff (dt : datetime) :
  wf dt <->
  (MINYEAR <= year dt <= MAXYEAR /\ 1 <= month dt <= 12 /\
   1 <= day dt <= days_in_month (year dt) (month dt)) /\
  (0 <= hour dt <= 23 /\ 0 <= minute dt <= 59 /\ 0 <= second dt <= 59 /\
   0 <= microsecond dt <= 999999).
Proof.
  unfold wf. split.
  - intros H. apply new_ok_inv in H. destruct H as (_ & Hd & Ht).
    split; [apply check_date_fields_ok | apply check_time_fields_ok]; assumption.
  - intros [Hd Ht]. apply check_date_fields_ok in Hd. apply check_time_fields_ok in Ht.
    unfold new. rewrite Hd, Ht. destruct dt; reflexivity.
Qed.

Lemma strptime_wf (s fmt : string) (dt : datetime) :
  Strptime.strptime s fmt = Ok dt -> wf dt.
Proof.
  unfold Strptime.strptime. intros H. case_bind H; [| discriminate].
  eauto using new_wf.
Qed.

(** ** Groups of a match *)

Lemma names_eqb_eq (a b : list string) : Re.names_eqb a b = true -> a = b.
Proof.
  revert b. induction a as [| x a IH]; destruct b as [| y b]; simpl;
    try discriminate; trivial.
  intros H. apply andb_true_iff in H. destruct H as [H1 H2].
  apply String.eqb_eq in H1. subst. f_equal. auto.
Qed.

Lemma run_keys (ic : bool) (r : Re.regex) :
  Re.uniform r = true ->
  forall s h, In h (Re.run ic r s) -> map fst (Re.caps h) = Re.keys r.
Proof.
  induction r as [l | p | p | p | r1 IH1 r2 IH2 | r1 IH1 r2 IH2 | name r IH];
    simpl; intros Hu s h Hin.
  - destruct (Re.lit_match ic l s); simpl in Hin; [| contradiction].
    destruct Hin as [<- | []]. reflexivity.
  - destruct s as [| c s]; [contradiction |].
    destruct (Re.mem p c); simpl in Hin; [| contradiction].
    destruct Hin as [<- | []]. reflexivity.
  - apply in_map_iff in Hin. destruct Hin as (mr & <- & _). reflexivity.
  - apply in_map_iff in Hin. destruct Hin as (mr & <- & _). reflexivity.
  - apply andb_true_iff in Hu. destruct Hu as [Hu1 Hu2].
    apply in_flat_map in Hin. destruct Hin as (h1 & Hh1 & Hin).
    apply in_map_iff in Hin. destruct Hin as (h2 & <- & Hh2). simpl.
    rewrite map_app. f_equal; eauto.
  - apply andb_true_iff in Hu. destruct Hu as [Hu Hk].
    apply andb_true_iff in Hu. destruct Hu as [Hu1 Hu2].
    apply names_eqb_eq in Hk.
    apply in_app_or in Hin. destruct Hin as [Hin | Hin]; [eauto |].
    rewrite Hk. eauto.
  - apply in_map_iff in Hin. destruct Hin as (h' & <- & Hh'). simpl.
    f_equal. eauto.
Qed.

Lemma match_in_run (ic : bool) (r : Re.regex) (s : string) (h : Re.hit) :
  Re.match_ ic r s = Some h -> In h (Re.run ic r s).
Proof.
  unfold Re.match_. destruct (Re.run ic r s); simpl; [discriminate |].
  intros H. inversion H. auto.
Qed.

(** ** A format without [%Y] yields the year 1900 *)

Lemma convert_key_year (found : Re.groups) (f f' : Strptime.fields) (key : string) :
  key <> "Y" -> Strptime.convert_key found f key = Ok f' ->
  Strptime.f_year f' = Strptime.f_year f.
Proof.
  intros Hk. unfold Strptime.convert_key.
  destruct (String.eqb key "Y") eqn:EY.
  { apply String.eqb_eq in EY. contradiction. }
  intros H.
  repeat match type of H with
         | (if ?c then _ else _) = _ => destruct c
         end;
    try (case_bind H; [| discriminate]); inversion H; reflexivity.
Qed.

Lemma convert_keys_year (found : Re.groups) (keys : list string) (f f' : Strptime.fields) :
  ~ In "Y" keys -> Strptime.convert_keys found keys f = Ok f' ->
  Strptime.f_year f' = Strptime.f_year f.
Proof.
  revert f. induction keys as [| k keys IH]; simpl; intros f Hn H.
  - inversion H. reflexivity.
  - case_bind H; [| discriminate].
    transitivity (Strptime.f_year a).
    + apply IH; [tauto | assumption].
    + eapply convert_key_year; [| eassumption]. intros ->. tauto.
Qed.

Lemma strptime_yearless (s fmt : string) (r : Re.regex) (dt : datetime) :
  Strptime.pattern fmt = Some r -> Re.uniform r = true -> ~ In "Y" (Re.keys r) ->
  Strptime.strptime s fmt = Ok dt -> year dt = 1900.
Proof.
  intros Hp Hu Hn. unfold Strptime.strptime, Strptime._strptime. rewrite Hp.
  destruct (Re.match_ true r s) as [found |] eqn:Em; [| discriminate].
  destruct (negb _); [discriminate |]. simpl.
  destruct (Strptime.convert_keys _ _ _) as [f |] eqn:Ec; [| discriminate]. simpl.
  assert (Hy : Strptime.f_year f = None).
  { change None with (Strptime.f_year Strptime.init_fields).
    eapply convert_keys_year; [| exact Ec].
    erewrite run_keys; eauto using match_in_run. }
  rewrite Hy.
  destruct (new_date _ _ _); [| discriminate]. simpl.
  destruct (new_date _ _ _); [| discriminate]. simpl.
  intros H. apply new_ok_inv in H. destruct H as [-> _]. simpl.
  destruct (_ && _); reflexivity.
Qed.

Lemma yearless_format_1900 (s : string) (dt : datetime) :
  Strptime.strptime s "%A, %d %B" = Ok dt -> year dt = 1900.
Proof.
  pose (r := Strptime.pattern "%A, %d %B").
  assert (Ep : exists r0, r = Some r0 /\ Re.uniform r0 = true /\ Re.keys r0 = ["A"; "d"; "B"]).
  { vm_compute. eexists. split; [reflexivity |]. split; reflexivity. }
  destruct Ep as (r0 & Ep & Hu & Hk).
  apply (strptime_yearless s _ r0); trivial.
  rewrite Hk. simpl. intuition discriminate.
Qed.

(** ** The year inference *)

Lemma days_in_month_1900 (y m : Z) : days_in_month 1900 m <= days_in_month y m.
Proof.
  unfold days_in_month. replace (is_leap 1900) with false by reflexivity.
  rewrite andb_false_r.
  destruct ((m =? 2) && is_leap y) eqn:E; [| lia].
  apply andb_true_iff in E. destruct E as [E _]. apply Z.eqb_eq in E. subst.
  simpl. lia.
Qed.

Lemma replace_year_1900 (d : datetime) (y : Z) :
  wf d -> year d = 1900 -> MINYEAR <= y <= MAXYEAR ->
  replace_year d y = Ok (Reading.with_year d y).
Proof.
  intros Hw H19 Hy. apply wf_iff in Hw. destruct Hw as [(_ & Hm & Hd) Ht].
  rewrite H19 in Hd. pose proof (days_in_month_1900 y (month d)).
  unfold replace_year, replace_ymd, new.
  replace (check_date_fields y (month d) (day d)) with (Ok tt)
    by (symmetry; apply check_date_fields_ok; lia).
  replace (check_time_fields _ _ _ _) with (Ok tt)
    by (symmetry; apply check_time_fields_ok; assumption).
  reflexivity.
Qed.

Lemma try_format_with_year (now : datetime) (s fmt : string) (d0 : datetime) :
  PyStr.contains "%Y" fmt = true ->
  Strptime.strptime s fmt = Ok d0 -> try_format now s fmt = Ok d0.
Proof. intros Hc Hs. unfold try_format. rewrite Hs. simpl. rewrite Hc. reflexivity. Qed.

Lemma try_format_without_year (now : datetime) (s fmt : string) (d0 : datetime) :
  PyStr.contains "%Y" fmt = false ->
  year d0 = 1900 -> MINYEAR <= year now < MAXYEAR ->
  Strptime.strptime s fmt = Ok d0 ->
  try_format now s fmt = Ok (Reading.with_year d0 (Reading.inferred_year now d0)).
Proof.
  intros Hc H19 Hy Hs. unfold try_format. rewrite Hs. cbn [bind]. rewrite Hc.
  cbn [negb].
  pose proof (strptime_wf _ _ _ Hs) as Hw.
  rewrite (replace_year_1900 d0 (year now)) by (trivial; unfold MINYEAR, MAXYEAR in *; lia).
  cbn [bind]. unfold Reading.inferred_year.
  change (date_of (Reading.with_year d0 (year now))) with (year now, month d0, day d0).
  destruct (date_ltb _ _); [| reflexivity].
  change (replace_year (Reading.with_year d0 (year now)) (year now + 1))
    with (replace_year d0 (year now + 1)).
  apply replace_year_1900; trivial. unfold MINYEAR, MAXYEAR in *; lia.
Qed.

Lemma try_format_raises (now : datetime) (s fmt : string) (e : exn) :
  Strptime.strptime s fmt = Raise e ->
  try_format now s fmt = Raise e /\ exists msg, e = ValueError msg.
Proof.
  intros H. split.
  - unfold try_format. rewrite H. reflexivity.
  - apply is_ValueError_inv. eauto using strptime_raises.
Qed.

(** Each entry of the list either carries the year or yields 1900. *)
Lemma formats_year (fmt : string) :
  In fmt formats ->
  PyStr.contains "%Y" fmt = true \/
  (PyStr.contains "%Y" fmt = false /\
   forall s d0, Strptime.strptime s fmt = Ok d0 -> year d0 = 1900).
Proof.
  unfold formats. simpl.
  intros [<- | [<- | [<- | [<- | [<- | [<- | [<- | []]]]]]]];
    try (left; reflexivity).
  right. split; [reflexivity |]. apply yearless_format_1900.
Qed.

Lemma try_formats_first (now : datetime) (s : string) (pre post : list string)
    (fmt : string) (d : datetime) :
  (forall f, In f pre -> exists e, Strptime.strptime s f = Raise e) ->
  try_format now s fmt = Ok d ->
  try_formats now s (pre ++ fmt :: post) = Ok (Some d).
Proof.
  intros Hpre Hok. induction pre as [| f pre IH]; simpl.
  - rewrite Hok. reflexivity.
  - destruct (Hpre f (or_introl eq_refl)) as [e He].
    destruct (try_format_raises now _ _ _ He) as [-> [msg ->]].
    apply IH. intros f' Hf'. apply Hpre. right. assumption.
Qed.

Lemma try_formats_none (now : datetime) (s : string) (fmts : list string) :
  (forall f, In f fmts -> exists e, Strptime.strptime s f = Raise e) ->
  try_formats now s fmts = Ok None.
Proof.
  induction fmts as [| f fmts IH]; simpl; intros H; [reflexivity |].
  destruct (H f (or_introl eq_refl)) as [e He].
  destruct (try_format_raises now _ _ _ He) as [-> [msg ->]].
  apply IH. intros f' Hf'. apply H. right. assumption.
Qed.


(** ** The order of the date formats (C4) *)

Lemma replace_year_inv (d d' : datetime) (y : Z) :
  replace_year d y = Ok d' -> d' = with_year d y.
Proof.
  unfold replace_year, replace_ymd. intros H.
  apply new_ok_inv in H. destruct H as [-> _]. reflexivity.
Qed.

Lemma single_pass_first_format (now : datetime) (s : string) (d0 : datetime) :
  Strptime.strptime s "%A, %d %B %Y" = Ok d0 -> LangChain.parse_date now s = Ok d0.
Proof. intros H. unfold LangChain.parse_date. rewrite H. reflexivity. Qed.

Lemma single_pass_second_format (now : datetime) (s : string) (e : exn) (d0 : datetime) :
  MINYEAR <= year now < MAXYEAR ->
  Strptime.strptime s "%A, %d %B %Y" = Raise e ->
  Strptime.strptime s "%A, %d %B" = Ok d0 ->
  LangChain.parse_date now s = Ok (with_year d0 (inferred_year_by_instant now d0)).
Proof.
  intros Hy H1 H2. unfold LangChain.parse_date. rewrite H1.
  destruct (is_ValueError_inv e (strptime_raises _ _ _ H1)) as [msg ->].
  rewrite H2. cbn [bind].
  pose proof (strptime_wf _ _ _ H2) as Hw.
  pose proof (yearless_format_1900 _ _ H2) as H19.
  rewrite (replace_year_1900 d0 (year now)) by (trivial; unfold MINYEAR, MAXYEAR in *; lia).
  cbn [bind]. unfold inferred_year_by_instant.
  destruct (ltb _ _); [| reflexivity].
  change (replace_year (with_year d0 (year now)) (year now + 1))
    with (replace_year d0 (year now + 1)).
  apply replace_year_1900; trivial. unfold MINYEAR, MAXYEAR in *; lia.
Qed.

Lemma single_pass_no_format (now : datetime) (s : string) (e1 e2 : exn) :
  Strptime.strptime s "%A, %d %B %Y" = Raise e1 ->
  Strptime.strptime s "%A, %d %B" = Raise e2 ->
  LangChain.parse_date now s = Raise e2 /\ is_ValueError e2 = true.
Proof.
  intros H1 H2. unfold LangChain.parse_date. rewrite H1.
  destruct (is_ValueError_inv e1 (strptime_raises _ _ _ H1)) as [msg ->].
  rewrite H2. split; [reflexivity | eauto using strptime_raises].
Qed.

Lemma unparseable_date_error (w : World) (st : SchedulerState) (s : string) :
  has_error st = false -> scheduled_date_str st = Some s ->
  parse_flexible_date (clock_now w) (Some s) = Ok None ->
  parse_datetime w st =
    (set_error st (Some ("Date/Time parsing error: " ++ unparseable_date_msg s)),
     [StError ("Date/Time parsing error: " ++ unparseable_date_msg s)]).
Proof.
  intros He Hs Hp. unfold parse_datetime, resolve_slot, parse_slot.
  rewrite He, Hs, Hp. reflexivity.
Qed.

(** C4, as the two scripts have it. In the LangGraph workflow the date is
    tried against the seven formats "%A, %d %B %Y", "%A, %d %B",
    "%d %B %Y", "%B %d, %Y", "%m/%d/%Y", "%Y-%m-%d", "%d-%m-%Y" in exactly
    this order; the result is that of the first format that parses,
    whatever the later formats would do (with the year inferred when that
    format has none), and when none parses the stage fails with the
    "Could not parse scheduled date" error. The single-pass script tries
    the first two formats only, in the same order, and fails with the
    [ValueError] of the second when neither parses. *)
Theorem first_format_wins (now : datetime) (s : string) :
  MINYEAR <= year now < MAXYEAR ->
  formats = ["%A, %d %B %Y"; "%A, %d %B"; "%d %B %Y"; "%B %d, %Y";
             "%m/%d/%Y"; "%Y-%m-%d"; "%d-%m-%Y"] /\
  (forall pre fmt post d0,
     formats = (pre ++ fmt :: post)%list ->
     (forall f, In f pre -> exists e, Strptime.strptime s f = Raise e) ->
     Strptime.strptime s fmt = Ok d0 ->
     parse_flexible_date now (Some s) =
       Ok (Some (if PyStr.contains "%Y" fmt then d0
                 else with_year d0 (inferred_year now d0)))) /\
  ((forall f, In f formats -> exists e, Strptime.strptime s f = Raise e) ->
     parse_flexible_date now (Some s) = Ok None /\
     forall w st,
       clock_now w = now -> has_error st = false -> scheduled_date_str st = Some s ->
       parse_datetime w st =
         (set_error st
            (Some ("Date/Time parsing error: Could not parse scheduled date: '" ++ s ++
                   "'. Please check AI output format.")),
          [StError ("Date/Time parsing error: Could not parse scheduled date: '" ++ s ++
                    "'. Please check AI output format.")])) /\
  (forall d0, Strptime.strptime s "%A, %d %B %Y" = Ok d0 ->
              LangChain.parse_date now s = Ok d0) /\
  (forall e d0,
     Strptime.strptime s "%A, %d %B %Y" = Raise e ->
     Strptime.strptime s "%A, %d %B" = Ok d0 ->
     LangChain.parse_date now s = Ok (with_year d0 (inferred_year_by_instant now d0))) /\
  (forall e1 e2,
     Strptime.strptime s "%A, %d %B %Y" = Raise e1 ->
     Strptime.strptime s "%A, %d %B" = Raise e2 ->
     exists msg, LangChain.parse_date now s = Raise (ValueError msg)).
Proof.
  intros Hy. split; [reflexivity |]. split; [| split; [| split; [| split]]].
  - intros pre fmt post d0 Hf Hpre Hok.
    unfold parse_flexible_date. rewrite Hf. apply try_formats_first; trivial.
    assert (Hin : In fmt formats) by (rewrite Hf; apply in_elt).
    destruct (formats_year fmt Hin) as [Hc | [Hc H19]]; rewrite Hc.
    + apply try_format_with_year; assumption.
    + apply try_format_without_year; eauto.
  - intros Hall.
    assert (Hn : parse_flexible_date now (Some s) = Ok None)
      by (apply try_formats_none; assumption).
    split; [assumption |].
    intros w st Hw He Hs. subst now.
    apply unparseable_date_error; assumption.
  - apply single_pass_first_format.
  - intros e d0. apply single_pass_second_format. assumption.
  - intros e1 e2 H1 H2.
    destruct (single_pass_no_format now s e1 e2 H1 H2) as [-> Hv].
    destruct (is_ValueError_inv _ Hv) as [msg ->]. eauto.
Qed.

Lemma first_format_wins_witness :
  parse_flexible_date (mkdt 2026 11 3 10 0 0 500) (Some "28 May 2027")
  = Ok (Some (mkdt 2027 5 28 0 0 0 0)).
Proof.
  destruct (first_format_wins (mkdt 2026 11 3 10 0 0 500) "28 May 2027")
    as (_ & H & _).
  - unfold MINYEAR, MAXYEAR. simpl. lia.
  - apply (H ["%A, %d %B %Y"; "%A, %d %B"] "%d %B %Y"
             ["%B %d, %Y"; "%m/%d/%Y"; "%Y-%m-%d"; "%d-%m-%Y"]
             (mkdt 2027 5 28 0 0 0 0)).
    + reflexivity.
    + intros f [<- | [<- | []]]; eexists; vm_compute; reflexivity.
    + vm_compute. reflexivity.
Defined.

(** Against C4 as stated: "28 May 2027" parses under the third format of
    the list, and the workflow accepts it, but the single-pass script,
    which stops after the second format, rejects it and stops with its
    parsing error. *)
Lemma single_pass_stops_after_two_formats :
  In "%d %B %Y" formats /\
  Strptime.strptime "28 May 2027" "%d %B %Y" = Ok (mkdt 2027 5 28 0 0 0 0) /\
  parse_flexible_date (clock_now (Demo.world "")) (Some "28 May 2027")
  = Ok (Some (mkdt 2027 5 28 0 0 0 0)) /\
  LangChain.parse_date (clock_now (Demo.world "")) "28 May 2027"
  = Raise (ValueError "time data '28 May 2027' does not match format '%A, %d %B'") /\
  snd (LangChain.main
         (Demo.world (Demo.lines ["Task: Review"; "Date: 28 May 2027";
                                  "Time: 3:00 PM - 3:30 PM"]))
         "Review on 28 May 2027") = LangChain.Stopped.
Proof.
  split; [simpl; tauto |]. repeat split; vm_compute; reflexivity.
Qed.

(** ** The calendar: ordinals and dates *)

Lemma all_from_spec (f : Z -> bool) (n : nat) :
  forall lo, all_from f lo n = true ->
  forall x, lo <= x < lo + Z.of_nat n -> f x = true.
Proof.
  induction n as [| n IH]; intros lo H x Hx; [lia |].
  simpl in H. apply andb_true_iff in H. destruct H as [H0 H1].
  destruct (Z.eq_dec x lo) as [-> | Hne]; [assumption |].
  apply (IH (lo + 1)); [assumption | lia].
Qed.

Lemma month_day_spec (leap : bool) (n : Z) :
  0 <= n < (if leap then 366 else 365) -> month_day_ok leap n = true.
Proof.
  intros Hn. destruct leap.
  - apply (all_from_spec (month_day_ok true) 366 0); [vm_compute; reflexivity | lia].
  - apply (all_from_spec (month_day_ok false) 365 0); [vm_compute; reflexivity | lia].
Qed.

Lemma days_before_year_digits (q c b a : Z) :
  0 <= c <= 3 -> 0 <= b <= 24 -> 0 <= a <= 3 ->
  days_before_year (400 * q + 100 * c + 4 * b + a + 1)
  = 146097 * q + 36524 * c + 1461 * b + 365 * a.
Proof.
  intros Hc Hb Ha. unfold days_before_year.
  replace (400 * q + 100 * c + 4 * b + a + 1 - 1) with (400 * q + 100 * c + 4 * b + a) by lia.
  replace ((400 * q + 100 * c + 4 * b + a) / 4) with (100 * q + 25 * c + b)
    by (apply (Z.div_unique _ _ _ a); lia).
  replace ((400 * q + 100 * c + 4 * b + a) / 100) with (4 * q + c)
    by (apply (Z.div_unique _ _ _ (4 * b + a)); lia).
  replace ((400 * q + 100 * c + 4 * b + a) / 400) with q
    by (apply (Z.div_unique _ _ _ (100 * c + 4 * b + a)); lia).
  lia.
Qed.

Lemma is_leap_digits (q c b a : Z) :
  0 <= c <= 3 -> 0 <= b <= 24 -> 0 <= a <= 3 ->
  is_leap (400 * q + 100 * c + 4 * b + a + 1)
  = (a =? 3) && (negb (b =? 24) || (c =? 3)).
Proof.
  intros Hc Hb Ha. unfold is_leap.
  replace ((400 * q + 100 * c + 4 * b + a + 1) mod 4) with ((a + 1) mod 4)
    by (rewrite <- (Z.mod_add (a + 1) (100 * q + 25 * c + b) 4) by lia; f_equal; lia).
  replace ((400 * q + 100 * c + 4 * b + a + 1) mod 100) with ((4 * b + a + 1) mod 100)
    by (rewrite <- (Z.mod_add (4 * b + a + 1) (4 * q + c) 100) by lia; f_equal; lia).
  replace ((400 * q + 100 * c + 4 * b + a + 1) mod 400) with ((100 * c + 4 * b + a + 1) mod 400)
    by (rewrite <- (Z.mod_add (100 * c + 4 * b + a + 1) q 400) by lia; f_equal; lia).
  assert (H4 : ((a + 1) mod 4 =? 0) = (a =? 3)).
  { destruct (Z.eq_dec a 3) as [-> | Hne]; [reflexivity |].
    transitivity false; [| symmetry]; apply Z.eqb_neq; trivial.
    rewrite Z.mod_small by lia. lia. }
  rewrite H4.
  destruct (Z.eq_dec a 3) as [-> | Hne];
    [| replace (a =? 3) with false by (symmetry; apply Z.eqb_neq; trivial); reflexivity].
  rewrite Z.eqb_refl, !andb_true_l.
  assert (H100 : ((4 * b + 3 + 1) mod 100 =? 0) = (b =? 24)).
  { destruct (Z.eq_dec b 24) as [-> | Hnb]; [reflexivity |].
    transitivity false; [| symmetry]; apply Z.eqb_neq; trivial.
    rewrite Z.mod_small by lia. lia. }
  rewrite H100.
  destruct (Z.eq_dec b 24) as [-> | Hnb];
    [| replace (b =? 24) with false by (symmetry; apply Z.eqb_neq; trivial); reflexivity].
  rewrite Z.eqb_refl. cbn [negb orb].
  destruct (Z.eq_dec c 3) as [-> | Hnc]; [reflexivity |].
  transitivity false; [| symmetry]; apply Z.eqb_neq; trivial.
  rewrite Z.mod_small by lia. lia.
Qed.

Lemma days_before_year_succ (y : Z) :
  days_before_year (y + 1) = days_before_year y + 365 + (if is_leap y then 1 else 0).
Proof.
  unfold days_before_year, is_leap.
  replace (y + 1 - 1) with y by lia.
  destruct (y mod 4 =? 0) eqn:E4; destruct (y mod 100 =? 0) eqn:E100;
    destruct (y mod 400 =? 0) eqn:E400; simpl;
    repeat match goal with
           | H : (_ =? _) = true |- _ => apply Z.eqb_eq in H
           | H : (_ =? _) = false |- _ => apply Z.eqb_neq in H
           end;
    Z.div_mod_to_equations; lia.
Qed.

Lemma days_before_year_mono (y1 y2 : Z) :
  y1 <= y2 -> days_before_year y1 <= days_before_year y2.
Proof.
  intros H. replace y2 with (y1 + Z.of_nat (Z.to_nat (y2 - y1))) by lia.
  induction (Z.to_nat (y2 - y1)) as [| k IH].
  - replace (y1 + Z.of_nat 0) with y1 by lia. lia.
  - replace (y1 + Z.of_nat (S k)) with (y1 + Z.of_nat k + 1) by lia.
    rewrite days_before_year_succ. destruct (is_leap _); lia.
Qed.

Lemma ord2ymd_unfold (ordinal : Z) :
  ord2ymd ordinal =
  let n0 := ordinal - 1 in
  let q := n0 / 146097 in
  let R := n0 mod 146097 in
  let c := R / 36524 in
  let R1 := R mod 36524 in
  let b := R1 / 1461 in
  let R2 := R1 mod 1461 in
  let a := R2 / 365 in
  let r := R2 mod 365 in
  if (a =? 4) || (c =? 4) then (q * 400 + 1 + c * 100 + b * 4 + a - 1, 12, 31)
  else
    let '(m, d) := month_day ((a =? 3) && (negb (b =? 24) || (c =? 3))) r in
    (q * 400 + 1 + c * 100 + b * 4 + a, m, d).
Proof.
  unfold ord2ymd, month_day, DI400Y, DI100Y, DI4Y. cbv zeta.
  destruct (_ || _); [reflexivity |].
  destruct (_ <? _); reflexivity.
Qed.

(** [_ord2ymd] inverts [_ymd2ord] and yields a date of the calendar. *)
Lemma ord2ymd_spec (n : Z) :
  1 <= n ->
  forall y m d, ord2ymd n = (y, m, d) ->
  ymd2ord y m d = n /\ MINYEAR <= y /\ 1 <= m <= 12 /\
  1 <= d <= days_in_month y m /\ (n <= MAXORDINAL -> y <= MAXYEAR).
Proof.
  intros Hn y m d. rewrite ord2ymd_unfold. cbv zeta.
  pose proof (Z.div_mod (n - 1) 146097 ltac:(lia)) as E0.
  pose proof (Z.mod_pos_bound (n - 1) 146097 ltac:(lia)) as B0.
  assert (Hq : 0 <= (n - 1) / 146097) by (apply Z.div_pos; lia).
  set (q := (n - 1) / 146097) in *. set (R := (n - 1) mod 146097) in *.
  pose proof (Z.div_mod R 36524 ltac:(lia)) as E1.
  pose proof (Z.mod_pos_bound R 36524 ltac:(lia)) as B1.
  set (c := R / 36524) in *. set (R1 := R mod 36524) in *.
  pose proof (Z.div_mod R1 1461 ltac:(lia)) as E2.
  pose proof (Z.mod_pos_bound R1 1461 ltac:(lia)) as B2.
  set (b := R1 / 1461) in *. set (R2 := R1 mod 1461) in *.
  pose proof (Z.div_mod R2 365 ltac:(lia)) as E3.
  pose proof (Z.mod_pos_bound R2 365 ltac:(lia)) as B3.
  set (a := R2 / 365) in *. set (r := R2 mod 365) in *.
  clearbody q R c R1 b R2 a r.
  assert (Hc : 0 <= c <= 4) by lia.
  assert (Hb : 0 <= b <= 24) by lia.
  assert (Ha : 0 <= a <= 4) by lia.
  unfold MINYEAR, MAXYEAR, MAXORDINAL.
  destruct ((a =? 4) || (c =? 4)) eqn:Ecase.
  - intros H. inversion H; subst y m d; clear H.
    apply orb_true_iff in Ecase.
    assert (Hy : exists c' b',
               0 <= c' <= 3 /\ 0 <= b' <= 24 /\ (b' <= 23 \/ c' = 3) /\
               q * 400 + 1 + c * 100 + b * 4 + a - 1 = 400 * q + 100 * c' + 4 * b' + 3 + 1 /\
               n = 146097 * q + 36524 * c' + 1461 * b' + 1461).
    { destruct (Z.eq_dec c 4) as [-> | Hc4].
      - exists 3, 24. lia.
      - destruct Ecase as [E | E]; apply Z.eqb_eq in E; [| contradiction].
        subst a. exists c, b. lia. }
    destruct Hy as (c' & b' & Hc' & Hb' & Hl & -> & ->).
    unfold ymd2ord, days_before_month, days_in_month.
    rewrite days_before_year_digits by lia.
    rewrite is_leap_digits by lia.
    replace (negb (b' =? 24) || (c' =? 3)) with true.
    + change (3 =? 3) with true. change (2 <? 12) with true.
      change (12 =? 2) with false.
      cbn [andb DAYS_BEFORE_MONTH DAYS_IN_MONTH]. lia.
    + symmetry. destruct Hl as [Hl | ->].
      * replace (b' =? 24) with false by (symmetry; apply Z.eqb_neq; lia). reflexivity.
      * apply orb_true_r.
  - apply orb_false_iff in Ecase. destruct Ecase as [Ea Ec].
    apply Z.eqb_neq in Ea. apply Z.eqb_neq in Ec.
    pose proof (month_day_spec ((a =? 3) && (negb (b =? 24) || (c =? 3))) r) as Hmd.
    destruct (month_day _ r) as [m' d'] eqn:Emd.
    intros H. inversion H; subst y m d; clear H.
    unfold month_day_ok in Hmd. rewrite Emd in Hmd.
    assert (Hr : 0 <= r < (if (a =? 3) && (negb (b =? 24) || (c =? 3)) then 366 else 365))
      by (destruct (_ && _); lia).
    specialize (Hmd Hr).
    repeat (apply andb_true_iff in Hmd; destruct Hmd as [Hmd ?]).
    apply Z.eqb_eq in Hmd.
    repeat match goal with H : (_ <=? _) = true |- _ => apply Z.leb_le in H end.
    replace (q * 400 + 1 + c * 100 + b * 4 + a) with (400 * q + 100 * c + 4 * b + a + 1) by lia.
    unfold ymd2ord, days_before_month, days_in_month.
    rewrite days_before_year_digits by lia.
    rewrite is_leap_digits by lia.
    repeat split; lia.
Qed.

Lemma ord2ymd_inverse (n : Z) :
  1 <= n -> forall y m d, ord2ymd n = (y, m, d) -> ymd2ord y m d = n.
Proof. intros Hn y m d H. apply (ord2ymd_spec n Hn y m d H). Qed.

Ltac month_cases m :=
  let H := fresh in
  assert (H : m = 1 \/ m = 2 \/ m = 3 \/ m = 4 \/ m = 5 \/ m = 6 \/ m = 7 \/
              m = 8 \/ m = 9 \/ m = 10 \/ m = 11 \/ m = 12) by lia;
  repeat (destruct H as [H | H]); subst m.

Ltac calendar_simpl :=
  cbv [DAYS_BEFORE_MONTH DAYS_IN_MONTH Z.ltb Z.eqb Z.compare Pos.compare
       Pos.compare_cont Pos.eqb andb].

Lemma day_of_year_bounds (y m d : Z) :
  1 <= m <= 12 -> 1 <= d <= days_in_month y m ->
  1 <= days_before_month y m + d <= 365 + (if is_leap y then 1 else 0).
Proof.
  intros Hm. unfold days_before_month, days_in_month.
  month_cases m; destruct (is_leap y); calendar_simpl; lia.
Qed.

Lemma days_before_month_mono (y m1 m2 d1 : Z) :
  1 <= m1 -> m1 < m2 -> m2 <= 12 -> d1 <= days_in_month y m1 ->
  days_before_month y m1 + d1 <= days_before_month y m2.
Proof.
  intros H1 H12 H2. unfold days_before_month, days_in_month.
  month_cases m1; month_cases m2; try lia; destruct (is_leap y); calendar_simpl; lia.
Qed.

Lemma ymd2ord_lt (y1 m1 d1 y2 m2 d2 : Z) :
  1 <= m1 <= 12 -> 1 <= d1 <= days_in_month y1 m1 ->
  1 <= m2 <= 12 -> 1 <= d2 <= days_in_month y2 m2 ->
  date_ltb (y1, m1, d1) (y2, m2, d2) = true ->
  ymd2ord y1 m1 d1 < ymd2ord y2 m2 d2.
Proof.
  intros Hm1 Hd1 Hm2 Hd2 H. unfold date_ltb in H. unfold ymd2ord.
  pose proof (day_of_year_bounds y1 m1 d1 Hm1 Hd1) as B1.
  pose proof (day_of_year_bounds y2 m2 d2 Hm2 Hd2) as B2.
  apply orb_true_iff in H. destruct H as [H | H].
  - apply Z.ltb_lt in H.
    pose proof (days_before_year_succ y1) as Hs.
    pose proof (days_before_year_mono (y1 + 1) y2 ltac:(lia)).
    lia.
  - apply andb_true_iff in H. destruct H as [Hy H]. apply Z.eqb_eq in Hy. subst y2.
    apply orb_true_iff in H. destruct H as [H | H].
    + apply Z.ltb_lt in H.
      pose proof (days_before_month_mono y1 m1 m2 d1 ltac:(lia) H ltac:(lia) ltac:(lia)).
      lia.
    + apply andb_true_iff in H. destruct H as [Hm H]. apply Z.eqb_eq in Hm.
      apply Z.ltb_lt in H. subst m2. lia.
Qed.

Lemma time_us_bounds (dt : datetime) : wf dt -> 0 <= time_us dt < US_PER_DAY.
Proof.
  intros H. apply wf_iff in H. destruct H as [_ (Hh & Hm & Hs & Hu)].
  unfold time_us, US_PER_DAY. lia.
Qed.

(** The field-wise order is the order of the microsecond count. *)
Lemma ltb_to_us (a b : datetime) :
  wf a -> wf b -> ltb a b = true -> to_us a < to_us b.
Proof.
  intros Ha Hb H.
  pose proof (time_us_bounds a Ha). pose proof (time_us_bounds b Hb).
  apply wf_iff in Ha. apply wf_iff in Hb.
  destruct Ha as [(_ & Hma & Hda) _]. destruct Hb as [(_ & Hmb & Hdb) _].
  unfold ltb in H. unfold to_us, toordinal.
  apply orb_true_iff in H. destruct H as [H | H].
  - pose proof (ymd2ord_lt _ _ _ _ _ _ Hma Hda Hmb Hdb H). unfold US_PER_DAY in *. lia.
  - apply andb_true_iff in H. destruct H as [He Ht].
    unfold date_eqb, date_of in He.
    apply andb_true_iff in He. destruct He as [He E3].
    apply andb_true_iff in He. destruct He as [E1 E2].
    apply Z.eqb_eq in E1, E2, E3. apply Z.ltb_lt in Ht.
    rewrite E1, E2, E3. lia.
Qed.

Lemma ltb_total (a b : datetime) :
  ltb a b = true \/ ltb b a = true \/
  (date_of a = date_of b /\ time_us a = time_us b).
Proof.
  unfold ltb, date_ltb, date_eqb, date_of.
  destruct (Z.lt_trichotomy (year a) (year b)) as [Hy | [Hy | Hy]].
  - left. replace (year a <? year b) with true by (symmetry; apply Z.ltb_lt; lia).
    reflexivity.
  - rewrite Hy, !Z.ltb_irrefl, !Z.eqb_refl. cbn [orb andb].
    destruct (Z.lt_trichotomy (month a) (month b)) as [Hm | [Hm | Hm]].
    + left. replace (month a <? month b) with true by (symmetry; apply Z.ltb_lt; lia).
      reflexivity.
    + rewrite Hm, !Z.ltb_irrefl, !Z.eqb_refl. cbn [orb andb].
      destruct (Z.lt_trichotomy (day a) (day b)) as [Hd | [Hd | Hd]].
      * left. replace (day a <? day b) with true by (symmetry; apply Z.ltb_lt; lia).
        reflexivity.
      * rewrite Hd, !Z.ltb_irrefl, !Z.eqb_refl. cbn [orb andb].
        destruct (Z.lt_trichotomy (time_us a) (time_us b)) as [Ht | [Ht | Ht]].
        -- left. apply Z.ltb_lt. assumption.
        -- right. right. split; [reflexivity | assumption].
        -- right. left. apply Z.ltb_lt. assumption.
      * right. left.
        replace (day b <? day a) with true by (symmetry; apply Z.ltb_lt; lia).
        reflexivity.
    + right. left.
      replace (month b <? month a) with true by (symmetry; apply Z.ltb_lt; lia).
      reflexivity.
  - right. left. replace (year b <? year a) with true by (symmetry; apply Z.ltb_lt; lia).
    reflexivity.
Qed.

Lemma ltb_false_to_us (a b : datetime) :
  wf a -> wf b -> ltb a b = false -> to_us b <= to_us a.
Proof.
  intros Ha Hb H. destruct (ltb_total a b) as [H' | [H' | [Hd Ht]]].
  - congruence.
  - pose proof (ltb_to_us b a Hb Ha H'). lia.
  - unfold to_us, toordinal. unfold date_of in Hd. inversion Hd. lia.
Qed.

Lemma to_us_ltb (a b : datetime) :
  wf a -> wf b -> to_us a < to_us b -> ltb a b = true.
Proof.
  intros Ha Hb H. destruct (ltb a b) eqn:E; [reflexivity |].
  pose proof (ltb_false_to_us a b Ha Hb E). lia.
Qed.

(** ** Arithmetic on datetimes *)

Lemma check_delta_inv (us : Z) (d : timedelta) : check_delta us = Ok d -> d = us.
Proof.
  unfold check_delta. cbv zeta.
  destruct (_ && _); [intros H; inversion H; reflexivity |].
  destruct (_ && _); intros H; discriminate H.
Qed.

Lemma check_delta_ok (us : Z) :
  - MAX_DELTA_DAYS * US_PER_DAY <= us < MAX_DELTA_DAYS * US_PER_DAY ->
  check_delta us = Ok us.
Proof.
  intros H. unfold check_delta. cbv zeta.
  assert (- MAX_DELTA_DAYS <= us / US_PER_DAY <= MAX_DELTA_DAYS).
  { unfold MAX_DELTA_DAYS, US_PER_DAY in *. Z.div_mod_to_equations. lia. }
  replace (- MAX_DELTA_DAYS <=? us / US_PER_DAY) with true by (symmetry; apply Z.leb_le; lia).
  replace (us / US_PER_DAY <=? MAX_DELTA_DAYS) with true by (symmetry; apply Z.leb_le; lia).
  reflexivity.
Qed.

(** [dt + delta], when it exists, is a datetime of the calendar and lies
    [delta] microseconds after [dt]. *)
Lemma add_spec (dt : datetime) (delta : timedelta) (dt' : datetime) :
  add dt delta = Ok dt' -> to_us dt' = to_us dt + delta /\ wf dt'.
Proof.
  unfold add. cbv zeta. intros H.
  destruct ((0 <? _) && (_ <=? MAXORDINAL)) eqn:Er; [| discriminate].
  apply andb_true_iff in Er. destruct Er as [Er1 Er2].
  apply Z.ltb_lt in Er1. apply Z.leb_le in Er2.
  destruct (ord2ymd _) as [[y m] d] eqn:Eo.
  assert (H1 : 1 <= (to_us dt + delta) / US_PER_DAY) by lia.
  destruct (ord2ymd_spec _ H1 y m d Eo) as (Hinv & Hy & Hm & Hd & Hmax).
  specialize (Hmax Er2).
  inversion H; subst dt'; clear H.
  set (t := to_us dt + delta) in *.
  assert (Ht : 0 <= t mod US_PER_DAY < US_PER_DAY)
    by (apply Z.mod_pos_bound; reflexivity).
  pose proof (Z.div_mod t US_PER_DAY ltac:(discriminate)) as Et.
  set (r := t mod US_PER_DAY) in *. clearbody r.
  split.
  - unfold to_us at 1, toordinal, time_us. cbn [year month day hour minute second microsecond].
    rewrite Hinv. unfold US_PER_DAY in *. Z.div_mod_to_equations. lia.
  - apply wf_iff. cbn [year month day hour minute second microsecond].
    split; [unfold MINYEAR, MAXYEAR in *; lia |].
    unfold US_PER_DAY in *. Z.div_mod_to_equations. lia.
Qed.

Lemma add_ok (dt : datetime) (delta : timedelta) :
  representable (to_us dt + delta) -> exists dt', add dt delta = Ok dt'.
Proof.
  unfold representable, add. cbv zeta. intros H.
  assert (1 <= (to_us dt + delta) / US_PER_DAY <= MAXORDINAL).
  { unfold MAXORDINAL, US_PER_DAY in *. Z.div_mod_to_equations. lia. }
  replace (0 <? (to_us dt + delta) / US_PER_DAY) with true by (symmetry; apply Z.ltb_lt; lia).
  replace ((to_us dt + delta) / US_PER_DAY <=? MAXORDINAL) with true
    by (symmetry; apply Z.leb_le; lia).
  cbn [andb]. destruct (ord2ymd _) as [[y m] d]. eauto.
Qed.

(** [dt + delta] fails in one way only, when the result would leave the
    calendar. *)
Lemma add_raises (dt : datetime) (delta : timedelta) (e : exn) :
  add dt delta = Raise e ->
  e = OverflowError "date value out of range" /\ ~ representable (to_us dt + delta).
Proof.
  unfold add, representable. cbv zeta. intros H.
  destruct ((0 <? _) && (_ <=? MAXORDINAL)) eqn:Er.
  - destruct (ord2ymd _) as [[y m] d]. discriminate H.
  - inversion H. split; [reflexivity |]. intros Hr.
    apply andb_false_iff in Er.
    assert (1 <= (to_us dt + delta) / US_PER_DAY <= MAXORDINAL).
    { unfold MAXORDINAL, US_PER_DAY in *. Z.div_mod_to_equations. lia. }
    destruct Er as [Er | Er]; [apply Z.ltb_ge in Er | apply Z.leb_gt in Er]; lia.
Qed.

Lemma add_out_of_range (dt : datetime) (delta : timedelta) :
  ~ representable (to_us dt + delta) ->
  add dt delta = Raise (OverflowError "date value out of range").
Proof.
  intros Hn. destruct (add dt delta) as [dt' | e] eqn:E.
  - destruct (add_spec _ _ _ E) as [Eus Hwf]. exfalso. apply Hn.
    unfold add in E. cbv zeta in E.
    destruct ((0 <? _) && (_ <=? MAXORDINAL)) eqn:Er; [| discriminate E].
    apply andb_true_iff in Er. destruct Er as [Er1 Er2].
    apply Z.ltb_lt in Er1. apply Z.leb_le in Er2.
    unfold representable, MAXORDINAL, US_PER_DAY in *. Z.div_mod_to_equations. lia.
  - destruct (add_raises _ _ _ E) as [-> _]. reflexivity.
Qed.

Lemma astimezone_spec (a a' : aware) (tz : Z) :
  astimezone a tz = Ok a' ->
  instant a' = instant a /\ utcoffset a' = tz /\ wf (naive a').
Proof.
  unfold astimezone, seconds. intros H.
  destruct (check_delta (utcoffset a * 1000000)) as [off |] eqn:E1; [| discriminate].
  apply check_delta_inv in E1. subst off. cbn [bind] in H.
  destruct (add (naive a) _) as [utc |] eqn:E2; [| discriminate]. cbn [bind] in H.
  destruct (check_delta (tz * 1000000)) as [tzoff |] eqn:E3; [| discriminate].
  apply check_delta_inv in E3. subst tzoff. cbn [bind] in H.
  destruct (add utc _) as [loc |] eqn:E4; [| discriminate]. cbn [bind] in H.
  inversion H; subst a'; clear H.
  apply add_spec in E2. apply add_spec in E4.
  unfold instant. cbn [naive utcoffset]. intuition lia.
Qed.

Lemma astimezone_ok (a : aware) (tz : Z) :
  -86400 < utcoffset a < 86400 -> -86400 < tz < 86400 ->
  representable (instant a) -> representable (instant a + tz * 1000000) ->
  exists a', astimezone a tz = Ok a'.
Proof.
  intros Ho Ht H1 H2. unfold astimezone, seconds, instant in *.
  rewrite check_delta_ok by (unfold MAX_DELTA_DAYS, US_PER_DAY; lia). cbn [bind].
  destruct (add_ok (naive a) (- (utcoffset a * 1000000))) as [utc Hu].
  { replace (to_us (naive a) + - (utcoffset a * 1000000))
      with (to_us (naive a) - utcoffset a * 1000000) by lia. assumption. }
  rewrite Hu. cbn [bind].
  rewrite check_delta_ok by (unfold MAX_DELTA_DAYS, US_PER_DAY; lia). cbn [bind].
  destruct (add_spec _ _ _ Hu) as [Eu _].
  destruct (add_ok utc (tz * 1000000)) as [loc Hl].
  { rewrite Eu.
    replace (to_us (naive a) + - (utcoffset a * 1000000) + tz * 1000000)
      with (to_us (naive a) - utcoffset a * 1000000 + tz * 1000000) by lia. assumption. }
  rewrite Hl. cbn [bind]. eauto.
Qed.

(** ** The past-time correction (C1, C3) *)

Lemma truthy_datetime_error (e : exn) :
  PyStr.truthy (Some (datetime_error_msg e)) = true.
Proof. destruct e; reflexivity. Qed.

Lemma parse_datetime_unfold (w : World) (st : SchedulerState) (s e : datetime) :
  has_error st = false -> parse_slot w st = Ok (s, e) ->
  parse_datetime w st =
    match adjust_past (clock_now_local w) (duration_minutes st) s e with
    | (effs, r) =>
        match (let* se := r in to_utc (clock_local_tz w) se) with
        | Ok (su, eu) => (set_slot st su eu, (effs ++ [StRender])%list)
        | Raise ex =>
            (set_error st (Some (datetime_error_msg ex)),
             (effs ++ [StError (datetime_error_msg ex)])%list)
        end
    end.
Proof.
  intros He Hp. unfold parse_datetime, resolve_slot. rewrite He, Hp.
  destruct (adjust_past _ _ _ _) as [effs r].
  destruct (let* se := r in to_utc (clock_local_tz w) se) as [[su eu] |]; reflexivity.
Qed.

Lemma to_utc_spec (tz : Z) (s e : datetime) (su eu : aware) :
  to_utc tz (s, e) = Ok (su, eu) ->
  utcoffset su = 0 /\ utcoffset eu = 0 /\
  instant su = instant (mkaware s tz) /\ instant eu = instant (mkaware e tz).
Proof.
  unfold to_utc. cbn [fst snd]. intros H.
  destruct (astimezone (mkaware s tz) 0) as [a |] eqn:E1; [| discriminate].
  destruct (astimezone (mkaware e tz) 0) as [b |] eqn:E2; [| discriminate].
  cbn [bind] in H. inversion H; subst a b.
  apply astimezone_spec in E1. apply astimezone_spec in E2. tauto.
Qed.

Lemma to_utc_ok (tz : Z) (s e : datetime) :
  -86400 < tz < 86400 ->
  representable (to_us s - tz * 1000000) -> representable (to_us e - tz * 1000000) ->
  exists su eu, to_utc tz (s, e) = Ok (su, eu).
Proof.
  intros Ht Hs He. unfold to_utc. cbn [fst snd].
  destruct (astimezone_ok (mkaware s tz) 0) as [su Hsu];
    try (unfold instant; cbn [naive utcoffset]; rewrite ?Z.add_0_r); trivial; try lia.
  destruct (astimezone_ok (mkaware e tz) 0) as [eu Heu];
    try (unfold instant; cbn [naive utcoffset]; rewrite ?Z.add_0_r); trivial; try lia.
  rewrite Hsu, Heu. cbn [bind]. eauto.
Qed.

Lemma representable_dec (t : Z) : {representable t} + {~ representable t}.
Proof.
  unfold representable.
  destruct (Z_le_dec US_PER_DAY t); [| right; lia].
  destruct (Z_lt_dec t ((MAXORDINAL + 1) * US_PER_DAY)); [left; lia | right; lia].
Qed.

(** The days of [timedelta(minutes=n)]. *)
Lemma minutes_cases (n : Z) :
  minutes n =
    if (-999999999 <=? n / 1440) && (n / 1440 <=? 999999999) then Ok (n * 60000000)
    else if (-2147483648 <=? n / 1440) && (n / 1440 <=? 2147483647) then
      Raise (OverflowError ("days=" ++ PyStr.str_int (n / 1440) ++
                            "; must have magnitude <= 999999999"))
    else Raise (OverflowError "Python int too large to convert to C int").
Proof.
  unfold minutes, check_delta. cbv zeta.
  replace (n * 60000000 / US_PER_DAY) with (n / 1440); [reflexivity |].
  unfold US_PER_DAY. change 86400000000 with (1440 * 60000000).
  rewrite Z.div_mul_cancel_r by lia. reflexivity.
Qed.

Lemma astimezone_utc_fails (d : datetime) (tz : Z) :
  -86400 < tz < 86400 -> ~ representable (to_us d - tz * 1000000) ->
  astimezone (mkaware d tz) 0 = Raise (OverflowError "date value out of range").
Proof.
  intros Ht Hn. unfold astimezone, seconds. cbn [utcoffset naive].
  rewrite check_delta_ok by (unfold MAX_DELTA_DAYS, US_PER_DAY; lia). cbn [bind].
  rewrite add_out_of_range; [reflexivity |].
  replace (to_us d + - (tz * 1000000)) with (to_us d - tz * 1000000) by lia. exact Hn.
Qed.

Lemma to_utc_fails (tz : Z) (s e : datetime) :
  -86400 < tz < 86400 ->
  ~ (representable (to_us s - tz * 1000000) /\ representable (to_us e - tz * 1000000)) ->
  to_utc tz (s, e) = Raise (OverflowError "date value out of range").
Proof.
  intros Ht Hn. unfold to_utc. cbn [fst snd].
  destruct (representable_dec (to_us s - tz * 1000000)) as [Hs | Hs].
  - destruct (astimezone_ok (mkaware s tz) 0) as [su Hsu];
      try (unfold instant; cbn [naive utcoffset]; rewrite ?Z.add_0_r); trivial; try lia.
    rewrite Hsu. cbn [bind].
    rewrite astimezone_utc_fails; [reflexivity | exact Ht | tauto].
  - rewrite astimezone_utc_fails; [reflexivity | exact Ht | exact Hs].
Qed.

Lemma shifted_slot_ok (now : datetime) (tz n : Z) :
  -86400 < tz < 86400 ->
  representable (to_us now + 300000000) ->
  -999999999 <= n / 1440 <= 999999999 ->
  representable (to_us now + 300000000 + n * 60000000) ->
  representable (to_us now + 300000000 - tz * 1000000) ->
  representable (to_us now + 300000000 + n * 60000000 - tz * 1000000) ->
  exists su eu,
    shifted_slot now tz n = Ok (su, eu) /\
    utcoffset su = 0 /\ utcoffset eu = 0 /\
    instant su = instant (mkaware now tz) + 300000000 /\
    instant eu = instant su + n * 60000000.
Proof.
  intros Htz H0 Hn H1 H2 H3. unfold shifted_slot.
  change (minutes 5) with (Ok (A := timedelta) 300000000). cbn [bind].
  destruct (add_ok now 300000000 H0) as [s' Hs']. rewrite Hs'. cbn [bind].
  destruct (add_spec _ _ _ Hs') as [Es' _].
  rewrite minutes_cases.
  replace (-999999999 <=? n / 1440) with true by (symmetry; apply Z.leb_le; lia).
  replace (n / 1440 <=? 999999999) with true by (symmetry; apply Z.leb_le; lia).
  cbn [andb bind].
  destruct (add_ok s' (n * 60000000)) as [e' He']; [rewrite Es'; exact H1 |].
  rewrite He'. cbn [bind].
  destruct (add_spec _ _ _ He') as [Ee' _].
  destruct (to_utc_ok tz s' e' Htz) as (su & eu & Hu).
  { rewrite Es'. exact H2. }
  { rewrite Ee', Es'. exact H3. }
  destruct (to_utc_spec _ _ _ _ _ Hu) as (O1 & O2 & I1 & I2).
  exists su, eu. repeat split; trivial.
  - rewrite I1. unfold instant. cbn [naive utcoffset]. lia.
  - rewrite I2, I1. unfold instant. cbn [naive utcoffset]. lia.
Qed.

Lemma shifted_slot_fails (now : datetime) (tz n : Z) :
  -86400 < tz < 86400 ->
  (~ representable (to_us now + 300000000) ->
   shifted_slot now tz n = Raise (OverflowError "date value out of range")) /\
  (representable (to_us now + 300000000) ->
   -999999999 <= n / 1440 <= 999999999 ->
   ~ (representable (to_us now + 300000000 + n * 60000000) /\
      representable (to_us now + 300000000 - tz * 1000000) /\
      representable (to_us now + 300000000 + n * 60000000 - tz * 1000000)) ->
   shifted_slot now tz n = Raise (OverflowError "date value out of range")) /\
  (representable (to_us now + 300000000) ->
   ~ (-999999999 <= n / 1440 <= 999999999) ->
   -2147483648 <= n / 1440 <= 2147483647 ->
   shifted_slot now tz n =
     Raise (OverflowError ("days=" ++ PyStr.str_int (n / 1440) ++
                           "; must have magnitude <= 999999999"))) /\
  (representable (to_us now + 300000000) ->
   ~ (-2147483648 <= n / 1440 <= 2147483647) ->
   shifted_slot now tz n = Raise (OverflowError "Python int too large to convert to C int")).
Proof.
  intros Htz. unfold shifted_slot.
  change (minutes 5) with (Ok (A := timedelta) 300000000). cbn [bind].
  split; [| split; [| split]].
  - intros H0. rewrite (add_out_of_range _ _ H0). reflexivity.
  - intros H0 Hn Hbad.
    destruct (add_ok now 300000000 H0) as [s' Hs']. rewrite Hs'. cbn [bind].
    destruct (add_spec _ _ _ Hs') as [Es' _].
    rewrite minutes_cases.
    replace (-999999999 <=? n / 1440) with true by (symmetry; apply Z.leb_le; lia).
    replace (n / 1440 <=? 999999999) with true by (symmetry; apply Z.leb_le; lia).
    cbn [andb bind].
    destruct (representable_dec (to_us now + 300000000 + n * 60000000)) as [H1 | H1].
    + destruct (add_ok s' (n * 60000000)) as [e' He']; [rewrite Es'; exact H1 |].
      rewrite He'. cbn [bind].
      destruct (add_spec _ _ _ He') as [Ee' _].
      apply to_utc_fails; [exact Htz |]. rewrite Ee', Es'. tauto.
    + rewrite add_out_of_range; [reflexivity | rewrite Es'; exact H1].
  - intros H0 Hn Hc.
    destruct (add_ok now 300000000 H0) as [s' Hs']. rewrite Hs'. cbn [bind].
    rewrite minutes_cases.
    replace ((-999999999 <=? n / 1440) && (n / 1440 <=? 999999999)) with false.
    2:{ symmetry. apply andb_false_iff.
        destruct (Z_le_dec (-999999999) (n / 1440)) as [Hl | Hl];
          [right; apply Z.leb_gt; lia | left; apply Z.leb_gt; lia]. }
    replace (-2147483648 <=? n / 1440) with true by (symmetry; apply Z.leb_le; lia).
    replace (n / 1440 <=? 2147483647) with true by (symmetry; apply Z.leb_le; lia).
    reflexivity.
  - intros H0 Hc.
    destruct (add_ok now 300000000 H0) as [s' Hs']. rewrite Hs'. cbn [bind].
    rewrite minutes_cases.
    replace ((-999999999 <=? n / 1440) && (n / 1440 <=? 999999999)) with false.
    2:{ symmetry. apply andb_false_iff.
        destruct (Z_le_dec (-999999999) (n / 1440)) as [Hl | Hl];
          [right; apply Z.leb_gt; lia | left; apply Z.leb_gt; lia]. }
    replace ((-2147483648 <=? n / 1440) && (n / 1440 <=? 2147483647)) with false.
    2:{ symmetry. apply andb_false_iff.
        destruct (Z_le_dec (-2147483648) (n / 1440)) as [Hl | Hl];
          [right; apply Z.leb_gt; lia | left; apply Z.leb_gt; lia]. }
    reflexivity.
Qed.

(** The date/time stage on a start of today that is before now. *)
Lemma parse_datetime_today (w : World) (st : SchedulerState) (s e : datetime) (n : Z) :
  has_error st = false -> parse_slot w st = Ok (s, e) ->
  ltb s (clock_now_local w) = true ->
  date_eqb (date_of s) (date_of (clock_now_local w)) = true ->
  duration_minutes st = Some n ->
  parse_datetime w st =
    match shifted_slot (clock_now_local w) (clock_local_tz w) n with
    | Ok (su, eu) => (set_slot st su eu, [StWarning (past_time_warning s); StRender])
    | Raise ex =>
        (set_error st (Some (datetime_error_msg ex)),
         [StWarning (past_time_warning s); StError (datetime_error_msg ex)])
    end.
Proof.
  intros He Hp Hlt Hd Hn.
  rewrite (parse_datetime_unfold w st s e He Hp).
  unfold adjust_past, duration_delta, shifted_slot. rewrite Hlt, Hd, Hn.
  set (r := bind (bind (minutes 5) _) _).
  destruct r as [[su eu] | ex]; reflexivity.
Qed.

(** The single-pass script on a start that is before now. *)
Lemma single_pass_past (w : World) (out title : string) (s e : datetime) (n : Z) :
  LangChain.parse_slot w out = Ok (title, n, s, e) ->
  ltb s (clock_now_local w) = true ->
  LangChain.resolve w out =
    ([StWarning "The suggested time is in the past. Adjusting to now."],
     match shifted_slot (clock_now_local w) (clock_local_tz w) n with
     | Ok (su, eu) => Ok (title, su, eu)
     | Raise ex => Raise ex
     end).
Proof.
  intros Hp Hlt. unfold LangChain.resolve. rewrite Hp.
  unfold LangChain.adjust_past, shifted_slot. rewrite Hlt.
  set (r := bind (minutes 5) _).
  destruct r as [[s' e'] | ex]; cbn [bind]; [| reflexivity].
  destruct (to_utc _ _) as [[su eu] | ex]; reflexivity.
Qed.

(** C1, as the two scripts have it. In the LangGraph workflow, when the
    start the reply names is strictly before now: on today's date the stage
    warns and computes now + 5 minutes and that plus duration_minutes,
    whatever end the reply named; when both, and what they are in UTC, lie
    in the years 1 to 9999, they are stored as start and end; when one does
    not, or when duration_minutes is more than a [timedelta] can hold, the
    stage has warned and then fails in its unexpected-error branch with the
    [OverflowError] of the library, storing no slot. On any
    other date the stage fails with the "date in the past" error, leaves
    start and end as they were and corrects nothing. The single-pass script
    has no such test: it moves every start that is before now, on whatever
    date, and fails in the same cases. *)
Theorem past_time_correction (w : World) :
  -86400 < clock_local_tz w < 86400 ->
  (forall st s e n,
     has_error st = false -> parse_slot w st = Ok (s, e) ->
     ltb s (clock_now_local w) = true ->
     date_eqb (date_of s) (date_of (clock_now_local w)) = true ->
     duration_minutes st = Some n ->
     let t0 := to_us (clock_now_local w) + 300000000 in
     let t1 := t0 + n * 60000000 in
     let off := clock_local_tz w * 1000000 in
     let failed := fun msg =>
       (set_error st
          (Some ("An unexpected error occurred during date/time parsing: " ++ msg)),
        [StWarning (past_time_warning s);
         StError ("An unexpected error occurred during date/time parsing: " ++ msg)]) in
     (representable t0 -> -999999999 <= n / 1440 <= 999999999 -> representable t1 ->
      representable (t0 - off) -> representable (t1 - off) ->
      exists su eu,
        parse_datetime w st =
          (set_slot st su eu, [StWarning (past_time_warning s); StRender]) /\
        utcoffset su = 0 /\ utcoffset eu = 0 /\
        instant su
        = instant (mkaware (clock_now_local w) (clock_local_tz w)) + 300000000 /\
        instant eu = instant su + n * 60000000) /\
     (~ representable t0 -> parse_datetime w st = failed "date value out of range") /\
     (representable t0 -> -999999999 <= n / 1440 <= 999999999 ->
      ~ (representable t1 /\ representable (t0 - off) /\ representable (t1 - off)) ->
      parse_datetime w st = failed "date value out of range") /\
     (representable t0 -> ~ (-999999999 <= n / 1440 <= 999999999) ->
      -2147483648 <= n / 1440 <= 2147483647 ->
      parse_datetime w st =
        failed ("days=" ++ PyStr.str_int (n / 1440) ++
                "; must have magnitude <= 999999999")) /\
     (representable t0 -> ~ (-2147483648 <= n / 1440 <= 2147483647) ->
      parse_datetime w st = failed "Python int too large to convert to C int")) /\
  (forall st s e,
     has_error st = false -> parse_slot w st = Ok (s, e) ->
     ltb s (clock_now_local w) = true ->
     date_eqb (date_of s) (date_of (clock_now_local w)) = false ->
     parse_datetime w st =
       (set_error st (Some ("Date/Time parsing error: " ++ past_date_msg s)),
        [StError ("Date/Time parsing error: " ++ past_date_msg s)]) /\
     start_dt (fst (parse_datetime w st)) = start_dt st /\
     end_dt (fst (parse_datetime w st)) = end_dt st) /\
  (forall out title s e n,
     LangChain.parse_slot w out = Ok (title, n, s, e) ->
     ltb s (clock_now_local w) = true ->
     let t0 := to_us (clock_now_local w) + 300000000 in
     let t1 := t0 + n * 60000000 in
     let off := clock_local_tz w * 1000000 in
     let failed := fun msg =>
       ([StWarning "The suggested time is in the past. Adjusting to now."],
        Raise (A := string * aware * aware) (OverflowError msg)) in
     (representable t0 -> -999999999 <= n / 1440 <= 999999999 -> representable t1 ->
      representable (t0 - off) -> representable (t1 - off) ->
      exists su eu,
        LangChain.resolve w out =
          ([StWarning "The suggested time is in the past. Adjusting to now."],
           Ok (title, su, eu)) /\
        utcoffset su = 0 /\ utcoffset eu = 0 /\
        instant su
        = instant (mkaware (clock_now_local w) (clock_local_tz w)) + 300000000 /\
        instant eu = instant su + n * 60000000) /\
     (~ representable t0 -> LangChain.resolve w out = failed "date value out of range") /\
     (representable t0 -> -999999999 <= n / 1440 <= 999999999 ->
      ~ (representable t1 /\ representable (t0 - off) /\ representable (t1 - off)) ->
      LangChain.resolve w out = failed "date value out of range") /\
     (representable t0 -> ~ (-999999999 <= n / 1440 <= 999999999) ->
      -2147483648 <= n / 1440 <= 2147483647 ->
      LangChain.resolve w out =
        failed ("days=" ++ PyStr.str_int (n / 1440) ++
                "; must have magnitude <= 999999999")) /\
     (representable t0 -> ~ (-2147483648 <= n / 1440 <= 2147483647) ->
      LangChain.resolve w out = failed "Python int too large to convert to C int")).
Proof.
  intros Htz. split; [| split].
  - intros st s e n He Hp Hlt Hd Hn t0 t1 off failed.
    pose proof (parse_datetime_today w st s e n He Hp Hlt Hd Hn) as Hpd.
    destruct (shifted_slot_fails (clock_now_local w) (clock_local_tz w) n Htz)
      as (F0 & F1 & F2 & F3).
    split; [| split; [| split; [| split]]].
    + intros H0 Hv H1 H2 H3.
      destruct (shifted_slot_ok (clock_now_local w) (clock_local_tz w) n Htz H0 Hv H1 H2 H3)
        as (su & eu & Hs & O1 & O2 & I1 & I2).
      exists su, eu. rewrite Hpd, Hs. repeat split; assumption.
    + intros H0. rewrite Hpd, (F0 H0). reflexivity.
    + intros H0 Hv Hbad. rewrite Hpd, (F1 H0 Hv Hbad). reflexivity.
    + intros H0 Hv Hc. rewrite Hpd, (F2 H0 Hv Hc). reflexivity.
    + intros H0 Hc. rewrite Hpd, (F3 H0 Hc). reflexivity.
  - intros st s e He Hp Hlt Hd.
    assert (H : parse_datetime w st =
                (set_error st (Some ("Date/Time parsing error: " ++ past_date_msg s)),
                 [StError ("Date/Time parsing error: " ++ past_date_msg s)])).
    { rewrite (parse_datetime_unfold w st s e He Hp).
      unfold adjust_past. rewrite Hlt, Hd. reflexivity. }
    rewrite H. repeat split.
  - intros out title s e n Hp Hlt t0 t1 off failed.
    pose proof (single_pass_past w out title s e n Hp Hlt) as Hr.
    destruct (shifted_slot_fails (clock_now_local w) (clock_local_tz w) n Htz)
      as (F0 & F1 & F2 & F3).
    split; [| split; [| split; [| split]]].
    + intros H0 Hv H1 H2 H3.
      destruct (shifted_slot_ok (clock_now_local w) (clock_local_tz w) n Htz H0 Hv H1 H2 H3)
        as (su & eu & Hs & O1 & O2 & I1 & I2).
      exists su, eu. rewrite Hr, Hs. repeat split; assumption.
    + intros H0. rewrite Hr, (F0 H0). reflexivity.
    + intros H0 Hv Hbad. rewrite Hr, (F1 H0 Hv Hbad). reflexivity.
    + intros H0 Hv Hc. rewrite Hr, (F2 H0 Hv Hc). reflexivity.
    + intros H0 Hc. rewrite Hr, (F3 H0 Hc). reflexivity.
Qed.

Ltac by_compute :=
  vm_compute;
  first [ reflexivity
        | discriminate
        | split; first [reflexivity | discriminate] ].

(** The shift on a reply of 9:00 AM today (now is 10:00:01), and the same
    reply with a duration that leaves the calendar, with one of more days
    than a [timedelta] holds, and with one of more days than a C [int]. *)
Lemma past_time_correction_witness :
  (exists su eu,
     parse_datetime (Demo.world Demo.reply_earlier_today)
                    (Demo.extracted_state Demo.reply_earlier_today) =
       (set_slot (Demo.extracted_state Demo.reply_earlier_today) su eu,
        [StWarning (past_time_warning (mkdt 2026 11 3 9 0 0 0)); StRender]) /\
     utcoffset su = 0 /\ utcoffset eu = 0 /\
     instant su =
       instant (mkaware (clock_now_local (Demo.world Demo.reply_earlier_today))
                        (clock_local_tz (Demo.world Demo.reply_earlier_today)))
       + 300000000 /\
     instant eu = instant su + 45 * 60000000) /\
  error (fst (parse_datetime (Demo.world Cases.reply_long_today)
                             (Demo.extracted_state Cases.reply_long_today)))
  = Some "An unexpected error occurred during date/time parsing: date value out of range" /\
  error (fst (parse_datetime (Demo.world Cases.reply_days_today)
                             (Demo.extracted_state Cases.reply_days_today)))
  = Some ("An unexpected error occurred during date/time parsing: " ++
          "days=1000000000; must have magnitude <= 999999999") /\
  error (fst (parse_datetime (Demo.world Cases.reply_huge_today)
                             (Demo.extracted_state Cases.reply_huge_today)))
  = Some ("An unexpected error occurred during date/time parsing: " ++
          "Python int too large to convert to C int").
Proof.
  split; [| split; [| split]].
  - assert (Htz : -86400 < clock_local_tz (Demo.world Demo.reply_earlier_today) < 86400)
      by (cbn; lia).
    destruct (past_time_correction (Demo.world Demo.reply_earlier_today) Htz) as [H _].
    apply (H (Demo.extracted_state Demo.reply_earlier_today)
             (mkdt 2026 11 3 9 0 0 0) (mkdt 2026 11 3 9 30 0 0) 45);
      try (vm_compute; reflexivity);
      vm_compute; split; congruence.
  - assert (Htz : -86400 < clock_local_tz (Demo.world Cases.reply_long_today) < 86400)
      by (cbn; lia).
    destruct (past_time_correction (Demo.world Cases.reply_long_today) Htz) as [H _].
    destruct (H (Demo.extracted_state Cases.reply_long_today)
                (mkdt 2026 11 3 9 0 0 0) (mkdt 2026 11 3 9 30 0 0) 6000000000
                eq_refl eq_refl eq_refl eq_refl eq_refl)
      as (_ & _ & Hout & _).
    rewrite Hout; [reflexivity | | |].
    + vm_compute. split; congruence.
    + vm_compute. split; congruence.
    + vm_compute. intros [[_ Hbad] _]. discriminate Hbad.
  - assert (Htz : -86400 < clock_local_tz (Demo.world Cases.reply_days_today) < 86400)
      by (cbn; lia).
    destruct (past_time_correction (Demo.world Cases.reply_days_today) Htz) as [H _].
    destruct (H (Demo.extracted_state Cases.reply_days_today)
                (mkdt 2026 11 3 9 0 0 0) (mkdt 2026 11 3 9 30 0 0) 1440000000000
                eq_refl eq_refl eq_refl eq_refl eq_refl)
      as (_ & _ & _ & Hout & _).
    rewrite Hout; [reflexivity | | |].
    + vm_compute. split; congruence.
    + vm_compute. intros [_ Hbad]. apply Hbad. reflexivity.
    + vm_compute. split; congruence.
  - assert (Htz : -86400 < clock_local_tz (Demo.world Cases.reply_huge_today) < 86400)
      by (cbn; lia).
    destruct (past_time_correction (Demo.world Cases.reply_huge_today) Htz) as [H _].
    destruct (H (Demo.extracted_state Cases.reply_huge_today)
                (mkdt 2026 11 3 9 0 0 0) (mkdt 2026 11 3 9 30 0 0) 1440000000000000
                eq_refl eq_refl eq_refl eq_refl eq_refl)
      as (_ & _ & _ & _ & Hout).
    rewrite Hout; [reflexivity | |].
    + vm_compute. split; congruence.
    + vm_compute. intros [_ Hbad]. apply Hbad. reflexivity.
Defined.

(** Against C1 as stated: the reply names 9:00 AM on Monday 2 November
    2026 while now is Tuesday 3 November, 10:00:01. The workflow rejects it
    with the past-date error; the single-pass script does not fail: it
    warns and moves the slot to now + 5 minutes. *)
Lemma single_pass_corrects_a_past_day :
  LangChain.parse_slot (Demo.world Demo.reply_yesterday) Demo.reply_yesterday
  = Ok ("Standup", 45, mkdt 2026 11 2 9 0 0 0, mkdt 2026 11 2 9 30 0 0) /\
  ltb (mkdt 2026 11 2 9 0 0 0) (clock_now_local (Demo.world Demo.reply_yesterday)) = true /\
  date_eqb (date_of (mkdt 2026 11 2 9 0 0 0))
           (date_of (clock_now_local (Demo.world Demo.reply_yesterday))) = false /\
  LangChain.resolve (Demo.world Demo.reply_yesterday) Demo.reply_yesterday
  = ([StWarning "The suggested time is in the past. Adjusting to now."],
     Ok ("Standup", mkaware (mkdt 2026 11 3 4 35 1 0) 0,
         mkaware (mkdt 2026 11 3 5 20 1 0) 0)) /\
  error (fst (parse_datetime (Demo.world Demo.reply_yesterday)
                             (Demo.extracted_state Demo.reply_yesterday)))
  = Some ("Date/Time parsing error: " ++ past_date_msg (mkdt 2026 11 2 9 0 0 0)).
Proof. repeat split; vm_compute; reflexivity. Qed.

(** ** What a stored slot satisfies (C3) *)

Lemma time_on_wf (date_obj : datetime) (part : string) (t : datetime) :
  time_on date_obj part = Ok t -> wf t.
Proof.
  unfold time_on, replace_ymd. intros H.
  destruct (Strptime.strptime part "%I:%M %p"); [| discriminate].
  cbn [bind] in H. eauto using new_wf.
Qed.

Lemma parse_slot_wf (w : World) (st : SchedulerState) (s e : datetime) :
  parse_slot w st = Ok (s, e) -> wf s /\ wf e.
Proof.
  unfold parse_slot. intros H.
  destruct (parse_flexible_date _ _) as [[d |] |]; try discriminate. cbn [bind] in H.
  destruct (scheduled_time_str st) as [ts |]; [| discriminate].
  destruct (negb _); [discriminate |].
  destruct (split_time_range ts) as [[a b] |]; [| discriminate]. cbn [bind fst snd] in H.
  destruct (time_on d a) as [s0 |] eqn:Es; [| discriminate]. cbn [bind] in H.
  destruct (time_on d b) as [e0 |] eqn:Ee; [| discriminate]. cbn [bind] in H.
  inversion H; subst. eauto using time_on_wf.
Qed.

Lemma parse_datetime_success (w : World) (st st' : SchedulerState) (effs : list effect) :
  has_error st = false -> parse_datetime w st = (st', effs) -> has_error st' = false ->
  exists s e se su eu es,
    parse_slot w st = Ok (s, e) /\
    adjust_past (clock_now_local w) (duration_minutes st) s e = (es, Ok se) /\
    to_utc (clock_local_tz w) se = Ok (su, eu) /\
    st' = set_slot st su eu.
Proof.
  intros He H He'. unfold parse_datetime, resolve_slot in H. rewrite He in H.
  destruct (parse_slot w st) as [[s e] | ex] eqn:Ep.
  - destruct (adjust_past _ _ s e) as [es r] eqn:Ea.
    destruct r as [se | ex]; cbn [bind] in H.
    + destruct (to_utc _ se) as [[su eu] | ex] eqn:Eu.
      * inversion H; subst. exists s, e, se, su, eu, es. auto.
      * inversion H; subst. unfold has_error in He'. cbn [error set_error] in He'.
        rewrite truthy_datetime_error in He'. discriminate.
    + inversion H; subst. unfold has_error in He'. cbn [error set_error] in He'.
      rewrite truthy_datetime_error in He'. discriminate.
  - inversion H; subst. unfold has_error in He'. cbn [error set_error] in He'.
    rewrite truthy_datetime_error in He'. discriminate.
Qed.

(** C3, as the resolver has it. Every slot the stage stores is in UTC and
    its start is not before now. When the past-time correction fired, start
    is now + 5 minutes and end - start is exactly duration_minutes, so end
    is after start exactly when the duration is positive. When it did not
    fire, start and end are the two times of the reply on the resolved
    date: end - start is the length of the range the reply named, which the
    stage compares neither with zero nor with duration_minutes. *)
Theorem stored_slot (w : World) (st st' : SchedulerState) (effs : list effect) :
  wf (clock_now_local w) ->
  has_error st = false ->
  parse_datetime w st = (st', effs) ->
  has_error st' = false ->
  exists s e su eu,
    parse_slot w st = Ok (s, e) /\
    start_dt st' = Some su /\ end_dt st' = Some eu /\
    utcoffset su = 0 /\ utcoffset eu = 0 /\
    instant (mkaware (clock_now_local w) (clock_local_tz w)) <= instant su /\
    (ltb s (clock_now_local w) = true ->
       exists n, duration_minutes st = Some n /\
         instant su = instant (mkaware (clock_now_local w) (clock_local_tz w)) + 300000000 /\
         instant eu - instant su = n * 60000000 /\
         (instant su < instant eu <-> 0 < n)) /\
    (ltb s (clock_now_local w) = false ->
       instant su = instant (mkaware s (clock_local_tz w)) /\
       instant eu = instant (mkaware e (clock_local_tz w)) /\
       instant eu - instant su = sub e s).
Proof.
  intros Hnow He H He'.
  destruct (parse_datetime_success w st st' effs He H He')
    as (s & e & [s1 e1] & su & eu & es & Hp & Ha & Hu & ->).
  destruct (parse_slot_wf _ _ _ _ Hp) as [Hws Hwe].
  destruct (to_utc_spec _ _ _ _ _ Hu) as (O1 & O2 & I1 & I2).
  exists s, e, su, eu. cbn [start_dt end_dt set_slot].
  unfold adjust_past in Ha.
  destruct (ltb s (clock_now_local w)) eqn:Hlt.
  - destruct (date_eqb _ _); [| inversion Ha].
    inversion Ha as [[Hes Hr]]. clear Ha.
    unfold minutes in Hr.
    destruct (check_delta (5 * 60000000)) as [five |] eqn:E5; [| discriminate].
    apply check_delta_inv in E5. subst five. cbn [bind] in Hr.
    destruct (add (clock_now_local w) _) as [s' |] eqn:A1; [| discriminate].
    cbn [bind] in Hr.
    destruct (duration_minutes st) as [n |]; [| discriminate].
    unfold duration_delta, minutes in Hr.
    destruct (check_delta (n * 60000000)) as [d |] eqn:En; [| discriminate].
    apply check_delta_inv in En. subst d. cbn [bind] in Hr.
    destruct (add s' _) as [e' |] eqn:A2; [| discriminate].
    cbn [bind] in Hr. inversion Hr; subst s1 e1.
    destruct (add_spec _ _ _ A1) as [E1 _]. destruct (add_spec _ _ _ A2) as [E2 _].
    assert (Is : instant su
                 = instant (mkaware (clock_now_local w) (clock_local_tz w)) + 300000000)
      by (rewrite I1; unfold instant; cbn [naive utcoffset]; lia).
    assert (Ie : instant eu - instant su = n * 60000000)
      by (rewrite I1, I2; unfold instant; cbn [naive utcoffset]; lia).
    repeat split; trivial; try lia; try discriminate.
    intros _. exists n. repeat split; trivial; lia.
  - inversion Ha; subst es s1 e1.
    pose proof (ltb_false_to_us _ _ Hws Hnow Hlt) as Hge.
    repeat split; trivial; try discriminate.
    + rewrite I1. unfold instant. cbn [naive utcoffset]. lia.
    + rewrite I1, I2. unfold instant, sub. cbn [naive utcoffset]. lia.
Qed.

Lemma stored_slot_witness :
  exists s e su eu,
    parse_slot (Demo.world Demo.reply_tomorrow) (Demo.extracted_state Demo.reply_tomorrow)
    = Ok (s, e) /\
    start_dt (fst (parse_datetime (Demo.world Demo.reply_tomorrow)
                                  (Demo.extracted_state Demo.reply_tomorrow))) = Some su /\
    end_dt (fst (parse_datetime (Demo.world Demo.reply_tomorrow)
                                (Demo.extracted_state Demo.reply_tomorrow))) = Some eu /\
    utcoffset su = 0 /\ utcoffset eu = 0 /\
    instant (mkaware (clock_now_local (Demo.world Demo.reply_tomorrow))
                     (clock_local_tz (Demo.world Demo.reply_tomorrow))) <= instant su /\
    (ltb s (clock_now_local (Demo.world Demo.reply_tomorrow)) = true ->
       exists n, duration_minutes (Demo.extracted_state Demo.reply_tomorrow) = Some n /\
         instant su
         = instant (mkaware (clock_now_local (Demo.world Demo.reply_tomorrow))
                            (clock_local_tz (Demo.world Demo.reply_tomorrow))) + 300000000 /\
         instant eu - instant su = n * 60000000 /\
         (instant su < instant eu <-> 0 < n)) /\
    (ltb s (clock_now_local (Demo.world Demo.reply_tomorrow)) = false ->
       instant su = instant (mkaware s (clock_local_tz (Demo.world Demo.reply_tomorrow))) /\
       instant eu = instant (mkaware e (clock_local_tz (Demo.world Demo.reply_tomorrow))) /\
       instant eu - instant su = sub e s).
Proof.
  apply (stored_slot (Demo.world Demo.reply_tomorrow)
           (Demo.extracted_state Demo.reply_tomorrow)
           (fst (parse_datetime (Demo.world Demo.reply_tomorrow)
                                (Demo.extracted_state Demo.reply_tomorrow)))
           (snd (parse_datetime (Demo.world Demo.reply_tomorrow)
                                (Demo.extracted_state Demo.reply_tomorrow))));
    vm_compute; reflexivity.
Defined.

(** Against C3 as stated: the reply asks for 30 minutes but names the
    range "3:00 PM - 2:00 PM" tomorrow. The correction does not fire, the
    stage reports no error, and the stored end lies 60 minutes before the
    stored start. *)
Lemma stored_end_before_start :
  parse_datetime (Demo.world Demo.reply_reversed) (Demo.extracted_state Demo.reply_reversed)
  = (set_slot (Demo.extracted_state Demo.reply_reversed)
       (mkaware (mkdt 2026 11 4 9 30 0 0) 0) (mkaware (mkdt 2026 11 4 8 30 0 0) 0),
     [StRender]) /\
  duration_minutes (Demo.extracted_state Demo.reply_reversed) = Some 30 /\
  ltb (mkdt 2026 11 4 15 0 0 0) (clock_now_local (Demo.world Demo.reply_reversed)) = false /\
  instant (mkaware (mkdt 2026 11 4 8 30 0 0) 0)
  - instant (mkaware (mkdt 2026 11 4 9 30 0 0) 0) = -60 * 60000000 /\
  ltb (mkdt 2026 11 4 8 30 0 0) (mkdt 2026 11 4 9 30 0 0) = true.
Proof. repeat split; vm_compute; reflexivity. Qed.

(** ** The year of a date given without one (C5) *)

Lemma try_formats_some (now : datetime) (s : string) (fmts : list string) (d : datetime) :
  try_formats now s fmts = Ok (Some d) ->
  exists fmt, In fmt fmts /\ try_format now s fmt = Ok d.
Proof.
  induction fmts as [| f fmts IH]; simpl; [discriminate |].
  destruct (try_format now s f) as [d' | e] eqn:E.
  - intros H. inversion H; subst. eauto.
  - destruct e; try discriminate. intros H. destruct (IH H) as (fmt & Hin & Hok). eauto.
Qed.

Lemma try_format_inv (now : datetime) (s fmt : string) (d : datetime) :
  try_format now s fmt = Ok d ->
  exists d0, Strptime.strptime s fmt = Ok d0 /\
    ((PyStr.contains "%Y" fmt = true /\ d = d0) \/
     (PyStr.contains "%Y" fmt = false /\ d = with_year d0 (inferred_year now d0))).
Proof.
  unfold try_format. destruct (Strptime.strptime s fmt) as [d0 |]; [| discriminate].
  cbn [bind]. intros H. exists d0. split; [reflexivity |].
  destruct (PyStr.contains "%Y" fmt); cbn [negb] in H.
  - left. inversion H. auto.
  - right. split; [reflexivity |].
    destruct (replace_year d0 (year now)) as [d1 |] eqn:E1; [| discriminate].
    cbn [bind] in H. apply replace_year_inv in E1. subst d1.
    unfold inferred_year.
    change (date_of (with_year d0 (year now))) with (year now, month d0, day d0) in H.
    destruct (date_ltb _ _).
    + apply replace_year_inv in H. exact H.
    + inversion H. reflexivity.
Qed.

(** What parse_flexible_date does about the year. A date that matched a
    format without a year comes back in the current year, or in the next
    one exactly when that day of the current year is before today's date;
    a date that matched a format with a year comes back as parsed. *)
Lemma year_inference (now : datetime) (s : string) :
  (forall d, parse_flexible_date now (Some s) = Ok (Some d) ->
     exists fmt d0,
       In fmt formats /\ Strptime.strptime s fmt = Ok d0 /\
       ((PyStr.contains "%Y" fmt = true /\ d = d0) \/
        (PyStr.contains "%Y" fmt = false /\
         month d = month d0 /\ day d = day d0 /\
         year d = (if date_ltb (year now, month d0, day d0) (date_of now)
                   then year now + 1 else year now)))) /\
  (forall fmt d0,
     In fmt formats -> PyStr.contains "%Y" fmt = false ->
     MINYEAR <= year now < MAXYEAR ->
     Strptime.strptime s fmt = Ok d0 ->
     try_format now s fmt = Ok (with_year d0 (inferred_year now d0))) /\
  (forall fmt d0,
     PyStr.contains "%Y" fmt = true -> Strptime.strptime s fmt = Ok d0 ->
     try_format now s fmt = Ok d0).
Proof.
  split; [| split].
  - intros d H. unfold parse_flexible_date in H.
    destruct (try_formats_some _ _ _ _ H) as (fmt & Hin & Hok).
    destruct (try_format_inv _ _ _ _ Hok) as (d0 & Hs & [[Hc ->] | [Hc ->]]).
    + exists fmt, d0. auto.
    + exists fmt, d0. split; [assumption |]. split; [assumption |]. right.
      repeat split; trivial.
  - intros fmt d0 Hin Hc Hy Hs.
    destruct (formats_year fmt Hin) as [Hc' | [_ H19]]; [congruence |].
    apply try_format_without_year; eauto.
  - intros fmt d0 Hc Hs. apply try_format_with_year; assumption.
Qed.

(** C5 at the failing input. Now is Tuesday 3 November 2026, 10:00, and the
    date text is "Tuesday, 03 November": today, so not in the past. The
    workflow keeps the current year. The single-pass script compares the
    midnight of that day with the current instant and returns the date of
    the next year. *)
Theorem single_pass_moves_today_to_next_year :
  date_ltb (2026, 11, 3) (date_of (clock_now (Demo.world ""))) = false /\
  parse_flexible_date (clock_now (Demo.world "")) (Some "Tuesday, 03 November")
  = Ok (Some (mkdt 2026 11 3 0 0 0 0)) /\
  LangChain.parse_date (clock_now (Demo.world "")) "Tuesday, 03 November"
  = Ok (mkdt 2027 11 3 0 0 0 0).
Proof. repeat split; vm_compute; reflexivity. Qed.

(** ** The shape of the time range (C6) *)

Lemma split_length (s : string) :
  List.length (PyStr.split "-" s) = S (hyphens s).
Proof.
  induction s as [| c s IH]; simpl; [reflexivity |].
  destruct (Ascii.eqb c "-"); simpl.
  - rewrite IH. reflexivity.
  - destruct (PyStr.split "-" s); simpl in *; [discriminate | assumption].
Qed.

Lemma unpack2_ok (parts : list string) (a b : string) :
  unpack2 parts = Ok (a, b) <-> parts = [a; b].
Proof.
  unfold unpack2. destruct parts as [| x [| y [| z parts]]];
    split; intros H; inversion H; reflexivity.
Qed.

Lemma split_time_range_ok (ts a b : string) :
  split_time_range ts = Ok (a, b) ->
  hyphens ts = 1%nat /\
  exists x y, PyStr.split "-" ts = [x; y] /\ a = PyStr.strip x /\ b = PyStr.strip y.
Proof.
  unfold split_time_range. intros H. apply unpack2_ok in H.
  pose proof (split_length ts) as Hl.
  destruct (PyStr.split "-" ts) as [| x [| y [| z parts]]]; try discriminate.
  simpl in H. inversion H; subst. simpl in Hl. split; [lia | eauto].
Qed.

Lemma split_time_range_raises (ts : string) :
  hyphens ts <> 1%nat ->
  split_time_range ts =
    Raise (ValueError
             (if Nat.eqb (hyphens ts) 0
              then "not enough values to unpack (expected 2, got 1)"
              else "too many values to unpack (expected 2)")).
Proof.
  intros H. unfold split_time_range. pose proof (split_length ts) as Hl.
  destruct (PyStr.split "-" ts) as [| x [| y [| z parts]]]; cbn [List.length] in Hl.
  - discriminate Hl.
  - replace (hyphens ts) with 0%nat by lia. reflexivity.
  - exfalso. lia.
  - replace (hyphens ts) with (S (S (List.length parts))) by lia. reflexivity.
Qed.

Lemma contains_hyphen (ts : string) :
  PyStr.contains " - " ts = true -> (1 <= hyphens ts)%nat.
Proof.
  induction ts as [| c ts IH]; cbn [PyStr.contains PyStr.startswith hyphens].
  - discriminate.
  - intros H. apply orb_true_iff in H. destruct H as [H | H].
    + apply andb_true_iff in H. destruct H as [_ H].
      destruct ts as [| c1 ts]; [discriminate |].
      apply andb_true_iff in H. destruct H as [H _].
      cbn [hyphens]. rewrite Ascii.eqb_sym in H. rewrite H. lia.
    + specialize (IH H). lia.
Qed.

Lemma parse_slot_unfold (w : World) (st : SchedulerState) (d : datetime) (ts : string) :
  parse_flexible_date (clock_now w) (scheduled_date_str st) = Ok (Some d) ->
  scheduled_time_str st = Some ts ->
  parse_slot w st =
    if negb (PyStr.contains " - " ts) then Raise (ValueError (time_format_msg ts))
    else
      let* parts := split_time_range ts in
      let* start_dt_naive := time_on d (fst parts) in
      let* end_dt_naive := time_on d (snd parts) in
      Ok (start_dt_naive, end_dt_naive).
Proof. intros Hd Ht. unfold parse_slot. rewrite Hd, Ht. reflexivity. Qed.

Lemma parse_datetime_raises (w : World) (st : SchedulerState) (msg : string) :
  has_error st = false -> parse_slot w st = Raise (ValueError msg) ->
  parse_datetime w st =
    (set_error st (Some ("Date/Time parsing error: " ++ msg)),
     [StError ("Date/Time parsing error: " ++ msg)]).
Proof.
  intros He Hp. unfold parse_datetime, resolve_slot. rewrite He, Hp. reflexivity.
Qed.

(** C6, as the two scripts have it. In the workflow, once the date has
    parsed: a time text without " - " fails with the "Scheduled time format
    is incorrect" error of the date/time stage; one that holds " - " and
    more than one hyphen fails in the same stage, but on the two-way
    unpacking of the split, with "too many values to unpack (expected 2)"
    and not with the error of the time format; in both cases start and end
    are left as they were; and the stage succeeds only on a text that holds
    " - " and splits around its single hyphen into two parts, which are
    trimmed before they are read as times. The single-pass script has no
    test for " - ": it succeeds only on a text with exactly one hyphen, a
    text without a hyphen fails on the unpacking with "not enough values to
    unpack (expected 2, got 1)", one with several with "too many values to
    unpack (expected 2)". *)
Theorem time_range_shape (w : World) (st : SchedulerState) (ts : string) (d : datetime) :
  has_error st = false ->
  parse_flexible_date (clock_now w) (scheduled_date_str st) = Ok (Some d) ->
  scheduled_time_str st = Some ts ->
  (PyStr.contains " - " ts = false ->
     parse_datetime w st =
       (set_error st
          (Some ("Date/Time parsing error: Scheduled time format is incorrect: '" ++ ts ++
                 "'. Expected 'HH:MM AM/PM - HH:MM AM/PM'.")),
        [StError ("Date/Time parsing error: Scheduled time format is incorrect: '" ++ ts ++
                  "'. Expected 'HH:MM AM/PM - HH:MM AM/PM'.")])) /\
  (PyStr.contains " - " ts = true -> hyphens ts <> 1%nat ->
     parse_datetime w st =
       (set_error st
          (Some "Date/Time parsing error: too many values to unpack (expected 2)"),
        [StError "Date/Time parsing error: too many values to unpack (expected 2)"])) /\
  (hyphens ts <> 1%nat ->
     error (fst (parse_datetime w st)) =
       Some (if PyStr.contains " - " ts
             then "Date/Time parsing error: too many values to unpack (expected 2)"
             else "Date/Time parsing error: Scheduled time format is incorrect: '" ++ ts ++
                  "'. Expected 'HH:MM AM/PM - HH:MM AM/PM'.") /\
     has_error (fst (parse_datetime w st)) = true /\
     start_dt (fst (parse_datetime w st)) = start_dt st /\
     end_dt (fst (parse_datetime w st)) = end_dt st) /\
  (has_error (fst (parse_datetime w st)) = false ->
     hyphens ts = 1%nat /\ PyStr.contains " - " ts = true /\
     exists x y s e,
       PyStr.split "-" ts = [x; y] /\
       time_on d (PyStr.strip x) = Ok s /\ time_on d (PyStr.strip y) = Ok e /\
       parse_slot w st = Ok (s, e)) /\
  (forall out title ds n d0,
     LangChain.field "Task:" out = Ok title ->
     LangChain.field "Date:" out = Ok ds ->
     LangChain.field "Time:" out = Ok ts ->
     duration_of out = Ok n ->
     LangChain.parse_date (clock_now w) ds = Ok d0 ->
     (hyphens ts = 0%nat ->
      LangChain.resolve w out =
        ([], Raise (ValueError "not enough values to unpack (expected 2, got 1)"))) /\
     ((1 < hyphens ts)%nat ->
      LangChain.resolve w out =
        ([], Raise (ValueError "too many values to unpack (expected 2)"))) /\
     (forall r, snd (LangChain.resolve w out) = Ok r -> hyphens ts = 1%nat)).
Proof.
  intros He Hd Ht.
  pose proof (parse_slot_unfold w st d ts Hd Ht) as Hp.
  assert (H1 : PyStr.contains " - " ts = false ->
               parse_datetime w st =
                 (set_error st (Some ("Date/Time parsing error: " ++ time_format_msg ts)),
                  [StError ("Date/Time parsing error: " ++ time_format_msg ts)])).
  { intros Hc. apply parse_datetime_raises; trivial. rewrite Hp, Hc. reflexivity. }
  assert (H2 : PyStr.contains " - " ts = true -> hyphens ts <> 1%nat ->
               parse_datetime w st =
                 (set_error st
                    (Some "Date/Time parsing error: too many values to unpack (expected 2)"),
                  [StError "Date/Time parsing error: too many values to unpack (expected 2)"])).
  { intros Hc Hh. pose proof (contains_hyphen ts Hc) as Hge.
    pose proof (split_time_range_raises ts Hh) as Hm.
    replace (Nat.eqb (hyphens ts) 0) with false in Hm
      by (symmetry; apply Nat.eqb_neq; lia).
    apply (parse_datetime_raises w st "too many values to unpack (expected 2)"); trivial.
    rewrite Hp, Hc. cbn [negb]. rewrite Hm. reflexivity. }
  split; [exact H1 |]. split; [exact H2 |]. split; [| split].
  - intros Hh. destruct (PyStr.contains " - " ts) eqn:Hc.
    + rewrite (H2 eq_refl Hh). repeat split.
    + rewrite (H1 eq_refl). repeat split.
  - intros Hok.
    destruct (PyStr.contains " - " ts) eqn:Hc;
      [| rewrite (H1 eq_refl) in Hok; discriminate].
    destruct (Nat.eq_dec (hyphens ts) 1) as [Hh | Hh];
      [| rewrite (H2 eq_refl Hh) in Hok; discriminate].
    split; [assumption |]. split; [reflexivity |].
    cbn [negb] in Hp.
    destruct (split_time_range ts) as [[a b] | ex] eqn:Es.
    + destruct (split_time_range_ok _ _ _ Es) as (_ & x & y & Hxy & -> & ->).
      cbn [bind fst snd] in Hp.
      destruct (time_on d (PyStr.strip x)) as [s | ex] eqn:E1.
      * cbn [bind] in Hp.
        destruct (time_on d (PyStr.strip y)) as [e | ex] eqn:E2.
        -- exists x, y, s, e. auto.
        -- cbn [bind] in Hp. exfalso.
           unfold parse_datetime, resolve_slot in Hok. rewrite He, Hp in Hok.
           cbn [fst] in Hok. unfold has_error in Hok. cbn [error set_error] in Hok.
           rewrite truthy_datetime_error in Hok. discriminate.
      * cbn [bind] in Hp. exfalso.
        unfold parse_datetime, resolve_slot in Hok. rewrite He, Hp in Hok.
        cbn [fst] in Hok. unfold has_error in Hok. cbn [error set_error] in Hok.
        rewrite truthy_datetime_error in Hok. discriminate.
    + cbn [bind] in Hp. exfalso.
      unfold parse_datetime, resolve_slot in Hok. rewrite He, Hp in Hok.
      cbn [fst] in Hok. unfold has_error in Hok. cbn [error set_error] in Hok.
      rewrite truthy_datetime_error in Hok. discriminate.
  - intros out title ds n d0 F1 F2 F3 Hn Hpd.
    assert (Hfail : forall msg, split_time_range ts = Raise (ValueError msg) ->
                    LangChain.resolve w out = ([], Raise (ValueError msg))).
    { intros msg Hm. unfold LangChain.resolve, LangChain.parse_slot.
      rewrite F1, F2, F3. cbn [bind]. rewrite Hn. cbn [bind]. rewrite Hpd. cbn [bind].
      rewrite Hm. reflexivity. }
    split; [| split].
    + intros Hh. apply Hfail. rewrite split_time_range_raises by lia. rewrite Hh. reflexivity.
    + intros Hh. apply Hfail. rewrite split_time_range_raises by lia.
      replace (Nat.eqb (hyphens ts) 0) with false by (symmetry; apply Nat.eqb_neq; lia).
      reflexivity.
    + intros r Hok. destruct (Nat.eq_dec (hyphens ts) 1) as [Hh | Hh]; [exact Hh |].
      rewrite (Hfail _ (split_time_range_raises ts Hh)) in Hok. discriminate Hok.
Qed.

Lemma time_range_shape_witness :
  parse_datetime (Demo.world Demo.reply_no_hyphen)
                 (Demo.extracted_state Demo.reply_no_hyphen) =
    (set_error (Demo.extracted_state Demo.reply_no_hyphen)
       (Some ("Date/Time parsing error: Scheduled time format is incorrect: '3 PM'. " ++
              "Expected 'HH:MM AM/PM - HH:MM AM/PM'.")),
     [StError ("Date/Time parsing error: Scheduled time format is incorrect: '3 PM'. " ++
               "Expected 'HH:MM AM/PM - HH:MM AM/PM'.")]).
Proof.
  refine (proj1 (time_range_shape (Demo.world Demo.reply_no_hyphen)
                   (Demo.extracted_state Demo.reply_no_hyphen) "3 PM"
                   (mkdt 2026 11 4 0 0 0 0) _ _ _) _);
    vm_compute; reflexivity.
Defined.

(** Against C6 as stated: a range with two hyphens does not end in the
    error of the time format but in that of the unpacking; and in the
    single-pass script "3 PM", the example of the claim, ends in the one
    handler of the script with the message of the unpacking. *)
Lemma unpacking_error_for_time_range :
  scheduled_time_str (Demo.extracted_state Cases.reply_two_hyphens)
  = Some "3:00 PM - 4:00 PM - 5:00 PM" /\
  parse_datetime (Demo.world Cases.reply_two_hyphens)
                 (Demo.extracted_state Cases.reply_two_hyphens) =
    (set_error (Demo.extracted_state Cases.reply_two_hyphens)
       (Some "Date/Time parsing error: too many values to unpack (expected 2)"),
     [StError "Date/Time parsing error: too many values to unpack (expected 2)"]) /\
  error (fst (parse_datetime (Demo.world Cases.reply_two_hyphens)
                             (Demo.extracted_state Cases.reply_two_hyphens)))
  <> Some ("Date/Time parsing error: " ++ time_format_msg "3:00 PM - 4:00 PM - 5:00 PM") /\
  LangChain.main (Demo.world Demo.reply_no_hyphen) "Meet John" =
    ([StRender;
      LlmInvoke (LangChain.build_prompt "Meet John"
                   (clock_stamp (Demo.world Demo.reply_no_hyphen)));
      StRender;
      StError "Error parsing AI response: not enough values to unpack (expected 2, got 1)"],
     LangChain.Stopped).
Proof.
  split; [vm_compute; reflexivity |]. split; [vm_compute; reflexivity |].
  split; [vm_compute; discriminate |]. vm_compute. reflexivity.
Qed.

(** ** The event payload (C9) *)

Lemma string_app_assoc (a b c : string) : (a ++ b) ++ c = a ++ (b ++ c).
Proof. induction a as [| x a IH]; [reflexivity |]. cbn. rewrite IH. reflexivity. Qed.

Lemma append_length (a b : string) :
  String.length (a ++ b) = (String.length a + String.length b)%nat.
Proof. induction a as [| x a IH]; [reflexivity |]. cbn. rewrite IH. reflexivity. Qed.

Lemma digit_chr_digit (d : Z) :
  0 <= d <= 9 ->
  PyStr.isdigit (Fmt.digit_chr d) = true /\ PyStr.digit_val (Fmt.digit_chr d) = d.
Proof.
  intros H.
  assert (Hd : d = 0 \/ d = 1 \/ d = 2 \/ d = 3 \/ d = 4 \/ d = 5 \/ d = 6 \/ d = 7 \/
               d = 8 \/ d = 9) by lia.
  repeat (destruct Hd as [-> | Hd]); try subst d; split; reflexivity.
Qed.

Lemma read_digits_add (a b : nat) (x : Z) (s : string) :
  read_digits (a + b) x s =
  match read_digits a x s with
  | Some (y, s') => read_digits b y s'
  | None => None
  end.
Proof.
  revert x s. induction a as [| a IH]; intros x s; [reflexivity |].
  cbn [Nat.add read_digits]. destruct s as [| c s]; [reflexivity |].
  destruct (PyStr.isdigit c); [apply IH | reflexivity].
Qed.

Lemma dec_aux_S (f : nat) (n : Z) (acc : string) :
  Fmt.dec_aux (S f) n acc =
  if n <? 10 then String (Fmt.digit_chr (n mod 10)) acc
  else Fmt.dec_aux f (n / 10) (String (Fmt.digit_chr (n mod 10)) acc).
Proof. reflexivity. Qed.

(** What [dec_aux] puts in front of its accumulator: the decimal digits
    of [n], the most significant first and none to spare. *)
Lemma dec_aux_spec (f : nat) :
  forall n acc, 0 <= n < 2 ^ Z.of_nat (S f) ->
  exists ds,
    Fmt.dec_aux (S f) n acc = ds ++ acc /\
    (1 <= String.length ds)%nat /\
    n < 10 ^ Z.of_nat (String.length ds) /\
    (10 ^ Z.of_nat (String.length ds - 1) <= n \/ String.length ds = 1%nat) /\
    forall x rest,
      read_digits (String.length ds) x (ds ++ rest)
      = Some (x * 10 ^ Z.of_nat (String.length ds) + n, rest).
Proof.
  induction f as [| f IH]; intros n acc Hn.
  - change (2 ^ Z.of_nat 1) with 2 in Hn.
    exists (String (Fmt.digit_chr (n mod 10)) EmptyString).
    assert (Hm : n mod 10 = n) by (apply Z.mod_small; lia).
    destruct (digit_chr_digit n ltac:(lia)) as [D1 D2].
    rewrite dec_aux_S. replace (n <? 10) with true by (symmetry; apply Z.ltb_lt; lia).
    rewrite Hm. split; [reflexivity |]. cbn [String.length].
    split; [lia |]. split; [change (10 ^ Z.of_nat 1) with 10; lia |].
    split; [right; reflexivity |].
    intros x rest. cbn [append read_digits]. rewrite D1, D2.
    change (10 ^ Z.of_nat 1) with 10. f_equal. f_equal. lia.
  - rewrite dec_aux_S. destruct (n <? 10) eqn:E.
    + apply Z.ltb_lt in E.
      exists (String (Fmt.digit_chr (n mod 10)) EmptyString).
      assert (Hm : n mod 10 = n) by (apply Z.mod_small; lia).
      destruct (digit_chr_digit n ltac:(lia)) as [D1 D2].
      rewrite Hm. split; [reflexivity |]. cbn [String.length].
      split; [lia |]. split; [change (10 ^ Z.of_nat 1) with 10; lia |].
      split; [right; reflexivity |].
      intros x rest. cbn [append read_digits]. rewrite D1, D2.
      change (10 ^ Z.of_nat 1) with 10. f_equal. f_equal. lia.
    + apply Z.ltb_ge in E.
      assert (Hq : 0 <= n / 10 < 2 ^ Z.of_nat (S f)).
      { rewrite (Nat2Z.inj_succ (S f)), Z.pow_succ_r in Hn by lia.
        Z.div_mod_to_equations. lia. }
      destruct (IH (n / 10) (String (Fmt.digit_chr (n mod 10)) acc) Hq)
        as (ds & Hds & Hlen & Hlt & Hge & Hread).
      assert (Hr : 0 <= n mod 10 <= 9) by (Z.div_mod_to_equations; lia).
      destruct (digit_chr_digit _ Hr) as [D1 D2].
      exists (ds ++ String (Fmt.digit_chr (n mod 10)) EmptyString).
      rewrite append_length. cbn [String.length].
      assert (Hp : 10 ^ Z.of_nat (String.length ds + 1)
                   = 10 * 10 ^ Z.of_nat (String.length ds)).
      { rewrite Nat.add_1_r, Nat2Z.inj_succ, Z.pow_succ_r by lia. reflexivity. }
      split; [rewrite Hds, string_app_assoc; reflexivity |].
      split; [lia |]. split; [rewrite Hp; Z.div_mod_to_equations; lia |].
      split.
      * left. replace (String.length ds + 1 - 1)%nat with (String.length ds) by lia.
        destruct Hge as [Hge | Hone].
        -- replace (String.length ds) with (S (String.length ds - 1)) by lia.
           rewrite Nat2Z.inj_succ, Z.pow_succ_r by lia.
           Z.div_mod_to_equations. lia.
        -- rewrite Hone. change (10 ^ Z.of_nat 1) with 10. lia.
      * intros x rest. rewrite read_digits_add, string_app_assoc, Hread.
        cbn [append read_digits]. rewrite D1, D2, Hp. f_equal. f_equal.
        Z.div_mod_to_equations. lia.
Qed.

Lemma read_zeros (k : nat) (x : Z) (s : string) :
  read_digits k x (Fmt.zeros k ++ s) = Some (x * 10 ^ Z.of_nat k, s).
Proof.
  revert x. induction k as [| k IH]; intros x.
  - cbn. f_equal. f_equal. lia.
  - cbn [Fmt.zeros append read_digits]. change (PyStr.isdigit "0") with true.
    cbn match. rewrite IH. change (PyStr.digit_val "0") with 0.
    rewrite Nat2Z.inj_succ, Z.pow_succ_r by lia. f_equal. f_equal. lia.
Qed.

(** A number padded to [w] digits is read back by [w] digits. *)
Lemma read_digits_pad (w : nat) (n : Z) (rest : string) :
  (1 <= w)%nat -> 0 <= n < 10 ^ Z.of_nat w ->
  read_digits w 0 (Fmt.pad w n ++ rest) = Some (n, rest).
Proof.
  intros Hw1 Hn. unfold Fmt.pad, Fmt.dec.
  assert (Hf : 0 <= n < 2 ^ Z.of_nat (S (Z.to_nat (Z.log2 n)))).
  { rewrite Nat2Z.inj_succ, Z2Nat.id by apply Z.log2_nonneg.
    destruct (Z.eq_dec n 0) as [-> | Hz]; [cbn; lia |].
    pose proof (Z.log2_spec n ltac:(lia)). lia. }
  destruct (dec_aux_spec _ n EmptyString Hf) as (ds & Hds & Hlen & Hlt & Hge & Hread).
  rewrite Hds. replace (ds ++ "") with ds
    by (clear; induction ds as [| c ds IH]; [reflexivity | cbn; rewrite <- IH; reflexivity]).
  assert (Hw : (String.length ds <= w)%nat).
  { destruct Hge as [Hge | Hone]; [| lia].
    destruct (le_lt_dec (String.length ds) w) as [H | H]; [exact H | exfalso].
    assert (10 ^ Z.of_nat w <= 10 ^ Z.of_nat (String.length ds - 1))
      by (apply Z.pow_le_mono_r; lia).
    lia. }
  replace w with ((w - String.length ds) + String.length ds)%nat at 1 by lia.
  rewrite read_digits_add, string_app_assoc, read_zeros, Hread.
  repeat f_equal; try lia.
Qed.

Lemma expect_here (c : ascii) (s : string) : expect c (String c s) = Some s.
Proof. unfold expect. rewrite Ascii.eqb_refl. reflexivity. Qed.

(** The text that [isoformat] writes names the datetime it was given, with
    its offset. *)
Lemma isoformat_reads_back (a : aware) :
  wf (naive a) -> -86400 < utcoffset a < 86400 -> utcoffset a mod 60 = 0 ->
  iso8601 (Fmt.isoformat a) = Some a.
Proof.
  destruct a as [dt off]. cbn [naive utcoffset]. intros Hwf Ho Hm.
  pose proof Hwf as Hnew. unfold wf in Hnew.
  apply wf_iff in Hwf. destruct Hwf as ((Hy & Hmo & Hd) & (Hh & Hmi & Hs & Hu)).
  assert (Hd31 : day dt <= 31).
  { unfold days_in_month in Hd. destruct ((month dt =? 2) && is_leap (year dt)); [lia |].
    assert (Hmm : month dt = 1 \/ month dt = 2 \/ month dt = 3 \/ month dt = 4 \/
                  month dt = 5 \/ month dt = 6 \/ month dt = 7 \/ month dt = 8 \/
                  month dt = 9 \/ month dt = 10 \/ month dt = 11 \/ month dt = 12) by lia.
    repeat (destruct Hmm as [Hmm | Hmm]); rewrite Hmm in Hd; cbn in Hd; lia. }
  unfold MINYEAR, MAXYEAR in Hy.
  unfold Fmt.isoformat, Fmt.format_time, Fmt.format_offset, iso8601.
  cbn [naive utcoffset].
  rewrite !string_app_assoc.
  rewrite read_digits_pad by (try (change (10 ^ Z.of_nat 4) with 10000); lia).
  cbn [obind append]. rewrite expect_here. cbn [obind].
  rewrite read_digits_pad by (try (change (10 ^ Z.of_nat 2) with 100); lia).
  cbn [obind append]. rewrite expect_here. cbn [obind].
  rewrite read_digits_pad by (try (change (10 ^ Z.of_nat 2) with 100); lia).
  cbn [obind append]. rewrite expect_here. cbn [obind].
  rewrite read_digits_pad by (try (change (10 ^ Z.of_nat 2) with 100); lia).
  cbn [obind append]. rewrite expect_here. cbn [obind].
  rewrite read_digits_pad by (try (change (10 ^ Z.of_nat 2) with 100); lia).
  cbn [obind append]. rewrite expect_here. cbn [obind].
  rewrite read_digits_pad by (try (change (10 ^ Z.of_nat 2) with 100); lia).
  cbn [obind].
  set (ab := Z.abs off).
  assert (Hab : 0 <= ab < 86400 /\ ab mod 60 = 0).
  { unfold ab. split; [lia |].
    destruct (Z.abs_eq_or_opp off) as [-> | ->]; [exact Hm |].
    Z.div_mod_to_equations. lia. }
  destruct Hab as [Hab Habm].
  assert (Hoh : 0 <= ab / 3600 < 10 ^ Z.of_nat 2)
    by (change (10 ^ Z.of_nat 2) with 100; Z.div_mod_to_equations; lia).
  assert (Hom : 0 <= ab mod 3600 / 60 < 10 ^ Z.of_nat 2)
    by (change (10 ^ Z.of_nat 2) with 100; Z.div_mod_to_equations; lia).
  replace (ab mod 60 =? 0) with true by (symmetry; apply Z.eqb_eq; exact Habm).
  assert (Htail : forall sign sg us,
            read_sign (sign ++ Fmt.pad 2 (ab / 3600) ++ ":" ++
                       Fmt.pad 2 (ab mod 3600 / 60) ++ "")
            = Some (sg, Fmt.pad 2 (ab / 3600) ++ ":" ++ Fmt.pad 2 (ab mod 3600 / 60) ++ "") ->
            sg * (ab / 3600 * 3600 + ab mod 3600 / 60 * 60) = off ->
            new (year dt) (month dt) (day dt) (hour dt) (minute dt) (second dt) us = Ok dt ->
            (let? (sign0, s) :=
               read_sign (sign ++ Fmt.pad 2 (ab / 3600) ++ ":" ++
                          Fmt.pad 2 (ab mod 3600 / 60) ++ "") in
             let? (oh, s0) := read_digits 2 0 s in
             let? s1 := expect ":" s0 in
             let? (om, s2) := read_digits 2 0 s1 in
             match s2, new (year dt) (month dt) (day dt) (hour dt) (minute dt)
                           (second dt) us with
             | EmptyString, Ok dt0 =>
                 if (oh <=? 23) && (om <=? 59)
                 then Some (mkaware dt0 (sign0 * (oh * 3600 + om * 60)))
                 else None
             | _, _ => None
             end) = Some (mkaware dt off)).
  { intros sign sg us Hsign Hval Hus. rewrite Hsign. cbn [obind].
    rewrite read_digits_pad by (try exact Hoh; lia). cbn [obind append].
    rewrite expect_here.
    cbn [obind]. rewrite read_digits_pad by (try exact Hom; lia). cbn [obind].
    rewrite Hus.
    replace (ab / 3600 <=? 23) with true
      by (symmetry; apply Z.leb_le; Z.div_mod_to_equations; lia).
    replace (ab mod 3600 / 60 <=? 59) with true
      by (symmetry; apply Z.leb_le; Z.div_mod_to_equations; lia).
    cbn [andb]. rewrite Hval. reflexivity. }
  assert (Hval : (if off <? 0 then -1 else 1)
                 * (ab / 3600 * 3600 + ab mod 3600 / 60 * 60) = off).
  { unfold ab. destruct (off <? 0) eqn:Es;
      [apply Z.ltb_lt in Es | apply Z.ltb_ge in Es];
      Z.div_mod_to_equations; lia. }
  destruct (microsecond dt =? 0) eqn:Eus.
  - apply Z.eqb_eq in Eus. rewrite Eus in Hnew. cbn [append].
    destruct (off <? 0) eqn:Es; cbn [append read_fraction obind].
    + exact (Htail "-" (-1) 0 eq_refl Hval Hnew).
    + exact (Htail "+" 1 0 eq_refl Hval Hnew).
  - cbn [append read_fraction].
    rewrite ?string_app_assoc.
    rewrite read_digits_pad by (try (change (10 ^ Z.of_nat 6) with 1000000); lia).
    cbn [obind].
    destruct (off <? 0) eqn:Es.
    + exact (Htail "-" (-1) (microsecond dt) eq_refl Hval Hnew).
    + exact (Htail "+" 1 (microsecond dt) eq_refl Hval Hnew).
Qed.

Lemma isoformat_text (a : aware) :
  Fmt.isoformat a =
    Fmt.pad 4 (year (naive a)) ++ "-" ++ Fmt.pad 2 (month (naive a)) ++ "-" ++
    Fmt.pad 2 (day (naive a)) ++ "T" ++
    Fmt.pad 2 (hour (naive a)) ++ ":" ++ Fmt.pad 2 (minute (naive a)) ++ ":" ++
    Fmt.pad 2 (second (naive a)) ++
    (if microsecond (naive a) =? 0 then "" else "." ++ Fmt.pad 6 (microsecond (naive a))) ++
    (if utcoffset a <? 0 then "-" else "+") ++
    Fmt.pad 2 (Z.abs (utcoffset a) / 3600) ++ ":" ++
    Fmt.pad 2 (Z.abs (utcoffset a) mod 3600 / 60) ++
    (if Z.abs (utcoffset a) mod 60 =? 0 then ""
     else ":" ++ Fmt.pad 2 (Z.abs (utcoffset a) mod 60)).
Proof.
  unfold Fmt.isoformat, Fmt.format_time, Fmt.format_offset.
  rewrite !string_app_assoc. reflexivity.
Qed.

(** What the date/time stage stores is a pair of datetimes of the calendar,
    in UTC. *)
Lemma stored_slot_utc (w : World) (st st' : SchedulerState) (effs : list effect) :
  has_error st = false -> parse_datetime w st = (st', effs) -> has_error st' = false ->
  exists su eu,
    start_dt st' = Some su /\ end_dt st' = Some eu /\
    wf (naive su) /\ utcoffset su = 0 /\ wf (naive eu) /\ utcoffset eu = 0.
Proof.
  intros He Hp Hok.
  destruct (parse_datetime_success w st st' effs He Hp Hok)
    as (s0 & e0 & [s e] & su & eu & es & _ & _ & Hutc & ->).
  exists su, eu. split; [reflexivity |]. split; [reflexivity |].
  unfold to_utc in Hutc. cbn [fst snd] in Hutc.
  destruct (astimezone (mkaware s (clock_local_tz w)) 0) as [a |] eqn:E1; [| discriminate].
  destruct (astimezone (mkaware e (clock_local_tz w)) 0) as [b |] eqn:E2; [| discriminate].
  cbn [bind] in Hutc. inversion Hutc; subst a b.
  apply astimezone_spec in E1. apply astimezone_spec in E2. tauto.
Qed.



(** ** Reading the searches of the response parser *)

Lemma hd_error_app {A : Type} (l1 l2 : list A) :
  hd_error (l1 ++ l2) = match hd_error l1 with Some x => Some x | None => hd_error l2 end.
Proof. destruct l1; reflexivity. Qed.

Lemma hd_error_map {A B : Type} (f : A -> B) (l : list A) :
  hd_error (map f l) = option_map f (hd_error l).
Proof. destruct l; reflexivity. Qed.

Lemma seq_hits_cons (ic : bool) (r2 : Re.regex) (c : ascii)
    (hits : list (string * string)) :
  flat_map (Re.seq_hits ic r2)
    (map Re.plain (map (fun mr => (String c (fst mr), snd mr)) hits))
  = map (Re.hit_cons c) (flat_map (Re.seq_hits ic r2) (map Re.plain hits)).
Proof.
  induction hits as [| [m r] hits IH]; [reflexivity |].
  cbn [map flat_map]. rewrite map_app, IH. f_equal.
  unfold Re.seq_hits, Re.plain. cbn [fst snd Re.matched Re.caps Re.rest].
  rewrite map_map. reflexivity.
Qed.

(** Greedy [cs*] in front of [r2]: the longer runs are tried first, then
    none. *)
Lemma run_star_seq_cons (ic : bool) (cs : Re.cset) (r2 : Re.regex) (c : ascii) (s : string) :
  Re.run ic (Re.Seq (Re.Star cs) r2) (String c s) =
  ((if Re.mem cs c then map (Re.hit_cons c) (Re.run ic (Re.Seq (Re.Star cs) r2) s) else [])
   ++ Re.seq_hits ic r2 (Re.plain (EmptyString, String c s)))%list.
Proof.
  change (Re.run ic (Re.Seq (Re.Star cs) r2) (String c s))
    with (flat_map (Re.seq_hits ic r2) (map Re.plain (Re.star_hits (Re.mem cs) (String c s)))).
  change (Re.run ic (Re.Seq (Re.Star cs) r2) s)
    with (flat_map (Re.seq_hits ic r2) (map Re.plain (Re.star_hits (Re.mem cs) s))).
  cbn [Re.star_hits]. destruct (Re.mem cs c).
  - rewrite map_app, flat_map_app, seq_hits_cons. cbn [map flat_map].
    rewrite app_nil_r. reflexivity.
  - cbn [map flat_map]. rewrite app_nil_r. reflexivity.
Qed.

Lemma caps_seq_plain (ic : bool) (r2 : Re.regex) (m s : string) :
  option_map Re.caps (hd_error (Re.seq_hits ic r2 (Re.plain (m, s))))
  = option_map Re.caps (Re.match_ ic r2 s).
Proof.
  unfold Re.seq_hits, Re.match_, Re.plain. cbn [fst snd Re.matched Re.caps Re.rest].
  destruct (Re.run ic r2 s); reflexivity.
Qed.

Lemma caps_star_seq_cons (ic : bool) (cs : Re.cset) (r2 : Re.regex) (c : ascii) (s : string) :
  option_map Re.caps (Re.match_ ic (Re.Seq (Re.Star cs) r2) (String c s)) =
  match (if Re.mem cs c
         then option_map Re.caps (Re.match_ ic (Re.Seq (Re.Star cs) r2) s) else None) with
  | Some g => Some g
  | None => option_map Re.caps (Re.match_ ic r2 (String c s))
  end.
Proof.
  unfold Re.match_ at 1. rewrite run_star_seq_cons, hd_error_app.
  destruct (Re.mem cs c).
  - rewrite hd_error_map. unfold Re.match_ at 1.
    destruct (hd_error (Re.run ic (Re.Seq (Re.Star cs) r2) s)) as [h |]; [reflexivity |].
    cbn [option_map]. apply caps_seq_plain.
  - cbn [hd_error]. apply caps_seq_plain.
Qed.

Lemma caps_star_seq_nil (ic : bool) (cs : Re.cset) (r2 : Re.regex) :
  option_map Re.caps (Re.match_ ic (Re.Seq (Re.Star cs) r2) EmptyString)
  = option_map Re.caps (Re.match_ ic r2 EmptyString).
Proof.
  unfold Re.match_. cbn [Re.run Re.star_hits map flat_map].
  rewrite app_nil_r.
  change (Re.run ic r2 (Re.rest (Re.plain (EmptyString, EmptyString))))
    with (Re.run ic r2 EmptyString).
  destruct (Re.run ic r2 EmptyString); reflexivity.
Qed.

Lemma star_hits_hd (p : ascii -> bool) (s : string) :
  exists r l, Re.star_hits p s = (take_while p s, r) :: l.
Proof.
  induction s as [| c s IH]; cbn [Re.star_hits take_while].
  - eauto.
  - destruct (p c); [| eauto].
    destruct IH as (r & l & ->). cbn [map app fst snd]. eauto.
Qed.

(** The first capture of [(cs+)]: the longest run of [cs], if not empty. *)
Lemma caps_group_plus (ic : bool) (cs : Re.cset) (s : string) :
  option_map Re.caps (Re.match_ ic (Re.Group "1" (Re.Plus cs)) s) =
  match take_while (Re.mem cs) s with
  | EmptyString => None
  | t => Some [("1", t)]
  end.
Proof.
  unfold Re.match_. cbn [Re.run]. unfold Re.plus_hits.
  destruct s as [| c s]; [reflexivity |]. cbn [take_while].
  destruct (Re.mem cs c); [| reflexivity].
  destruct (star_hits_hd (Re.mem cs) s) as (r & l & ->). reflexivity.
Qed.

Lemma space_not_digit (c : ascii) : PyStr.isspace c = true -> PyStr.isdigit c = false.
Proof. destruct c as [[] [] [] [] [] [] [] []]; vm_compute; congruence. Qed.

Lemma nonspace_dot (c : ascii) : PyStr.isspace c = false -> Re.dot c = true.
Proof. destruct c as [[] [] [] [] [] [] [] []]; vm_compute; congruence. Qed.

(** [\s*(.+)] captures what [text_after] reads. *)
Lemma caps_text_after (s : string) :
  option_map Re.caps
    (Re.match_ false (Re.Seq (Re.Star Re.CSpace) (Re.Group "1" (Re.Plus Re.CDot))) s)
  = option_map (fun v => [("1", v)]) (text_after s).
Proof.
  induction s as [| c s IH].
  - rewrite caps_star_seq_nil, caps_group_plus. reflexivity.
  - rewrite caps_star_seq_cons, caps_group_plus, IH.
    cbn [text_after Re.mem take_while].
    destruct (PyStr.isspace c) eqn:Es.
    + destruct (text_after s); [reflexivity |]. cbn [option_map].
      unfold line_of. cbn [take_while]. destruct (Re.dot c); reflexivity.
    + unfold line_of. cbn [take_while]. rewrite (nonspace_dot c Es). reflexivity.
Qed.

(** [\s*(\d+)] captures what [digits_after] reads. *)
Lemma caps_digits_after (s : string) :
  option_map Re.caps
    (Re.match_ false (Re.Seq (Re.Star Re.CSpace) (Re.Group "1" (Re.Plus Re.CDigit))) s)
  = option_map (fun v => [("1", v)]) (digits_after s).
Proof.
  induction s as [| c s IH].
  - rewrite caps_star_seq_nil, caps_group_plus. reflexivity.
  - rewrite caps_star_seq_cons, caps_group_plus, IH.
    unfold digits_after. cbn [PyStr.lstrip Re.mem take_while].
    destruct (PyStr.isspace c) eqn:Es.
    + rewrite (space_not_digit c Es).
      destruct (take_while PyStr.isdigit (PyStr.lstrip s)); reflexivity.
    + cbn [take_while]. destruct (PyStr.isdigit c); reflexivity.
Qed.

Lemma lit_match_startswith (l s : string) :
  Re.lit_match false l s =
  if PyStr.startswith l s then Some (l, skip (String.length l) s) else None.
Proof.
  revert s. induction l as [| a l IH]; intros s; [reflexivity |].
  cbn [Re.lit_match PyStr.startswith String.length skip].
  destruct s as [| c s]; [reflexivity |].
  unfold Re.chr_eqb. destruct (Ascii.eqb a c) eqn:E; [| reflexivity].
  apply Ascii.eqb_eq in E. subst c. cbn [andb]. rewrite IH.
  destruct (PyStr.startswith l s); reflexivity.
Qed.

Lemma caps_lit_seq (l : string) (r2 : Re.regex) (s : string) :
  option_map Re.caps (Re.match_ false (Re.Seq (Re.Lit l) r2) s) =
  if PyStr.startswith l s
  then option_map Re.caps (Re.match_ false r2 (skip (String.length l) s)) else None.
Proof.
  unfold Re.match_ at 1. cbn [Re.run]. rewrite lit_match_startswith.
  destruct (PyStr.startswith l s); [| reflexivity].
  cbn [flat_map]. rewrite app_nil_r.
  apply (caps_seq_plain false r2 l (skip (String.length l) s)).
Qed.

Lemma search_some (r : Re.regex) (s : string) (m : Re.hit) :
  Re.match_ false r s = Some m -> Re.search false r s = Some m.
Proof. intros H. destruct s; cbn [Re.search]; rewrite H; reflexivity. Qed.

Lemma search_step (r : Re.regex) (c : ascii) (s : string) :
  Re.match_ false r (String c s) = None ->
  Re.search false r (String c s) = Re.search false r s.
Proof. intros H. cbn [Re.search]. rewrite H. reflexivity. Qed.

(** The search for a label finds the text that [labelled] reads. *)
Lemma search_labelled (label out : string) :
  search_group1 (label_re label) out = labelled label out.
Proof.
  unfold search_group1, label_re. cbn [Re.seqs].
  induction out as [| c out IH].
  - pose proof (caps_lit_seq label
                  (Re.Seq (Re.Star Re.CSpace) (Re.Group "1" (Re.Plus Re.CDot))) "") as H.
    rewrite caps_text_after in H. cbn [labelled Re.search].
    destruct (Re.match_ false _ "") as [m |] eqn:Em; cbn [option_map] in H.
    + destruct (PyStr.startswith label ""); [| discriminate].
      destruct (text_after _) as [v |]; [| discriminate].
      cbn [option_map] in H. inversion H as [Hc]. rewrite Hc. reflexivity.
    + destruct (PyStr.startswith label ""); [| reflexivity].
      destruct (text_after _); [discriminate | reflexivity].
  - pose proof (caps_lit_seq label
                  (Re.Seq (Re.Star Re.CSpace) (Re.Group "1" (Re.Plus Re.CDot)))
                  (String c out)) as H.
    rewrite caps_text_after in H. cbn [labelled].
    destruct (Re.match_ false _ (String c out)) as [m |] eqn:Em; cbn [option_map] in H.
    + rewrite (search_some _ _ _ Em).
      destruct (PyStr.startswith label (String c out)); [| discriminate].
      destruct (text_after _) as [v |]; [| discriminate].
      cbn [option_map] in H. inversion H as [Hc]. rewrite Hc. reflexivity.
    + rewrite (search_step _ _ _ Em), IH.
      destruct (PyStr.startswith label (String c out)); [| reflexivity].
      destruct (text_after _); [discriminate | reflexivity].
Qed.

Lemma search_digits (out : string) :
  search_group1 duration_re out = duration_digits out.
Proof.
  unfold search_group1, duration_re. cbn [Re.seqs].
  induction out as [| c out IH].
  - pose proof (caps_lit_seq "Duration:"
                  (Re.Seq (Re.Star Re.CSpace) (Re.Group "1" (Re.Plus Re.CDigit))) "") as H.
    rewrite caps_digits_after in H. cbn [Re.search duration_digits].
    destruct (Re.match_ false _ "") as [m |] eqn:Em; cbn [option_map] in H.
    + discriminate.
    + reflexivity.
  - pose proof (caps_lit_seq "Duration:"
                  (Re.Seq (Re.Star Re.CSpace) (Re.Group "1" (Re.Plus Re.CDigit)))
                  (String c out)) as H.
    rewrite caps_digits_after in H.
    change (String.length "Duration:") with 9%nat in H. cbn [duration_digits].
    destruct (Re.match_ false _ (String c out)) as [m |] eqn:Em; cbn [option_map] in H.
    + rewrite (search_some _ _ _ Em).
      destruct (PyStr.startswith "Duration:" (String c out)); [| discriminate].
      destruct (digits_after _) as [v |]; [| discriminate].
      cbn [option_map] in H. inversion H as [Hc]. rewrite Hc. reflexivity.
    + rewrite (search_step _ _ _ Em), IH.
      destruct (PyStr.startswith "Duration:" (String c out)); [| reflexivity].
      destruct (digits_after _); [discriminate | reflexivity].
Qed.

Lemma labelled_absent (label out : string) :
  PyStr.contains label out = false -> labelled label out = None.
Proof.
  induction out as [| c out IH]; cbn [PyStr.contains labelled]; intros H;
    apply orb_false_iff in H; destruct H as [H1 H2]; rewrite H1.
  - reflexivity.
  - auto.
Qed.

Lemma startswith_app (label rest : string) : PyStr.startswith label (label ++ rest) = true.
Proof.
  induction label as [| a label IH]; [reflexivity |].
  cbn [append PyStr.startswith]. rewrite Ascii.eqb_refl. exact IH.
Qed.

Lemma skip_app (label rest : string) : skip (String.length label) (label ++ rest) = rest.
Proof. induction label as [| a label IH]; [reflexivity | exact IH]. Qed.

Lemma line_of_line (line tail : string) :
  PyStr.all_chars Re.dot line = true ->
  tail = EmptyString \/ (exists tail', tail = String "010" tail') ->
  line_of (line ++ tail) = line.
Proof.
  intros Hl Ht. unfold line_of.
  induction line as [| c line IH]; cbn [append take_while].
  - destruct Ht as [-> | [tail' ->]]; reflexivity.
  - cbn [PyStr.all_chars] in Hl. apply andb_true_iff in Hl. destruct Hl as [Hc Hl].
    rewrite Hc. f_equal. auto.
Qed.

Lemma text_after_line (ws line tail : string) (c : ascii) :
  PyStr.all_chars PyStr.isspace ws = true ->
  PyStr.isspace c = false ->
  PyStr.all_chars Re.dot line = true ->
  tail = EmptyString \/ (exists tail', tail = String "010" tail') ->
  text_after (ws ++ String c line ++ tail) = Some (String c line).
Proof.
  intros Hw Hc Hl Ht.
  assert (Hline : line_of (String c line ++ tail) = String c line).
  { apply line_of_line; trivial. cbn [PyStr.all_chars].
    rewrite (nonspace_dot c Hc). exact Hl. }
  induction ws as [| a ws IH]; cbn [append text_after].
  - rewrite Hc. f_equal. exact Hline.
  - cbn [PyStr.all_chars] in Hw. apply andb_true_iff in Hw. destruct Hw as [Ha Hw].
    rewrite Ha. cbn [append] in IH. rewrite (IH Hw). reflexivity.
Qed.

(** The usual reply: the label occurs first at the end of [pre], white
    space follows, then a line of text. *)
Lemma labelled_line (label pre ws line tail : string) (c : ascii) :
  absent_before label pre (label ++ ws ++ String c line ++ tail) = true ->
  PyStr.all_chars PyStr.isspace ws = true ->
  PyStr.isspace c = false ->
  PyStr.all_chars Re.dot line = true ->
  tail = EmptyString \/ (exists tail', tail = String "010" tail') ->
  labelled label (pre ++ label ++ ws ++ String c line ++ tail) = Some (String c line).
Proof.
  intros Hb Hw Hc Hl Ht.
  assert (H0 : labelled label (label ++ ws ++ String c line ++ tail) = Some (String c line)).
  { destruct (label ++ ws ++ String c line ++ tail) eqn:E; cbn [labelled];
      rewrite <- E, startswith_app, skip_app, text_after_line; trivial. }
  induction pre as [| a pre IH]; [exact H0 |].
  cbn [absent_before] in Hb. apply andb_true_iff in Hb. destruct Hb as [Hn Hb].
  apply negb_true_iff in Hn. cbn [append] in *. cbn [labelled].
  rewrite Hn. auto.
Qed.

(** A label that only line breaks follow, up to the end, has no text. *)
Lemma text_after_breaks (s : string) :
  PyStr.all_chars (fun c => Ascii.eqb c "010") s = true -> text_after s = None.
Proof.
  induction s as [| c s IH]; [reflexivity |].
  cbn [PyStr.all_chars text_after]. intros H. apply andb_true_iff in H.
  destruct H as [Hc Hs]. apply Ascii.eqb_eq in Hc. subst c.
  rewrite (IH Hs). reflexivity.
Qed.

Lemma digit_not_space (c : ascii) : PyStr.isdigit c = true -> PyStr.isspace c = false.
Proof.
  intros H. destruct (PyStr.isspace c) eqn:E; [| reflexivity].
  rewrite (space_not_digit c E) in H. discriminate.
Qed.

Lemma rstrip_digits (g : string) : PyStr.all_chars PyStr.isdigit g = true -> PyStr.rstrip g = g.
Proof.
  induction g as [| c g IH]; [reflexivity |].
  cbn [PyStr.all_chars PyStr.rstrip]. intros H. apply andb_true_iff in H.
  destruct H as [Hc Hg]. rewrite (IH Hg).
  destruct g; [rewrite (digit_not_space c Hc) |]; reflexivity.
Qed.

Lemma int_digits (g : string) :
  g <> EmptyString -> PyStr.all_chars PyStr.isdigit g = true ->
  PyStr.int g =
    if 4300 <? Z.of_nat (String.length g)
    then Raise (ValueError (PyStr.too_many_digits_msg (Z.of_nat (String.length g))))
    else Ok (PyStr.int_acc 0 g).
Proof.
  intros Hne Hd. unfold PyStr.int, PyStr.strip.
  assert (Hl : PyStr.lstrip g = g).
  { destruct g as [| c g]; [reflexivity |]. cbn [PyStr.lstrip PyStr.all_chars] in *.
    apply andb_true_iff in Hd. destruct Hd as [Hc _].
    rewrite (digit_not_space c Hc). reflexivity. }
  rewrite Hl, (rstrip_digits g Hd).
  destruct g; [contradiction |]. rewrite Hd. reflexivity.
Qed.

Lemma take_while_all (p : ascii -> bool) (s : string) :
  PyStr.all_chars p (take_while p s) = true.
Proof.
  induction s as [| c s IH]; [reflexivity |]. cbn [take_while].
  destruct (p c) eqn:E; [| reflexivity]. cbn [PyStr.all_chars]. rewrite E. exact IH.
Qed.

Lemma duration_digits_digits (out ds : string) :
  duration_digits out = Some ds ->
  ds <> EmptyString /\ PyStr.all_chars PyStr.isdigit ds = true.
Proof.
  assert (Hd : forall s, digits_after s = Some ds ->
                         ds <> EmptyString /\ PyStr.all_chars PyStr.isdigit ds = true).
  { intros s. unfold digits_after.
    pose proof (take_while_all PyStr.isdigit (PyStr.lstrip s)) as Ha.
    destruct (take_while PyStr.isdigit (PyStr.lstrip s)); [discriminate |].
    intros H. inversion H; subst. split; [discriminate | exact Ha]. }
  induction out as [| c out IH]; cbn [duration_digits]; intros H.
  - destruct (PyStr.startswith "Duration:" ""); [| discriminate].
    destruct (digits_after _) eqn:E; [| discriminate]. inversion H; subst. eauto.
  - destruct (PyStr.startswith "Duration:" (String c out)).
    + destruct (digits_after _) eqn:E; [inversion H; subst; eauto | auto].
    + auto.
Qed.

(** The duration the parser computes is the one [duration] reads, when
    its digits are not too many for [int]. *)
Lemma duration_of_reading (out : string) :
  duration_of out =
    match duration_digits out with
    | Some ds =>
        if 4300 <? Z.of_nat (String.length ds)
        then Raise (ValueError (PyStr.too_many_digits_msg (Z.of_nat (String.length ds))))
        else Ok (duration out)
    | None => Ok 60
    end.
Proof.
  unfold duration_of, duration. rewrite search_digits.
  destruct (duration_digits out) as [ds |] eqn:E; [| reflexivity].
  destruct (duration_digits_digits out ds E) as [Hne Hd].
  apply int_digits; assumption.
Qed.

Lemma duration_of_short (out : string) :
  (forall ds, duration_digits out = Some ds -> (String.length ds <= 4300)%nat) ->
  duration_of out = Ok (duration out).
Proof.
  intros H. rewrite duration_of_reading. unfold duration.
  destruct (duration_digits out) as [ds |]; [| reflexivity].
  specialize (H ds eq_refl).
  replace (4300 <? Z.of_nat (String.length ds)) with false
    by (symmetry; apply Z.ltb_ge; lia).
  reflexivity.
Qed.

Lemma duration_of_long (out ds : string) :
  duration_digits out = Some ds -> (4300 < String.length ds)%nat ->
  duration_of out
  = Raise (ValueError (PyStr.too_many_digits_msg (Z.of_nat (String.length ds)))).
Proof.
  intros H Hl. rewrite duration_of_reading, H.
  replace (4300 <? Z.of_nat (String.length ds)) with true
    by (symmetry; apply Z.ltb_lt; lia).
  reflexivity.
Qed.

Lemma priority_of_reading (out : string) :
  priority_of out =
  match labelled "Priority:" out with
  | Some t => PyStr.strip t
  | None => "Normal"
  end.
Proof. unfold priority_of. rewrite search_labelled. reflexivity. Qed.

Lemma extract_fields_reading (out : string) :
  extract_fields (Some out) =
  match out with
  | EmptyString => Raise (ValueError no_output_msg)
  | _ =>
      match labelled "Task:" out, labelled "Date:" out, labelled "Time:" out with
      | Some task, Some date_s, Some time_s =>
          let* dur := duration_of out in
          Ok (PyStr.strip task, PyStr.strip date_s, PyStr.strip time_s,
              dur, priority_of out)
      | _, _, _ => Raise (ValueError missing_details_msg)
      end
  end.
Proof.
  unfold extract_fields. destruct out as [| c out]; [reflexivity |].
  rewrite !search_labelled.
  destruct (labelled "Task:" (String c out)), (labelled "Date:" (String c out)),
    (labelled "Time:" (String c out)); reflexivity.
Qed.

(** The parser, read without the searches. *)
Lemma parse_ai_response_reading (st : SchedulerState) (out : string) :
  has_error st = false -> output st = Some out ->
  parse_ai_response st =
    match out with
    | EmptyString => parse_failure st (ValueError no_output_msg)
    | _ =>
        match labelled "Task:" out, labelled "Date:" out, labelled "Time:" out with
        | Some task, Some date_s, Some time_s =>
            match duration_of out with
            | Raise e =>
                parse_failure
                  (set_texts st (PyStr.strip task) (PyStr.strip date_s)
                             (PyStr.strip time_s)) e
            | Ok dur =>
                (set_extracted st (PyStr.strip task) (PyStr.strip date_s)
                   (PyStr.strip time_s) dur (priority_of out),
                 [StRender])
            end
        | _, _, _ => parse_failure st (ValueError missing_details_msg)
        end
    end.
Proof.
  intros He Ho. unfold parse_ai_response. rewrite He, Ho.
  destruct out as [| c out]; [reflexivity |].
  rewrite !search_labelled.
  destruct (labelled "Task:" (String c out)), (labelled "Date:" (String c out)),
    (labelled "Time:" (String c out)); reflexivity.
Qed.

(** The parser stores the five values when all can be had; otherwise it
    stores the error, over the state as it was or, when the conversion of
    the duration raised, over the state with the three texts. *)
Lemma parse_ai_response_fields (st : SchedulerState) :
  has_error st = false ->
  match extract_fields (output st) with
  | Ok (title, date_s, time_s, dur, prio) =>
      parse_ai_response st = (set_extracted st title date_s time_s dur prio, [StRender])
  | Raise e =>
      exists st1,
        parse_ai_response st = parse_failure st1 e /\
        (st1 = st \/ exists t d ti, st1 = set_texts st t d ti)
  end.
Proof.
  intros He. unfold parse_ai_response, extract_fields. rewrite He.
  destruct (output st) as [[| c out] |].
  - exists st. split; [reflexivity | left; reflexivity].
  - destruct (search_group1 (label_re "Task:") _) as [task |];
      [destruct (search_group1 (label_re "Date:") _) as [date_s |];
       [destruct (search_group1 (label_re "Time:") _) as [time_s |] |] |];
      try (exists st; split; [reflexivity | left; reflexivity]).
    destruct (duration_of _) as [dur | e]; cbn [bind]; [reflexivity |].
    eexists. split; [reflexivity |]. right. eauto.
  - exists st. split; [reflexivity | left; reflexivity].
Qed.

(** ** The response parser (C7) *)

Lemma parse_failure_run (w : World) (st st1 : SchedulerState) (e : exn) :
  parse_ai_response st = parse_failure st1 e ->
  run_from 7 w parse_response st =
    Some (mkrun (set_error st1 (Some (parse_error_msg e)))
            [StError (parse_error_msg e);
             StError ("❌ **Error during scheduling process:** " ++ parse_error_msg e);
             StRender]
            [parse_response; error_handler]).
Proof.
  intros Hp. cbn [run_from node_action]. rewrite Hp. reflexivity.
Qed.

(** C7, as the parser has it. A label counts as found when, after optional
    white space (line breaks included), some text of a line follows its
    first occurrence; that text, to the end of its line and trimmed, is the
    field. When Task, Date or Time is absent from the reply, or is followed
    by line breaks only up to its end, the parser fails with the missing
    details error (on an empty reply, with the no-output error), the run
    goes from parse_response straight to the error handler and ends, so no
    date is computed, start and end stay as they were and the model is not
    called again. When all three are found, the three fields are stored;
    the duration and the priority are stored with them, and no error is
    set, unless more than 4300 digits follow the Duration label: then
    [int] raises once the three fields are stored, and the stage fails
    with the error of the conversion and the run ends in the same way. *)
Theorem response_parser (w : World) (st : SchedulerState) (out : string) :
  has_error st = false ->
  output st = Some out ->
  (forall label, PyStr.contains label out = false -> labelled label out = None) /\
  (forall label pre ws c line tail,
     out = pre ++ label ++ ws ++ String c line ++ tail ->
     absent_before label pre (label ++ ws ++ String c line ++ tail) = true ->
     PyStr.all_chars PyStr.isspace ws = true ->
     PyStr.isspace c = false ->
     PyStr.all_chars Re.dot line = true ->
     tail = EmptyString \/ (exists tail', tail = String "010" tail') ->
     labelled label out = Some (String c line)) /\
  (labelled "Task:" out = None \/ labelled "Date:" out = None \/
   labelled "Time:" out = None ->
     exists msg,
       (out = EmptyString -> msg = no_output_msg) /\
       (out <> EmptyString -> msg = missing_details_msg) /\
       parse_ai_response st =
         (set_error st (Some (parse_error_msg (ValueError msg))),
          [StError (parse_error_msg (ValueError msg))]) /\
       exists r,
         run_from 7 w parse_response st = Some r /\
         visited r = [parse_response; error_handler] /\
         final_state r = set_error st (Some (parse_error_msg (ValueError msg))) /\
         start_dt (final_state r) = start_dt st /\
         end_dt (final_state r) = end_dt st /\
         (forall prompt, ~ In (LlmInvoke prompt) (effects r))) /\
  (forall task date_s time_s,
     labelled "Task:" out = Some task ->
     labelled "Date:" out = Some date_s ->
     labelled "Time:" out = Some time_s ->
     (forall ds, duration_digits out = Some ds -> (String.length ds <= 4300)%nat) ->
     parse_ai_response st =
       (set_extracted st (PyStr.strip task) (PyStr.strip date_s) (PyStr.strip time_s)
          (duration out) (priority_of out),
        [StRender])) /\
  (forall task date_s time_s ds,
     labelled "Task:" out = Some task ->
     labelled "Date:" out = Some date_s ->
     labelled "Time:" out = Some time_s ->
     duration_digits out = Some ds -> (4300 < String.length ds)%nat ->
     let msg :=
       "Error parsing AI response: " ++
       "Exceeds the limit (4300 digits) for integer string conversion: value has " ++
       PyStr.str_int (Z.of_nat (String.length ds)) ++
       " digits; use sys.set_int_max_str_digits() to increase the limit" ++
       ". Ensure AI output matches expected format." in
     let failed :=
       mkstate (sentence st) (output st) (Some (PyStr.strip task))
         (Some (PyStr.strip date_s)) (Some (PyStr.strip time_s)) (duration_minutes st)
         (start_dt st) (end_dt st) (service st) (event st) (created_event st)
         (Some msg) (parsed_priority st) in
     parse_ai_response st = (failed, [StError msg]) /\
     exists r,
       run_from 7 w parse_response st = Some r /\
       visited r = [parse_response; error_handler] /\
       final_state r = failed /\
       (forall prompt, ~ In (LlmInvoke prompt) (effects r))).
Proof.
  intros He Ho. split; [| split; [| split; [| split]]].
  - intros label. apply labelled_absent.
  - intros label pre ws c line tail -> Hb Hw Hc Hl Ht. apply labelled_line; assumption.
  - intros Hnone.
    assert (Hx : exists msg,
               (out = EmptyString -> msg = no_output_msg) /\
               (out <> EmptyString -> msg = missing_details_msg) /\
               parse_ai_response st = parse_failure st (ValueError msg)).
    { rewrite (parse_ai_response_reading st out He Ho). destruct out as [| c out].
      - exists no_output_msg. repeat split; congruence.
      - exists missing_details_msg. split; [discriminate |]. split; [reflexivity |].
        destruct Hnone as [-> | [H | H]].
        + reflexivity.
        + rewrite H. destruct (labelled "Task:" (String c out)); reflexivity.
        + rewrite H. destruct (labelled "Task:" (String c out)),
            (labelled "Date:" (String c out)); reflexivity. }
    destruct Hx as (msg & H1 & H2 & Hx).
    pose proof (parse_failure_run w st st (ValueError msg) Hx) as Hr.
    exists msg. repeat split; trivial.
    eexists. split; [exact Hr |]. cbn [visited final_state effects].
    repeat split.
    intros prompt [H | [H | [H | []]]]; discriminate.
  - intros task date_s time_s Ht Hd Hti Hshort.
    rewrite (parse_ai_response_reading st out He Ho), Ht, Hd, Hti,
      (duration_of_short out Hshort).
    destruct out; [discriminate Ht | reflexivity].
  - intros task date_s time_s ds Ht Hd Hti Hds Hlong msg failed.
    assert (Hp : parse_ai_response st =
                 parse_failure
                   (set_texts st (PyStr.strip task) (PyStr.strip date_s)
                              (PyStr.strip time_s))
                   (ValueError (PyStr.too_many_digits_msg (Z.of_nat (String.length ds))))).
    { rewrite (parse_ai_response_reading st out He Ho), Ht, Hd, Hti,
        (duration_of_long out ds Hds Hlong).
      destruct out; [discriminate Ht | reflexivity]. }
    assert (Hm : parse_error_msg
                   (ValueError (PyStr.too_many_digits_msg (Z.of_nat (String.length ds))))
                 = msg).
    { unfold parse_error_msg, PyStr.too_many_digits_msg, msg. cbn [exn_str].
      rewrite !string_app_assoc. reflexivity. }
    assert (Hf : parse_failure
                   (set_texts st (PyStr.strip task) (PyStr.strip date_s)
                              (PyStr.strip time_s))
                   (ValueError (PyStr.too_many_digits_msg (Z.of_nat (String.length ds))))
                 = (failed, [StError msg])).
    { unfold parse_failure. rewrite Hm. reflexivity. }
    split; [rewrite Hp; exact Hf |].
    eexists. split; [exact (parse_failure_run w st _ _ Hp) |].
    cbn [visited final_state effects]. rewrite Hm. repeat split.
    intros prompt [H | [H | [H | []]]]; discriminate.
Qed.

Lemma response_parser_witness :
  parse_ai_response (Demo.state_with_output Demo.reply_tomorrow) =
    (set_extracted (Demo.state_with_output Demo.reply_tomorrow)
       "Meeting with John" "Wednesday, 04 November 2026" "3:00 PM - 3:30 PM" 30 "High",
     [StRender]) /\
  (task_title (fst (parse_ai_response (Demo.state_with_output Cases.reply_long_duration)))
   = Some "Call" /\
   duration_minutes (fst (parse_ai_response (Demo.state_with_output Cases.reply_long_duration)))
   = Some 60 /\
   error (fst (parse_ai_response (Demo.state_with_output Cases.reply_long_duration)))
   = Some ("Error parsing AI response: " ++
           "Exceeds the limit (4300 digits) for integer string conversion: value has " ++
           "4301 digits; use sys.set_int_max_str_digits() to increase the limit" ++
           ". Ensure AI output matches expected format.")).
Proof.
  split.
  - refine (proj1 (proj2 (proj2 (proj2
              (response_parser (Demo.world Demo.reply_tomorrow)
                 (Demo.state_with_output Demo.reply_tomorrow) Demo.reply_tomorrow _ _))))
              "Meeting with John" "Wednesday, 04 November 2026" "3:00 PM - 3:30 PM" _ _ _ _);
      try (vm_compute; reflexivity).
    intros ds H. vm_compute in H. inversion H. cbn. lia.
  - destruct (proj2 (proj2 (proj2 (proj2
                (response_parser (Demo.world Cases.reply_long_duration)
                   (Demo.state_with_output Cases.reply_long_duration)
                   Cases.reply_long_duration eq_refl eq_refl))))
                "Call" "Wednesday, 04 November 2026" "3:00 PM - 4:00 PM"
                (Cases.ones 4301))
      as [Hp _];
      try (vm_compute; reflexivity);
      try (apply Nat.ltb_lt; vm_compute; reflexivity).
    rewrite Hp. repeat split.
Defined.

(** Against C7 as stated: in the first reply all three labels are present,
    Task as the last thing in it, and the parser fails with the missing
    details error; in the second the Task label is left blank and the title
    extracted is the next line that has text, the Priority label. *)
Lemma present_label_not_extracted :
  PyStr.contains "Task:" Demo.reply_task_last = true /\
  PyStr.contains "Date:" Demo.reply_task_last = true /\
  PyStr.contains "Time:" Demo.reply_task_last = true /\
  parse_ai_response (Demo.state_with_output Demo.reply_task_last) =
    (set_error (Demo.state_with_output Demo.reply_task_last)
       (Some (parse_error_msg (ValueError missing_details_msg))),
     [StError (parse_error_msg (ValueError missing_details_msg))]) /\
  task_title (fst (parse_ai_response (Demo.state_with_output Demo.reply_blank_labels)))
  = Some "Priority:".
Proof. repeat split; vm_compute; reflexivity. Qed.

(** ** Duration and priority (C8) *)

(** C8, as the parser has it. The duration is the first integer that
    follows a "Duration:" label (white space skipped), and 60 when no
    label is followed by digits; an integer of more than 4300 digits is
    not converted: [int] raises and the stage fails. The priority is the
    trimmed text that follows the first "Priority:" label, read like the
    other fields (white space and line breaks skipped, to the end of the
    line) and accepted whatever it says, and "Normal" when the label is
    absent or only line breaks follow it. Both are stored when Task, Date
    and Time were found and the duration was converted, and not
    otherwise. *)
Theorem duration_and_priority (out : string) :
  ((forall ds, duration_digits out = Some ds -> (String.length ds <= 4300)%nat) ->
   duration_of out = Ok (duration out)) /\
  (forall ds, duration_digits out = Some ds -> (4300 < String.length ds)%nat ->
   duration_of out =
     Raise (ValueError
              ("Exceeds the limit (4300 digits) for integer string conversion: value has "
               ++ PyStr.str_int (Z.of_nat (String.length ds)) ++
               " digits; use sys.set_int_max_str_digits() to increase the limit"))) /\
  (duration_digits out = None -> duration_of out = Ok 60) /\
  (forall ds, duration_digits out = Some ds ->
     ds <> EmptyString /\ PyStr.all_chars PyStr.isdigit ds = true /\
     ((String.length ds <= 4300)%nat -> duration_of out = Ok (PyStr.int_acc 0 ds))) /\
  (PyStr.contains "Duration:" out = false -> duration_of out = Ok 60) /\
  priority_of out =
    match labelled "Priority:" out with
    | Some t => PyStr.strip t
    | None => "Normal"
    end /\
  (PyStr.contains "Priority:" out = false -> priority_of out = "Normal") /\
  (forall pre ws c line tail,
     out = pre ++ "Priority:" ++ ws ++ String c line ++ tail ->
     absent_before "Priority:" pre ("Priority:" ++ ws ++ String c line ++ tail) = true ->
     PyStr.all_chars PyStr.isspace ws = true ->
     PyStr.isspace c = false ->
     PyStr.all_chars Re.dot line = true ->
     tail = EmptyString \/ (exists tail', tail = String "010" tail') ->
     priority_of out = PyStr.strip (String c line)) /\
  (forall st st' effs,
     has_error st = false -> output st = Some out ->
     parse_ai_response st = (st', effs) ->
     (has_error st' = false ->
        duration_minutes st' = Some (duration out) /\
        parsed_priority st' = Some (priority_of out)) /\
     (has_error st' = true ->
        duration_minutes st' = duration_minutes st /\
        parsed_priority st' = parsed_priority st)).
Proof.
  assert (Hnone : duration_digits out = None -> duration_of out = Ok 60).
  { intros H. rewrite duration_of_reading, H. reflexivity. }
  split; [apply duration_of_short |].
  split; [intros ds H Hl; exact (duration_of_long out ds H Hl) |].
  split; [exact Hnone |].
  split; [| split; [| split; [| split; [| split]]]].
  - intros ds H. destruct (duration_digits_digits out ds H) as [Hne Hd].
    repeat split; trivial. intros Hl. rewrite duration_of_short.
    + unfold duration. rewrite H. reflexivity.
    + intros ds' H'. rewrite H in H'. inversion H'; subst ds'. exact Hl.
  - intros H. apply Hnone.
    clear -H. induction out as [| c out IH].
    + reflexivity.
    + cbn [PyStr.contains] in H. apply orb_false_iff in H. destruct H as [H1 H2].
      cbn [duration_digits]. rewrite H1. auto.
  - apply priority_of_reading.
  - intros H. rewrite priority_of_reading, (labelled_absent _ _ H). reflexivity.
  - intros pre ws c line tail -> Hb Hw Hc Hl Ht.
    rewrite priority_of_reading, labelled_line; trivial.
  - intros st st' effs He Ho Hp.
    rewrite (parse_ai_response_reading st out He Ho) in Hp.
    assert (Hfail : forall st1 e,
              duration_minutes st1 = duration_minutes st ->
              parsed_priority st1 = parsed_priority st ->
              parse_failure st1 e = (st', effs) ->
              (has_error st' = false ->
               duration_minutes st' = Some (duration out) /\
               parsed_priority st' = Some (priority_of out)) /\
              (has_error st' = true ->
               duration_minutes st' = duration_minutes st /\
               parsed_priority st' = parsed_priority st)).
    { intros st1 e H1 H2 H. unfold parse_failure in H. inversion H; subst.
      split; [intros H'; discriminate H' | intros _; split; assumption]. }
    destruct out as [| c0 out0]; [exact (Hfail _ _ eq_refl eq_refl Hp) |].
    destruct (labelled "Task:" (String c0 out0)), (labelled "Date:" (String c0 out0)),
      (labelled "Time:" (String c0 out0)); try exact (Hfail _ _ eq_refl eq_refl Hp).
    rewrite duration_of_reading in Hp.
    destruct (duration_digits (String c0 out0)) as [ds |] eqn:Eds.
    + destruct (4300 <? Z.of_nat (String.length ds));
        [exact (Hfail (set_texts st _ _ _) _ eq_refl eq_refl Hp) |].
      inversion Hp; subst. split; [intros _; split; reflexivity |].
      intros H. change (has_error st = true) in H. congruence.
    + assert (Hd : duration (String c0 out0) = 60) by (unfold duration; rewrite Eds; reflexivity).
      inversion Hp; subst. split; [intros _; rewrite Hd; split; reflexivity |].
      intros H. change (has_error st = true) in H. congruence.
Qed.

(** Against C8 as stated: the Priority label is present, as the last thing
    in the reply, and the parsed priority is "Normal"; the non-numeric
    "Duration: about 45" gives 60, as the claim says. *)
Lemma present_priority_defaults :
  PyStr.contains "Priority:" Demo.reply_priority_last = true /\
  priority_of Demo.reply_priority_last = "Normal" /\
  parsed_priority (fst (parse_ai_response (Demo.state_with_output Demo.reply_priority_last)))
  = Some "Normal" /\
  duration_minutes (fst (parse_ai_response (Demo.state_with_output Demo.reply_priority_last)))
  = Some 60 /\
  parsed_priority (fst (parse_ai_response (Demo.state_with_output Demo.reply_blank_labels)))
  = Some "Scheduled Slot:".
Proof. repeat split; vm_compute; reflexivity. Qed.

Lemma duration_and_priority_witness :
  (duration_of Demo.reply_tomorrow = Ok 30 /\ priority_of Demo.reply_tomorrow = "High") /\
  duration_of Cases.reply_long_duration =
    Raise (ValueError
             ("Exceeds the limit (4300 digits) for integer string conversion: value has "
              ++ "4301 digits; use sys.set_int_max_str_digits() to increase the limit")).
Proof.
  split.
  - destruct (duration_and_priority Demo.reply_tomorrow) as (H1 & _ & _ & _ & _ & H2 & _).
    rewrite H1, H2; [split; vm_compute; reflexivity |].
    intros ds H. vm_compute in H. inversion H. cbn. lia.
  - destruct (duration_and_priority Cases.reply_long_duration) as (_ & H2 & _).
    rewrite (H2 (Cases.ones 4301));
      [reflexivity | vm_compute; reflexivity | apply Nat.ltb_lt; vm_compute; reflexivity].
Defined.

(** ** The weekday name (C10) *)

Lemma weekday_hit (w rest : string) :
  In w Fmt.day_name ->
  Re.run true (Strptime.seqToRE Strptime.f_weekday "A") (w ++ rest)
  = [Re.Hit w [("A", w)] rest].
Proof.
  unfold Fmt.day_name. cbn [In].
  intros [<- | [<- | [<- | [<- | [<- | [<- | [<- | []]]]]]]]; vm_compute; reflexivity.
Qed.

Lemma weekday_match (R : Re.regex) (w rest : string) :
  In w Fmt.day_name ->
  Re.match_ true (Re.Seq (Strptime.seqToRE Strptime.f_weekday "A") R) (w ++ rest)
  = option_map (fun h2 => Re.Hit (w ++ Re.matched h2) (("A", w) :: Re.caps h2) (Re.rest h2))
               (Re.match_ true R rest).
Proof.
  intros Hw. unfold Re.match_. cbn [Re.run]. rewrite (weekday_hit w rest Hw).
  cbn [flat_map Re.matched Re.caps Re.rest app]. rewrite app_nil_r, hd_error_map.
  reflexivity.
Qed.

Lemma convert_weekday (w : string) (caps2 : Re.groups) :
  In w Fmt.day_name ->
  exists i, Strptime.convert_key (("A", w) :: caps2) Strptime.init_fields "A"
            = Ok (Strptime.mkfields None 1 1 0 0 (Some i)).
Proof.
  unfold Fmt.day_name. cbn [In].
  intros [<- | [<- | [<- | [<- | [<- | [<- | [<- | []]]]]]]];
    eexists; vm_compute; reflexivity.
Qed.

Lemma group_skip_weekday (w : string) (caps2 : Re.groups) (k : string) :
  k <> "A" -> Re.group k (("A", w) :: caps2) = Re.group k caps2.
Proof.
  intros Hk. cbn [Re.group]. destruct (String.eqb "A" k) eqn:E; [| reflexivity].
  apply String.eqb_eq in E. congruence.
Qed.

(** A conversion that does not read group "A" does not depend on it, nor
    on the weekday found so far. *)
Lemma convert_key_weekday (w1 w2 : string) (caps2 : Re.groups)
    (f f' : Strptime.fields) (key : string) :
  key <> "A" ->
  Strptime.date_time_fields f' = Strptime.date_time_fields f ->
  match Strptime.convert_key (("A", w1) :: caps2) f key with
  | Ok g => exists g', Strptime.convert_key (("A", w2) :: caps2) f' key = Ok g' /\
                       Strptime.date_time_fields g' = Strptime.date_time_fields g
  | Raise e => Strptime.convert_key (("A", w2) :: caps2) f' key = Raise e
  end.
Proof.
  intros Hk Hf. unfold Strptime.convert_key.
  rewrite !(group_skip_weekday _ _ key Hk).
  rewrite !(group_skip_weekday _ _ "p") by discriminate.
  unfold Strptime.date_time_fields in Hf. destruct f, f'. cbn in Hf.
  inversion Hf; subst. cbn [Strptime.f_year Strptime.f_month_ Strptime.f_day
                            Strptime.f_hour Strptime.f_minute Strptime.f_weekday_].
  repeat match goal with
         | |- context [if String.eqb key ?k then _ else _] =>
             destruct (String.eqb key k) eqn:?
         end;
    try match goal with
        | H : String.eqb key "A" = true |- _ => apply String.eqb_eq in H; congruence
        end;
    try match goal with
        | |- context [bind ?r _] => destruct r; cbn [bind]
        end;
    eauto.
Qed.

Lemma convert_keys_weekday (w1 w2 : string) (caps2 : Re.groups) (keys : list string) :
  ~ In "A" keys ->
  forall f f',
    Strptime.date_time_fields f' = Strptime.date_time_fields f ->
    match Strptime.convert_keys (("A", w1) :: caps2) keys f with
    | Ok g => exists g', Strptime.convert_keys (("A", w2) :: caps2) keys f' = Ok g' /\
                         Strptime.date_time_fields g' = Strptime.date_time_fields g
    | Raise e => Strptime.convert_keys (("A", w2) :: caps2) keys f' = Raise e
    end.
Proof.
  induction keys as [| k keys IH]; intros Hn f f' Hf; cbn [Strptime.convert_keys].
  - eauto.
  - assert (Hk : k <> "A") by (intros ->; apply Hn; left; reflexivity).
    pose proof (convert_key_weekday w1 w2 caps2 f f' k Hk Hf) as H.
    destruct (Strptime.convert_key (("A", w1) :: caps2) f k) as [g | e]; cbn [bind].
    + destruct H as (g' & -> & Hg). cbn [bind].
      apply IH; [intros Hin; apply Hn; right; exact Hin | exact Hg].
    + rewrite H. reflexivity.
Qed.

(** A format that opens with [%A] gives the same datetime whatever day
    name opens the text. *)
Lemma strptime_weekday (fmt : string) (R : Re.regex) (w1 w2 rest : string) (d : datetime) :
  Strptime.pattern fmt = Some (Re.Seq (Strptime.seqToRE Strptime.f_weekday "A") R) ->
  Re.uniform R = true -> ~ In "A" (Re.keys R) ->
  In w1 Fmt.day_name -> In w2 Fmt.day_name ->
  Strptime.strptime (w1 ++ rest) fmt = Ok d -> Strptime.strptime (w2 ++ rest) fmt = Ok d.
Proof.
  intros Hp Hu Hn H1 H2. unfold Strptime.strptime, Strptime._strptime.
  rewrite Hp, (weekday_match R w1 rest H1), (weekday_match R w2 rest H2).
  destruct (Re.match_ true R rest) as [h2 |] eqn:Em; cbn [option_map]; [| discriminate].
  cbn [Re.rest Re.caps map fst Strptime.convert_keys].
  destruct (negb _); [discriminate |].
  destruct (convert_weekday w1 (Re.caps h2) H1) as [i1 ->].
  destruct (convert_weekday w2 (Re.caps h2) H2) as [i2 ->]. cbn [bind].
  assert (Hk : ~ In "A" (map fst (Re.caps h2))).
  { erewrite run_keys; eauto using match_in_run. }
  pose proof (convert_keys_weekday w1 w2 (Re.caps h2) (map fst (Re.caps h2)) Hk
                (Strptime.mkfields None 1 1 0 0 (Some i1))
                (Strptime.mkfields None 1 1 0 0 (Some i2)) eq_refl) as Hc.
  destruct (Strptime.convert_keys (("A", w1) :: Re.caps h2) _ _) as [g |]; [| discriminate].
  destruct Hc as (g' & -> & Hg). cbn [bind].
  unfold Strptime.date_time_fields in Hg. destruct g, g'. cbn in Hg. inversion Hg; subst.
  cbn [Strptime.f_year Strptime.f_month_ Strptime.f_day Strptime.f_hour
       Strptime.f_minute Strptime.f_weekday_].
  destruct (new_date _ _ _); [| discriminate]. cbn [bind].
  destruct (new_date _ _ _); [| discriminate]. cbn [bind].
  cbn [Strptime.tm_year Strptime.tm_mon Strptime.tm_mday Strptime.tm_hour
       Strptime.tm_min Strptime.tm_sec].
  trivial.
Qed.

Lemma weekday_formats (fmt : string) :
  In fmt ["%A, %d %B %Y"; "%A, %d %B"] ->
  exists R,
    Strptime.pattern fmt = Some (Re.Seq (Strptime.seqToRE Strptime.f_weekday "A") R) /\
    Re.uniform R = true /\ ~ In "A" (Re.keys R).
Proof.
  cbn [In]. intros [<- | [<- | []]]; eexists; (split; [reflexivity |]);
    (split; [vm_compute; reflexivity |]); vm_compute; intuition discriminate.
Qed.

Lemma other_formats_fail (w rest fmt : string) :
  In w Fmt.day_name ->
  In fmt ["%d %B %Y"; "%B %d, %Y"; "%m/%d/%Y"; "%Y-%m-%d"; "%d-%m-%Y"] ->
  exists msg, Strptime.strptime (w ++ rest) fmt = Raise (ValueError msg).
Proof.
  unfold Fmt.day_name. cbn [In]. intros Hw Hf.
  assert (Hm : exists R,
             Strptime.pattern fmt = Some R /\ Re.match_ true R (w ++ rest) = None).
  { destruct Hw as [<- | [<- | [<- | [<- | [<- | [<- | [<- | []]]]]]]];
      destruct Hf as [<- | [<- | [<- | [<- | [<- | []]]]]];
      eexists; (split; [vm_compute; reflexivity |]); vm_compute; reflexivity. }
  destruct Hm as (R & HR & Hm).
  unfold Strptime.strptime, Strptime._strptime. rewrite HR, Hm.
  eexists. reflexivity.
Qed.

Lemma strptime_same_weekday (fmt w1 w2 rest : string) (d : datetime) :
  In fmt formats -> In w1 Fmt.day_name -> In w2 Fmt.day_name ->
  Strptime.strptime (w1 ++ rest) fmt = Ok d -> Strptime.strptime (w2 ++ rest) fmt = Ok d.
Proof.
  intros Hf H1 H2 Hs. unfold formats in Hf. cbn [In] in Hf.
  destruct Hf as [<- | [<- | Hf]].
  - destruct (weekday_formats "%A, %d %B %Y") as (R & Hp & Hu & Hn); [cbn; auto |].
    exact (strptime_weekday _ R w1 w2 rest d Hp Hu Hn H1 H2 Hs).
  - destruct (weekday_formats "%A, %d %B") as (R & Hp & Hu & Hn); [cbn; auto |].
    exact (strptime_weekday _ R w1 w2 rest d Hp Hu Hn H1 H2 Hs).
  - destruct (other_formats_fail w1 rest fmt H1) as [msg Hm]; [cbn [In]; tauto |].
    congruence.
Qed.

Lemma try_format_same (now : datetime) (s1 s2 fmt : string) :
  (forall d, Strptime.strptime s1 fmt = Ok d <-> Strptime.strptime s2 fmt = Ok d) ->
  try_format now s1 fmt = try_format now s2 fmt \/
  exists m1 m2, try_format now s1 fmt = Raise (ValueError m1) /\
                try_format now s2 fmt = Raise (ValueError m2).
Proof.
  intros H. unfold try_format.
  destruct (Strptime.strptime s1 fmt) as [d1 | e1] eqn:E1.
  - rewrite (proj1 (H d1) eq_refl). left. reflexivity.
  - destruct (Strptime.strptime s2 fmt) as [d2 | e2] eqn:E2.
    + pose proof (proj2 (H d2) eq_refl) as X. discriminate X.
    + destruct (is_ValueError_inv e1 (strptime_raises _ _ _ E1)) as [m1 ->].
      destruct (is_ValueError_inv e2 (strptime_raises _ _ _ E2)) as [m2 ->].
      right. exists m1, m2. split; reflexivity.
Qed.

Lemma try_formats_same (now : datetime) (s1 s2 : string) (fmts : list string) :
  (forall fmt d, In fmt fmts ->
     Strptime.strptime s1 fmt = Ok d <-> Strptime.strptime s2 fmt = Ok d) ->
  try_formats now s1 fmts = try_formats now s2 fmts.
Proof.
  induction fmts as [| f fmts IH]; intros H; [reflexivity |]. cbn [try_formats].
  destruct (try_format_same now s1 s2 f (fun d => H f d (or_introl eq_refl)))
    as [-> | (m1 & m2 & -> & ->)].
  - destruct (try_format now s2 f) as [| []]; trivial;
      apply IH; intros fmt d Hin; apply H; right; exact Hin.
  - apply IH. intros fmt d Hin. apply H. right. exact Hin.
Qed.

(** C10. The weekday name of "Weekday, DD Month YYYY" and of "Weekday, DD
    Month" is matched and then dropped: the date that parse_flexible_date
    returns is the same for every day name put in front of the same rest,
    so it depends on the day, the month and the (inferred) year only; for
    instance "Monday, 28 May 2025" and every other day name give 28 May
    2025, a Wednesday. And "Weekday, 29 February" without a year is
    rejected by every format, whatever the current year: the format without
    a year builds the date in 1900, which has no 29 February, before the
    year is inferred; with a leap year written out the same day parses. *)
Theorem weekday_not_checked (now : datetime) :
  (forall w1 w2 rest,
     In w1 Fmt.day_name -> In w2 Fmt.day_name ->
     parse_flexible_date now (Some (w1 ++ rest)) = parse_flexible_date now (Some (w2 ++ rest))) /\
  (forall w, In w Fmt.day_name ->
     parse_flexible_date now (Some (w ++ ", 28 May 2025")) = Ok (Some (mkdt 2025 5 28 0 0 0 0))) /\
  Fmt.nth_name Fmt.day_name (weekday 2025 5 28) = "Wednesday" /\
  (forall w fmt, In w Fmt.day_name -> In fmt formats ->
     exists msg, Strptime.strptime (w ++ ", 29 February") fmt = Raise (ValueError msg)) /\
  (forall w, In w Fmt.day_name ->
     Strptime.strptime (w ++ ", 29 February") "%A, %d %B"
     = Raise (ValueError "day is out of range for month") /\
     parse_flexible_date now (Some (w ++ ", 29 February")) = Ok None /\
     parse_flexible_date now (Some (w ++ ", 29 February 2028"))
     = Ok (Some (mkdt 2028 2 29 0 0 0 0))).
Proof.
  assert (Hsame : forall w1 w2 rest,
            In w1 Fmt.day_name -> In w2 Fmt.day_name ->
            parse_flexible_date now (Some (w1 ++ rest))
            = parse_flexible_date now (Some (w2 ++ rest))).
  { intros w1 w2 rest H1 H2. unfold parse_flexible_date.
    apply try_formats_same. intros fmt d Hin.
    split; apply strptime_same_weekday; assumption. }
  assert (Hmon : In "Monday" Fmt.day_name) by (cbn; auto).
  split; [exact Hsame |]. split; [| split; [| split]].
  - intros w Hw. rewrite (Hsame w "Monday" ", 28 May 2025" Hw Hmon).
    vm_compute. reflexivity.
  - vm_compute. reflexivity.
  - intros w fmt Hw Hf.
    destruct (Strptime.strptime (w ++ ", 29 February") fmt) as [d | e] eqn:E.
    + apply (strptime_same_weekday fmt w "Monday" ", 29 February" d Hf Hw Hmon) in E.
      exfalso. revert E. unfold formats in Hf. cbn [In] in Hf.
      destruct Hf as [<- | [<- | [<- | [<- | [<- | [<- | [<- | []]]]]]]];
        vm_compute; discriminate.
    + destruct (is_ValueError_inv e (strptime_raises _ _ _ E)) as [msg ->]. eauto.
  - intros w Hw. split; [| split].
    + revert Hw. unfold Fmt.day_name. cbn [In].
      intros [<- | [<- | [<- | [<- | [<- | [<- | [<- | []]]]]]]]; vm_compute; reflexivity.
    + rewrite (Hsame w "Monday" ", 29 February" Hw Hmon). vm_compute. reflexivity.
    + rewrite (Hsame w "Monday" ", 29 February 2028" Hw Hmon). vm_compute. reflexivity.
Qed.

Lemma weekday_not_checked_witness :
  parse_flexible_date (clock_now (Demo.world "")) (Some ("Friday" ++ ", 28 May 2025"))
  = Ok (Some (mkdt 2025 5 28 0 0 0 0)).
Proof.
  apply (proj1 (proj2 (weekday_not_checked (clock_now (Demo.world ""))))).
  cbn. tauto.
Defined.

(** * Further properties *)
(** ** The paths of the workflow *)

Lemma run_step (fuel : nat) (w : World) (n : node) (st : SchedulerState) :
  run_from (S fuel) w n st =
    match next n (fst (node_action w n st)) with
    | END => Some (mkrun (fst (node_action w n st)) (snd (node_action w n st)) [n])
    | To n' =>
        option_map
          (fun r => mkrun (final_state r)
                      (snd (node_action w n st) ++ effects r)%list (n :: visited r))
          (run_from fuel w n' (fst (node_action w n st)))
    end.
Proof.
  cbn [run_from]. destruct (node_action w n st) as [st' effs]. cbn [fst snd].
  destruct (next n st'); [| reflexivity].
  destruct (run_from fuel w n0 st'); reflexivity.
Qed.

Lemma next_continue (st : SchedulerState) :
  has_error st = false ->
  next process_ai st = To parse_response /\
  next parse_response st = To parse_datetime_node /\
  next parse_datetime_node st = To authenticate /\
  next authenticate st = To create_event_node /\
  next create_event_node st = To schedule.
Proof.
  intros H. unfold next, edge_of, should_continue. rewrite H. repeat split.
Qed.

Lemma next_last (st : SchedulerState) :
  next schedule st = END /\ next error_handler st = END.
Proof. split; reflexivity. Qed.

Lemma sentence_kept (w : World) (n : node) (st : SchedulerState) :
  sentence (fst (node_action w n st)) = sentence st.
Proof.
  destruct n; cbn [node_action].
  - unfold process_ai_request. destruct (llm_invoke w _); reflexivity.
  - unfold parse_ai_response, parse_failure. destruct (has_error st); [reflexivity |].
    destruct (output st) as [[| c out] |]; try reflexivity.
    repeat (destruct (search_group1 _ _); [| reflexivity]).
    destruct (duration_of _); reflexivity.
  - unfold parse_datetime. destruct (has_error st); [reflexivity |].
    destruct (resolve_slot w st) as [effs [[? ?] | ?]]; reflexivity.
  - unfold authenticate_google. destruct (has_error st); [reflexivity |].
    destruct (obtain_credentials w) as [effs r].
    destruct (bind r _); reflexivity.
  - unfold create_event. destruct (has_error st); [reflexivity |].
    destruct (build_event st); reflexivity.
  - unfold schedule_event. destruct (has_error st); [reflexivity |].
    destruct (submit_event w st) as [effs [v | ?]]; [| reflexivity].
    destruct (show_created v); reflexivity.
  - unfold handle_error. destruct (has_error st); reflexivity.
Qed.

Lemma handler_shows_error (st : SchedulerState) :
  has_error st = true ->
  handle_error st =
    (st, [StError ("❌ **Error during scheduling process:** " ++ fstr (error st)); StRender]).
Proof. intros H. unfold handle_error. rewrite H. reflexivity. Qed.

(** The run from a stage that has a "continue" edge to [n']. *)
Lemma run_stage (fuel : nat) (w : World) (n n' : node) (st : SchedulerState) :
  In (n, n') [(process_ai, parse_response); (parse_response, parse_datetime_node);
              (parse_datetime_node, authenticate); (authenticate, create_event_node);
              (create_event_node, schedule)] ->
  run_from (S (S fuel)) w n st =
    if has_error (fst (node_action w n st)) then
      Some (mkrun (fst (node_action w n st))
              (snd (node_action w n st) ++
               [StError ("❌ **Error during scheduling process:** "
                         ++ fstr (error (fst (node_action w n st))));
                StRender])%list
              [n; error_handler])
    else
      option_map
        (fun r => mkrun (final_state r)
                    (snd (node_action w n st) ++ effects r)%list (n :: visited r))
        (run_from (S fuel) w n' (fst (node_action w n st))).
Proof.
  intros Hin. rewrite run_step.
  destruct (has_error (fst (node_action w n st))) eqn:He.
  - assert (Hn : next n (fst (node_action w n st)) = To error_handler).
    { apply next_on_error; [exact He | |];
        cbn [In] in Hin; intuition (try discriminate; congruence). }
    rewrite Hn, handler_run, (handler_shows_error _ He). reflexivity.
  - destruct (next_continue _ He) as (H1 & H2 & H3 & H4 & H5).
    cbn [In] in Hin.
    repeat (destruct Hin as [Hin | Hin];
            [inversion Hin; subst; first [rewrite H1 | rewrite H2 | rewrite H3 | rewrite H4 | rewrite H5]; reflexivity |]).
    contradiction.
Qed.

Lemma run_schedule (fuel : nat) (w : World) (st : SchedulerState) :
  run_from (S fuel) w schedule st =
    Some (mkrun (fst (schedule_event w st)) (snd (schedule_event w st)) [schedule]).
Proof. rewrite run_step. reflexivity. Qed.

(** The stages of a run, and where an error ends it. *)
Lemma invoke_visited (w : World) (st : SchedulerState) :
  exists r,
    invoke w st = Some r /\
    (visited r = Trace.stages \/
     exists k,
       (1 <= k <= 5)%nat /\
       visited r = (firstn k Trace.stages ++ [error_handler])%list /\
       has_error (final_state r) = true).
Proof.
  unfold invoke.
  rewrite (run_stage 5 w process_ai parse_response) by (cbn [In]; tauto).
  set (s1 := fst (node_action w process_ai st)) in *.
  destruct (has_error s1) eqn:E1.
  { eexists. split; [reflexivity |]. right. exists 1%nat. repeat split; try lia; assumption. }
  rewrite (run_stage 4 w parse_response parse_datetime_node) by (cbn [In]; tauto).
  set (s2 := fst (node_action w parse_response s1)) in *.
  destruct (has_error s2) eqn:E2.
  { eexists. split; [reflexivity |]. right. exists 2%nat. repeat split; try lia; assumption. }
  rewrite (run_stage 3 w parse_datetime_node authenticate) by (cbn [In]; tauto).
  set (s3 := fst (node_action w parse_datetime_node s2)) in *.
  destruct (has_error s3) eqn:E3.
  { eexists. split; [reflexivity |]. right. exists 3%nat. repeat split; try lia; assumption. }
  rewrite (run_stage 2 w authenticate create_event_node) by (cbn [In]; tauto).
  set (s4 := fst (node_action w authenticate s3)) in *.
  destruct (has_error s4) eqn:E4.
  { eexists. split; [reflexivity |]. right. exists 4%nat. repeat split; try lia; assumption. }
  rewrite (run_stage 1 w create_event_node schedule) by (cbn [In]; tauto).
  set (s5 := fst (node_action w create_event_node s4)) in *.
  destruct (has_error s5) eqn:E5.
  { eexists. split; [reflexivity |]. right. exists 5%nat. repeat split; try lia; assumption. }
  rewrite run_schedule. cbn [option_map].
  eexists. split; [reflexivity |]. left. reflexivity.
Qed.

(** An index of one of the first five stages. *)
Lemma stage_index (k : nat) :
  (1 <= k <= 5)%nat -> (k = 1 \/ k = 2 \/ k = 3 \/ k = 4 \/ k = 5)%nat.
Proof. lia. Qed.

(** X1. Every run of the workflow ends. It visits the six stages in order,
    or a first part of them followed by the error handler; it ends in the
    error handler exactly when one of the first five stages left an error:
    the run then stops after the first such stage, with the state that this
    stage returned, and the handler shows the error that this state carries.
    When none of the five left an error the run ends after the sixth stage,
    with the state that it returned, and the error handler is not visited.
    The sentence of the request is never changed. *)
Theorem workflow_paths (w : World) (st : SchedulerState) :
  exists r,
    invoke w st = Some r /\
    sentence (final_state r) = sentence st /\
    (In error_handler (visited r) <->
     exists k, (1 <= k <= 5)%nat /\ has_error (Trace.state_after w k st) = true) /\
    ((visited r = Trace.stages /\
      (forall k, (1 <= k <= 5)%nat -> has_error (Trace.state_after w k st) = false) /\
      final_state r = Trace.state_after w 6 st)
     \/
     exists k,
       (1 <= k <= 5)%nat /\
       has_error (Trace.state_after w k st) = true /\
       (forall j, (1 <= j < k)%nat -> has_error (Trace.state_after w j st) = false) /\
       visited r = (firstn k Trace.stages ++ [error_handler])%list /\
       final_state r = Trace.state_after w k st /\
       In (StError ("❌ **Error during scheduling process:** "
                    ++ fstr (error (final_state r)))) (effects r)).
Proof.
  unfold invoke.
  pose proof (sentence_kept w process_ai st) as K1.
  rewrite (run_stage 5 w process_ai parse_response) by (cbn [In]; tauto).
  set (s1 := fst (node_action w process_ai st)) in *.
  assert (A1 : Trace.state_after w 1 st = s1) by reflexivity.
  destruct (has_error s1) eqn:E1.
  { eexists. split; [reflexivity |]. cbn [final_state visited effects].
    split; [exact K1 |]. split.
    { split; [intros _; exists 1%nat; split; [lia | rewrite A1; exact E1]
             | intros _; right; left; reflexivity]. }
    right. exists 1%nat. rewrite A1.
    split; [lia |]. split; [exact E1 |]. split; [intros j Hj; lia |].
    split; [reflexivity |]. split; [reflexivity |].
    apply in_or_app. right. left. reflexivity. }
  pose proof (sentence_kept w parse_response s1) as K2.
  rewrite (run_stage 4 w parse_response parse_datetime_node) by (cbn [In]; tauto).
  set (s2 := fst (node_action w parse_response s1)) in *.
  assert (A2 : Trace.state_after w 2 st = s2) by reflexivity.
  destruct (has_error s2) eqn:E2.
  { eexists. split; [reflexivity |]. cbn [final_state visited effects].
    split; [congruence |]. split.
    { split; [intros _; exists 2%nat; split; [lia | rewrite A2; exact E2]
             | intros _; cbn; tauto]. }
    right. exists 2%nat. rewrite A2.
    split; [lia |]. split; [exact E2 |].
    split; [intros j Hj; assert (j = 1%nat) as -> by lia; rewrite A1; exact E1 |].
    split; [reflexivity |]. split; [reflexivity |].
    apply in_or_app. right. apply in_or_app. right. left. reflexivity. }
  pose proof (sentence_kept w parse_datetime_node s2) as K3.
  rewrite (run_stage 3 w parse_datetime_node authenticate) by (cbn [In]; tauto).
  set (s3 := fst (node_action w parse_datetime_node s2)) in *.
  assert (A3 : Trace.state_after w 3 st = s3) by reflexivity.
  destruct (has_error s3) eqn:E3.
  { eexists. split; [reflexivity |]. cbn [final_state visited effects].
    split; [congruence |]. split.
    { split; [intros _; exists 3%nat; split; [lia | rewrite A3; exact E3]
             | intros _; cbn; tauto]. }
    right. exists 3%nat. rewrite A3.
    split; [lia |]. split; [exact E3 |].
    split; [intros j Hj; assert (Hc : (j = 1 \/ j = 2)%nat) by lia;
            destruct Hc as [-> | ->]; [rewrite A1; exact E1 | rewrite A2; exact E2] |].
    split; [reflexivity |]. split; [reflexivity |].
    repeat (apply in_or_app; right). left. reflexivity. }
  pose proof (sentence_kept w authenticate s3) as K4.
  rewrite (run_stage 2 w authenticate create_event_node) by (cbn [In]; tauto).
  set (s4 := fst (node_action w authenticate s3)) in *.
  assert (A4 : Trace.state_after w 4 st = s4) by reflexivity.
  destruct (has_error s4) eqn:E4.
  { eexists. split; [reflexivity |]. cbn [final_state visited effects].
    split; [congruence |]. split.
    { split; [intros _; exists 4%nat; split; [lia | rewrite A4; exact E4]
             | intros _; cbn; tauto]. }
    right. exists 4%nat. rewrite A4.
    split; [lia |]. split; [exact E4 |].
    split; [intros j Hj; assert (Hc : (j = 1 \/ j = 2 \/ j = 3)%nat) by lia;
            destruct Hc as [-> | [-> | ->]];
            [rewrite A1; exact E1 | rewrite A2; exact E2 | rewrite A3; exact E3] |].
    split; [reflexivity |]. split; [reflexivity |].
    repeat (apply in_or_app; right). left. reflexivity. }
  pose proof (sentence_kept w create_event_node s4) as K5.
  rewrite (run_stage 1 w create_event_node schedule) by (cbn [In]; tauto).
  set (s5 := fst (node_action w create_event_node s4)) in *.
  assert (A5 : Trace.state_after w 5 st = s5) by reflexivity.
  destruct (has_error s5) eqn:E5.
  { eexists. split; [reflexivity |]. cbn [final_state visited effects].
    split; [congruence |]. split.
    { split; [intros _; exists 5%nat; split; [lia | rewrite A5; exact E5]
             | intros _; cbn; tauto]. }
    right. exists 5%nat. rewrite A5.
    split; [lia |]. split; [exact E5 |].
    split; [intros j Hj; assert (Hc : (j = 1 \/ j = 2 \/ j = 3 \/ j = 4)%nat) by lia;
            destruct Hc as [-> | [-> | [-> | ->]]];
            [rewrite A1; exact E1 | rewrite A2; exact E2 | rewrite A3; exact E3
            | rewrite A4; exact E4] |].
    split; [reflexivity |]. split; [reflexivity |].
    repeat (apply in_or_app; right). left. reflexivity. }
  rewrite run_schedule. cbn [option_map final_state visited effects].
  eexists. split; [reflexivity |]. cbn [final_state visited effects].
  assert (Hnone : forall k, (1 <= k <= 5)%nat ->
                            has_error (Trace.state_after w k st) = false).
  { intros k Hk. destruct (stage_index k Hk) as [-> | [-> | [-> | [-> | ->]]]];
      [rewrite A1; exact E1 | rewrite A2; exact E2 | rewrite A3; exact E3
      | rewrite A4; exact E4 | rewrite A5; exact E5]. }
  split.
  { pose proof (sentence_kept w schedule s5) as K6. cbn [node_action] in K6. congruence. }
  split.
  { split.
    - unfold Trace.stages. cbn [In]. intuition discriminate.
    - intros (k & Hk & Hbad). rewrite (Hnone k Hk) in Hbad. discriminate Hbad. }
  left. split; [reflexivity |]. split; [exact Hnone | reflexivity].
Qed.

(** ** The calls of a run *)

Lemma count_app (p : effect -> bool) (l1 l2 : list effect) :
  Trace.count p (l1 ++ l2) = (Trace.count p l1 + Trace.count p l2)%nat.
Proof. unfold Trace.count. rewrite filter_app, length_app. reflexivity. Qed.

Lemma count_none (p q : effect -> bool) (l : list effect) :
  forallb q l = true -> (forall e, q e = true -> p e = false) -> Trace.count p l = 0%nat.
Proof.
  intros Hq Hpq. induction l as [| e l IH]; [reflexivity |].
  cbn [forallb] in Hq. apply andb_prop in Hq. destruct Hq as [He Hl].
  unfold Trace.count in *. cbn [filter]. rewrite (Hpq e He). exact (IH Hl).
Qed.

Lemma forallb_app_intro {A : Type} (q : A -> bool) (l1 l2 : list A) :
  forallb q l1 = true -> forallb q l2 = true -> forallb q (l1 ++ l2) = true.
Proof. intros H1 H2. rewrite forallb_app, H1, H2. reflexivity. Qed.

(** The calls that obtaining the credentials can make. *)
Section CredentialCalls.

Variable q : effect -> bool.
Hypothesis q_load : q TokenLoad = true.
Hypothesis q_remove : q TokenRemove = true.
Hypothesis q_refresh : q CredsRefresh = true.
Hypothesis q_login : q FlowRunLocalServer = true.
Hypothesis q_render : q StRender = true.
Hypothesis q_warning : forall m, q (StWarning m) = true.
Hypothesis q_write : forall j, q (TokenWrite j) = true.

Lemma load_token_forall (w : World) : forallb q (fst (load_token w)) = true.
Proof.
  unfold load_token.
  destruct (token_exists w); [| reflexivity].
  destruct (token_load w); cbn [fst forallb]; [rewrite q_load; reflexivity |].
  destruct (token_remove w); cbn [fst forallb app];
    rewrite q_load, q_warning, q_remove; reflexivity.
Qed.

Lemma renew_forall (w : World) (creds : option Credentials) :
  forallb q (fst (renew w creds)) = true.
Proof.
  assert (Hlogin :
    forallb q
      (fst match flow_from_secrets w with
           | Raise e => ([StRender], Raise e)
           | Ok _ =>
               match flow_run_local_server w with
               | Ok c' => ([StRender; FlowRunLocalServer; StRender], Ok c')
               | Raise auth_e =>
                   ([StRender; FlowRunLocalServer],
                    Raise (ValueError ("Failed to complete browser authentication. Error: "
                                       ++ exn_str auth_e)))
               end
           end) = true).
  { destruct (flow_from_secrets w); [| cbn [fst forallb]; rewrite q_render; reflexivity].
    destruct (flow_run_local_server w); cbn [fst forallb];
      rewrite q_render, q_login; reflexivity. }
  unfold renew. destruct creds as [c |]; [| exact Hlogin].
  destruct (expired c && PyStr.truthy (refresh_token c)); [| exact Hlogin].
  destruct (creds_refresh w c); cbn [fst forallb];
    rewrite q_refresh, ?q_render; reflexivity.
Qed.

Lemma obtain_credentials_forall (w : World) :
  forallb q (fst (obtain_credentials w)) = true.
Proof.
  unfold obtain_credentials.
  pose proof (load_token_forall w) as H0.
  destruct (load_token w) as [effs0 [creds | e]]; cbn [fst] in H0 |- *; [| exact H0].
  pose proof (renew_forall w creds) as H1.
  destruct (match creds with None => true | Some c => negb (valid c) end).
  - destruct (renew w creds) as [effs1 [c' | e]]; cbn [fst] in H1 |- *;
      rewrite ?forallb_app, H0, H1; [| reflexivity].
    cbn [forallb]. rewrite q_write. reflexivity.
  - destruct creds; exact H0.
Qed.

End CredentialCalls.

Lemma obtain_credentials_calls (w : World) :
  forallb (fun e => Trace.is_ui e || Trace.is_auth e) (fst (obtain_credentials w)) = true.
Proof. apply obtain_credentials_forall; reflexivity. Qed.

(** Each stage makes only its own kind of call, besides Streamlit ones. *)
Lemma stage_calls (w : World) (n : node) (st : SchedulerState) :
  forallb (fun e => Trace.is_ui e || Trace.own_call n e) (snd (node_action w n st)) = true.
Proof.
  destruct n; cbn [node_action Trace.own_call].
  - unfold process_ai_request. destruct (llm_invoke w _); reflexivity.
  - unfold parse_ai_response, parse_failure. destruct (has_error st); [reflexivity |].
    destruct (output st) as [[| c out] |]; try reflexivity.
    repeat (destruct (search_group1 _ _); [| reflexivity]).
    destruct (duration_of _); reflexivity.
  - unfold parse_datetime. destruct (has_error st); [reflexivity |].
    unfold resolve_slot. destruct (parse_slot w st) as [[s e] | ex]; [| reflexivity].
    unfold adjust_past.
    destruct (ltb s (clock_now_local w)); [destruct (date_eqb _ _) |];
      match goal with
      | |- context [bind ?r ?k] => destruct (bind r k) as [[? ?] | ?]; reflexivity
      end.
  - unfold authenticate_google. destruct (has_error st); [reflexivity |].
    pose proof (obtain_credentials_calls w) as H.
    destruct (obtain_credentials w) as [effs r]. cbn [fst] in H.
    destruct r as [c | e]; cbn [bind].
    + destruct (service_build w c); cbn [snd];
        repeat apply forallb_app_intro; trivial.
    + cbn [snd]. repeat apply forallb_app_intro; trivial.
  - unfold create_event. destruct (has_error st); [reflexivity |].
    destruct (build_event st); reflexivity.
  - unfold schedule_event. destruct (has_error st); [reflexivity |].
    unfold submit_event.
    destruct (start_dt st) as [s |]; [destruct (end_dt st) as [e |] |]; try reflexivity.
    destruct (bind _ _); [| reflexivity].
    destruct (service st) as [svc |]; [| reflexivity].
    destruct (events_insert w svc _) as [v |]; [| reflexivity].
    destruct (show_created v); reflexivity.
  - unfold handle_error. destruct (has_error st); reflexivity.
Qed.

Lemma run_effect_origin (w : World) (fuel : nat) :
  forall n st r, run_from fuel w n st = Some r ->
  forall e, In e (effects r) ->
  exists n' st', In n' (visited r) /\ In e (snd (node_action w n' st')).
Proof.
  induction fuel as [| fuel IH]; intros n st r Hr e He; [discriminate |].
  rewrite run_step in Hr. destruct (next n _) as [n' |].
  - destruct (run_from fuel w n' _) as [r' |] eqn:Er; [| discriminate].
    cbn [option_map] in Hr. inversion Hr; subst r. cbn [effects visited] in *.
    apply in_app_or in He. destruct He as [He | He].
    + exists n, st. split; [left; reflexivity | exact He].
    + destruct (IH _ _ _ Er e He) as (n1 & st1 & Hin & Hie).
      exists n1, st1. split; [right; exact Hin | exact Hie].
  - inversion Hr; subst r. cbn [effects visited] in *.
    exists n, st. split; [left; reflexivity | exact He].
Qed.

Lemma run_count_eq (p : effect -> bool) (c : node -> nat) (w : World) :
  (forall n st, Trace.count p (snd (node_action w n st)) = c n) ->
  forall fuel n st r, run_from fuel w n st = Some r ->
  Trace.count p (effects r) = list_sum (map c (visited r)).
Proof.
  intros Hc. induction fuel as [| fuel IH]; intros n st r Hr; [discriminate |].
  rewrite run_step in Hr. destruct (next n _) as [n' |].
  - destruct (run_from fuel w n' _) as [r' |] eqn:Er; [| discriminate].
    cbn [option_map] in Hr. inversion Hr; subst r. cbn [effects visited map].
    change (list_sum (c n :: map c (visited r')))
      with (c n + list_sum (map c (visited r')))%nat.
    rewrite count_app, Hc, (IH _ _ _ Er). reflexivity.
  - inversion Hr; subst r. cbn [effects visited map].
    change (list_sum [c n]) with (c n + 0)%nat.
    rewrite Hc. lia.
Qed.

Lemma run_count_le (p : effect -> bool) (c : node -> nat) (w : World) :
  (forall n st, (Trace.count p (snd (node_action w n st)) <= c n)%nat) ->
  forall fuel n st r, run_from fuel w n st = Some r ->
  (Trace.count p (effects r) <= list_sum (map c (visited r)))%nat.
Proof.
  intros Hc. induction fuel as [| fuel IH]; intros n st r Hr; [discriminate |].
  rewrite run_step in Hr. destruct (next n _) as [n' |].
  - destruct (run_from fuel w n' _) as [r' |] eqn:Er; [| discriminate].
    cbn [option_map] in Hr. inversion Hr; subst r. cbn [effects visited map].
    change (list_sum (c n :: map c (visited r')))
      with (c n + list_sum (map c (visited r')))%nat.
    rewrite count_app. pose proof (Hc n st). pose proof (IH _ _ _ Er). lia.
  - inversion Hr; subst r. cbn [effects visited map].
    change (list_sum [c n]) with (c n + 0)%nat.
    pose proof (Hc n st). lia.
Qed.

Lemma llm_calls (w : World) (n : node) (st : SchedulerState) :
  Trace.count Trace.is_llm (snd (node_action w n st))
  = match n with process_ai => 1%nat | _ => 0%nat end.
Proof.
  destruct n;
    try (apply (count_none _ _ _ (stage_calls w _ st));
         intros [] H; cbn in H |- *; congruence).
  cbn [node_action]. unfold process_ai_request.
  destruct (llm_invoke w _); reflexivity.
Qed.

Lemma insert_calls (w : World) (n : node) (st : SchedulerState) :
  (Trace.count Trace.is_insert (snd (node_action w n st))
   <= match n with schedule => 1 | _ => 0 end)%nat.
Proof.
  destruct n;
    try (rewrite (count_none _ _ _ (stage_calls w _ st)); [lia |];
         intros [] H; cbn in H |- *; congruence).
  cbn [node_action]. unfold schedule_event. destruct (has_error st); [cbn; lia |].
  unfold submit_event.
  destruct (start_dt st) as [s |]; [destruct (end_dt st) as [e |] |]; try (cbn; lia).
  destruct (bind _ _); [| cbn; lia].
  destruct (service st) as [svc |]; [| cbn; lia].
  destruct (events_insert w svc _) as [v |]; [| cbn; lia].
  destruct (show_created v); cbn; lia.
Qed.

Lemma prompt_sent (w : World) (st : SchedulerState) :
  In (LlmInvoke (build_prompt (sentence st) (clock_stamp w)))
     (snd (process_ai_request w st)).
Proof.
  unfold process_ai_request. destruct (llm_invoke w _); left; reflexivity.
Qed.

Lemma invoke_effects_first (w : World) (st : SchedulerState) (r : run) :
  invoke w st = Some r ->
  forall e, In e (snd (process_ai_request w st)) -> In e (effects r).
Proof.
  unfold invoke. rewrite run_step. intros Hr e He. cbn [node_action] in Hr.
  destruct (next process_ai _) as [n' |].
  - destruct (run_from 6 w n' _); [| discriminate]. inversion Hr; subst r.
    cbn [effects]. apply in_or_app. left. exact He.
  - inversion Hr; subst r. exact He.
Qed.

(** X2. A run calls the model exactly once, with the prompt built from the
    request; it calls the calendar insert at most once, and only on the
    path through all six stages; it touches the stored token, the login
    flow or the service factory only when it reaches the authentication
    stage. *)
Theorem calls_of_a_run (w : World) (st : SchedulerState) :
  exists r,
    invoke w st = Some r /\
    Trace.count Trace.is_llm (effects r) = 1%nat /\
    In (LlmInvoke (build_prompt (sentence st) (clock_stamp w))) (effects r) /\
    (Trace.count Trace.is_insert (effects r) <= 1)%nat /\
    (forall e, In e (effects r) -> Trace.is_insert e = true -> visited r = Trace.stages) /\
    (forall e, In e (effects r) -> Trace.is_auth e = true -> In authenticate (visited r)).
Proof.
  destruct (invoke_visited w st) as (r & Hr & Hv).
  exists r. split; [exact Hr |].
  pose proof (run_count_eq _ _ w (llm_calls w) _ _ _ _ Hr) as Hl.
  pose proof (run_count_le _ _ w (insert_calls w) _ _ _ _ Hr) as Hi.
  assert (Horigin : forall e n, In e (effects r) -> Trace.own_call n e = true ->
                    n <> process_ai -> In n (visited r)).
  { intros e n He Hown Hn.
    destruct (run_effect_origin w _ _ _ _ Hr e He) as (n' & st' & Hin & Hie).
    pose proof (stage_calls w n' st') as Hall.
    rewrite forallb_forall in Hall. specialize (Hall e Hie).
    assert (n' = n); [| subst; exact Hin].
    destruct n, n', e; cbn in *; congruence. }
  split; [| split; [| split; [| split]]].
  - rewrite Hl. destruct Hv as [-> | (k & Hk & -> & _)]; [reflexivity |].
    assert (H : (k = 1 \/ k = 2 \/ k = 3 \/ k = 4 \/ k = 5)%nat) by lia.
    repeat (destruct H as [H | H]); subst k; reflexivity.
  - apply (invoke_effects_first w st r Hr). apply prompt_sent.
  - etransitivity; [exact Hi |].
    destruct Hv as [-> | (k & Hk & -> & _)]; [cbn; lia |].
    assert (H : (k = 1 \/ k = 2 \/ k = 3 \/ k = 4 \/ k = 5)%nat) by lia.
    repeat (destruct H as [H | H]); subst k; cbn; lia.
  - intros e He Hins.
    assert (Hs : In schedule (visited r)).
    { apply (Horigin e schedule He); [exact Hins | discriminate]. }
    destruct Hv as [Hv | (k & Hk & Hv & _)]; [exact Hv |].
    exfalso. rewrite Hv in Hs.
    assert (H : (k = 1 \/ k = 2 \/ k = 3 \/ k = 4 \/ k = 5)%nat) by lia.
    repeat (destruct H as [H | H]); subst k; cbn in Hs;
      intuition discriminate.
  - intros e He Ha. apply (Horigin e authenticate He); [exact Ha | discriminate].
Qed.

(** ** The run that schedules *)

Lemma process_success (w : World) (st : SchedulerState) :
  has_error (fst (process_ai_request w st)) = false ->
  exists content,
    llm_invoke w (build_prompt (sentence st) (clock_stamp w)) = Ok content /\
    process_ai_request w st =
      (set_output st (Some (PyStr.strip content)),
       [LlmInvoke (build_prompt (sentence st) (clock_stamp w)); StRender]).
Proof.
  unfold process_ai_request.
  destruct (llm_invoke w _) as [content | e]; intros H.
  - exists content. split; reflexivity.
  - discriminate H.
Qed.

Lemma parse_success (st : SchedulerState) :
  has_error st = false -> has_error (fst (parse_ai_response st)) = false ->
  exists title date_s time_s dur prio,
    extract_fields (output st) = Ok (title, date_s, time_s, dur, prio) /\
    parse_ai_response st = (set_extracted st title date_s time_s dur prio, [StRender]).
Proof.
  intros He H. pose proof (parse_ai_response_fields st He) as Hp.
  destruct (extract_fields (output st)) as [[[[[t d] ti] du] p] | e].
  - exists t, d, ti, du, p. split; [reflexivity | exact Hp].
  - destruct Hp as (st1 & Hp & _). rewrite Hp in H. discriminate H.
Qed.

Lemma auth_success (w : World) (st : SchedulerState) :
  has_error st = false -> has_error (fst (authenticate_google w st)) = false ->
  exists effs c svc,
    obtain_credentials w = (effs, Ok c) /\ service_build w c = Ok svc /\
    authenticate_google w st = (set_service st svc, (effs ++ [ServiceBuild])%list).
Proof.
  intros He. unfold authenticate_google. rewrite He.
  destruct (obtain_credentials w) as [effs [c | e]]; cbn [bind].
  - destruct (service_build w c) as [svc | e] eqn:Eb; intros H.
    + exists effs, c, svc. repeat split. exact Eb.
    + destruct e; discriminate H.
  - intros H. destruct e; discriminate H.
Qed.

Lemma create_success (st : SchedulerState) :
  has_error st = false -> has_error (fst (create_event st)) = false ->
  exists s e,
    start_dt st = Some s /\ end_dt st = Some e /\
    create_event st =
      (set_event st (event_of (task_title st) s e (sentence st) (output st)), []).
Proof.
  intros He. unfold create_event, build_event. rewrite He.
  destruct (start_dt st) as [s |]; [destruct (end_dt st) as [e |] |]; intros H;
    try discriminate H.
  exists s, e. repeat split.
Qed.

Lemma schedule_success (w : World) (st : SchedulerState) :
  has_error st = false -> has_error (fst (schedule_event w st)) = false ->
  exists svc created,
    service st = Some svc /\
    events_insert w svc (match event st with Some ev => ev | None => PNone end)
    = Ok created /\
    schedule_event w st =
      (set_created_event st created,
       [EventsInsert "primary" (match event st with Some ev => ev | None => PNone end);
        StRender]).
Proof.
  intros He. unfold schedule_event, submit_event. rewrite He.
  destruct (start_dt st) as [s |]; [destruct (end_dt st) as [e |] |];
    try (intros H; discriminate H).
  destruct (bind _ _) as [? | ex]; [| intros H; destruct ex; discriminate H].
  destruct (service st) as [svc |]; [| intros H; discriminate H].
  destruct (events_insert w svc _) as [created | ex] eqn:Ei.
  - destruct (show_created created) as [[] | ex]; intros H.
    + exists svc, created. repeat split. exact Ei.
    + destruct ex; discriminate H.
  - intros H. destruct ex; discriminate H.
Qed.

(** A run without an error is a run through all six stages, and holds
    the answer of the calendar. *)
Lemma invoke_no_error (w : World) (st : SchedulerState) (r : run) :
  invoke w st = Some r ->
  has_error (final_state r) = false ->
  visited r = Trace.stages /\
  exists created, created_event (final_state r) = Some created.
Proof.
  unfold invoke. intros Hr Hok.
  rewrite (run_stage 5 w process_ai parse_response) in Hr by (cbn [In]; tauto).
  destruct (has_error (fst (node_action w process_ai st))) eqn:E1;
    [inversion Hr; subst r; cbn [final_state node_action] in *; congruence |].
  set (s1 := fst (node_action w process_ai st)) in *.
  rewrite (run_stage 4 w parse_response parse_datetime_node) in Hr by (cbn [In]; tauto).
  destruct (has_error (fst (node_action w parse_response s1))) eqn:E2;
    [inversion Hr; subst r; cbn [final_state node_action] in *; congruence |].
  set (s2 := fst (node_action w parse_response s1)) in *.
  rewrite (run_stage 3 w parse_datetime_node authenticate) in Hr by (cbn [In]; tauto).
  destruct (has_error (fst (node_action w parse_datetime_node s2))) eqn:E3;
    [inversion Hr; subst r; cbn [final_state node_action] in *; congruence |].
  set (s3 := fst (node_action w parse_datetime_node s2)) in *.
  rewrite (run_stage 2 w authenticate create_event_node) in Hr by (cbn [In]; tauto).
  destruct (has_error (fst (node_action w authenticate s3))) eqn:E4;
    [inversion Hr; subst r; cbn [final_state node_action] in *; congruence |].
  set (s4 := fst (node_action w authenticate s3)) in *.
  rewrite (run_stage 1 w create_event_node schedule) in Hr by (cbn [In]; tauto).
  destruct (has_error (fst (node_action w create_event_node s4))) eqn:E5;
    [inversion Hr; subst r; cbn [final_state node_action] in *; congruence |].
  set (s5 := fst (node_action w create_event_node s4)) in *.
  rewrite run_schedule in Hr. cbn [option_map] in Hr.
  inversion Hr; subst r. clear Hr. cbn [final_state visited] in *.
  split; [reflexivity |].
  destruct (schedule_success w s5 E5 Hok) as (svc & created & _ & _ & P6).
  rewrite P6. exists created. reflexivity.
Qed.

(** X3. A run that ends without an error went through all six stages: the
    model answered, the reply held the three fields, the slot was resolved,
    the credentials were obtained and the service built, and the calendar
    accepted, in one insert into the primary calendar, the event whose
    summary is the extracted title, whose times are the resolved slot and
    whose description embeds the request and the reply; the final state
    holds exactly these values. *)
Theorem successful_run (w : World) (st : SchedulerState) (r : run) :
  invoke w st = Some r ->
  has_error (final_state r) = false ->
  exists content title date_s time_s dur prio su eu effs creds svc created,
    llm_invoke w (build_prompt (sentence st) (clock_stamp w)) = Ok content /\
    extract_fields (Some (PyStr.strip content)) = Ok (title, date_s, time_s, dur, prio) /\
    fst (parse_datetime w
           (set_extracted (set_output st (Some (PyStr.strip content)))
              title date_s time_s dur prio))
    = set_slot (set_extracted (set_output st (Some (PyStr.strip content)))
                  title date_s time_s dur prio) su eu /\
    obtain_credentials w = (effs, Ok creds) /\
    service_build w creds = Ok svc /\
    events_insert w svc
      (event_of (Some title) su eu (sentence st) (Some (PyStr.strip content)))
    = Ok created /\
    final_state r =
      mkstate (sentence st) (Some (PyStr.strip content)) (Some title) (Some date_s)
        (Some time_s) (Some dur) (Some su) (Some eu) (Some svc)
        (Some (event_of (Some title) su eu (sentence st) (Some (PyStr.strip content))))
        (Some created) (error st) (Some prio) /\
    visited r = Trace.stages /\
    In (EventsInsert "primary"
          (event_of (Some title) su eu (sentence st) (Some (PyStr.strip content))))
       (effects r).
Proof.
  unfold invoke. intros Hr Hok.
  rewrite (run_stage 5 w process_ai parse_response) in Hr by (cbn [In]; tauto).
  destruct (has_error (fst (node_action w process_ai st))) eqn:E1;
    [inversion Hr; subst r; cbn [final_state node_action] in *; congruence |].
  cbn [node_action] in E1, Hr.
  destruct (process_success w st E1) as (content & Hllm & P1).
  rewrite P1 in Hr, E1. cbn [fst snd] in Hr, E1.
  set (s1 := set_output st (Some (PyStr.strip content))) in *.
  rewrite (run_stage 4 w parse_response parse_datetime_node) in Hr by (cbn [In]; tauto).
  destruct (has_error (fst (node_action w parse_response s1))) eqn:E2;
    [inversion Hr; subst r; cbn [final_state node_action] in *; congruence |].
  cbn [node_action] in E2, Hr.
  destruct (parse_success s1 E1 E2) as (title & date_s & time_s & dur & prio & Hx & P2).
  rewrite P2 in Hr, E2. cbn [fst snd] in Hr, E2.
  set (s2 := set_extracted s1 title date_s time_s dur prio) in *.
  rewrite (run_stage 3 w parse_datetime_node authenticate) in Hr by (cbn [In]; tauto).
  destruct (has_error (fst (node_action w parse_datetime_node s2))) eqn:E3;
    [inversion Hr; subst r; cbn [final_state node_action] in *; congruence |].
  cbn [node_action] in E3, Hr.
  destruct (parse_datetime w s2) as [s3 e3] eqn:P3. cbn [fst snd] in Hr, E3.
  destruct (parse_datetime_success w s2 s3 e3 E2 P3 E3)
    as (s & e & se & su & eu & es & _ & _ & _ & Hs3).
  subst s3.
  rewrite (run_stage 2 w authenticate create_event_node) in Hr by (cbn [In]; tauto).
  destruct (has_error (fst (node_action w authenticate (set_slot s2 su eu)))) eqn:E4;
    [inversion Hr; subst r; cbn [final_state node_action] in *; congruence |].
  cbn [node_action] in E4, Hr.
  destruct (auth_success w _ E3 E4) as (effs & creds & svc & Hc & Hb & P4).
  rewrite P4 in Hr, E4. cbn [fst snd] in Hr, E4.
  rewrite (run_stage 1 w create_event_node schedule) in Hr by (cbn [In]; tauto).
  destruct (has_error (fst (node_action w create_event_node
                              (set_service (set_slot s2 su eu) svc)))) eqn:E5;
    [inversion Hr; subst r; cbn [final_state node_action] in *; congruence |].
  cbn [node_action] in E5, Hr.
  destruct (create_success _ E4 E5) as (s' & e' & Hs' & He' & P5).
  cbn in Hs', He'. inversion Hs'; inversion He'; subst s' e'.
  rewrite P5 in Hr, E5. cbn [fst snd] in Hr, E5.
  rewrite run_schedule in Hr. cbn [option_map] in Hr.
  match type of E5 with
  | has_error ?s = false => remember s as s5 eqn:Hs5
  end.
  destruct (schedule_event w s5) as [s6 e6] eqn:P6'.
  inversion Hr; subst r. cbn [final_state visited effects fst snd] in *.
  pose proof (schedule_success w s5 E5) as Hsch. rewrite P6' in Hsch.
  destruct (Hsch Hok) as (svc' & created & Hsvc & Hins & P6).
  inversion P6; subst s6 e6. subst s5.
  cbn in Hsvc. inversion Hsvc; subst svc'. cbn [event set_event] in Hins |- *.
  exists content, title, date_s, time_s, dur, prio, su, eu, effs, creds, svc, created.
  split; [exact Hllm |]. split; [exact Hx |].
  split; [unfold s2, s1 in P3; rewrite P3; reflexivity |]. split; [exact Hc |]. split; [exact Hb |].
  split; [exact Hins |]. split; [reflexivity |]. split; [reflexivity |].
  repeat first [left; reflexivity | right | apply in_or_app; right].
Qed.


Lemma successful_run_witness :
  exists r,
    invoke (Demo.world Demo.reply_tomorrow) (initial_state "Meet John") = Some r /\
    visited r = Trace.stages /\
    created_event (final_state r)
    = Some (PDict [("id", PStr "evt1");
                   ("htmlLink", PStr "https://calendar.example/evt1")]) /\
    In (EventsInsert "primary"
          (event_of (Some "Meeting with John")
             (mkaware (mkdt 2026 11 4 9 30 0 0) 0) (mkaware (mkdt 2026 11 4 10 0 0 0) 0)
             "Meet John" (Some Demo.reply_tomorrow)))
       (effects r).
Proof.
  destruct (invoke (Demo.world Demo.reply_tomorrow) (initial_state "Meet John"))
    as [r |] eqn:Hr; [| vm_compute in Hr; discriminate Hr].
  exists r. split; [reflexivity |].
  assert (Hok : has_error (final_state r) = false).
  { vm_compute in Hr. inversion Hr. reflexivity. }
  destruct (successful_run _ _ r Hr Hok)
    as (content & title & date_s & time_s & dur & prio & su & eu & effs & creds & svc
        & created & Hllm & Hx & Hp & Hc & Hb & Hins & Hf & Hv & Hin).
  vm_compute in Hllm. inversion Hllm; subst content.
  vm_compute in Hx. inversion Hx; subst title date_s time_s dur prio.
  vm_compute in Hp. inversion Hp; subst su eu.
  vm_compute in Hc. inversion Hc; subst effs creds.
  vm_compute in Hb. inversion Hb; subst svc.
  vm_compute in Hins. inversion Hins; subst created.
  split; [exact Hv |]. split; [rewrite Hf; reflexivity |]. exact Hin.
Defined.

(** ** The page and the failing model *)

(** X4. When the model call raises, the run is over after the first
    stage: the error "Error getting AI response: ..." is stored, the output
    is reset to None, the error is shown by the stage and again by the
    error handler, and nothing else happens; no reply is parsed, no
    credentials are read, no event is inserted. *)
Theorem model_failure_ends_run (w : World) (st : SchedulerState) (e : exn) :
  llm_invoke w (build_prompt (sentence st) (clock_stamp w)) = Raise e ->
  invoke w st =
    Some (mkrun
            (set_output
               (set_error st (Some ("Error getting AI response: " ++ exn_str e))) None)
            [LlmInvoke (build_prompt (sentence st) (clock_stamp w));
             StError ("Error getting AI response: " ++ exn_str e);
             StError ("❌ **Error during scheduling process:** " ++
                      "Error getting AI response: " ++ exn_str e);
             StRender]
            [process_ai; error_handler]).
Proof.
  intros H. unfold invoke.
  rewrite (run_stage 5 w process_ai parse_response) by (cbn [In]; tauto).
  cbn [node_action]. unfold process_ai_request. rewrite H. reflexivity.
Qed.

Lemma model_failure_ends_run_witness :
  invoke Cases.world_offline (initial_state "Meet John") =
    Some (mkrun
            (set_output
               (set_error (initial_state "Meet John")
                  (Some "Error getting AI response: 503 Service Unavailable")) None)
            [LlmInvoke (build_prompt "Meet John" (clock_stamp Cases.world_offline));
             StError "Error getting AI response: 503 Service Unavailable";
             StError ("❌ **Error during scheduling process:** " ++
                      "Error getting AI response: 503 Service Unavailable");
             StRender]
            [process_ai; error_handler]).
Proof.
  exact (model_failure_ends_run Cases.world_offline (initial_state "Meet John")
           (RuntimeError "503 Service Unavailable") eq_refl).
Defined.

(** X5. The page of the workflow script: for a sentence that is empty or
    only white space it shows a warning and stops, without running the
    workflow; otherwise it runs the workflow once on the sentence as typed.
    The closing warning about a status that was not displayed can only
    follow a run through all six stages that ended without an error and
    whose insert the calendar answered with an empty value. *)
Theorem page_run (w : World) (sentence : string) :
  (PyStr.strip sentence = EmptyString ->
   Page.main w sentence = Some ([StWarning Page.blank_msg], Page.Stopped)) /\
  (PyStr.strip sentence <> EmptyString ->
   exists r,
     invoke w (initial_state sentence) = Some r /\
     Page.main w sentence =
       Some (([StRender] ++ effects r ++ Page.closing (final_state r))%list,
             Page.Finished (final_state r)) /\
     (Page.closing (final_state r) <> [] ->
      Page.closing (final_state r) = [StWarning Page.no_status_msg] /\
      has_error (final_state r) = false /\ visited r = Trace.stages /\
      exists created,
        created_event (final_state r) = Some created /\ Page.truthy created = false)).
Proof.
  unfold Page.main. split.
  - intros H. rewrite H. reflexivity.
  - intros H. apply String.eqb_neq in H. rewrite H.
    destruct (invoke_visited w (initial_state sentence)) as (r & Hr & _).
    exists r. rewrite Hr. split; [reflexivity |]. split; [reflexivity |].
    unfold Page.closing. intros Hc.
    destruct (has_error (final_state r)) eqn:He; [congruence |].
    destruct (invoke_no_error w _ r Hr He) as (Hv & created & Hf).
    rewrite Hf in Hc |- *.
    destruct (Page.truthy created) eqn:Et; [congruence |].
    split; [reflexivity |]. split; [reflexivity |]. split; [exact Hv |].
    exists created. split; [reflexivity | exact Et].
Qed.

(** ** A rejected insert *)

Lemma adjust_past_quiet (now : datetime) (dur : option Z) (s e : datetime) (msg : string) :
  ~ In (StError msg) (fst (adjust_past now dur s e)).
Proof.
  unfold adjust_past. destruct (ltb s now); [destruct (date_eqb _ _) |]; cbn [fst In];
    intuition discriminate.
Qed.

Lemma obtain_credentials_quiet (w : World) (msg : string) :
  ~ In (StError msg) (fst (obtain_credentials w)).
Proof.
  pose proof (obtain_credentials_forall
                (fun e => match e with StError _ => false | _ => true end) eq_refl eq_refl
                eq_refl eq_refl eq_refl (fun _ => eq_refl) (fun _ => eq_refl) w) as H.
  rewrite forallb_forall in H. intros Hin. specialize (H _ Hin). discriminate H.
Qed.

(** A stage that leaves no error has shown none. *)
Lemma quiet_success (w : World) (n : node) (st : SchedulerState) (msg : string) :
  In n [process_ai; parse_response; parse_datetime_node; authenticate; create_event_node] ->
  has_error (fst (node_action w n st)) = false ->
  ~ In (StError msg) (snd (node_action w n st)).
Proof.
  intros Hn. cbn [In] in Hn.
  destruct Hn as [<- | [<- | [<- | [<- | [<- | []]]]]]; cbn [node_action].
  - unfold process_ai_request. destruct (llm_invoke w _); cbn [fst snd]; intros H Hin.
    + cbn [In] in Hin. intuition discriminate.
    + discriminate H.
  - destruct (has_error st) eqn:He;
      [unfold parse_ai_response; rewrite He; intros _ [] |].
    pose proof (parse_ai_response_fields st He) as Hp.
    destruct (extract_fields (output st)) as [[[[[? ?] ?] ?] ?] | ?].
    + rewrite Hp. cbn [fst snd In]. intros _ Hin. intuition discriminate.
    + destruct Hp as (st1 & Hp & _). rewrite Hp. intros H. discriminate H.
  - unfold parse_datetime. destruct (has_error st); [intros _ [] |].
    unfold resolve_slot. destruct (parse_slot w st) as [[s e] | ex].
    + pose proof (adjust_past_quiet (clock_now_local w) (duration_minutes st) s e msg) as Hq.
      destruct (adjust_past _ _ s e) as [effs r]. cbn [fst] in Hq.
      destruct (bind r _) as [[su eu] | ex]; cbn [fst snd]; intros H Hin.
      * apply in_app_or in Hin. destruct Hin as [Hin | Hin]; [exact (Hq Hin) |].
        cbn [In] in Hin. intuition discriminate.
      * unfold has_error in H. cbn [error set_error] in H.
        rewrite truthy_datetime_error in H. discriminate H.
    + cbn [fst snd]. intros H. unfold has_error in H. cbn [error set_error] in H.
      rewrite truthy_datetime_error in H. discriminate H.
  - unfold authenticate_google. destruct (has_error st) eqn:He; [intros _ [] |].
    pose proof (obtain_credentials_quiet w msg) as Hq.
    destruct (obtain_credentials w) as [effs r]. cbn [fst] in Hq.
    destruct (bind r _) as [svc | ex]; cbn [fst snd]; intros H Hin.
    + apply in_app_or in Hin. destruct Hin as [Hin | Hin]; [exact (Hq Hin) |].
      cbn [In] in Hin. intuition discriminate.
    + destruct ex; discriminate H.
  - unfold create_event. destruct (has_error st); [intros _ [] |].
    destruct (build_event st); cbn [fst snd]; intros H Hin; [destruct Hin | discriminate H].
Qed.

Lemma submit_event_quiet (w : World) (st : SchedulerState) (msg : string) :
  ~ In (StError msg) (fst (submit_event w st)).
Proof.
  unfold submit_event.
  destruct (start_dt st); [destruct (end_dt st) |]; try (intros []).
  destruct (bind _ _); [| intros []].
  destruct (service st); cbn [fst In]; intuition discriminate.
Qed.

(** The scheduling stage fails when the insert is refused, and also when the
    answer of the calendar cannot be shown. *)
Lemma schedule_failure (w : World) (st : SchedulerState) :
  has_error st = false -> has_error (fst (schedule_event w st)) = true ->
  exists e effs,
    error (fst (schedule_event w st)) = Some (schedule_error_msg e) /\
    snd (schedule_event w st) = (effs ++ [StError (schedule_error_msg e)])%list /\
    (forall msg, ~ In (StError msg) effs).
Proof.
  intros He. unfold schedule_event. rewrite He.
  pose proof (submit_event_quiet w st) as Hq.
  destruct (submit_event w st) as [effs [created | e]]; cbn [fst] in Hq.
  - destruct (show_created created) as [[] | e]; cbn [fst snd]; intros H.
    + unfold has_error in *. cbn [error set_created_event] in H. congruence.
    + exists e, (effs ++ [StRender])%list. split; [reflexivity |].
      split; [rewrite <- app_assoc; reflexivity |].
      intros msg Hin. apply in_app_or in Hin. destruct Hin as [Hin | Hin];
        [exact (Hq msg Hin) | cbn [In] in Hin; intuition discriminate].
  - cbn [fst snd]. intros _. exists e, effs. split; [reflexivity |].
    split; [reflexivity | exact Hq].
Qed.

(** X6. A run that went through all six stages and ends with an error
    failed in the scheduling stage. That stage has stored and shown its
    own message ("Google Calendar API scheduling error: ..." or "Failed to
    create event: ..."); it is the only error message of the whole run:
    the error handler, with its troubleshooting tips, is not reached. *)
Theorem insert_failure_bypasses_handler (w : World) (st : SchedulerState) (r : run) :
  invoke w st = Some r ->
  visited r = Trace.stages ->
  has_error (final_state r) = true ->
  exists e,
    error (final_state r) = Some (schedule_error_msg e) /\
    (forall msg, In (StError msg) (effects r) -> msg = schedule_error_msg e) /\
    In (StError (schedule_error_msg e)) (effects r) /\
    ~ In error_handler (visited r).
Proof.
  unfold invoke. intros Hr Hv Hbad.
  rewrite (run_stage 5 w process_ai parse_response) in Hr by (cbn [In]; tauto).
  destruct (has_error (fst (node_action w process_ai st))) eqn:E1;
    [inversion Hr; subst r; discriminate Hv |].
  set (s1 := fst (node_action w process_ai st)) in *.
  rewrite (run_stage 4 w parse_response parse_datetime_node) in Hr by (cbn [In]; tauto).
  destruct (has_error (fst (node_action w parse_response s1))) eqn:E2;
    [inversion Hr; subst r; discriminate Hv |].
  set (s2 := fst (node_action w parse_response s1)) in *.
  rewrite (run_stage 3 w parse_datetime_node authenticate) in Hr by (cbn [In]; tauto).
  destruct (has_error (fst (node_action w parse_datetime_node s2))) eqn:E3;
    [inversion Hr; subst r; discriminate Hv |].
  set (s3 := fst (node_action w parse_datetime_node s2)) in *.
  rewrite (run_stage 2 w authenticate create_event_node) in Hr by (cbn [In]; tauto).
  destruct (has_error (fst (node_action w authenticate s3))) eqn:E4;
    [inversion Hr; subst r; discriminate Hv |].
  set (s4 := fst (node_action w authenticate s3)) in *.
  rewrite (run_stage 1 w create_event_node schedule) in Hr by (cbn [In]; tauto).
  destruct (has_error (fst (node_action w create_event_node s4))) eqn:E5;
    [inversion Hr; subst r; discriminate Hv |].
  set (s5 := fst (node_action w create_event_node s4)) in *.
  rewrite run_schedule in Hr. cbn [option_map] in Hr.
  inversion Hr; subst r. clear Hr. cbn [final_state effects visited] in *.
  destruct (schedule_failure w s5 E5 Hbad) as (e & effs & Hs & Hsnd & Hq).
  rewrite Hsnd.
  exists e. split; [exact Hs |]. split; [| split].
  - intros msg Hin.
    repeat (apply in_app_or in Hin; destruct Hin as [Hin | Hin];
            [exfalso; first
               [ exact (quiet_success w process_ai st msg ltac:(cbn [In]; tauto) E1 Hin)
               | exact (quiet_success w parse_response s1 msg ltac:(cbn [In]; tauto) E2 Hin)
               | exact (quiet_success w parse_datetime_node s2 msg
                          ltac:(cbn [In]; tauto) E3 Hin)
               | exact (quiet_success w authenticate s3 msg ltac:(cbn [In]; tauto) E4 Hin)
               | exact (quiet_success w create_event_node s4 msg
                          ltac:(cbn [In]; tauto) E5 Hin)
               | exact (Hq msg Hin) ] |]).
    cbn [In] in Hin. destruct Hin as [Hin | []]. inversion Hin. reflexivity.
  - repeat (apply in_or_app; right). left. reflexivity.
  - rewrite Hv. unfold Trace.stages. cbn [In]. intuition discriminate.
Qed.

Lemma insert_failure_bypasses_handler_witness :
  exists r e,
    invoke (Demo.world_rejecting Demo.reply_tomorrow) (initial_state "Meet John") = Some r /\
    error (final_state r) = Some (schedule_error_msg e) /\
    schedule_error_msg e = "Google Calendar API scheduling error: 403 - Forbidden" /\
    (forall msg, In (StError msg) (effects r) -> msg = schedule_error_msg e).
Proof.
  destruct (invoke (Demo.world_rejecting Demo.reply_tomorrow) (initial_state "Meet John"))
    as [r |] eqn:Hr; [| vm_compute in Hr; discriminate Hr].
  assert (Hv : visited r = Trace.stages).
  { vm_compute in Hr. inversion Hr. reflexivity. }
  assert (Hbad : has_error (final_state r) = true).
  { vm_compute in Hr. inversion Hr. reflexivity. }
  destruct (insert_failure_bypasses_handler _ _ r Hr Hv Hbad)
    as (e & He & Honly & Hin & _).
  exists r, e. split; [reflexivity |]. split; [exact He |]. split.
  - vm_compute in Hr. inversion Hr as [Heq]. rewrite <- Heq in He.
    cbn [final_state error] in He. inversion He. reflexivity.
  - exact Honly.
Defined.

(** ** Authentication *)

Lemma load_token_cases (w : World) :
  (token_exists w = false /\ load_token w = ([], Ok None)) \/
  (exists c,
     token_exists w = true /\ token_load w = Ok c /\
     load_token w = ([TokenLoad], Ok (Some c))) \/
  (exists e,
     token_exists w = true /\ token_load w = Raise e /\
     ((token_remove w = Ok tt /\
       load_token w =
         ([TokenLoad;
           StWarning ("Failed to load existing token, re-authenticating: " ++ exn_str e);
           TokenRemove], Ok None)) \/
      (exists e',
         token_remove w = Raise e' /\
         load_token w =
           ([TokenLoad;
             StWarning ("Failed to load existing token, re-authenticating: " ++ exn_str e);
             TokenRemove], Raise e')))).
Proof.
  unfold load_token. destruct (token_exists w); [| left; split; reflexivity].
  right. destruct (token_load w) as [c | e].
  - left. exists c. repeat split.
  - right. exists e. split; [reflexivity |]. split; [reflexivity |].
    destruct (token_remove w) as [[] | e'].
    + left. split; reflexivity.
    + right. exists e'. split; reflexivity.
Qed.

Lemma renew_cases (w : World) (creds : option Credentials) :
  (exists c0,
     creds = Some c0 /\ expired c0 = true /\ PyStr.truthy (refresh_token c0) = true /\
     ((exists c, creds_refresh w c0 = Ok c /\
                 renew w creds = ([CredsRefresh; StRender], Ok c)) \/
      (exists e, creds_refresh w c0 = Raise e /\
                 renew w creds = ([CredsRefresh], Raise e)))) \/
  ((forall c0, creds = Some c0 ->
               expired c0 && PyStr.truthy (refresh_token c0) = false) /\
   ((exists e, flow_from_secrets w = Raise e /\ renew w creds = ([StRender], Raise e)) \/
    (exists c, flow_run_local_server w = Ok c /\
               renew w creds = ([StRender; FlowRunLocalServer; StRender], Ok c)) \/
    (exists e,
       flow_run_local_server w = Raise e /\
       renew w creds =
         ([StRender; FlowRunLocalServer],
          Raise (ValueError ("Failed to complete browser authentication. Error: "
                             ++ exn_str e)))))).
Proof.
  assert (Hlogin :
    forall r,
      r = match flow_from_secrets w with
          | Raise e => ([StRender], Raise e)
          | Ok _ =>
              match flow_run_local_server w with
              | Ok c' => ([StRender; FlowRunLocalServer; StRender], Ok c')
              | Raise auth_e =>
                  ([StRender; FlowRunLocalServer],
                   Raise (ValueError ("Failed to complete browser authentication. Error: "
                                      ++ exn_str auth_e)))
              end
          end ->
      (exists e, flow_from_secrets w = Raise e /\ r = ([StRender], Raise e)) \/
      (exists c, flow_run_local_server w = Ok c /\
                 r = ([StRender; FlowRunLocalServer; StRender], Ok c)) \/
      (exists e,
         flow_run_local_server w = Raise e /\
         r = ([StRender; FlowRunLocalServer],
              Raise (ValueError ("Failed to complete browser authentication. Error: "
                                 ++ exn_str e))))).
  { intros r ->. destruct (flow_from_secrets w) as [fl | e].
    - right. destruct (flow_run_local_server w) as [c | e].
      + left. exists c. split; reflexivity.
      + right. exists e. split; reflexivity.
    - left. exists e. split; reflexivity. }
  unfold renew. destruct creds as [c0 |].
  - destruct (expired c0) eqn:Ex; [destruct (PyStr.truthy (refresh_token c0)) eqn:Er |];
      cbn [andb].
    + left. exists c0. split; [reflexivity |]. split; [exact Ex |].
      split; [exact Er |].
      destruct (creds_refresh w c0) as [c | e].
      * left. exists c. split; reflexivity.
      * right. exists e. split; reflexivity.
    + right. split; [| apply Hlogin; reflexivity].
      intros c1 H1. inversion H1; subst c1. rewrite Ex, Er. reflexivity.
    + right. split; [| apply Hlogin; reflexivity].
      intros c1 H1. inversion H1; subst c1. rewrite Ex. reflexivity.
  - right. split; [intros c0 H0; discriminate H0 | apply Hlogin; reflexivity].
Qed.

(** The credentials, read from what the token file and the two ways of
    renewal gave. *)
Lemma obtain_credentials_cases (w : World) :
  (exists e pre, load_token w = (pre, Raise e) /\ obtain_credentials w = (pre, Raise e)) \/
  (exists c, load_token w = ([TokenLoad], Ok (Some c)) /\ valid c = true /\
             obtain_credentials w = ([TokenLoad], Ok c)) \/
  (exists pre creds,
     load_token w = (pre, Ok creds) /\
     (forall c, creds = Some c -> valid c = false) /\
     ((exists effs1 e,
         renew w creds = (effs1, Raise e) /\
         obtain_credentials w = ((pre ++ effs1)%list, Raise e)) \/
      (exists effs1 c,
         renew w creds = (effs1, Ok c) /\
         obtain_credentials w =
           ((pre ++ effs1 ++ [TokenWrite (to_json c)])%list,
            let* _ := token_write w (to_json c) in Ok c)))).
Proof.
  unfold obtain_credentials.
  destruct (load_token_cases w)
    as [(Et & Hl) | [(c0 & Et & El & Hl) | (e0 & Et & El & [(Hr & Hl) | (e' & Hr & Hl)])]];
    rewrite Hl.
  - right. right. exists [], None. split; [reflexivity |].
    split; [intros c H; discriminate H |].
    destruct (renew w None) as [effs1 [c | e]]; [right | left]; eauto.
  - destruct (valid c0) eqn:Ev; cbn [negb].
    + right. left. exists c0. repeat split. exact Ev.
    + right. right. exists [TokenLoad], (Some c0). split; [reflexivity |].
      split; [intros c H; inversion H; subst; exact Ev |].
      destruct (renew w (Some c0)) as [effs1 [c | e]]; [right | left]; eauto.
  - right. right. eexists _, None. split; [reflexivity |].
    split; [intros c H; discriminate H |].
    destruct (renew w None) as [effs1 [c | e]]; [right | left]; eauto.
  - left. eauto.
Qed.

(** X7. When the authentication stage succeeds, the service is built from
    credentials that the token file holds: either the stored token was
    loaded and is valid, and then nothing else is called and nothing is
    written; or the credentials were renewed, by a refresh of the loaded
    token or else by a browser login, never by both, and their JSON was
    written to the token file before the service was built. *)
Theorem credentials_persisted (w : World) (st st' : SchedulerState) (effs : list effect) :
  has_error st = false ->
  authenticate_google w st = (st', effs) ->
  has_error st' = false ->
  exists c svc,
    service_build w c = Ok svc /\ st' = set_service st svc /\
    ((token_exists w = true /\ token_load w = Ok c /\ valid c = true /\
      effs = [TokenLoad; ServiceBuild]) \/
     (exists c0,
        token_exists w = true /\ token_load w = Ok c0 /\ valid c0 = false /\
        expired c0 = true /\ PyStr.truthy (refresh_token c0) = true /\
        creds_refresh w c0 = Ok c /\
        effs = [TokenLoad; CredsRefresh; StRender; TokenWrite (to_json c); ServiceBuild]) \/
     (flow_run_local_server w = Ok c /\
      ~ In CredsRefresh effs /\
      exists pre,
        effs = (pre ++ [StRender; FlowRunLocalServer; StRender;
                        TokenWrite (to_json c); ServiceBuild])%list /\
        forall e, In e pre -> e = TokenLoad \/ e = TokenRemove \/ Trace.is_ui e = true)).
Proof.
  intros He Ha Hok.
  pose proof (auth_success w st He) as Hs. rewrite Ha in Hs. cbn [fst] in Hs.
  destruct (Hs Hok) as (effs0 & c & svc & Hc & Hb & Heq).
  inversion Heq; subst st' effs. clear Heq Hs.
  exists c, svc. split; [exact Hb |]. split; [reflexivity |].
  destruct (obtain_credentials_cases w)
    as [(e & pre & _ & Ho) | [(c0 & Hl & Hv & Ho)
       | (pre & creds & Hl & Hinv & [(effs1 & e & _ & Ho) | (effs1 & c1 & Hn & Ho)])]];
    rewrite Ho in Hc; try discriminate Hc.
  - inversion Hc; subst. left.
    destruct (load_token_cases w)
      as [(Et & Hl') | [(c0 & Et & El & Hl') | (e0 & Et & El & [(Hr & Hl') | (e' & Hr & Hl')])]];
      rewrite Hl' in Hl; inversion Hl; subst.
    repeat split; assumption.
  - destruct (token_write w (to_json c1)) as [[] |]; cbn [bind] in Hc; [| discriminate Hc].
    inversion Hc; subst c1 effs0. clear Hc.
    assert (Hpre : forall e, In e pre -> e = TokenLoad \/ e = TokenRemove \/ Trace.is_ui e = true).
    { destruct (load_token_cases w)
        as [(Et & Hl') | [(c0 & Et & El & Hl')
           | (e0 & Et & El & [(Hr & Hl') | (e' & Hr & Hl')])]];
        rewrite Hl' in Hl; inversion Hl; subst; cbn [In]; intros e Hin;
        intuition (subst; auto). }
    destruct (renew_cases w creds)
      as [(c0 & -> & Ex & Er & [(c2 & Hf & Hn') | (e & Hf & Hn')])
         | (Hno & [(e & Hf & Hn') | [(c2 & Hf & Hn') | (e & Hf & Hn')]])];
      rewrite Hn' in Hn; inversion Hn; subst.
    + right. left. exists c0.
      destruct (load_token_cases w)
        as [(Et & Hl') | [(c1 & Et & El & Hl')
           | (e0 & Et & El & [(Hr & Hl') | (e' & Hr & Hl')])]];
        rewrite Hl' in Hl; inversion Hl; subst.
      repeat split; try assumption. exact (Hinv c0 eq_refl).
    + right. right. split; [exact Hf |]. split.
      * intros Hin. repeat (apply in_app_or in Hin; destruct Hin as [Hin | Hin]);
          try (cbn [In] in Hin; intuition discriminate).
        destruct (Hpre _ Hin) as [H | [H | H]]; discriminate H.
      * exists pre. split; [| exact Hpre].
        rewrite <- !app_assoc. reflexivity.
Qed.

Lemma auth_failure (w : World) (st : SchedulerState) :
  has_error st = false -> has_error (fst (authenticate_google w st)) = true ->
  exists effs e,
    authenticate_google w st =
      (set_error st (Some (auth_error_msg e)), (effs ++ [StError (auth_error_msg e)])%list) /\
    ((obtain_credentials w = (effs, Raise e)) \/
     (exists effs0 c, obtain_credentials w = (effs0, Ok c) /\
                      service_build w c = Raise e /\ effs = (effs0 ++ [ServiceBuild])%list)).
Proof.
  intros He. unfold authenticate_google. rewrite He.
  destruct (obtain_credentials w) as [effs [c | e]]; cbn [bind].
  - destruct (service_build w c) as [svc | e] eqn:Eb; intros H.
    + cbn [fst] in H. unfold has_error in *. cbn [error set_service] in H. congruence.
    + exists (effs ++ [ServiceBuild])%list, e. split.
      * rewrite <- app_assoc. reflexivity.
      * right. exists effs, c. repeat split. exact Eb.
  - intros _. exists effs, e. split.
    + cbn [app]. reflexivity.
    + left. reflexivity.
Qed.

Lemma load_token_effects (w : World) (pre : list effect) (r : result (option Credentials)) :
  load_token w = (pre, r) ->
  ~ In CredsRefresh pre /\ ~ In FlowRunLocalServer pre /\
  ~ In ServiceBuild pre /\ forall j, ~ In (TokenWrite j) pre.
Proof.
  intros Hl.
  destruct (load_token_cases w)
    as [(Et & Hl') | [(c0 & Et & El & Hl') | (e0 & Et & El & [(Hr & Hl') | (e' & Hr & Hl')])]];
    rewrite Hl' in Hl; inversion Hl; subst; cbn [In];
    repeat split; try intros j; intuition discriminate.
Qed.

(** X8. When the authentication stage fails, the state only gains the
    error, which the stage shows last, and the failure is one of six. A
    stored token could not be loaded and its file could not be removed. A
    refresh failed: that is final, no browser login is tried and the token
    file is neither removed nor rewritten. The client secrets could not be
    read. The browser login failed, which is reported as a failure to
    complete browser authentication. In these four cases nothing is
    written to the token file and the service is not built. The renewed
    credentials, of a refresh or of a login, could not be written to the
    token file: the write was the last call and the service is not built.
    Or the service factory failed, once the credentials were obtained. *)
Theorem authentication_failure (w : World) (st st' : SchedulerState) (effs : list effect) :
  has_error st = false ->
  authenticate_google w st = (st', effs) ->
  has_error st' = true ->
  exists msg pre,
    st' = set_error st (Some msg) /\ effs = (pre ++ [StError msg])%list /\
    ((exists e0 e,
        token_exists w = true /\ token_load w = Raise e0 /\ token_remove w = Raise e /\
        msg = auth_error_msg e /\
        pre = [TokenLoad;
               StWarning ("Failed to load existing token, re-authenticating: "
                          ++ exn_str e0);
               TokenRemove]) \/
     (exists c0 e,
        token_exists w = true /\ token_load w = Ok c0 /\ valid c0 = false /\
        expired c0 = true /\ PyStr.truthy (refresh_token c0) = true /\
        creds_refresh w c0 = Raise e /\
        msg = auth_error_msg e /\ pre = [TokenLoad; CredsRefresh]) \/
     (exists e,
        flow_from_secrets w = Raise e /\ msg = auth_error_msg e /\
        ~ In CredsRefresh pre /\ ~ In FlowRunLocalServer pre /\
        ~ In ServiceBuild pre /\ forall j, ~ In (TokenWrite j) pre) \/
     (exists e,
        flow_run_local_server w = Raise e /\
        msg = "Authentication error: Failed to complete browser authentication. Error: "
              ++ exn_str e /\
        ~ In CredsRefresh pre /\
        ~ In ServiceBuild pre /\ forall j, ~ In (TokenWrite j) pre) \/
     (exists c e pre0,
        token_write w (to_json c) = Raise e /\ msg = auth_error_msg e /\
        ((exists c0, token_load w = Ok c0 /\ creds_refresh w c0 = Ok c /\
                     pre0 = [TokenLoad; CredsRefresh; StRender]) \/
         (flow_run_local_server w = Ok c /\ ~ In CredsRefresh pre0)) /\
        pre = (pre0 ++ [TokenWrite (to_json c)])%list /\
        ~ In ServiceBuild pre /\ forall j, ~ In (TokenWrite j) pre0) \/
     (exists c e pre0,
        obtain_credentials w = (pre0, Ok c) /\ service_build w c = Raise e /\
        msg = auth_error_msg e /\ pre = (pre0 ++ [ServiceBuild])%list)).
Proof.
  intros He Ha Hbad.
  pose proof (auth_failure w st He) as Hf. rewrite Ha in Hf. cbn [fst] in Hf.
  destruct (Hf Hbad) as (pre & e & Heq & Hcase). clear Hf.
  inversion Heq; subst st' effs. clear Heq.
  exists (auth_error_msg e), pre. split; [reflexivity |]. split; [reflexivity |].
  destruct Hcase as [Hc | (effs0 & c & Hc & Hb & ->)].
  2: { do 5 right. exists c, e, effs0. repeat split; assumption. }
  destruct (obtain_credentials_cases w)
    as [(e1 & pre1 & Hl & Ho) | [(c0 & Hl & Hv & Ho)
       | (pre1 & creds & Hl & Hinv & [(effs1 & e1 & Hn & Ho) | (effs1 & c1 & Hn & Ho)])]];
    rewrite Ho in Hc; try discriminate Hc.
  - (* the token file could not be removed *)
    inversion Hc; subst e1 pre1. clear Hc. left.
    destruct (load_token_cases w)
      as [(Et & Hl') | [(c0 & Et & El & Hl') | (e0 & Et & El & [(Hr & Hl') | (e' & Hr & Hl')])]];
      rewrite Hl' in Hl; inversion Hl; subst.
    exists e0, e. repeat split; assumption.
  - (* the renewal failed *)
    inversion Hc; subst e1 pre. clear Hc.
    destruct (load_token_effects w pre1 _ Hl) as (N1 & N2 & N3 & N4).
    destruct (renew_cases w creds)
      as [(c0 & -> & Ex & Er & [(c2 & Hf & Hn') | (e2 & Hf & Hn')])
         | (Hno & [(e2 & Hf & Hn') | [(c2 & Hf & Hn') | (e2 & Hf & Hn')]])];
      rewrite Hn' in Hn; inversion Hn; subst.
    + right. left. exists c0, e.
      destruct (load_token_cases w)
        as [(Et & Hl') | [(c1 & Et & El & Hl')
           | (e0 & Et & El & [(Hr & Hl') | (e' & Hr & Hl')])]];
        rewrite Hl' in Hl; inversion Hl; subst.
      repeat split; try assumption. exact (Hinv c0 eq_refl).
    + right. right. left. exists e. split; [exact Hf |]. split; [reflexivity |].
      repeat split; [intros Hin | intros Hin | intros Hin | intros j Hin];
        apply in_app_or in Hin; destruct Hin as [Hin | Hin];
        try (cbn [In] in Hin; intuition discriminate);
        first [apply N1; exact Hin | apply N2; exact Hin | apply N3; exact Hin
              | apply (N4 j); exact Hin].
    + right. right. right. left. exists e2. split; [exact Hf |]. split; [reflexivity |].
      repeat split; [intros Hin | intros Hin | intros j Hin];
        apply in_app_or in Hin; destruct Hin as [Hin | Hin];
        try (cbn [In] in Hin; intuition discriminate);
        first [apply N1; exact Hin | apply N3; exact Hin | apply (N4 j); exact Hin].
  - (* the renewed credentials could not be written *)
    destruct (token_write w (to_json c1)) as [[] | e1] eqn:Ew; cbn [bind] in Hc;
      [discriminate Hc |].
    inversion Hc; subst e1 pre. clear Hc.
    destruct (load_token_effects w pre1 _ Hl) as (N1 & N2 & N3 & N4).
    do 4 right. left. exists c1, e, (pre1 ++ effs1)%list.
    split; [exact Ew |]. split; [reflexivity |].
    destruct (renew_cases w creds)
      as [(c0 & -> & Ex & Er & [(c2 & Hf & Hn') | (e2 & Hf & Hn')])
         | (Hno & [(e2 & Hf & Hn') | [(c2 & Hf & Hn') | (e2 & Hf & Hn')]])];
      rewrite Hn' in Hn; inversion Hn; subst.
    + destruct (load_token_cases w)
        as [(Et & Hl') | [(c3 & Et & El & Hl')
           | (e0 & Et & El & [(Hr & Hl') | (e' & Hr & Hl')])]];
        rewrite Hl' in Hl; inversion Hl; subst.
      split; [left; exists c0; repeat split; assumption |].
      split; [reflexivity |].
      split; [cbn [app In]; intuition discriminate |].
      intros j. cbn [app In]. intuition discriminate.
    + split; [right; split; [exact Hf |] |].
      { intros Hin. apply in_app_or in Hin. destruct Hin as [Hin | Hin];
          [exact (N1 Hin) | cbn [In] in Hin; intuition discriminate]. }
      split; [rewrite <- app_assoc; reflexivity |].
      split.
      * intros Hin. repeat (apply in_app_or in Hin; destruct Hin as [Hin | Hin]);
          first [exact (N3 Hin) | cbn [In] in Hin; intuition discriminate].
      * intros j Hin. apply in_app_or in Hin. destruct Hin as [Hin | Hin];
          [exact (N4 j Hin) | cbn [In] in Hin; intuition discriminate].
Qed.

Lemma credentials_persisted_witness :
  exists c svc,
    service_build (Cases.world_expired "" (Ok Cases.fresh)) c = Ok svc /\
    fst (authenticate_google (Cases.world_expired "" (Ok Cases.fresh)) Demo.resolved_state)
    = set_service Demo.resolved_state svc /\
    c = Cases.fresh /\
    snd (authenticate_google (Cases.world_expired "" (Ok Cases.fresh)) Demo.resolved_state)
    = [TokenLoad; CredsRefresh; StRender; TokenWrite "{fresh}"; ServiceBuild].
Proof.
  destruct (credentials_persisted (Cases.world_expired "" (Ok Cases.fresh))
              Demo.resolved_state
              (fst (authenticate_google (Cases.world_expired "" (Ok Cases.fresh))
                      Demo.resolved_state))
              (snd (authenticate_google (Cases.world_expired "" (Ok Cases.fresh))
                      Demo.resolved_state))
              eq_refl (surjective_pairing _) eq_refl)
    as (c & svc & Hb & Hst & Hcases).
  exists c, svc. split; [exact Hb |]. split; [exact Hst |].
  destruct Hcases as [(_ & Hl & Hv & _) | [(c0 & _ & _ & _ & _ & _ & Hr & He) | (_ & Hn & _)]].
  - exfalso. vm_compute in Hl. inversion Hl; subst c. discriminate Hv.
  - vm_compute in Hr. inversion Hr; subst c. split; [reflexivity | exact He].
  - exfalso. apply Hn. vm_compute. tauto.
Defined.

(** A refresh that fails, and a refresh that succeeds while the token file
    cannot be written. *)
Lemma authentication_failure_witness :
  (exists msg pre,
     fst (authenticate_google
            (Cases.world_expired "" (Raise (RuntimeError "invalid_grant")))
            Demo.resolved_state)
     = set_error Demo.resolved_state (Some msg) /\
     snd (authenticate_google
            (Cases.world_expired "" (Raise (RuntimeError "invalid_grant")))
            Demo.resolved_state)
     = (pre ++ [StError msg])%list /\
     msg = "Authentication error: invalid_grant" /\ pre = [TokenLoad; CredsRefresh]) /\
  (exists msg pre,
     fst (authenticate_google (Cases.world_read_only "") Demo.resolved_state)
     = set_error Demo.resolved_state (Some msg) /\
     snd (authenticate_google (Cases.world_read_only "") Demo.resolved_state)
     = (pre ++ [StError msg])%list) /\
  authenticate_google (Cases.world_read_only "") Demo.resolved_state =
    (set_error Demo.resolved_state
       (Some "Authentication error: [Errno 13] Permission denied: 'token.json'"),
     [TokenLoad; CredsRefresh; StRender; TokenWrite "{fresh}";
      StError "Authentication error: [Errno 13] Permission denied: 'token.json'"]).
Proof.
  split; [| split].
  - destruct (authentication_failure
                (Cases.world_expired "" (Raise (RuntimeError "invalid_grant")))
                Demo.resolved_state
                (fst (authenticate_google
                        (Cases.world_expired "" (Raise (RuntimeError "invalid_grant")))
                        Demo.resolved_state))
                (snd (authenticate_google
                        (Cases.world_expired "" (Raise (RuntimeError "invalid_grant")))
                        Demo.resolved_state))
                eq_refl (surjective_pairing _) eq_refl)
      as (msg & pre & Hst & Heff & Hcases).
    exists msg, pre. split; [exact Hst |]. split; [exact Heff |].
    destruct Hcases
      as [(e0 & e & _ & Hl & _)
         | [(c0 & e & _ & _ & _ & _ & _ & Hr & Hm & Hp)
           | [(e & Hf & _) | [(e & Hf & _)
             | [(c & e & pre0 & Hw & _) | (c & e & pre0 & Ho & _)]]]]].
    + vm_compute in Hl. discriminate Hl.
    + vm_compute in Hr. inversion Hr; subst e. split; [exact Hm | exact Hp].
    + vm_compute in Hf. discriminate Hf.
    + vm_compute in Hf. discriminate Hf.
    + vm_compute in Hw. discriminate Hw.
    + vm_compute in Ho. discriminate Ho.
  - destruct (authentication_failure (Cases.world_read_only "") Demo.resolved_state
                (fst (authenticate_google (Cases.world_read_only "") Demo.resolved_state))
                (snd (authenticate_google (Cases.world_read_only "") Demo.resolved_state))
                eq_refl (surjective_pairing _) eq_refl)
      as (msg & pre & Hst & Heff & _).
    exists msg, pre. split; [exact Hst | exact Heff].
  - vm_compute. reflexivity.
Defined.

(** ** The single-pass script *)

(** Case analysis on the answers of the collaborators that the goal
    still depends on. *)
Ltac world_cases w :=
  repeat first
    [ reflexivity
    | match goal with
      | |- context [token_exists w] => destruct (token_exists w)
      | |- context [token_load w] => destruct (token_load w)
      | |- context [token_remove w] => destruct (token_remove w)
      | |- context [valid ?c] => destruct (valid c)
      | |- context [expired ?c] => destruct (expired c)
      | |- context [PyStr.truthy ?x] => destruct (PyStr.truthy x)
      | |- context [creds_refresh w ?c] => destruct (creds_refresh w c)
      | |- context [flow_from_secrets w] => destruct (flow_from_secrets w)
      | |- context [flow_run_local_server w] => destruct (flow_run_local_server w)
      | |- context [token_write w ?j] => destruct (token_write w j)
      | |- context [service_build w ?c] => destruct (service_build w c)
      end; cbn [negb andb bind] ].

Lemma obtain_service_calls (w : World) :
  forallb (fun e => Trace.is_ui e || Trace.is_auth e) (fst (LangChain.obtain_service w)) = true.
Proof.
  unfold LangChain.obtain_service, LangChain.load_token. world_cases w.
Qed.

Lemma resolve_calls (w : World) (out : string) :
  forallb Trace.is_ui (fst (LangChain.resolve w out)) = true.
Proof.
  unfold LangChain.resolve.
  destruct (LangChain.parse_slot w out) as [[[[t n] s] e] | ex]; [| reflexivity].
  unfold LangChain.adjust_past. destruct (ltb s (clock_now_local w)); reflexivity.
Qed.

Lemma count_ui (p : effect -> bool) (l : list effect) :
  forallb Trace.is_ui l = true ->
  (forall e, Trace.is_ui e = true -> p e = false) -> Trace.count p l = 0%nat.
Proof. intros H Hp. exact (count_none p Trace.is_ui l H Hp). Qed.

Lemma ui_not_call (e : effect) :
  Trace.is_ui e = true ->
  Trace.is_llm e = false /\ Trace.is_insert e = false /\ Trace.is_auth e = false.
Proof. destruct e; cbn; intros H; repeat split; congruence. Qed.

Lemma auth_not_call (e : effect) :
  Trace.is_ui e || Trace.is_auth e = true ->
  Trace.is_llm e = false /\ Trace.is_insert e = false.
Proof. destruct e; cbn; intros H; repeat split; congruence. Qed.

(** X9. The single-pass script calls the model at most once, and not at all
    for a blank sentence; it calls the calendar insert at most once. When
    it stops early (blank sentence, failed model call, reply that cannot be
    parsed) it has touched neither the credentials nor the calendar. A
    failure while the credentials are obtained or the service is built is
    caught by no handler: the script ends with that exception, before any
    insert. Otherwise it makes exactly one insert. *)
Theorem single_pass_calls (w : World) (sentence : string) :
  (Trace.count Trace.is_llm (fst (LangChain.main w sentence)) <= 1)%nat /\
  (PyStr.strip sentence = EmptyString ->
   LangChain.main w sentence
   = ([StWarning "Please enter the appointment details."], LangChain.Stopped)) /\
  (PyStr.strip sentence <> EmptyString ->
   Trace.count Trace.is_llm (fst (LangChain.main w sentence)) = 1%nat /\
   In (LlmInvoke (LangChain.build_prompt sentence (clock_stamp w)))
      (fst (LangChain.main w sentence))) /\
  (snd (LangChain.main w sentence) = LangChain.Stopped ->
   Trace.count Trace.is_auth (fst (LangChain.main w sentence)) = 0%nat /\
   Trace.count Trace.is_insert (fst (LangChain.main w sentence)) = 0%nat) /\
  (forall e, snd (LangChain.main w sentence) = LangChain.Crashed e ->
   snd (LangChain.obtain_service w) = Raise e /\
   Trace.count Trace.is_insert (fst (LangChain.main w sentence)) = 0%nat) /\
  (forall created, snd (LangChain.main w sentence) = LangChain.Done created ->
   Trace.count Trace.is_insert (fst (LangChain.main w sentence)) = 1%nat).
Proof.
  unfold LangChain.main.
  destruct (String.eqb (PyStr.strip sentence) EmptyString) eqn:Eb.
  { apply String.eqb_eq in Eb. cbn [fst snd].
    repeat split; try (cbn; lia); try reflexivity; try discriminate; try congruence. }
  apply String.eqb_neq in Eb.
  destruct (llm_invoke w _) as [content | ex] eqn:El.
  2: { cbn [fst snd]. repeat split; try (cbn; lia); try reflexivity; try discriminate;
         try congruence. cbn. auto. }
  pose proof (resolve_calls w (PyStr.strip content)) as Hr.
  destruct (LangChain.resolve w (PyStr.strip content)) as [effs [[[t s] e] | ex]].
  2: { cbn [fst snd] in *.
       assert (H0 : forall p, (forall x, Trace.is_ui x = true -> p x = false) ->
                    Trace.count p effs = 0%nat)
         by (intros p Hp; apply count_ui; assumption).
       repeat split; try discriminate; try congruence;
         rewrite ?count_app, ?H0;
         try (intros x Hx; apply (ui_not_call x Hx));
         try (cbn; lia); try reflexivity.
       right. left. reflexivity. }
  cbn [fst] in Hr.
  assert (H0 : forall p, (forall x, Trace.is_ui x = true -> p x = false) ->
               Trace.count p effs = 0%nat)
    by (intros p Hp; apply count_ui; assumption).
  pose proof (obtain_service_calls w) as Ho.
  destruct (LangChain.obtain_service w) as [effs' [svc | ex]]; cbn [fst snd] in *.
  - assert (H1 : forall p, (forall x, Trace.is_ui x || Trace.is_auth x = true -> p x = false) ->
                 Trace.count p effs' = 0%nat)
      by (intros p Hp; apply (count_none p _ effs' Ho Hp)).
    destruct (events_insert w svc _) as [created | ex];
      [destruct (py_get created "htmlLink" PNone) |]; cbn [fst snd];
      repeat split; try discriminate; try congruence;
        rewrite ?count_app, ?H0, ?H1;
        try (intros x Hx; apply (ui_not_call x Hx));
        try (intros x Hx; apply (auth_not_call x Hx));
        try (cbn; lia); try reflexivity;
        try (right; left; reflexivity).
  - assert (H1 : forall p, (forall x, Trace.is_ui x || Trace.is_auth x = true -> p x = false) ->
                 Trace.count p effs' = 0%nat)
      by (intros p Hp; apply (count_none p _ effs' Ho Hp)).
    repeat split; try discriminate; try congruence;
      rewrite ?count_app, ?H0, ?H1;
      try (intros x Hx; apply (ui_not_call x Hx));
      try (intros x Hx; apply (auth_not_call x Hx));
      try (cbn; lia); try reflexivity;
      try (right; left; reflexivity).
Qed.

Lemma field_reading (label out : string) :
  LangChain.field label out =
  match labelled label out with
  | Some g => Ok (PyStr.strip g)
  | None => Raise (AttributeError "'NoneType' object has no attribute 'group'")
  end.
Proof. unfold LangChain.field. rewrite search_labelled. reflexivity. Qed.

(** X10. In the single-pass script a reply that lacks the text of a Task, a
    Date or a Time label (the label is absent, or only line breaks follow
    it) is not reported as such: the missing match raises an
    [AttributeError], and the script shows "Error parsing AI response:
    'NoneType' object has no attribute 'group'" and stops, whatever the
    rest of the reply holds. *)
Theorem single_pass_missing_label (w : World) (sentence content : string) :
  PyStr.strip sentence <> EmptyString ->
  llm_invoke w (LangChain.build_prompt sentence (clock_stamp w)) = Ok content ->
  labelled "Task:" (PyStr.strip content) = None \/
  labelled "Date:" (PyStr.strip content) = None \/
  labelled "Time:" (PyStr.strip content) = None ->
  LangChain.main w sentence =
    ([StRender; LlmInvoke (LangChain.build_prompt sentence (clock_stamp w)); StRender;
      StError "Error parsing AI response: 'NoneType' object has no attribute 'group'"],
     LangChain.Stopped).
Proof.
  intros Hs Hl Hm. unfold LangChain.main.
  apply String.eqb_neq in Hs. rewrite Hs, Hl.
  assert (Hr : LangChain.resolve w (PyStr.strip content)
               = ([], Raise (AttributeError "'NoneType' object has no attribute 'group'"))).
  { unfold LangChain.resolve, LangChain.parse_slot. rewrite !field_reading.
    destruct (labelled "Task:" _); cbn [bind];
      [destruct (labelled "Date:" _); cbn [bind];
       [destruct (labelled "Time:" _); cbn [bind] |] |];
      try reflexivity.
    exfalso. destruct Hm as [H | [H | H]]; discriminate H. }
  rewrite Hr. reflexivity.
Qed.

Lemma single_pass_missing_label_witness :
  LangChain.main (Demo.world Demo.reply_task_last) "Meet John" =
    ([StRender;
      LlmInvoke (LangChain.build_prompt "Meet John"
                   (clock_stamp (Demo.world Demo.reply_task_last)));
      StRender;
      StError "Error parsing AI response: 'NoneType' object has no attribute 'group'"],
     LangChain.Stopped).
Proof.
  apply (single_pass_missing_label (Demo.world Demo.reply_task_last) "Meet John"
           Demo.reply_task_last).
  - vm_compute. discriminate.
  - reflexivity.
  - left. vm_compute. reflexivity.
Defined.

(** X11. When the single-pass script reaches the calendar, it has called
    the model on the sentence as typed, resolved a title, a start and an
    end from the stripped reply, obtained a service, and made one insert
    into the primary calendar of the event built from them; a created
    event is the calendar's answer, and an insert that raises is shown as
    "Failed to create event: ..." and leaves none. *)
Theorem single_pass_insert (w : World) (sentence : string) (o : option pyval) :
  snd (LangChain.main w sentence) = LangChain.Done o ->
  exists content title su eu svc,
    PyStr.strip sentence <> EmptyString /\
    llm_invoke w (LangChain.build_prompt sentence (clock_stamp w)) = Ok content /\
    snd (LangChain.resolve w (PyStr.strip content)) = Ok (title, su, eu) /\
    snd (LangChain.obtain_service w) = Ok svc /\
    In (EventsInsert "primary"
          (LangChain.event_of title su eu sentence (PyStr.strip content)))
       (fst (LangChain.main w sentence)) /\
    match o with
    | Some created =>
        events_insert w svc
          (LangChain.event_of title su eu sentence (PyStr.strip content)) = Ok created
    | None =>
        exists e,
          events_insert w svc
            (LangChain.event_of title su eu sentence (PyStr.strip content)) = Raise e /\
          In (StError ("Failed to create event: " ++ exn_str e))
             (fst (LangChain.main w sentence))
    end.
Proof.
  unfold LangChain.main.
  destruct (String.eqb (PyStr.strip sentence) EmptyString) eqn:Eb; [discriminate |].
  apply String.eqb_neq in Eb.
  destruct (llm_invoke w _) as [content | ex] eqn:El; [| discriminate].
  destruct (LangChain.resolve w (PyStr.strip content)) as [effs [[[t su] eu] | ex]] eqn:Er;
    [| discriminate].
  destruct (LangChain.obtain_service w) as [effs' [svc | ex]] eqn:Eo; [| discriminate].
  destruct (events_insert w svc _) as [created | ex] eqn:Ei;
    [destruct (py_get created "htmlLink" PNone) |]; cbn [fst snd]; intros H;
    inversion H; subst o; exists content, t, su, eu, svc;
    rewrite ?Er, ?Eo; cbn [fst snd];
    (split; [exact Eb |]); (split; [first [exact El | reflexivity] |]);
    (split; [reflexivity |]);
    (split; [reflexivity |]).
  - split; [| exact Ei].
    repeat (apply in_or_app; right). left. reflexivity.
  - split; [| exact Ei].
    repeat (apply in_or_app; right). left. reflexivity.
  - split.
    + repeat (apply in_or_app; right). left. reflexivity.
    + exists ex. split; [exact Ei |].
      repeat (apply in_or_app; right). right. left. reflexivity.
Qed.

Lemma single_pass_insert_witness :
  exists content title su eu svc,
    PyStr.strip "Meet John" <> EmptyString /\
    llm_invoke (Demo.world Demo.reply_tomorrow)
      (LangChain.build_prompt "Meet John" (clock_stamp (Demo.world Demo.reply_tomorrow)))
    = Ok content /\
    snd (LangChain.resolve (Demo.world Demo.reply_tomorrow) (PyStr.strip content))
    = Ok (title, su, eu) /\
    snd (LangChain.obtain_service (Demo.world Demo.reply_tomorrow)) = Ok svc /\
    In (EventsInsert "primary"
          (LangChain.event_of title su eu "Meet John" (PyStr.strip content)))
       (fst (LangChain.main (Demo.world Demo.reply_tomorrow) "Meet John")) /\
    events_insert (Demo.world Demo.reply_tomorrow) svc
      (LangChain.event_of title su eu "Meet John" (PyStr.strip content))
    = Ok (PDict [("id", PStr "evt1");
                 ("htmlLink", PStr "https://calendar.example/evt1")]).
Proof.
  exact (single_pass_insert (Demo.world Demo.reply_tomorrow) "Meet John"
           (Some (PDict [("id", PStr "evt1");
                         ("htmlLink", PStr "https://calendar.example/evt1")]))
           eq_refl).
Defined.

(** ** Where the two scripts agree *)

Lemma adjust_past_agree (now s e : datetime) (n : Z) :
  (ltb s now = true -> date_eqb (date_of s) (date_of now) = true) ->
  snd (adjust_past now (Some n) s e) = snd (LangChain.adjust_past now n s e).
Proof.
  intros H. unfold adjust_past, LangChain.adjust_past.
  destruct (ltb s now); [| reflexivity]. rewrite (H eq_refl). reflexivity.
Qed.

(** The single-pass script reads the same four values as the response
    parser, and fails when the parser does. *)
Lemma single_pass_of_fields (w : World) (out : string) :
  match extract_fields (Some out) with
  | Ok (t, ds, ts, n, p) =>
      LangChain.field "Task:" out = Ok t /\
      LangChain.field "Date:" out = Ok ds /\
      LangChain.field "Time:" out = Ok ts /\
      duration_of out = Ok n /\ p = priority_of out /\
      LangChain.parse_slot w out =
        (let* date_obj := LangChain.parse_date (clock_now w) ds in
         let* parts := split_time_range ts in
         let* s := time_on date_obj (fst parts) in
         let* e := time_on date_obj (snd parts) in
         Ok (t, n, s, e))
  | Raise _ => exists e, LangChain.parse_slot w out = Raise e
  end.
Proof.
  unfold extract_fields, LangChain.parse_slot, LangChain.field.
  destruct out as [| c out].
  - eexists. reflexivity.
  - destruct (search_group1 (label_re "Task:") _) as [task |]; cbn [bind];
      [| eexists; reflexivity].
    destruct (search_group1 (label_re "Date:") _) as [date_s |]; cbn [bind];
      [| eexists; reflexivity].
    destruct (search_group1 (label_re "Time:") _) as [time_s |]; cbn [bind];
      [| eexists; reflexivity].
    destruct (duration_of _) as [n | e]; cbn [bind]; [| eexists; reflexivity].
    repeat split.
Qed.

(** A reply that the date/time stage cannot resolve leaves an error, and
    the start and the end as they were. *)
Lemma parse_datetime_of_raise (w : World) (st : SchedulerState) (ex : exn) :
  has_error st = false -> parse_slot w st = Raise ex ->
  has_error (fst (parse_datetime w st)) = true /\
  start_dt (fst (parse_datetime w st)) = start_dt st /\
  end_dt (fst (parse_datetime w st)) = end_dt st.
Proof.
  intros He Hs. unfold parse_datetime, resolve_slot. rewrite He, Hs. cbn [fst].
  split; [apply truthy_datetime_error | split; reflexivity].
Qed.

(** X12. Take a reply whose date, if it has one, is in the format with
    weekday and year, whose time range, if it has one, holds the hyphen
    between spaces, and whose start, if the single-pass script reads one
    that is before now, is on today's date. On such a reply the two scripts
    resolve the same slot or both fail: the single-pass script yields a
    title, a start and an end exactly when the workflow's response parser
    and date/time stage end without an error, and then the workflow's
    state holds that title, start and end, with the date text, the time
    text and the duration that both have read; when the single-pass script
    fails, whether a label is missing, the duration has too many digits,
    the range does not split in two, a time does not parse or the
    conversion overflows, the workflow ends these two stages with an error
    and with its start and end untouched. *)
Theorem scripts_agree (w : World) (st : SchedulerState) (out : string) :
  has_error st = false ->
  output st = Some out ->
  (forall ds, LangChain.field "Date:" out = Ok ds ->
              exists d, Strptime.strptime ds "%A, %d %B %Y" = Ok d) ->
  (forall ts, LangChain.field "Time:" out = Ok ts -> PyStr.contains " - " ts = true) ->
  (forall title n s e,
     LangChain.parse_slot w out = Ok (title, n, s, e) ->
     ltb s (clock_now_local w) = true ->
     date_eqb (date_of s) (date_of (clock_now_local w)) = true) ->
  match snd (LangChain.resolve w out) with
  | Ok (t, su, eu) =>
      exists ds ts n,
        LangChain.field "Task:" out = Ok t /\
        LangChain.field "Date:" out = Ok ds /\
        LangChain.field "Time:" out = Ok ts /\
        duration_of out = Ok n /\
        fst (parse_datetime w (fst (parse_ai_response st)))
        = set_slot (set_extracted st t ds ts n (priority_of out)) su eu /\
        has_error (fst (parse_datetime w (fst (parse_ai_response st)))) = false
  | Raise _ =>
      has_error (fst (parse_datetime w (fst (parse_ai_response st)))) = true /\
      start_dt (fst (parse_datetime w (fst (parse_ai_response st)))) = start_dt st /\
      end_dt (fst (parse_datetime w (fst (parse_ai_response st)))) = end_dt st
  end.
Proof.
  intros He Ho Hdate Htime Hday.
  pose proof (parse_ai_response_fields st He) as Hpa. rewrite Ho in Hpa.
  pose proof (single_pass_of_fields w out) as Hsp.
  destruct (extract_fields (Some out)) as [[[[[t ds] ts] n] p] | e0].
  - destruct Hsp as (F1 & F2 & F3 & Hn & -> & Hps).
    destruct (Hdate ds F2) as [d Hd]. pose proof (Htime ts F3) as Hc.
    rewrite (single_pass_first_format _ _ _ Hd) in Hps. cbn [bind] in Hps.
    rewrite Hpa. cbn [fst].
    set (st2 := set_extracted st t ds ts n (priority_of out)).
    assert (E2 : has_error st2 = false) by exact He.
    assert (Hslot : parse_slot w st2 =
                    (let* parts := split_time_range ts in
                     let* start_dt_naive := time_on d (fst parts) in
                     let* end_dt_naive := time_on d (snd parts) in
                     Ok (start_dt_naive, end_dt_naive))).
    { assert (Hfd : parse_flexible_date (clock_now w) (scheduled_date_str st2) = Ok (Some d)).
      { cbn [scheduled_date_str st2 set_extracted parse_flexible_date formats try_formats].
        rewrite (try_format_with_year (clock_now w) ds "%A, %d %B %Y" d eq_refl Hd).
        reflexivity. }
      rewrite (parse_slot_unfold w st2 d ts Hfd eq_refl). rewrite Hc. reflexivity. }
    assert (Hfail : forall ex, parse_slot w st2 = Raise ex ->
              has_error (fst (parse_datetime w st2)) = true /\
              start_dt (fst (parse_datetime w st2)) = start_dt st /\
              end_dt (fst (parse_datetime w st2)) = end_dt st).
    { intros ex Hr. exact (parse_datetime_of_raise w st2 ex E2 Hr). }
    unfold LangChain.resolve.
    destruct (split_time_range ts) as [[a b] | ex]; cbn [bind fst snd] in Hps, Hslot;
      [| rewrite Hps; exact (Hfail ex Hslot)].
    destruct (time_on d a) as [s | ex]; cbn [bind] in Hps, Hslot;
      [| rewrite Hps; exact (Hfail ex Hslot)].
    destruct (time_on d b) as [e | ex]; cbn [bind] in Hps, Hslot;
      [| rewrite Hps; exact (Hfail ex Hslot)].
    clear Hfail. rewrite Hps.
    rewrite (parse_datetime_unfold w st2 s e E2 Hslot).
    pose proof (adjust_past_agree (clock_now_local w) s e n (Hday t n s e Hps)) as Hadj.
    change (duration_minutes st2) with (Some n).
    destruct (adjust_past (clock_now_local w) (Some n) s e) as [effs r].
    destruct (LangChain.adjust_past (clock_now_local w) n s e) as [effs' r'].
    cbn [snd] in Hadj |- *. subst r'.
    destruct r as [se | ex]; cbn [bind].
    + destruct (to_utc (clock_local_tz w) se) as [[su eu] | ex]; cbn [bind fst snd].
      * exists ds, ts, n. repeat split; first [assumption | exact He].
      * split; [apply truthy_datetime_error | split; reflexivity].
    + split; [apply truthy_datetime_error | split; reflexivity].
  - destruct Hsp as [e1 Hps]. destruct Hpa as (st1 & Hpa & Hst1).
    unfold LangChain.resolve. rewrite Hps. cbn [snd].
    rewrite Hpa. cbn [fst parse_failure]. unfold parse_datetime.
    change (has_error (set_error st1 (Some (parse_error_msg e0)))) with true.
    cbn [fst].
    destruct Hst1 as [-> | (x & y & z & ->)]; repeat split.
Qed.

Lemma scripts_agree_witness :
  (exists ds ts n,
     LangChain.field "Task:" Demo.reply_earlier_today = Ok "Standup" /\
     LangChain.field "Date:" Demo.reply_earlier_today = Ok ds /\
     LangChain.field "Time:" Demo.reply_earlier_today = Ok ts /\
     duration_of Demo.reply_earlier_today = Ok n /\
     fst (parse_datetime (Demo.world Demo.reply_earlier_today)
            (fst (parse_ai_response (Demo.state_with_output Demo.reply_earlier_today))))
     = set_slot
         (set_extracted (Demo.state_with_output Demo.reply_earlier_today)
            "Standup" ds ts n (priority_of Demo.reply_earlier_today))
         (mkaware (mkdt 2026 11 3 4 35 1 0) 0) (mkaware (mkdt 2026 11 3 5 20 1 0) 0) /\
     has_error
       (fst (parse_datetime (Demo.world Demo.reply_earlier_today)
               (fst (parse_ai_response
                       (Demo.state_with_output Demo.reply_earlier_today))))) = false) /\
  (has_error
     (fst (parse_datetime (Demo.world Cases.reply_long_duration)
             (fst (parse_ai_response
                     (Demo.state_with_output Cases.reply_long_duration))))) = true /\
   start_dt
     (fst (parse_datetime (Demo.world Cases.reply_long_duration)
             (fst (parse_ai_response
                     (Demo.state_with_output Cases.reply_long_duration))))) = None /\
   end_dt
     (fst (parse_datetime (Demo.world Cases.reply_long_duration)
             (fst (parse_ai_response
                     (Demo.state_with_output Cases.reply_long_duration))))) = None) /\
  has_error
    (fst (parse_datetime (Demo.world Cases.reply_no_minutes)
            (fst (parse_ai_response
                    (Demo.state_with_output Cases.reply_no_minutes))))) = true.
Proof.
  split; [| split].
  - refine (scripts_agree (Demo.world Demo.reply_earlier_today)
              (Demo.state_with_output Demo.reply_earlier_today)
              Demo.reply_earlier_today eq_refl eq_refl _ _ _).
    + intros ds H. vm_compute in H. inversion H. eexists. vm_compute. reflexivity.
    + intros ts H. vm_compute in H. inversion H. reflexivity.
    + intros title n s e H _. vm_compute in H. inversion H. reflexivity.
  - refine (scripts_agree (Demo.world Cases.reply_long_duration)
              (Demo.state_with_output Cases.reply_long_duration)
              Cases.reply_long_duration eq_refl eq_refl _ _ _).
    + intros ds H. vm_compute in H. inversion H. eexists. vm_compute. reflexivity.
    + intros ts H. vm_compute in H. inversion H. reflexivity.
    + intros title n s e H. vm_compute in H. discriminate H.
  - refine (proj1 (scripts_agree (Demo.world Cases.reply_no_minutes)
                     (Demo.state_with_output Cases.reply_no_minutes)
                     Cases.reply_no_minutes eq_refl eq_refl _ _ _)).
    + intros ds H. vm_compute in H. inversion H. eexists. vm_compute. reflexivity.
    + intros ts H. vm_compute in H. inversion H. reflexivity.
    + intros title n s e H. vm_compute in H. discriminate H.
Defined.

(** ** The time format *)

Lemma clock_eqb_eq (a b : datetime) : Clock.eqb a b = true -> a = b.
Proof.
  unfold Clock.eqb. intros H.
  repeat (apply andb_prop in H; destruct H as [H ?]).
  destruct a, b. cbn [year month day hour minute second microsecond] in *.
  repeat match goal with
         | H : (_ =? _) = true |- _ => apply Z.eqb_eq in H
         end.
  congruence.
Qed.

Lemma all_times_read_back : all_from Clock.reads_back 0 1440 = true.
Proof. vm_compute. reflexivity. Qed.

Lemma new_ok (y m d hh mm ss us : Z) :
  check_date_fields y m d = Ok tt -> check_time_fields hh mm ss us = Ok tt ->
  new y m d hh mm ss us = Ok (mkdt y m d hh mm ss us).
Proof. intros H1 H2. unfold new. rewrite H1, H2. reflexivity. Qed.

(** X13. The date/time stage reads back every time of day that the page
    itself writes: a time formatted with "%I:%M %p" (as in the warning of
    the past-time correction) is parsed by the stage as the same hour and
    minute, with zero seconds, on the date that was resolved; 12:xx AM is
    hour 0 and 12:xx PM is hour 12. *)
Theorem clock_time_round_trip (d t : datetime) :
  wf d -> 0 <= hour t <= 23 -> 0 <= minute t <= 59 ->
  time_on d (Fmt.strftime t "%I:%M %p")
  = Ok (mkdt (year d) (month d) (day d) (hour t) (minute t) 0 0).
Proof.
  intros Hd Hh Hm.
  pose proof (all_from_spec _ _ _ all_times_read_back (hour t * 60 + minute t)) as Hrb.
  assert (Hn : 0 <= hour t * 60 + minute t < 0 + Z.of_nat 1440) by lia.
  specialize (Hrb Hn). unfold Clock.reads_back in Hrb.
  assert (Hat : Clock.at_minute (hour t * 60 + minute t)
                = mkdt 1900 1 1 (hour t) (minute t) 0 0).
  { unfold Clock.at_minute. f_equal; Z.div_mod_to_equations; lia. }
  rewrite Hat in Hrb.
  change (Fmt.strftime (mkdt 1900 1 1 (hour t) (minute t) 0 0) "%I:%M %p")
    with (Fmt.strftime t "%I:%M %p") in Hrb.
  unfold time_on.
  destruct (Strptime.strptime (Fmt.strftime t "%I:%M %p") "%I:%M %p") as [r |];
    [| discriminate Hrb].
  apply clock_eqb_eq in Hrb. subst r. cbn [bind].
  unfold replace_ymd. cbn [hour minute second microsecond].
  apply wf_iff in Hd. destruct Hd as [Hdate _].
  apply new_ok.
  - apply check_date_fields_ok. exact Hdate.
  - apply check_time_fields_ok. lia.
Qed.

Lemma clock_time_round_trip_witness :
  time_on (mkdt 2026 11 4 0 0 0 0) "12:05 AM" = Ok (mkdt 2026 11 4 0 5 0 0).
Proof.
  apply (clock_time_round_trip (mkdt 2026 11 4 0 0 0 0) (mkdt 2026 11 3 0 5 0 0)).
  - vm_compute. reflexivity.
  - cbn. lia.
  - cbn. lia.
Defined.

(** ** What a match consumes *)

Lemma lit_match_sound (ic : bool) (l s m r : string) :
  Re.lit_match ic l s = Some (m, r) ->
  s = m ++ r /\ (ic = true -> PyStr.lower m = PyStr.lower l) /\ (ic = false -> m = l).
Proof.
  revert s m r. induction l as [| a l IH]; intros s m r H.
  - cbn in H. inversion H; subst. repeat split.
  - destruct s as [| c s]; [discriminate H |]. cbn [Re.lit_match] in H.
    destruct (Re.chr_eqb ic a c) eqn:Ec; [| discriminate H].
    destruct (Re.lit_match ic l s) as [[m' r'] |] eqn:El; [| discriminate H].
    inversion H; subst. destruct (IH _ _ _ El) as (Hs & Hi & Hn). subst s.
    split; [reflexivity |]. split; intros Hic; subst ic; unfold Re.chr_eqb in Ec.
    + apply Ascii.eqb_eq in Ec. cbn [PyStr.lower]. rewrite Ec, (Hi eq_refl). reflexivity.
    + apply Ascii.eqb_eq in Ec. rewrite Ec, (Hn eq_refl). reflexivity.
Qed.

Lemma star_hits_sound (p : ascii -> bool) (s m r : string) :
  In (m, r) (Re.star_hits p s) -> s = m ++ r /\ PyStr.all_chars p m = true.
Proof.
  revert m r. induction s as [| c s IH]; intros m r H.
  - cbn in H. destruct H as [H | []]. inversion H. split; reflexivity.
  - cbn [Re.star_hits] in H. destruct (p c) eqn:Ep.
    + apply in_app_or in H. destruct H as [H | [H | []]].
      * apply in_map_iff in H. destruct H as ([m' r'] & Heq & Hin).
        inversion Heq; subst. cbn [fst snd].
        destruct (IH _ _ Hin) as (-> & Hall). split; [reflexivity |].
        cbn [PyStr.all_chars]. rewrite Ep, Hall. reflexivity.
      * inversion H. split; reflexivity.
    + destruct H as [H | []]. inversion H. split; reflexivity.
Qed.

Lemma plus_hits_sound (p : ascii -> bool) (s m r : string) :
  In (m, r) (Re.plus_hits p s) ->
  s = m ++ r /\ PyStr.all_chars p m = true /\ m <> EmptyString.
Proof.
  destruct s as [| c s]; [intros [] |]. cbn [Re.plus_hits].
  destruct (p c) eqn:Ep; [| intros []]. intros H.
  apply in_map_iff in H. destruct H as ([m' r'] & Heq & Hin).
  inversion Heq; subst. cbn [fst snd].
  destruct (star_hits_sound _ _ _ _ Hin) as (-> & Hall).
  split; [reflexivity |]. split; [| discriminate].
  cbn [PyStr.all_chars]. rewrite Ep, Hall. reflexivity.
Qed.

Lemma run_sound (ic : bool) (r : Re.regex) :
  forall s h, In h (Re.run ic r s) -> s = Re.matched h ++ Re.rest h.
Proof.
  induction r as [l | cs | cs | cs | r1 IH1 r2 IH2 | r1 IH1 r2 IH2 | name r IH];
    intros s h H; cbn [Re.run] in H.
  - destruct (Re.lit_match ic l s) as [[m r] |] eqn:El; [| destruct H].
    destruct H as [<- | []]. apply (lit_match_sound _ _ _ _ _ El).
  - destruct s as [| c s]; [destruct H |].
    destruct (Re.mem cs c); [| destruct H]. destruct H as [<- | []]. reflexivity.
  - apply in_map_iff in H. destruct H as ([m r] & <- & Hin).
    apply (star_hits_sound _ _ _ _ Hin).
  - apply in_map_iff in H. destruct H as ([m r] & <- & Hin).
    apply (plus_hits_sound _ _ _ _ Hin).
  - apply in_flat_map in H. destruct H as (h1 & H1 & H).
    apply in_map_iff in H. destruct H as (h2 & <- & H2).
    cbn [Re.matched Re.rest]. rewrite string_app_assoc.
    rewrite <- (IH2 _ _ H2). apply (IH1 _ _ H1).
  - apply in_app_or in H. destruct H as [H | H]; [apply (IH1 _ _ H) | apply (IH2 _ _ H)].
  - apply in_map_iff in H. destruct H as (h' & <- & Hin). apply (IH _ _ Hin).
Qed.

Lemma run_seq_inv (ic : bool) (r1 r2 : Re.regex) (s : string) (h : Re.hit) :
  In h (Re.run ic (Re.Seq r1 r2) s) ->
  exists h1 h2,
    In h1 (Re.run ic r1 s) /\ In h2 (Re.run ic r2 (Re.rest h1)) /\
    Re.matched h = Re.matched h1 ++ Re.matched h2 /\ Re.rest h = Re.rest h2.
Proof.
  cbn [Re.run]. intros H. apply in_flat_map in H. destruct H as (h1 & H1 & H).
  apply in_map_iff in H. destruct H as (h2 & <- & H2).
  exists h1, h2. repeat split; assumption.
Qed.

Lemma run_lit_inv (l s : string) (h : Re.hit) :
  In h (Re.run true (Re.Lit l) s) -> PyStr.lower (Re.matched h) = PyStr.lower l.
Proof.
  cbn [Re.run]. destruct (Re.lit_match true l s) as [[m r] |] eqn:El; [| intros []].
  intros [<- | []]. apply (lit_match_sound _ _ _ _ _ El). reflexivity.
Qed.

Lemma run_group_inv (ic : bool) (name : string) (r : Re.regex) (s : string) (h : Re.hit) :
  In h (Re.run ic (Re.Group name r) s) ->
  exists h', In h' (Re.run ic r s) /\ Re.matched h = Re.matched h' /\ Re.rest h = Re.rest h'.
Proof.
  cbn [Re.run]. intros H. apply in_map_iff in H. destruct H as (h' & <- & Hin).
  exists h'. repeat split. exact Hin.
Qed.

Lemma run_plus_inv (ic : bool) (cs : Re.cset) (s : string) (h : Re.hit) :
  In h (Re.run ic (Re.Plus cs) s) ->
  PyStr.all_chars (Re.mem cs) (Re.matched h) = true /\ Re.matched h <> EmptyString.
Proof.
  cbn [Re.run]. intros H. apply in_map_iff in H. destruct H as ([m r] & <- & Hin).
  apply (plus_hits_sound _ _ _ _ Hin).
Qed.

Lemma lower_colon (x : string) : PyStr.lower x = ":" -> x = ":".
Proof.
  destruct x as [| c [| c' x]]; try discriminate. cbn [PyStr.lower]. intros H.
  inversion H as [Hc]. f_equal.
  destruct c as [[] [] [] [] [] [] [] []]; vm_compute in Hc; congruence.
Qed.

Lemma contains_here (needle a b : string) :
  PyStr.contains needle (a ++ needle ++ b) = true.
Proof.
  induction a as [| c a IH].
  - cbn [append]. destruct (needle ++ b) eqn:E.
    + destruct needle; [reflexivity | discriminate E].
    + rewrite <- E. cbn [PyStr.contains].
      assert (H : PyStr.startswith needle (needle ++ b) = true) by apply startswith_app.
      unfold PyStr.contains; fold PyStr.contains.
      destruct (needle ++ b); cbn [PyStr.contains]; rewrite H; reflexivity.
  - cbn [append PyStr.contains]. rewrite IH. apply orb_true_r.
Qed.

Lemma time_hit_shape (R : Re.regex) (s : string) (h : Re.hit) :
  Strptime.pattern "%I:%M %p" = Some R ->
  In h (Re.run true R s) ->
  exists hh mm ws p,
    Re.matched h = hh ++ ":" ++ mm ++ ws ++ p /\
    ws <> EmptyString /\ PyStr.all_chars PyStr.isspace ws = true /\
    (PyStr.lower p = "am" \/ PyStr.lower p = "pm").
Proof.
  intros HR H. vm_compute in HR. inversion HR; subst R. clear HR.
  apply run_seq_inv in H. destruct H as (hI & h1 & _ & H & -> & _).
  apply run_seq_inv in H. destruct H as (hc & h2 & Hc & H & -> & _).
  apply run_seq_inv in H. destruct H as (hM & h3 & _ & H & -> & _).
  apply run_seq_inv in H. destruct H as (hw & hp & Hw & Hp & -> & _).
  apply run_lit_inv in Hc. apply lower_colon in Hc.
  apply run_plus_inv in Hw. destruct Hw as (Hws & Hne).
  apply run_group_inv in Hp. destruct Hp as (hp' & Hp & Hpm & _).
  exists (Re.matched hI), (Re.matched hM), (Re.matched hw), (Re.matched hp).
  rewrite Hc. split; [reflexivity |]. split; [exact Hne |]. split; [exact Hws |].
  rewrite Hpm. cbn [Re.run] in Hp. apply in_app_or in Hp.
  destruct Hp as [Hp | Hp]; [left | right].
  - exact (run_lit_inv "am" (Re.rest hw) hp' Hp).
  - exact (run_lit_inv "pm" (Re.rest hw) hp' Hp).
Qed.

Lemma strptime_ok_inv (s fmt : string) (t : datetime) :
  Strptime.strptime s fmt = Ok t ->
  second t = 0 /\ microsecond t = 0 /\
  exists R h,
    Strptime.pattern fmt = Some R /\ Re.match_ true R s = Some h /\
    Re.rest h = EmptyString.
Proof.
  unfold Strptime.strptime, Strptime._strptime.
  destruct (Strptime.pattern fmt) as [R |] eqn:HR; [| intros H; discriminate H].
  destruct (Re.match_ true R s) as [h |] eqn:Hm; [| intros H; discriminate H].
  destruct (String.eqb (Re.rest h) EmptyString) eqn:Er; cbn [negb];
    [| intros H; discriminate H].
  apply String.eqb_eq in Er.
  destruct (Strptime.convert_keys _ _ _) as [f |]; [| intros H; discriminate H].
  cbn [bind].
  destruct (new_date _ _ _); [| intros H; discriminate H]. cbn [bind].
  destruct (new_date _ 1 1); [| intros H; discriminate H]. cbn [bind].
  cbn [Strptime.tm_year Strptime.tm_mon Strptime.tm_mday Strptime.tm_hour
       Strptime.tm_min Strptime.tm_sec].
  intros H. apply new_ok_inv in H. destruct H as (-> & _).
  split; [reflexivity |]. split; [reflexivity |].
  exists R, h. repeat split; assumption.
Qed.

Lemma string_app_nil (s : string) : s ++ "" = s.
Proof. induction s as [| c s IH]; [reflexivity |]. cbn. rewrite IH. reflexivity. Qed.

Lemma time_on_shape (d t : datetime) (part : string) :
  time_on d part = Ok t ->
  (exists hh mm ws p,
     part = hh ++ ":" ++ mm ++ ws ++ p /\
     ws <> EmptyString /\ PyStr.all_chars PyStr.isspace ws = true /\
     (PyStr.lower p = "am" \/ PyStr.lower p = "pm")) /\
  date_of t = date_of d /\ second t = 0 /\ microsecond t = 0.
Proof.
  unfold time_on. intros H.
  destruct (Strptime.strptime part "%I:%M %p") as [r |] eqn:Es; [| discriminate H].
  cbn [bind] in H. unfold replace_ymd in H. apply new_ok_inv in H. destruct H as (-> & _).
  destruct (strptime_ok_inv _ _ _ Es) as (Hs & Hu & R & h & HR & Hm & Hrest).
  split; [| cbn; rewrite Hs, Hu; repeat split].
  pose proof (match_in_run _ _ _ _ Hm) as Hin.
  pose proof (run_sound _ _ _ _ Hin) as Hpart. rewrite Hrest, string_app_nil in Hpart.
  destruct (time_hit_shape R part h HR Hin) as (hh & mm & ws & p & Hshape & Hrestp).
  exists hh, mm, ws, p. split; [congruence | exact Hrestp].
Qed.

(** [repr] of a text of printable ASCII characters, without a single quote
    or a backslash: the text between single quotes. *)
Lemma repr_plain (s : string) :
  PyStr.has_char "'" s = false -> PyStr.has_char "\" s = false ->
  PyStr.all_chars (fun c => (32 <=? PyStr.ord c) && (PyStr.ord c <? 127)) s = true ->
  PyStr.repr s = "'" ++ s ++ "'".
Proof.
  intros Hq Hb Hp. unfold PyStr.repr. rewrite Hq. cbn [andb].
  change ("'" ++ s ++ "'") with (String "'" (s ++ "'")). f_equal.
  induction s as [| c s IH]; [reflexivity |].
  cbn [PyStr.has_char PyStr.all_chars] in Hq, Hb, Hp.
  apply orb_false_iff in Hq. destruct Hq as [Hq1 Hq2].
  apply orb_false_iff in Hb. destruct Hb as [Hb1 Hb2].
  apply andb_prop in Hp. destruct Hp as [Hp1 Hp2].
  cbn [PyStr.repr_body].
  replace (PyStr.repr_char "'" c) with (String c EmptyString);
    [cbn [append]; rewrite (IH Hq2 Hb2 Hp2); reflexivity |].
  clear - Hq1 Hb1 Hp1.
  destruct c as [[] [] [] [] [] [] [] []]; try reflexivity;
    vm_compute in Hq1, Hb1, Hp1; discriminate.
Qed.

Lemma time_on_needs_colon (d : datetime) (part : string) :
  PyStr.contains ":" part = false ->
  time_on d part =
    Raise (ValueError ("time data " ++ PyStr.repr part ++
                       " does not match format '%I:%M %p'")).
Proof.
  intros Hc. unfold time_on, Strptime.strptime, Strptime._strptime.
  destruct (Strptime.pattern "%I:%M %p") as [R |] eqn:HR; [| vm_compute in HR; discriminate HR].
  destruct (Re.match_ true R part) as [h |] eqn:Hm; [| reflexivity].
  exfalso.
  pose proof (match_in_run _ _ _ _ Hm) as Hin.
  pose proof (run_sound _ _ _ _ Hin) as Hpart.
  destruct (time_hit_shape R part h HR Hin) as (hh & mm & ws & p & Hshape & _).
  rewrite Hshape in Hpart. rewrite Hpart in Hc.
  rewrite string_app_assoc in Hc.
  replace (":" ++ (mm ++ ws ++ p)) with (":" ++ ((mm ++ ws ++ p))) in Hc by reflexivity.
  rewrite string_app_assoc in Hc.
  rewrite contains_here in Hc. discriminate Hc.
Qed.

(** X14. The two parts of the time range must be clock times with minutes
    and a meridiem. Once the date has parsed and the range has split in
    two, a part without a colon (such as "3 PM") makes the stage fail with
    "time data ... does not match format '%I:%M %p'", where the part is
    written as [repr] writes it (between single quotes when it holds none,
    as in "time data '3 PM' does not match format '%I:%M %p'"), the start
    being read before the end; and when the stage succeeds, each part is
    some hour text, a colon, some minute text, white space and "AM" or "PM"
    in any letter case. *)
Theorem time_parts (w : World) (st : SchedulerState) (dd : datetime) (ts a b : string) :
  has_error st = false ->
  parse_flexible_date (clock_now w) (scheduled_date_str st) = Ok (Some dd) ->
  scheduled_time_str st = Some ts ->
  PyStr.contains " - " ts = true ->
  split_time_range ts = Ok (a, b) ->
  (PyStr.contains ":" a = false ->
   parse_datetime w st =
     (set_error st
        (Some ("Date/Time parsing error: time data " ++ PyStr.repr a ++
               " does not match format '%I:%M %p'")),
      [StError ("Date/Time parsing error: time data " ++ PyStr.repr a ++
                " does not match format '%I:%M %p'")])) /\
  (forall s, time_on dd a = Ok s -> PyStr.contains ":" b = false ->
   parse_datetime w st =
     (set_error st
        (Some ("Date/Time parsing error: time data " ++ PyStr.repr b ++
               " does not match format '%I:%M %p'")),
      [StError ("Date/Time parsing error: time data " ++ PyStr.repr b ++
                " does not match format '%I:%M %p'")])) /\
  (forall part,
     PyStr.has_char "'" part = false -> PyStr.has_char "\" part = false ->
     PyStr.all_chars (fun c => (32 <=? PyStr.ord c) && (PyStr.ord c <? 127)) part = true ->
     PyStr.repr part = "'" ++ part ++ "'") /\
  (has_error (fst (parse_datetime w st)) = false ->
   forall part, part = a \/ part = b ->
   exists hh mm ws p,
     part = hh ++ ":" ++ mm ++ ws ++ p /\
     ws <> EmptyString /\ PyStr.all_chars PyStr.isspace ws = true /\
     (PyStr.lower p = "am" \/ PyStr.lower p = "pm")).
Proof.
  intros He Hd Ht Hc Hs.
  pose proof (parse_slot_unfold w st dd ts Hd Ht) as Hp.
  rewrite Hc, Hs in Hp. cbn [negb bind fst snd] in Hp.
  split; [| split; [| split]].
  - intros Ha. apply parse_datetime_raises; [exact He |].
    rewrite Hp, (time_on_needs_colon dd a Ha). reflexivity.
  - intros s Hsa Hb. apply parse_datetime_raises; [exact He |].
    rewrite Hp, Hsa. cbn [bind]. rewrite (time_on_needs_colon dd b Hb). reflexivity.
  - intros part Hq Hb Hpr. apply repr_plain; assumption.
  - intros Hok part Hpart.
    destruct (parse_datetime w st) as [st' effs] eqn:Epd. cbn [fst] in Hok.
    destruct (parse_datetime_success w st st' effs He Epd Hok)
      as (s & e & _ & _ & _ & _ & Hslot & _).
    rewrite Hslot in Hp.
    destruct (time_on dd a) as [s' |] eqn:Ea; [| discriminate Hp]. cbn [bind] in Hp.
    destruct (time_on dd b) as [e' |] eqn:Eb; [| discriminate Hp].
    destruct Hpart as [-> | ->].
    + apply (time_on_shape dd s' a Ea).
    + apply (time_on_shape dd e' b Eb).
Qed.

Lemma time_parts_witness :
  parse_datetime (Demo.world Cases.reply_no_minutes)
                 (Demo.extracted_state Cases.reply_no_minutes) =
    (set_error (Demo.extracted_state Cases.reply_no_minutes)
       (Some ("Date/Time parsing error: time data '3 PM' does not match format "
              ++ "'%I:%M %p'")),
     [StError ("Date/Time parsing error: time data '3 PM' does not match format "
               ++ "'%I:%M %p'")]) /\
  parse_datetime (Demo.world Cases.reply_oclock)
                 (Demo.extracted_state Cases.reply_oclock) =
    (set_error (Demo.extracted_state Cases.reply_oclock)
       (Some ("Date/Time parsing error: time data " ++ dq ++ "3 o'clock" ++ dq ++
              " does not match format '%I:%M %p'")),
     [StError ("Date/Time parsing error: time data " ++ dq ++ "3 o'clock" ++ dq ++
               " does not match format '%I:%M %p'")]).
Proof.
  split.
  - refine (proj1 (time_parts (Demo.world Cases.reply_no_minutes)
                     (Demo.extracted_state Cases.reply_no_minutes)
                     (mkdt 2026 11 4 0 0 0 0) "3 PM - 4 PM" "3 PM" "4 PM" _ _ _ _ _) _);
      vm_compute; reflexivity.
  - refine (proj1 (time_parts (Demo.world Cases.reply_oclock)
                     (Demo.extracted_state Cases.reply_oclock)
                     (mkdt 2026 11 4 0 0 0 0) "3 o'clock - 4 PM" "3 o'clock" "4 PM"
                     _ _ _ _ _) _);
      vm_compute; reflexivity.
Defined.

(** ** Instants and their datetimes *)

Lemma time_us_inj (a b : datetime) :
  wf a -> wf b -> time_us a = time_us b ->
  hour a = hour b /\ minute a = minute b /\ second a = second b /\
  microsecond a = microsecond b.
Proof.
  intros Ha Hb. apply wf_iff in Ha. apply wf_iff in Hb.
  destruct Ha as (_ & Ha). destruct Hb as (_ & Hb).
  unfold time_us. intros H. lia.
Qed.

Lemma to_us_inj (a b : datetime) : wf a -> wf b -> to_us a = to_us b -> a = b.
Proof.
  intros Ha Hb H.
  destruct (ltb_total a b) as [Hl | [Hl | (Hd & Ht)]].
  - pose proof (ltb_to_us a b Ha Hb Hl). lia.
  - pose proof (ltb_to_us b a Hb Ha Hl). lia.
  - destruct (time_us_inj a b Ha Hb Ht) as (H1 & H2 & H3 & H4).
    unfold date_of in Hd. inversion Hd.
    destruct a, b. cbn in *. congruence.
Qed.

Lemma toordinal_bounds (d : datetime) : wf d -> 1 <= toordinal d <= MAXORDINAL.
Proof.
  intros Hd. apply wf_iff in Hd. destruct Hd as ((Hy & Hm & Hdd) & _).
  unfold toordinal, MINYEAR, MAXYEAR in *. split.
  - destruct (date_ltb (1, 1, 1) (year d, month d, day d)) eqn:E.
    + assert (H1 : 1 <= 1 <= days_in_month 1 1) by (vm_compute; split; discriminate).
      pose proof (ymd2ord_lt 1 1 1 (year d) (month d) (day d)
                    ltac:(lia) H1 Hm Hdd E) as H.
      change (ymd2ord 1 1 1) with 1 in H. lia.
    + unfold date_ltb in E.
      assert (year d = 1 /\ month d = 1 /\ day d = 1) as (-> & -> & ->) by lia.
      vm_compute. discriminate.
  - destruct (date_ltb (year d, month d, day d) (9999, 12, 31)) eqn:E.
    + assert (H1 : 1 <= 31 <= days_in_month 9999 12) by (vm_compute; split; discriminate).
      pose proof (ymd2ord_lt (year d) (month d) (day d) 9999 12 31
                    Hm Hdd ltac:(lia) H1 E) as H.
      change (ymd2ord 9999 12 31) with MAXORDINAL in H. lia.
    + unfold date_ltb in E.
      assert (Hd31 : day d <= 31).
      { unfold days_in_month in Hdd.
        destruct ((month d =? 2) && is_leap (year d)); [lia |].
        assert (Hmm : month d = 1 \/ month d = 2 \/ month d = 3 \/ month d = 4 \/
                      month d = 5 \/ month d = 6 \/ month d = 7 \/ month d = 8 \/
                      month d = 9 \/ month d = 10 \/ month d = 11 \/ month d = 12) by lia.
        repeat (destruct Hmm as [Hmm | Hmm]); rewrite Hmm in Hdd; cbn in Hdd; lia. }
      assert (year d = 9999 /\ month d = 12 /\ day d = 31) as (-> & -> & ->) by lia.
      vm_compute. discriminate.
Qed.

Lemma wf_representable (d : datetime) : wf d -> representable (to_us d).
Proof.
  intros Hd. pose proof (toordinal_bounds d Hd). pose proof (time_us_bounds d Hd).
  unfold representable, to_us, US_PER_DAY, MAXORDINAL in *. lia.
Qed.

(** Adding the difference of two datetimes to the first gives the second. *)
Lemma add_to (d d' : datetime) (delta : timedelta) :
  wf d' -> to_us d' = to_us d + delta -> add d delta = Ok d'.
Proof.
  intros Hd' H.
  destruct (add_ok d delta) as (d'' & Hadd).
  { rewrite <- H. apply wf_representable. exact Hd'. }
  rewrite Hadd. f_equal.
  destruct (add_spec _ _ _ Hadd) as (Hus & Hwf).
  apply to_us_inj; [exact Hwf | exact Hd' | lia].
Qed.

Lemma seconds_inv (n : Z) (off : timedelta) : seconds n = Ok off -> off = n * 1000000.
Proof. unfold seconds. apply check_delta_inv. Qed.

(** From the local time to UTC and back. *)
Lemma astimezone_back (d : datetime) (tz : Z) (u : aware) :
  wf d -> astimezone (mkaware d tz) 0 = Ok u ->
  astimezone u tz = Ok (mkaware d tz).
Proof.
  intros Hd. unfold astimezone at 1. cbn [utcoffset naive].
  destruct (seconds tz) as [off |] eqn:Eoff; [| intros H; discriminate H]. cbn [bind].
  destruct (add d (- off)) as [utc |] eqn:E1; [| intros H; discriminate H]. cbn [bind].
  destruct (seconds 0) as [z |] eqn:Ez; [| intros H; discriminate H]. cbn [bind].
  destruct (add utc z) as [loc |] eqn:E2; [| intros H; discriminate H]. cbn [bind].
  intros H. inversion H; subst u. clear H.
  apply seconds_inv in Ez. cbn in Ez. subst z.
  destruct (add_spec _ _ _ E1) as (U1 & W1).
  destruct (add_spec _ _ _ E2) as (U2 & W2).
  assert (loc = utc) by (apply to_us_inj; [assumption | assumption | lia]). subst loc.
  unfold astimezone. cbn [utcoffset naive].
  change (seconds 0) with (Ok (A := timedelta) 0). cbn [bind].
  change (- 0) with 0. rewrite E2. cbn [bind]. rewrite Eoff. cbn [bind].
  rewrite (add_to utc d off Hd); [reflexivity | lia].
Qed.

Lemma adjust_past_wf (now : datetime) (dur : option Z) (s e s' e' : datetime)
    (es : list effect) :
  wf s -> wf e -> adjust_past now dur s e = (es, Ok (s', e')) -> wf s' /\ wf e'.
Proof.
  intros Hs He. unfold adjust_past.
  destruct (ltb s now); [destruct (date_eqb _ _) |]; intros H;
    try (inversion H; subst; split; assumption); try discriminate H.
  injection H as Hes Hr.
  change (minutes 5) with (Ok (A := timedelta) 300000000) in Hr. cbn [bind] in Hr.
  destruct (add now 300000000) as [a |] eqn:E1; cbn [bind] in Hr; [| discriminate Hr].
  destruct (duration_delta dur) as [dl |]; cbn [bind] in Hr; [| discriminate Hr].
  destruct (add a dl) as [b |] eqn:E2; cbn [bind] in Hr; [| discriminate Hr].
  inversion Hr; subst.
  split; [apply (add_spec _ _ _ E1) | apply (add_spec _ _ _ E2)].
Qed.

Lemma to_utc_inv (tz : Z) (s e : datetime) (su eu : aware) :
  to_utc tz (s, e) = Ok (su, eu) ->
  astimezone (mkaware s tz) 0 = Ok su /\ astimezone (mkaware e tz) 0 = Ok eu.
Proof.
  unfold to_utc. cbn [fst snd].
  destruct (astimezone (mkaware s tz) 0) as [a |]; cbn [bind];
    [| intros H; discriminate H].
  destruct (astimezone (mkaware e tz) 0) as [b |]; cbn [bind];
    [| intros H; discriminate H].
  intros H. inversion H; subst. split; reflexivity.
Qed.

(** X15. The slot that the date/time stage stores in UTC converts back, in
    the scheduling stage, to the local start and end that the date/time
    stage resolved: the conversion cannot fail, so from a state that holds
    such a slot and a service the scheduling stage always reaches the
    calendar insert, and the times it shows are the resolved local ones. *)
Theorem resolved_slot_round_trip (w : World) (st st' : SchedulerState)
    (effs : list effect) :
  has_error st = false ->
  parse_datetime w st = (st', effs) ->
  has_error st' = false ->
  exists s e su eu,
    start_dt st' = Some su /\ end_dt st' = Some eu /\
    to_utc (clock_local_tz w) (s, e) = Ok (su, eu) /\
    astimezone su (clock_local_tz w) = Ok (mkaware s (clock_local_tz w)) /\
    astimezone eu (clock_local_tz w) = Ok (mkaware e (clock_local_tz w)) /\
    forall st2 svc,
      has_error st2 = false ->
      start_dt st2 = Some su -> end_dt st2 = Some eu -> service st2 = Some svc ->
      submit_event w st2 =
        ([EventsInsert "primary" (match event st2 with Some ev => ev | None => PNone end)],
         events_insert w svc (match event st2 with Some ev => ev | None => PNone end)).
Proof.
  intros He Hp Hok.
  destruct (parse_datetime_success w st st' effs He Hp Hok)
    as (s0 & e0 & [s e] & su & eu & es & Hslot & Hadj & Hutc & ->).
  destruct (parse_slot_wf w st s0 e0 Hslot) as (Ws0 & We0).
  destruct (adjust_past_wf _ _ _ _ _ _ _ Ws0 We0 Hadj) as (Ws & We).
  destruct (to_utc_inv _ _ _ _ _ Hutc) as (Hsu & Heu).
  pose proof (astimezone_back s (clock_local_tz w) su Ws Hsu) as Bs.
  pose proof (astimezone_back e (clock_local_tz w) eu We Heu) as Be.
  exists s, e, su, eu. repeat split; try assumption.
  intros st2 svc _ H1 H2 H3. unfold submit_event. rewrite H1, H2, Bs. cbn [bind].
  rewrite Be, H3. reflexivity.
Qed.

Lemma resolved_slot_round_trip_witness :
  exists s e su eu,
    start_dt (fst (parse_datetime (Demo.world Demo.reply_tomorrow)
                     (Demo.extracted_state Demo.reply_tomorrow))) = Some su /\
    end_dt (fst (parse_datetime (Demo.world Demo.reply_tomorrow)
                   (Demo.extracted_state Demo.reply_tomorrow))) = Some eu /\
    to_utc 19800 (s, e) = Ok (su, eu) /\
    astimezone su 19800 = Ok (mkaware s 19800) /\
    astimezone eu 19800 = Ok (mkaware e 19800) /\
    s = mkdt 2026 11 4 15 0 0 0 /\ su = mkaware (mkdt 2026 11 4 9 30 0 0) 0.
Proof.
  destruct (resolved_slot_round_trip (Demo.world Demo.reply_tomorrow)
              (Demo.extracted_state Demo.reply_tomorrow)
              (fst (parse_datetime (Demo.world Demo.reply_tomorrow)
                      (Demo.extracted_state Demo.reply_tomorrow)))
              (snd (parse_datetime (Demo.world Demo.reply_tomorrow)
                      (Demo.extracted_state Demo.reply_tomorrow)))
              eq_refl (surjective_pairing _) eq_refl)
    as (s & e & su & eu & H1 & H2 & H3 & H4 & H5 & _).
  exists s, e, su, eu.
  change (clock_local_tz (Demo.world Demo.reply_tomorrow)) with 19800 in *.
  repeat split; try assumption.
  - vm_compute in H1. inversion H1; subst su.
    vm_compute in H4. inversion H4. reflexivity.
  - vm_compute in H1. inversion H1. reflexivity.
Defined.

(** ** The times of the event *)

Lemma isoformat_utc (a : aware) :
  utcoffset a = 0 ->
  Fmt.isoformat a =
    (Fmt.pad 4 (year (naive a)) ++ "-" ++ Fmt.pad 2 (month (naive a)) ++ "-" ++
     Fmt.pad 2 (day (naive a)) ++ "T" ++ Fmt.format_time (naive a)) ++ "+00:00".
Proof.
  intros H. unfold Fmt.isoformat. rewrite H.
  change (Fmt.format_offset 0) with "+00:00".
  rewrite !string_app_assoc. reflexivity.
Qed.

(** X16. The event built from a slot that the date/time stage stored gives
    its start and end as UTC times: both dateTime texts are the date, "T"
    and the time of the stored instant followed by the offset "+00:00",
    while both timeZone fields name Asia/Kolkata. *)
Theorem event_times_are_utc (w : World) (st st' : SchedulerState) (effs : list effect) :
  has_error st = false ->
  parse_datetime w st = (st', effs) ->
  has_error st' = false ->
  exists su eu,
    start_dt st' = Some su /\ end_dt st' = Some eu /\
    forall st2,
      has_error st2 = false -> start_dt st2 = Some su -> end_dt st2 = Some eu ->
      event (fst (create_event st2)) =
        Some (PDict
          [("summary", opt_pystr (task_title st2));
           ("start",
            PDict [("dateTime",
                    PStr ((Fmt.pad 4 (year (naive su)) ++ "-" ++
                           Fmt.pad 2 (month (naive su)) ++ "-" ++
                           Fmt.pad 2 (day (naive su)) ++ "T" ++
                           Fmt.format_time (naive su)) ++ "+00:00"));
                   ("timeZone", PStr "Asia/Kolkata")]);
           ("end",
            PDict [("dateTime",
                    PStr ((Fmt.pad 4 (year (naive eu)) ++ "-" ++
                           Fmt.pad 2 (month (naive eu)) ++ "-" ++
                           Fmt.pad 2 (day (naive eu)) ++ "T" ++
                           Fmt.format_time (naive eu)) ++ "+00:00"));
                   ("timeZone", PStr "Asia/Kolkata")]);
           ("description", PStr (description (sentence st2) (output st2)));
           ("reminders", reminders)]).
Proof.
  intros He Hp Hok.
  destruct (parse_datetime_success w st st' effs He Hp Hok)
    as (s0 & e0 & se & su & eu & es & _ & _ & Hutc & ->).
  destruct se as [s e].
  destruct (to_utc_spec _ _ _ _ _ Hutc) as (Hsu & Heu & _).
  exists su, eu. split; [reflexivity |]. split; [reflexivity |].
  intros st2 He2 H1 H2. unfold create_event, build_event. rewrite He2, H1, H2.
  cbn [fst event set_event]. unfold event_of.
  rewrite (isoformat_utc su Hsu), (isoformat_utc eu Heu). reflexivity.
Qed.

Lemma event_times_are_utc_witness :
  exists su eu,
    start_dt (fst (parse_datetime (Demo.world Demo.reply_tomorrow)
                     (Demo.extracted_state Demo.reply_tomorrow))) = Some su /\
    end_dt (fst (parse_datetime (Demo.world Demo.reply_tomorrow)
                   (Demo.extracted_state Demo.reply_tomorrow))) = Some eu /\
    Fmt.isoformat su = "2026-11-04T09:30:00+00:00" /\
    Fmt.isoformat eu = "2026-11-04T10:00:00+00:00".
Proof.
  destruct (event_times_are_utc (Demo.world Demo.reply_tomorrow)
              (Demo.extracted_state Demo.reply_tomorrow)
              (fst (parse_datetime (Demo.world Demo.reply_tomorrow)
                      (Demo.extracted_state Demo.reply_tomorrow)))
              (snd (parse_datetime (Demo.world Demo.reply_tomorrow)
                      (Demo.extracted_state Demo.reply_tomorrow)))
              eq_refl (surjective_pairing _) eq_refl)
    as (su & eu & H1 & H2 & _).
  exists su, eu. split; [exact H1 |]. split; [exact H2 |].
  vm_compute in H1. inversion H1; subst su.
  vm_compute in H2. inversion H2; subst eu.
  split; vm_compute; reflexivity.
Defined.

(** ** The dates that the date parser returns *)

Lemma convert_key_time (found : Re.groups) (f f' : Strptime.fields) (key : string) :
  key <> "I" -> key <> "M" -> Strptime.convert_key found f key = Ok f' ->
  Strptime.f_hour f' = Strptime.f_hour f /\ Strptime.f_minute f' = Strptime.f_minute f.
Proof.
  intros HI HM. unfold Strptime.convert_key.
  destruct (String.eqb key "I") eqn:EI.
  { apply String.eqb_eq in EI. contradiction. }
  destruct (String.eqb key "M") eqn:EM.
  { apply String.eqb_eq in EM. contradiction. }
  intros H.
  repeat match type of H with
         | (if ?c then _ else _) = _ => destruct c
         end;
    try (case_bind H; [| discriminate]); inversion H; split; reflexivity.
Qed.

Lemma convert_keys_time (found : Re.groups) (keys : list string) (f f' : Strptime.fields) :
  ~ In "I" keys -> ~ In "M" keys -> Strptime.convert_keys found keys f = Ok f' ->
  Strptime.f_hour f' = Strptime.f_hour f /\ Strptime.f_minute f' = Strptime.f_minute f.
Proof.
  revert f. induction keys as [| k keys IH]; simpl; intros f HI HM H.
  - inversion H. split; reflexivity.
  - case_bind H; [| discriminate].
    destruct (IH a ltac:(tauto) ltac:(tauto) H) as (H1 & H2).
    destruct (convert_key_time found f a k) as (H3 & H4); try assumption;
      try (intros ->; tauto).
    split; congruence.
Qed.

Lemma strptime_midnight (s fmt : string) (r : Re.regex) (dt : datetime) :
  Strptime.pattern fmt = Some r -> Re.uniform r = true ->
  ~ In "I" (Re.keys r) -> ~ In "M" (Re.keys r) ->
  Strptime.strptime s fmt = Ok dt ->
  hour dt = 0 /\ minute dt = 0 /\ second dt = 0 /\ microsecond dt = 0.
Proof.
  intros Hp Hu HI HM. unfold Strptime.strptime, Strptime._strptime. rewrite Hp.
  destruct (Re.match_ true r s) as [found |] eqn:Em; [| discriminate].
  destruct (negb _); [discriminate |]. simpl.
  destruct (Strptime.convert_keys _ _ _) as [f |] eqn:Ec; [| discriminate]. simpl.
  assert (Ht : Strptime.f_hour f = Strptime.f_hour Strptime.init_fields /\
               Strptime.f_minute f = Strptime.f_minute Strptime.init_fields).
  { eapply convert_keys_time; [| | exact Ec];
      erewrite run_keys; eauto using match_in_run. }
  destruct Ht as (Hh & Hm). cbn in Hh, Hm.
  destruct (new_date _ _ _); [| discriminate]. simpl.
  destruct (new_date _ _ _); [| discriminate]. simpl.
  intros H. apply new_ok_inv in H. destruct H as [-> _]. simpl.
  repeat split; assumption.
Qed.

Lemma formats_midnight (fmt s : string) (d0 : datetime) :
  In fmt formats -> Strptime.strptime s fmt = Ok d0 ->
  hour d0 = 0 /\ minute d0 = 0 /\ second d0 = 0 /\ microsecond d0 = 0.
Proof.
  intros Hin Hs.
  assert (Ep : exists r0, Strptime.pattern fmt = Some r0 /\ Re.uniform r0 = true /\
                          ~ In "I" (Re.keys r0) /\ ~ In "M" (Re.keys r0)).
  { unfold formats in Hin. cbn [In] in Hin.
    repeat (destruct Hin as [<- | Hin];
            [vm_compute; eexists; split; [reflexivity |]; split; [reflexivity |];
             split; intros H; intuition discriminate |]).
    contradiction. }
  destruct Ep as (r0 & Ep & Hu & HI & HM).
  exact (strptime_midnight s fmt r0 d0 Ep Hu HI HM Hs).
Qed.

Lemma try_format_wf (now : datetime) (s fmt : string) (d : datetime) :
  try_format now s fmt = Ok d -> wf d.
Proof.
  unfold try_format. intros H.
  destruct (Strptime.strptime s fmt) as [d0 |] eqn:Es; [| discriminate H].
  cbn [bind] in H.
  destruct (negb (PyStr.contains "%Y" fmt)).
  - destruct (replace_year d0 (year now)) as [d1 |] eqn:E1; [| discriminate H].
    cbn [bind] in H.
    destruct (date_ltb _ _).
    + apply (new_wf _ _ _ _ _ _ _ _ H).
    + inversion H; subst. apply (new_wf _ _ _ _ _ _ _ _ E1).
  - inversion H; subst. apply (strptime_wf _ _ _ Es).
Qed.

(** X17. Whatever the date parser returns is midnight of a day that exists
    in the calendar, in a year from 1 to 9999: a text that names no real
    day (a 31st of a 30-day month, a 29 February outside a leap year) is
    never returned as a date. *)
Theorem parsed_date_is_a_calendar_day (now : datetime) (s : string) (d : datetime) :
  parse_flexible_date now (Some s) = Ok (Some d) ->
  MINYEAR <= year d <= MAXYEAR /\ 1 <= month d <= 12 /\
  1 <= day d <= days_in_month (year d) (month d) /\
  hour d = 0 /\ minute d = 0 /\ second d = 0 /\ microsecond d = 0.
Proof.
  cbn [parse_flexible_date]. intros H.
  destruct (try_formats_some now s formats d H) as (fmt & Hin & Hf).
  pose proof (try_format_wf now s fmt d Hf) as Hw. apply wf_iff in Hw.
  destruct Hw as ((Hy & Hm & Hd) & _).
  split; [exact Hy |]. split; [exact Hm |]. split; [exact Hd |].
  destruct (try_format_inv now s fmt d Hf) as (d0 & Hs & [(_ & ->) | (_ & ->)]);
    exact (formats_midnight fmt s d0 Hin Hs).
Qed.

Lemma parsed_date_is_a_calendar_day_witness :
  MINYEAR <= 2027 <= MAXYEAR /\ 1 <= 5 <= 12 /\ 1 <= 28 <= days_in_month 2027 5 /\
  0 = 0 /\ 0 = 0 /\ 0 = 0 /\ 0 = 0.
Proof.
  exact (parsed_date_is_a_calendar_day (mkdt 2026 11 3 10 0 0 500) "May 28, 2027"
           (mkdt 2027 5 28 0 0 0 0) eq_refl).
Defined.

(** X18. A date that the date parser takes from the format without a year
    is never in the past and less than a year ahead: it is not before
    today's date and it is before the same day of the next year. Every
    other date that the parser returns is what a format with a year read,
    unchanged. *)
Theorem inferred_date_is_upcoming (now : datetime) (s : string) (d : datetime) :
  parse_flexible_date now (Some s) = Ok (Some d) ->
  (exists fmt,
     In fmt formats /\ PyStr.contains "%Y" fmt = true /\ Strptime.strptime s fmt = Ok d) \/
  (exists d0,
     Strptime.strptime s "%A, %d %B" = Ok d0 /\
     month d = month d0 /\ day d = day d0 /\
     date_ltb (date_of d) (date_of now) = false /\
     date_ltb (date_of d) (year now + 1, month now, day now) = true).
Proof.
  intros H.
  destruct (year_inference now s) as (Hy & _ & _).
  destruct (Hy d H) as (fmt & d0 & Hin & Hs & [(Hc & ->) | (Hc & Hm & Hd & Hyr)]).
  - left. exists fmt. repeat split; assumption.
  - right. exists d0.
    assert (Hfmt : fmt = "%A, %d %B").
    { unfold formats in Hin. cbn [In] in Hin.
      repeat (destruct Hin as [<- | Hin]; [first [reflexivity | discriminate Hc] |]).
      contradiction. }
    subst fmt. split; [exact Hs |]. split; [exact Hm |]. split; [exact Hd |].
    unfold date_of, date_ltb in *. rewrite Hm, Hd.
    destruct ((year now <? year now) ||
              (year now =? year now) &&
              ((month d0 <? month now) ||
               (month d0 =? month now) && (day d0 <? day now))) eqn:E;
      rewrite Hyr; lia.
Qed.

Lemma inferred_date_is_upcoming_witness :
  (exists fmt,
     In fmt formats /\ PyStr.contains "%Y" fmt = true /\
     Strptime.strptime "Monday, 02 November" fmt = Ok (mkdt 2027 11 2 0 0 0 0)) \/
  (exists d0,
     Strptime.strptime "Monday, 02 November" "%A, %d %B" = Ok d0 /\
     11 = month d0 /\ 2 = day d0 /\
     date_ltb (2027, 11, 2) (2026, 11, 3) = false /\
     date_ltb (2027, 11, 2) (2026 + 1, 11, 3) = true).
Proof.
  exact (inferred_date_is_upcoming (mkdt 2026 11 3 10 0 0 500) "Monday, 02 November"
           (mkdt 2027 11 2 0 0 0 0) eq_refl).
Defined.

(** ** The shape of the extracted fields *)

Lemma take_while_nonempty (p : ascii -> bool) (c : ascii) (s : string) :
  p c = true -> take_while p (String c s) <> EmptyString.
Proof. intros H. cbn [take_while]. rewrite H. discriminate. Qed.

Lemma text_after_inv (s v : string) :
  text_after s = Some v -> v <> EmptyString /\ PyStr.all_chars Re.dot v = true.
Proof.
  revert v. induction s as [| c s IH]; intros v H; [discriminate H |].
  cbn [text_after] in H.
  destruct (PyStr.isspace c) eqn:Es.
  - destruct (text_after s) as [v' |].
    + inversion H; subst. apply IH. reflexivity.
    + destruct (Re.dot c) eqn:Ed; [| discriminate H]. inversion H; subst.
      split; [apply take_while_nonempty; exact Ed | apply take_while_all].
  - inversion H; subst.
    split; [apply take_while_nonempty; apply nonspace_dot; exact Es | apply take_while_all].
Qed.

Lemma labelled_inv (label out v : string) :
  labelled label out = Some v -> v <> EmptyString /\ PyStr.all_chars Re.dot v = true.
Proof.
  induction out as [| c out IH]; cbn [labelled]; intros H.
  - destruct (PyStr.startswith label EmptyString); [| discriminate H].
    destruct (text_after _) as [v' |] eqn:Et; [| discriminate H].
    inversion H; subst. apply (text_after_inv _ _ Et).
  - destruct (if PyStr.startswith label (String c out)
              then text_after (skip (String.length label) (String c out)) else None)
      as [v' |] eqn:Et.
    + inversion H; subst.
      destruct (PyStr.startswith label (String c out)); [| discriminate Et].
      apply (text_after_inv _ _ Et).
    + apply IH. exact H.
Qed.

Lemma lstrip_all (p : ascii -> bool) (s : string) :
  PyStr.all_chars p s = true -> PyStr.all_chars p (PyStr.lstrip s) = true.
Proof.
  induction s as [| c s IH]; [reflexivity |]. cbn [PyStr.lstrip PyStr.all_chars].
  intros H. apply andb_prop in H. destruct H as [Hc Hs].
  destruct (PyStr.isspace c); [apply IH; exact Hs |].
  cbn [PyStr.all_chars]. rewrite Hc, Hs. reflexivity.
Qed.

Lemma rstrip_all (p : ascii -> bool) (s : string) :
  PyStr.all_chars p s = true -> PyStr.all_chars p (PyStr.rstrip s) = true.
Proof.
  induction s as [| c s IH]; [reflexivity |]. cbn [PyStr.rstrip PyStr.all_chars].
  intros H. apply andb_prop in H. destruct H as [Hc Hs]. specialize (IH Hs).
  destruct (PyStr.rstrip s) as [| c' r].
  - destruct (PyStr.isspace c); [reflexivity |]. cbn [PyStr.all_chars]. rewrite Hc. reflexivity.
  - cbn [PyStr.all_chars] in *. rewrite Hc, IH. reflexivity.
Qed.

Lemma rstrip_cons (c : ascii) (s : string) :
  PyStr.rstrip (String c s) =
  match PyStr.rstrip s with
  | EmptyString => if PyStr.isspace c then EmptyString else String c EmptyString
  | r => String c r
  end.
Proof. reflexivity. Qed.

Lemma rstrip_idem (s : string) : PyStr.rstrip (PyStr.rstrip s) = PyStr.rstrip s.
Proof.
  induction s as [| c s IH]; [reflexivity |]. rewrite rstrip_cons.
  destruct (PyStr.rstrip s) as [| c' r] eqn:Er.
  - destruct (PyStr.isspace c) eqn:Ec; [reflexivity |].
    rewrite rstrip_cons. cbn [PyStr.rstrip]. rewrite Ec. reflexivity.
  - rewrite rstrip_cons, IH. reflexivity.
Qed.

Lemma rstrip_head (c : ascii) (s : string) :
  PyStr.isspace c = false -> exists r, PyStr.rstrip (String c s) = String c r.
Proof.
  intros Hc. rewrite rstrip_cons. destruct (PyStr.rstrip s) as [| c' r].
  - rewrite Hc. eexists. reflexivity.
  - eexists. reflexivity.
Qed.

Lemma lstrip_head (s : string) :
  PyStr.lstrip s = EmptyString \/
  exists c r, PyStr.lstrip s = String c r /\ PyStr.isspace c = false.
Proof.
  induction s as [| c s IH]; [left; reflexivity |]. cbn [PyStr.lstrip].
  destruct (PyStr.isspace c) eqn:Ec; [exact IH |]. right. exists c, s. split; trivial.
Qed.

(** [strip] leaves nothing to strip. *)
Lemma strip_idem (s : string) : PyStr.strip (PyStr.strip s) = PyStr.strip s.
Proof.
  unfold PyStr.strip. destruct (lstrip_head s) as [-> | (c & r & -> & Hc)]; [reflexivity |].
  destruct (rstrip_head c r Hc) as (r' & Hr). rewrite Hr.
  cbn [PyStr.lstrip]. rewrite Hc. rewrite <- Hr. apply rstrip_idem.
Qed.

Lemma strip_all (p : ascii -> bool) (s : string) :
  PyStr.all_chars p s = true -> PyStr.all_chars p (PyStr.strip s) = true.
Proof. intros H. unfold PyStr.strip. apply rstrip_all, lstrip_all, H. Qed.

Lemma int_acc_nonneg (s : string) :
  PyStr.all_chars PyStr.isdigit s = true -> forall acc, 0 <= acc -> 0 <= PyStr.int_acc acc s.
Proof.
  induction s as [| c s IH]; intros H acc Ha; [exact Ha |].
  cbn [PyStr.all_chars] in H. apply andb_prop in H. destruct H as [Hc Hs].
  cbn [PyStr.int_acc]. apply (IH Hs).
  unfold PyStr.isdigit, PyStr.in_range in Hc. unfold PyStr.digit_val.
  change (PyStr.ord "0") with 48 in Hc. lia.
Qed.

Lemma duration_nonneg (out : string) : 0 <= duration out.
Proof.
  unfold duration. destruct (duration_digits out) as [ds |] eqn:E; [| lia].
  destruct (duration_digits_digits out ds E) as (_ & Hd).
  apply (int_acc_nonneg ds Hd). lia.
Qed.

Lemma text_after_none (s : string) :
  text_after s = None -> PyStr.all_chars PyStr.isspace s = true.
Proof.
  induction s as [| c s IH]; [reflexivity |]. cbn [text_after PyStr.all_chars].
  destruct (PyStr.isspace c); [| discriminate].
  destruct (text_after s); [discriminate |]. intros _. apply IH. reflexivity.
Qed.

(** The text after a label starts with a character that is not white
    space, unless nothing but white space follows the label. *)
Lemma text_after_head (s v : string) :
  text_after s = Some v ->
  (exists c r, v = String c r /\ PyStr.isspace c = false) \/
  (PyStr.all_chars PyStr.isspace s = true /\ s <> EmptyString).
Proof.
  revert v. induction s as [| c s IH]; intros v H; [discriminate H |].
  cbn [text_after] in H. destruct (PyStr.isspace c) eqn:Es.
  - destruct (text_after s) as [v' |] eqn:Et.
    + inversion H; subst. destruct (IH v eq_refl) as [Hh | (Hall & _)]; [left; exact Hh |].
      right. split; [| discriminate]. cbn [PyStr.all_chars]. rewrite Es, Hall. reflexivity.
    + right. split; [| discriminate]. cbn [PyStr.all_chars].
      rewrite Es, (text_after_none s Et). reflexivity.
  - inversion H; subst. left. unfold line_of. cbn [take_while].
    rewrite (nonspace_dot c Es). eexists. eexists. split; [reflexivity | exact Es].
Qed.

Lemma startswith_skip (label s : string) :
  PyStr.startswith label s = true -> s = label ++ skip (String.length label) s.
Proof.
  revert s. induction label as [| a label IH]; intros s H; [reflexivity |].
  destruct s as [| c s]; [discriminate H |]. cbn [PyStr.startswith] in H.
  apply andb_prop in H. destruct H as [Hc Hs]. apply Ascii.eqb_eq in Hc. subst c.
  cbn [String.length skip append]. f_equal. apply IH. exact Hs.
Qed.

Lemma labelled_suffix (label out v : string) :
  labelled label out = Some v ->
  exists pre s, out = pre ++ s /\ text_after s = Some v.
Proof.
  induction out as [| c out IH]; cbn [labelled]; intros H.
  - destruct (PyStr.startswith label EmptyString) eqn:Es; [| discriminate H].
    destruct (text_after _) as [v' |] eqn:Et; [| discriminate H].
    inversion H; subst. exists label, (skip (String.length label) EmptyString).
    split; [apply startswith_skip; exact Es | exact Et].
  - destruct (PyStr.startswith label (String c out)) eqn:Es.
    + destruct (text_after (skip (String.length label) (String c out))) as [v' |] eqn:Et.
      * inversion H; subst. exists label, (skip (String.length label) (String c out)).
        split; [apply startswith_skip; exact Es | exact Et].
      * destruct (IH H) as (pre & s & -> & Hs). exists (String c pre), s.
        split; [reflexivity | exact Hs].
    + destruct (IH H) as (pre & s & -> & Hs). exists (String c pre), s.
      split; [reflexivity | exact Hs].
Qed.

Lemma rstrip_spaces (s : string) :
  PyStr.all_chars PyStr.isspace s = true -> PyStr.rstrip s = EmptyString.
Proof.
  induction s as [| c s IH]; [reflexivity |]. cbn [PyStr.all_chars]. intros H.
  apply andb_prop in H. destruct H as [Hc Hs]. rewrite rstrip_cons, (IH Hs), Hc.
  reflexivity.
Qed.

Lemma rstrip_app_spaces (pre s : string) :
  PyStr.all_chars PyStr.isspace s = true -> PyStr.rstrip (pre ++ s) = PyStr.rstrip pre.
Proof.
  intros Hs. induction pre as [| c pre IH]; [apply rstrip_spaces; exact Hs |].
  cbn [append]. rewrite !rstrip_cons, IH. reflexivity.
Qed.

Lemma rstrip_length (s : string) : (String.length (PyStr.rstrip s) <= String.length s)%nat.
Proof.
  induction s as [| c s IH]; [cbn; lia |]. rewrite rstrip_cons.
  destruct (PyStr.rstrip s) as [| c' r].
  - destruct (PyStr.isspace c); cbn; lia.
  - cbn [String.length] in *. lia.
Qed.

Lemma labelled_head (label out v : string) :
  PyStr.rstrip out = out -> labelled label out = Some v ->
  exists c r, v = String c r /\ PyStr.isspace c = false.
Proof.
  intros Hr Hl. destruct (labelled_suffix _ _ _ Hl) as (pre & s & -> & Ht).
  destruct (text_after_head _ _ Ht) as [Hh | (Hall & Hne)]; [exact Hh |].
  exfalso. rewrite (rstrip_app_spaces pre s Hall) in Hr.
  pose proof (rstrip_length pre) as Hlen. rewrite Hr, append_length in Hlen.
  destruct s; [congruence | cbn in Hlen; lia].
Qed.

Lemma strip_nonempty (c : ascii) (r : string) :
  PyStr.isspace c = false -> PyStr.strip (String c r) <> EmptyString.
Proof.
  intros Hc. unfold PyStr.strip. cbn [PyStr.lstrip]. rewrite Hc.
  destruct (rstrip_head c r Hc) as (r' & ->). discriminate.
Qed.

(** X19. What the response parser stores has a fixed shape: the title, the
    date text, the time text and the priority are each one line (no line
    feed) without white space at either end, and the duration is not
    negative; and when the reply has no white space at its end, none of
    the four texts is empty. The reply that the first stage stores, being
    stripped, has none. *)
Theorem extracted_fields_shape (st st' : SchedulerState) (effs : list effect) :
  has_error st = false ->
  parse_ai_response st = (st', effs) ->
  has_error st' = false ->
  exists title date_s time_s n prio,
    task_title st' = Some title /\ scheduled_date_str st' = Some date_s /\
    scheduled_time_str st' = Some time_s /\ duration_minutes st' = Some n /\
    parsed_priority st' = Some prio /\
    (forall x, In x [title; date_s; time_s; prio] ->
       PyStr.all_chars Re.dot x = true /\ PyStr.strip x = x) /\
    0 <= n /\
    (forall out, output st = Some out -> PyStr.rstrip out = out ->
       forall x, In x [title; date_s; time_s; prio] -> x <> EmptyString) /\
    (forall content, PyStr.rstrip (PyStr.strip content) = PyStr.strip content).
Proof.
  intros He Hp Hok.
  pose proof (parse_success st He) as Hs. rewrite Hp in Hs. cbn [fst] in Hs.
  destruct (Hs Hok) as (title & date_s & time_s & n & prio & Hx & Heq).
  inversion Heq; subst st' effs. clear Heq Hs.
  exists title, date_s, time_s, n, prio. repeat (split; [reflexivity |]).
  destruct (output st) as [out |]; [| discriminate Hx].
  rewrite extract_fields_reading in Hx.
  destruct out as [| c out']; [discriminate Hx |].
  destruct (labelled "Task:" _) as [t |] eqn:E1; [| discriminate Hx].
  destruct (labelled "Date:" _) as [d |] eqn:E2; [| discriminate Hx].
  destruct (labelled "Time:" _) as [ti |] eqn:E3; [| discriminate Hx].
  destruct (duration_of (String c out')) as [dur |] eqn:Ed; [| discriminate Hx].
  assert (Hdur : 0 <= dur).
  { rewrite duration_of_reading in Ed.
    pose proof (duration_nonneg (String c out')) as Hn.
    destruct (duration_digits (String c out')) as [ds |];
      [destruct (4300 <? Z.of_nat (String.length ds)); [discriminate Ed |] |];
      inversion Ed; subst dur; [exact Hn | lia]. }
  cbn [bind] in Hx. inversion Hx; subst. clear Hx.
  rewrite priority_of_reading.
  split; [| split; [exact Hdur | split; [| intros content; apply rstrip_idem]]].
  - intros x Hin. cbn [In] in Hin.
    destruct Hin as [<- | [<- | [<- | [<- | []]]]];
      try (split; [apply strip_all; eapply labelled_inv; eassumption | apply strip_idem]).
    destruct (labelled "Priority:" _) as [p |] eqn:E4.
    + split; [apply strip_all; eapply labelled_inv; eassumption | apply strip_idem].
    + split; reflexivity.
  - intros out Ho Hr x Hin. inversion Ho; subst out. cbn [In] in Hin.
    destruct Hin as [<- | [<- | [<- | [<- | []]]]].
    + destruct (labelled_head _ _ _ Hr E1) as (a & r & -> & Ha). apply strip_nonempty, Ha.
    + destruct (labelled_head _ _ _ Hr E2) as (a & r & -> & Ha). apply strip_nonempty, Ha.
    + destruct (labelled_head _ _ _ Hr E3) as (a & r & -> & Ha). apply strip_nonempty, Ha.
    + destruct (labelled "Priority:" _) as [p |] eqn:E4; [| discriminate].
      destruct (labelled_head _ _ _ Hr E4) as (a & r & -> & Ha). apply strip_nonempty, Ha.
Qed.

Lemma extracted_fields_shape_witness :
  exists title date_s time_s n prio,
    task_title (fst (parse_ai_response (Demo.state_with_output Demo.reply_blank_labels)))
    = Some title /\
    scheduled_date_str
      (fst (parse_ai_response (Demo.state_with_output Demo.reply_blank_labels)))
    = Some date_s /\
    scheduled_time_str
      (fst (parse_ai_response (Demo.state_with_output Demo.reply_blank_labels)))
    = Some time_s /\
    duration_minutes
      (fst (parse_ai_response (Demo.state_with_output Demo.reply_blank_labels)))
    = Some n /\
    parsed_priority
      (fst (parse_ai_response (Demo.state_with_output Demo.reply_blank_labels)))
    = Some prio /\
    (forall x, In x [title; date_s; time_s; prio] ->
       PyStr.all_chars Re.dot x = true /\ PyStr.strip x = x) /\
    0 <= n /\
    (forall out,
       output (Demo.state_with_output Demo.reply_blank_labels) = Some out ->
       PyStr.rstrip out = out ->
       forall x, In x [title; date_s; time_s; prio] -> x <> EmptyString) /\
    (forall content, PyStr.rstrip (PyStr.strip content) = PyStr.strip content).
Proof.
  exact (extracted_fields_shape (Demo.state_with_output Demo.reply_blank_labels)
           (fst (parse_ai_response (Demo.state_with_output Demo.reply_blank_labels)))
           (snd (parse_ai_response (Demo.state_with_output Demo.reply_blank_labels)))
           eq_refl (surjective_pairing _) eq_refl).
Defined.

(** ** What a pattern says of its matches *)

Lemma all_chars_impl (p q : ascii -> bool) (s : string) :
  (forall c, p c = true -> q c = true) ->
  PyStr.all_chars p s = true -> PyStr.all_chars q s = true.
Proof.
  intros Hpq. induction s as [| c s IH]; [reflexivity |]. cbn [PyStr.all_chars].
  intros H. apply andb_prop in H. destruct H as [Hc Hs].
  rewrite (Hpq c Hc), (IH Hs). reflexivity.
Qed.

Lemma all_chars_app (p : ascii -> bool) (a b : string) :
  PyStr.all_chars p (a ++ b) = PyStr.all_chars p a && PyStr.all_chars p b.
Proof.
  induction a as [| c a IH]; [reflexivity |]. cbn [append PyStr.all_chars].
  rewrite IH, andb_assoc. reflexivity.
Qed.

Lemma lit_match_shape (ic : bool) (l s m r : string) :
  Re.lit_match ic l s = Some (m, r) ->
  String.length m = String.length l /\ PyStr.all_chars (Shape.lit_has ic l) m = true.
Proof.
  revert s m r. induction l as [| a l IH]; intros s m r H.
  - cbn in H. inversion H; subst. split; reflexivity.
  - destruct s as [| c s]; [discriminate H |]. cbn [Re.lit_match] in H.
    destruct (Re.chr_eqb ic a c) eqn:Ec; [| discriminate H].
    destruct (Re.lit_match ic l s) as [[m' r'] |] eqn:El; [| discriminate H].
    inversion H; subst. destruct (IH _ _ _ El) as (Hlen & Hall).
    split; [cbn; rewrite Hlen; reflexivity |].
    cbn [PyStr.all_chars Shape.lit_has]. rewrite Ec. cbn [orb andb].
    apply (all_chars_impl (Shape.lit_has ic l)); [| exact Hall].
    intros x Hx. rewrite Hx. apply orb_true_r.
Qed.

(** The characters and the length of what a hit matched. *)
Lemma run_shape (ic : bool) (r : Re.regex) :
  forall s h, In h (Re.run ic r s) ->
  PyStr.all_chars (Shape.may_hold ic r) (Re.matched h) = true /\
  (Shape.min_len r <= String.length (Re.matched h))%nat /\
  (forall n, Shape.max_len r = Some n -> (String.length (Re.matched h) <= n)%nat).
Proof.
  induction r as [l | cs | cs | cs | r1 IH1 r2 IH2 | r1 IH1 r2 IH2 | name r IH];
    intros s h H.
  - cbn [Re.run] in H.
    destruct (Re.lit_match ic l s) as [[m r] |] eqn:El; [| destruct H].
    destruct H as [<- | []]. destruct (lit_match_shape _ _ _ _ _ El) as (Hlen & Hall).
    cbn [Re.matched Re.plain fst Shape.may_hold Shape.min_len Shape.max_len].
    split; [exact Hall |]. split; [lia |]. intros n Hn. inversion Hn. lia.
  - cbn [Re.run] in H. destruct s as [| c s]; [destruct H |].
    destruct (Re.mem cs c) eqn:Em; [| destruct H]. destruct H as [<- | []].
    cbn [Re.matched Shape.may_hold Shape.min_len Shape.max_len PyStr.all_chars String.length].
    rewrite Em. split; [reflexivity |]. split; [lia |]. intros n Hn. inversion Hn. lia.
  - cbn [Re.run] in H. apply in_map_iff in H. destruct H as ([m r] & <- & Hin).
    destruct (star_hits_sound _ _ _ _ Hin) as (_ & Hall).
    cbn [Re.matched Re.plain fst Shape.may_hold Shape.min_len Shape.max_len].
    split; [exact Hall |]. split; [lia |]. intros n Hn. discriminate Hn.
  - cbn [Re.run] in H. apply in_map_iff in H. destruct H as ([m r] & <- & Hin).
    destruct (plus_hits_sound _ _ _ _ Hin) as (_ & Hall & Hne).
    cbn [Re.matched Re.plain fst Shape.may_hold Shape.min_len Shape.max_len].
    split; [exact Hall |]. split; [| intros n Hn; discriminate Hn].
    destruct m; [congruence | cbn; lia].
  - apply run_seq_inv in H. destruct H as (h1 & h2 & H1 & H2 & -> & _).
    destruct (IH1 _ _ H1) as (A1 & L1 & U1). destruct (IH2 _ _ H2) as (A2 & L2 & U2).
    cbn [Shape.may_hold Shape.min_len Shape.max_len]. rewrite all_chars_app, append_length.
    split; [| split].
    + apply andb_true_intro. split.
      * apply (all_chars_impl _ _ _ (fun c Hc => orb_true_intro _ _ (or_introl Hc)) A1).
      * apply (all_chars_impl _ _ _ (fun c Hc => orb_true_intro _ _ (or_intror Hc)) A2).
    + lia.
    + intros n Hn. destruct (Shape.max_len r1) as [a |]; [| discriminate Hn].
      destruct (Shape.max_len r2) as [b |]; [| discriminate Hn]. inversion Hn.
      pose proof (U1 a eq_refl). pose proof (U2 b eq_refl). lia.
  - cbn [Re.run] in H. apply in_app_or in H.
    cbn [Shape.may_hold Shape.min_len Shape.max_len].
    destruct H as [H | H]; [destruct (IH1 _ _ H) as (A & L & U)
                           | destruct (IH2 _ _ H) as (A & L & U)].
    + split; [| split].
      * apply (all_chars_impl _ _ _ (fun c Hc => orb_true_intro _ _ (or_introl Hc)) A).
      * lia.
      * intros n Hn. destruct (Shape.max_len r1) as [a |]; [| discriminate Hn].
        destruct (Shape.max_len r2) as [b |]; [| discriminate Hn]. inversion Hn.
        pose proof (U a eq_refl). lia.
    + split; [| split].
      * apply (all_chars_impl _ _ _ (fun c Hc => orb_true_intro _ _ (or_intror Hc)) A).
      * lia.
      * intros n Hn. destruct (Shape.max_len r1) as [a |]; [| discriminate Hn].
        destruct (Shape.max_len r2) as [b |]; [| discriminate Hn]. inversion Hn.
        pose proof (U b eq_refl). lia.
  - apply run_group_inv in H. destruct H as (h' & Hin & Hm & _). rewrite Hm.
    apply (IH _ _ Hin).
Qed.

(** ** Telling the date formats apart *)

Ltac by_bits c :=
  destruct c as [[] [] [] [] [] [] [] []]; vm_compute;
  first [ reflexivity | discriminate | congruence
        | let H := fresh in intros H; first [reflexivity | discriminate H | congruence] ].

Lemma alpha_not_digit (c : ascii) : Shape.is_alpha c = true -> PyStr.isdigit c = false.
Proof. by_bits c. Qed.

Lemma digit_not_alpha (c : ascii) : PyStr.isdigit c = true -> Shape.is_alpha c = false.
Proof. by_bits c. Qed.

Lemma first_other_app (p q : string) :
  PyStr.all_chars Shape.is_alpha p = true ->
  Shape.first_other (p ++ q) = Shape.first_other q.
Proof.
  induction p as [| c p IH]; [reflexivity |]. cbn [PyStr.all_chars append Shape.first_other].
  intros H. apply andb_prop in H. destruct H as [Hc Hp]. rewrite Hc. apply IH, Hp.
Qed.

Lemma app_nonempty_r (p q : string) : q <> EmptyString -> p ++ q <> EmptyString.
Proof. destruct p; [trivial | discriminate]. Qed.

Lemma app_nonempty_l (p q : string) : p <> EmptyString -> p ++ q <> EmptyString.
Proof. destruct p; [congruence | discriminate]. Qed.

Lemma last_char_cons (c : ascii) (s : string) :
  s <> EmptyString -> Shape.last_char (String c s) = Shape.last_char s.
Proof. destruct s; [congruence | reflexivity]. Qed.

Lemma last_char_app (p q : string) :
  q <> EmptyString -> Shape.last_char (p ++ q) = Shape.last_char q.
Proof.
  intros Hq. induction p as [| c p IH]; [reflexivity |].
  cbn [append]. rewrite last_char_cons by (apply app_nonempty_r; exact Hq). exact IH.
Qed.

Lemma last_char_all (p : ascii -> bool) (s : string) :
  PyStr.all_chars p s = true -> s <> EmptyString ->
  exists c, Shape.last_char s = Some c /\ p c = true.
Proof.
  induction s as [| c s IH]; [congruence |]. cbn [PyStr.all_chars]. intros H _.
  apply andb_prop in H. destruct H as [Hc Hs].
  destruct s as [| c' s'].
  - exists c. split; [reflexivity | exact Hc].
  - destruct (IH Hs ltac:(discriminate)) as (x & Hx & Hp). exists x.
    split; [rewrite last_char_cons by discriminate; exact Hx | exact Hp].
Qed.

Lemma has_app (p : ascii -> bool) (a b : string) :
  Shape.has p (a ++ b) = Shape.has p a || Shape.has p b.
Proof.
  induction a as [| c a IH]; [reflexivity |]. cbn [append Shape.has].
  rewrite IH, orb_assoc. reflexivity.
Qed.

Lemma has_all (p : ascii -> bool) (s : string) :
  PyStr.all_chars p s = true -> s <> EmptyString -> Shape.has p s = true.
Proof.
  destruct s as [| c s]; [congruence |]. cbn [PyStr.all_chars Shape.has]. intros H _.
  apply andb_prop in H. destruct H as [-> _]. reflexivity.
Qed.

Lemma has_none (p q : ascii -> bool) (s : string) :
  (forall c, q c = true -> p c = false) ->
  PyStr.all_chars q s = true -> Shape.has p s = false.
Proof.
  intros Hqp. induction s as [| c s IH]; [reflexivity |]. cbn [PyStr.all_chars Shape.has].
  intros H. apply andb_prop in H. destruct H as [Hc Hs]. rewrite (Hqp c Hc), (IH Hs).
  reflexivity.
Qed.

Lemma starts_alpha_has (s : string) :
  Shape.has Shape.is_alpha s = false -> Shape.starts_alpha s = false.
Proof.
  destruct s as [| c s]; [reflexivity |]. cbn [Shape.has Shape.starts_alpha].
  intros H. apply orb_false_elim in H. apply H.
Qed.

Lemma starts_alpha_app (p q : string) :
  PyStr.all_chars Shape.is_alpha p = true -> p <> EmptyString ->
  Shape.starts_alpha (p ++ q) = true.
Proof.
  destruct p as [| c p]; [congruence |]. cbn [PyStr.all_chars append Shape.starts_alpha].
  intros H _. apply andb_prop in H. apply H.
Qed.

Lemma starts_other_app (f : ascii -> bool) (p q : string) :
  (forall c, f c = true -> Shape.is_alpha c = false) ->
  PyStr.all_chars f p = true -> p <> EmptyString ->
  Shape.starts_alpha (p ++ q) = false.
Proof.
  intros Hf. destruct p as [| c p]; [congruence |].
  cbn [PyStr.all_chars append Shape.starts_alpha].
  intros H _. apply andb_prop in H. destruct H as [Hc _]. apply Hf, Hc.
Qed.

Lemma before_app (c : ascii) (f : ascii -> bool) (p r : string) :
  (forall a, f a = true -> Ascii.eqb a c = false) ->
  PyStr.all_chars f p = true ->
  Shape.before c (p ++ String c r) = String.length p.
Proof.
  intros Hf. induction p as [| a p IH].
  - intros _. cbn [append Shape.before]. rewrite Ascii.eqb_refl. reflexivity.
  - cbn [PyStr.all_chars append Shape.before String.length]. intros H.
    apply andb_prop in H. destruct H as [Ha Hp]. rewrite (Hf a Ha), (IH Hp). reflexivity.
Qed.

Lemma nonempty_of_min (s : string) (n : nat) :
  (S n <= String.length s)%nat -> s <> EmptyString.
Proof. destruct s; [cbn; lia | discriminate]. Qed.

Lemma to_lower_other (a c : ascii) :
  PyStr.to_lower a = c -> Shape.is_alpha c = false -> a = c.
Proof.
  intros <-. destruct a as [[] [] [] [] [] [] [] []]; vm_compute;
    first [reflexivity | discriminate].
Qed.

(** A literal of one character that is no letter matches only itself. *)
Lemma run_chr_inv (c : ascii) (s : string) (h : Re.hit) :
  Shape.is_alpha c = false ->
  In h (Re.run true (Re.chr c) s) -> Re.matched h = String c EmptyString.
Proof.
  intros Hc H. apply run_lit_inv in H.
  destruct (Re.matched h) as [| a [| a' m]]; try discriminate H.
  cbn [PyStr.lower] in H. inversion H as [Ha].
  assert (Shape.is_alpha (PyStr.to_lower c) = false) as Hc'.
  { revert Hc. by_bits c. }
  rewrite (to_lower_other a (PyStr.to_lower c) Ha Hc').
  f_equal. symmetry. apply (to_lower_other c (PyStr.to_lower c) eq_refl Hc').
Qed.

Lemma strptime_hit (s fmt : string) (d : datetime) :
  Strptime.strptime s fmt = Ok d ->
  exists R h, Strptime.pattern fmt = Some R /\ In h (Re.run true R s) /\
              s = Re.matched h.
Proof.
  intros H. destruct (strptime_ok_inv _ _ _ H) as (_ & _ & R & h & HR & Hm & Hrest).
  exists R, h. split; [exact HR |].
  pose proof (match_in_run _ _ _ _ Hm) as Hin. split; [exact Hin |].
  rewrite (run_sound _ _ _ _ Hin) at 1. rewrite Hrest. apply string_app_nil.
Qed.

Ltac seq_step H h1 H1 h2 :=
  apply run_seq_inv in H;
  let Hm := fresh "Hm" in
  destruct H as (h1 & h2 & H1 & H & Hm & _);
  rewrite Hm; clear Hm.

(** The characters of a piece, from those its pattern can hold. *)
Ltac piece_chars H x Q name :=
  assert (name : PyStr.all_chars Q (Re.matched x) = true);
  [ eapply all_chars_impl; [| exact (proj1 (run_shape true _ _ _ H))];
    let c := fresh "c" in intros c; by_bits c
  | ].

Ltac piece_nonempty H x name :=
  assert (name : Re.matched x <> EmptyString);
  [ apply (nonempty_of_min _ 0);
    etransitivity; [| exact (proj1 (proj2 (run_shape true _ _ _ H)))];
    vm_compute; lia
  | ].

Lemma shape_weekday_year (s : string) (d : datetime) :
  Strptime.strptime s "%A, %d %B %Y" = Ok d -> Shape.format_of s = "%A, %d %B %Y".
Proof.
  intros H. destruct (strptime_hit _ _ _ H) as (R & h & HR & Hin & ->). clear H.
  vm_compute in HR. inversion HR; subst R. clear HR.
  seq_step Hin xA HA t1. seq_step Hin xc Hc t2. seq_step Hin xw1 Hw1 t3.
  seq_step Hin xd Hd t4. seq_step Hin xw2 Hw2 t5. seq_step Hin xB HB t6.
  seq_step Hin xw3 Hw3 xY.
  rewrite (run_chr_inv "," _ _ eq_refl Hc).
  piece_chars HA xA Shape.is_alpha AA. piece_nonempty HA xA NA.
  piece_chars Hin xY PyStr.isdigit AY. piece_nonempty Hin xY NY.
  unfold Shape.format_of.
  rewrite (starts_alpha_app _ _ AA NA), (first_other_app _ _ AA).
  cbn [append Shape.first_other]. change (Shape.is_alpha ",") with false. cbv iota.
  rewrite (last_char_app (Re.matched xA)) by discriminate.
  change (String "," (Re.matched xw1 ++ Re.matched xd ++ Re.matched xw2 ++
                      Re.matched xB ++ Re.matched xw3 ++ Re.matched xY))
    with ("," ++ Re.matched xw1 ++ Re.matched xd ++ Re.matched xw2 ++
          Re.matched xB ++ Re.matched xw3 ++ Re.matched xY).
  repeat rewrite last_char_app by (repeat apply app_nonempty_r; exact NY).
  destruct (last_char_all _ _ AY NY) as (c & -> & ->). reflexivity.
Qed.

Lemma shape_weekday (s : string) (d : datetime) :
  Strptime.strptime s "%A, %d %B" = Ok d -> Shape.format_of s = "%A, %d %B".
Proof.
  intros H. destruct (strptime_hit _ _ _ H) as (R & h & HR & Hin & ->). clear H.
  vm_compute in HR. inversion HR; subst R. clear HR.
  seq_step Hin xA HA t1. seq_step Hin xc Hc t2. seq_step Hin xw1 Hw1 t3.
  seq_step Hin xd Hd t4. seq_step Hin xw2 Hw2 xB.
  rewrite (run_chr_inv "," _ _ eq_refl Hc).
  piece_chars HA xA Shape.is_alpha AA. piece_nonempty HA xA NA.
  piece_chars Hin xB Shape.is_alpha AB. piece_nonempty Hin xB NB.
  unfold Shape.format_of.
  rewrite (starts_alpha_app _ _ AA NA), (first_other_app _ _ AA).
  cbn [append Shape.first_other]. change (Shape.is_alpha ",") with false. cbv iota.
  rewrite (last_char_app (Re.matched xA)) by discriminate.
  change (String "," (Re.matched xw1 ++ Re.matched xd ++ Re.matched xw2 ++ Re.matched xB))
    with ("," ++ Re.matched xw1 ++ Re.matched xd ++ Re.matched xw2 ++ Re.matched xB).
  repeat rewrite last_char_app by (repeat apply app_nonempty_r; exact NB).
  destruct (last_char_all _ _ AB NB) as (c & -> & Hc'). rewrite (alpha_not_digit c Hc').
  reflexivity.
Qed.

Lemma space_first_other (c : ascii) (r X Y : string) :
  PyStr.isspace c = true ->
  match Shape.first_other (String c r) with
  | Some ","%char => X
  | _ => Y
  end = Y.
Proof.
  intros H. cbn [Shape.first_other].
  destruct c as [[] [] [] [] [] [] [] []]; vm_compute in H; try discriminate H;
    reflexivity.
Qed.

Lemma shape_month_first (s : string) (d : datetime) :
  Strptime.strptime s "%B %d, %Y" = Ok d -> Shape.format_of s = "%B %d, %Y".
Proof.
  intros H. destruct (strptime_hit _ _ _ H) as (R & h & HR & Hin & ->). clear H.
  vm_compute in HR. inversion HR; subst R. clear HR.
  seq_step Hin xB HB t1. seq_step Hin xw1 Hw1 t2.
  piece_chars HB xB Shape.is_alpha AB. piece_nonempty HB xB NB.
  piece_chars Hw1 xw1 PyStr.isspace AW. piece_nonempty Hw1 xw1 NW.
  unfold Shape.format_of.
  rewrite (starts_alpha_app _ _ AB NB), (first_other_app _ _ AB).
  destruct (Re.matched xw1) as [| c w]; [congruence |].
  cbn [PyStr.all_chars] in AW. apply andb_prop in AW. destruct AW as [Hc _].
  cbn [append]. apply space_first_other. exact Hc.
Qed.

Lemma date_char_not_alpha (c : ascii) :
  PyStr.isdigit c || Ascii.eqb c " " || Ascii.eqb c "/" || Ascii.eqb c "-" = true ->
  Shape.is_alpha c = false.
Proof. by_bits c. Qed.

Lemma day_char_not_alpha (c : ascii) :
  PyStr.isdigit c || Ascii.eqb c " " = true -> Shape.is_alpha c = false.
Proof. by_bits c. Qed.

Lemma day_char_not_hyphen (c : ascii) :
  PyStr.isdigit c || Ascii.eqb c " " = true -> Ascii.eqb c "-" = false.
Proof. by_bits c. Qed.

Lemma digit_not_hyphen (c : ascii) : PyStr.isdigit c = true -> Ascii.eqb c "-" = false.
Proof. by_bits c. Qed.

Lemma hyphen_char_not_slash (c : ascii) :
  PyStr.isdigit c || Ascii.eqb c " " || Ascii.eqb c "-" = true -> Ascii.eqb "/" c = false.
Proof. by_bits c. Qed.

Lemma hyphen_char_not_alpha (c : ascii) :
  PyStr.isdigit c || Ascii.eqb c " " || Ascii.eqb c "-" = true -> Shape.is_alpha c = false.
Proof. by_bits c. Qed.

Lemma slash_char_not_alpha (c : ascii) :
  PyStr.isdigit c || Ascii.eqb c " " || Ascii.eqb c "/" = true -> Shape.is_alpha c = false.
Proof. by_bits c. Qed.


Lemma shape_day_first (s : string) (d : datetime) :
  Strptime.strptime s "%d %B %Y" = Ok d -> Shape.format_of s = "%d %B %Y".
Proof.
  intros H. destruct (strptime_hit _ _ _ H) as (R & h & HR & Hin & ->). clear H.
  vm_compute in HR. inversion HR; subst R. clear HR.
  seq_step Hin xd Hd t1. seq_step Hin xw1 Hw1 t2. seq_step Hin xB HB t3.
  piece_chars Hd xd (fun c => PyStr.isdigit c || Ascii.eqb c " ") AD.
  piece_nonempty Hd xd ND.
  piece_chars HB xB Shape.is_alpha AB. piece_nonempty HB xB NB.
  unfold Shape.format_of.
  rewrite (starts_other_app _ _ _ day_char_not_alpha AD ND).
  rewrite !has_app, (has_all _ _ AB NB). rewrite !orb_true_r. reflexivity.
Qed.

Lemma shape_slashes (s : string) (d : datetime) :
  Strptime.strptime s "%m/%d/%Y" = Ok d -> Shape.format_of s = "%m/%d/%Y".
Proof.
  intros H. destruct (strptime_hit _ _ _ H) as (R & h & HR & Hin & ->). clear H.
  vm_compute in HR. inversion HR; subst R. clear HR.
  piece_chars Hin h (fun c => PyStr.isdigit c || Ascii.eqb c " " || Ascii.eqb c "/") AH.
  unfold Shape.format_of.
  assert (E1 : Shape.has Shape.is_alpha (Re.matched h) = false).
  { apply (has_none _ _ _ slash_char_not_alpha AH). }
  rewrite (starts_alpha_has _ E1), E1.
  seq_step Hin xm Hm' t1. seq_step Hin xc Hc t2.
  rewrite (run_chr_inv "/" _ _ eq_refl Hc).
  rewrite !has_app. cbn [Shape.has]. rewrite Ascii.eqb_refl. cbn [orb].
  rewrite orb_true_r. reflexivity.
Qed.

Lemma piece_length (r : Re.regex) (s : string) (x : Re.hit) (lo hi : nat) :
  In x (Re.run true r s) -> Shape.min_len r = lo -> Shape.max_len r = Some hi ->
  (lo <= String.length (Re.matched x) <= hi)%nat.
Proof.
  intros H Hlo Hhi. destruct (run_shape true r s x H) as (_ & L & U).
  rewrite Hlo in L. split; [exact L | exact (U hi Hhi)].
Qed.

Lemma shape_year_first (s : string) (d : datetime) :
  Strptime.strptime s "%Y-%m-%d" = Ok d -> Shape.format_of s = "%Y-%m-%d".
Proof.
  intros H. destruct (strptime_hit _ _ _ H) as (R & h & HR & Hin & ->). clear H.
  vm_compute in HR. inversion HR; subst R. clear HR.
  piece_chars Hin h (fun c => PyStr.isdigit c || Ascii.eqb c " " || Ascii.eqb c "-") AH.
  unfold Shape.format_of.
  assert (E1 : Shape.has Shape.is_alpha (Re.matched h) = false).
  { apply (has_none _ _ _ hyphen_char_not_alpha AH). }
  assert (E2 : Shape.has (Ascii.eqb "/") (Re.matched h) = false).
  { apply (has_none _ _ _ hyphen_char_not_slash AH). }
  rewrite (starts_alpha_has _ E1), E1, E2.
  seq_step Hin xY HY t1. seq_step Hin xc Hc t2.
  rewrite (run_chr_inv "-" _ _ eq_refl Hc).
  piece_chars HY xY PyStr.isdigit AY.
  pose proof (piece_length _ _ _ 4 4 HY eq_refl eq_refl) as LY.
  cbn [append].
  rewrite (before_app "-" PyStr.isdigit _ _ digit_not_hyphen AY).
  replace (String.length (Re.matched xY)) with 4%nat by lia. reflexivity.
Qed.

Lemma shape_day_first_hyphens (s : string) (d : datetime) :
  Strptime.strptime s "%d-%m-%Y" = Ok d -> Shape.format_of s = "%d-%m-%Y".
Proof.
  intros H. destruct (strptime_hit _ _ _ H) as (R & h & HR & Hin & ->). clear H.
  vm_compute in HR. inversion HR; subst R. clear HR.
  piece_chars Hin h (fun c => PyStr.isdigit c || Ascii.eqb c " " || Ascii.eqb c "-") AH.
  unfold Shape.format_of.
  assert (E1 : Shape.has Shape.is_alpha (Re.matched h) = false).
  { apply (has_none _ _ _ hyphen_char_not_alpha AH). }
  assert (E2 : Shape.has (Ascii.eqb "/") (Re.matched h) = false).
  { apply (has_none _ _ _ hyphen_char_not_slash AH). }
  rewrite (starts_alpha_has _ E1), E1, E2.
  seq_step Hin xd Hd t1. seq_step Hin xc Hc t2.
  rewrite (run_chr_inv "-" _ _ eq_refl Hc).
  piece_chars Hd xd (fun c => PyStr.isdigit c || Ascii.eqb c " ") AD.
  pose proof (piece_length _ _ _ 1 2 Hd eq_refl eq_refl) as LD.
  cbn [append].
  rewrite (before_app "-" _ _ _ day_char_not_hyphen AD).
  destruct (Nat.eqb_spec (String.length (Re.matched xd)) 4) as [E | _]; [lia | reflexivity].
Qed.

(** The format that parses a text is the one its shape tells. *)
Lemma format_of_parsed (s fmt : string) (d : datetime) :
  In fmt formats -> Strptime.strptime s fmt = Ok d -> Shape.format_of s = fmt.
Proof.
  unfold formats. cbn [In].
  intros [<- | [<- | [<- | [<- | [<- | [<- | [<- | []]]]]]]] H.
  - exact (shape_weekday_year s d H).
  - exact (shape_weekday s d H).
  - exact (shape_day_first s d H).
  - exact (shape_month_first s d H).
  - exact (shape_slashes s d H).
  - exact (shape_year_first s d H).
  - exact (shape_day_first_hyphens s d H).
Qed.

Lemma try_format_value_error (now : datetime) (s fmt : string) (e : exn) :
  try_format now s fmt = Raise e -> is_ValueError e = true.
Proof.
  unfold try_format. intros H.
  destruct (Strptime.strptime s fmt) as [d0 |] eqn:Es.
  - cbn [bind] in H. destruct (negb (PyStr.contains "%Y" fmt)); [| discriminate H].
    destruct (replace_year d0 (year now)) as [d1 |] eqn:E1.
    + cbn [bind] in H. destruct (date_ltb _ _); [| discriminate H].
      apply (new_raises _ _ _ _ _ _ _ _ H).
    + cbn [bind] in H. inversion H; subst. apply (new_raises _ _ _ _ _ _ _ _ E1).
  - cbn [bind] in H. inversion H; subst. apply (strptime_raises _ _ _ Es).
Qed.

Lemma try_formats_cases (now : datetime) (s : string) (l : list string) :
  (exists f d, In f l /\ try_format now s f = Ok d /\ try_formats now s l = Ok (Some d)) \/
  ((forall f, In f l -> exists e, try_format now s f = Raise e) /\
   try_formats now s l = Ok None).
Proof.
  induction l as [| f0 l IH].
  - right. split; [intros f [] | reflexivity].
  - cbn [try_formats]. destruct (try_format now s f0) as [d0 | e0] eqn:E0.
    + left. exists f0, d0. split; [left; reflexivity |]. split; [exact E0 | reflexivity].
    + pose proof (try_format_value_error _ _ _ _ E0) as Hv.
      destruct e0; try discriminate Hv.
      destruct IH as [(f & d & Hin & Hf & Ht) | (Hall & Ht)].
      * left. exists f, d. split; [right; exact Hin |]. split; [exact Hf | exact Ht].
      * right. split; [| exact Ht]. intros f [<- | Hin]; [eexists; exact E0 | apply Hall, Hin].
Qed.

Lemma try_format_unique (now : datetime) (s f1 f2 : string) (d1 d2 : datetime) :
  In f1 formats -> In f2 formats ->
  try_format now s f1 = Ok d1 -> try_format now s f2 = Ok d2 -> f1 = f2 /\ d1 = d2.
Proof.
  intros I1 I2 H1 H2.
  destruct (try_format_inv _ _ _ _ H1) as (a & Ha & _).
  destruct (try_format_inv _ _ _ _ H2) as (b & Hb & _).
  assert (f1 = f2).
  { rewrite <- (format_of_parsed s f1 a I1 Ha). apply (format_of_parsed s f2 b I2 Hb). }
  subst f2. split; [reflexivity | congruence].
Qed.

(** X20. No text is parsed by two of the seven date formats: which format
    parses a text is told by its shape alone. So the order of the format
    list never decides a result: the date parser returns the same for every
    list that holds these seven formats, in any order. *)
Theorem date_formats_exclusive (now : datetime) (s : string) :
  (forall fmt d, In fmt formats -> Strptime.strptime s fmt = Ok d ->
     Shape.format_of s = fmt) /\
  (forall f1 f2 d1 d2, In f1 formats -> In f2 formats ->
     Strptime.strptime s f1 = Ok d1 -> Strptime.strptime s f2 = Ok d2 -> f1 = f2) /\
  (forall l, (forall f, In f l <-> In f formats) ->
     try_formats now s l = parse_flexible_date now (Some s)).
Proof.
  split; [| split].
  - intros fmt d. apply format_of_parsed.
  - intros f1 f2 d1 d2 I1 I2 H1 H2.
    rewrite <- (format_of_parsed s f1 d1 I1 H1). apply (format_of_parsed s f2 d2 I2 H2).
  - intros l Hl. cbn [parse_flexible_date].
    destruct (try_formats_cases now s l) as [(f & d & Hin & Hf & ->) | (Hall & ->)];
      destruct (try_formats_cases now s formats)
        as [(f' & d' & Hin' & Hf' & ->) | (Hall' & ->)].
    + apply Hl in Hin.
      destruct (try_format_unique now s f f' d d' Hin Hin' Hf Hf') as (_ & ->). reflexivity.
    + apply Hl in Hin. destruct (Hall' f Hin) as (e & He). congruence.
    + apply Hl in Hin'. destruct (Hall f' Hin') as (e & He). congruence.
    + reflexivity.
Qed.

(** ** Today's date, without a year *)

(** X21. A date given without a year that is today's date (same month and
    day) is kept in the current year by the workflow's date parser, but is
    moved to the next year by the single-pass script, unless the clock
    reads exactly midnight: the script compares the midnight of that day
    with the current instant, the workflow compares the two dates. *)
Theorem single_pass_postpones_today (now : datetime) (s : string) (d0 : datetime) :
  wf now -> year now < MAXYEAR ->
  Strptime.strptime s "%A, %d %B" = Ok d0 ->
  month d0 = month now -> day d0 = day now ->
  0 < time_us now ->
  parse_flexible_date now (Some s) = Ok (Some (with_year d0 (year now))) /\
  LangChain.parse_date now s = Ok (with_year d0 (year now + 1)).
Proof.
  intros Hw Hy Hs Hm Hd Ht.
  assert (Hyr : MINYEAR <= year now < MAXYEAR).
  { apply wf_iff in Hw. lia. }
  assert (H1 : exists e, Strptime.strptime s "%A, %d %B %Y" = Raise e).
  { destruct (Strptime.strptime s "%A, %d %B %Y") as [d1 | e] eqn:E1; [| eauto].
    exfalso.
    pose proof (format_of_parsed s "%A, %d %B %Y" d1 ltac:(cbn; tauto) E1) as F1.
    pose proof (format_of_parsed s "%A, %d %B" d0 ltac:(cbn; tauto) Hs) as F2.
    rewrite F1 in F2. discriminate F2. }
  destruct H1 as (e1 & H1).
  destruct (formats_midnight "%A, %d %B" s d0 ltac:(cbn; tauto) Hs) as (Hh & Hmi & Hse & Hus).
  pose proof (yearless_format_1900 s d0 Hs) as H19.
  split.
  - cbn [parse_flexible_date].
    change formats with (["%A, %d %B %Y"] ++ "%A, %d %B" :: ["%d %B %Y"; "%B %d, %Y";
                           "%m/%d/%Y"; "%Y-%m-%d"; "%d-%m-%Y"])%list.
    apply try_formats_first.
    + intros f [<- | []]. exists e1. exact H1.
    + rewrite (try_format_without_year now s "%A, %d %B" d0 eq_refl H19 Hyr Hs).
      unfold inferred_year, date_of, date_ltb. rewrite Hm, Hd.
      replace ((year now <? year now) ||
               (year now =? year now) &&
               ((month now <? month now) || (month now =? month now) && (day now <? day now)))
        with false by lia.
      reflexivity.
  - rewrite (single_pass_second_format now s e1 d0 Hyr H1 Hs).
    unfold inferred_year_by_instant, ltb, date_of, with_year, time_us.
    cbn [year month day hour minute second microsecond].
    rewrite Hm, Hd, Hh, Hmi, Hse, Hus. unfold date_ltb, date_eqb.
    unfold time_us in Ht.
    replace ((year now <? year now) ||
             (year now =? year now) &&
             ((month now <? month now) || (month now =? month now) && (day now <? day now)))
      with false by lia.
    replace ((year now =? year now) && (month now =? month now) && (day now =? day now))
      with true by lia.
    cbn [orb andb].
    replace (((0 * 60 + 0) * 60 + 0) * 1000000 + 0 <?
             ((hour now * 60 + minute now) * 60 + second now) * 1000000 + microsecond now)
      with true by lia.
    reflexivity.
Qed.

Lemma single_pass_postpones_today_witness :
  parse_flexible_date (mkdt 2026 11 3 10 0 0 500) (Some "Tuesday, 03 November")
  = Ok (Some (with_year (mkdt 1900 11 3 0 0 0 0) 2026)) /\
  LangChain.parse_date (mkdt 2026 11 3 10 0 0 500) "Tuesday, 03 November"
  = Ok (with_year (mkdt 1900 11 3 0 0 0 0) (2026 + 1)).
Proof.
  apply (single_pass_postpones_today (mkdt 2026 11 3 10 0 0 500) "Tuesday, 03 November"
           (mkdt 1900 11 3 0 0 0 0)).
  - vm_compute. reflexivity.
  - vm_compute. reflexivity.
  - vm_compute. reflexivity.
  - reflexivity.
  - reflexivity.
  - vm_compute. reflexivity.
Defined.
